(* ===== verification/_CoqProject ===== *)
-Q . S2P
Prelude.v
JsNumber.v
SafeInteger.v
Shortest.v
Decimal.v
Intervals.v
Minimal.v
JsValue.v
Validators.v
Builders.v
Numerals.v
Shell.v
Escapes.v
Executor.v
Dispatcher.v
Catalogue.v
Server.v
EndToEnd.v
ShellCli.v
Readme.v
