(* ===== verification/Prelude.v ===== *)
(** * limited-github-cli-mcp: a verification development

    The program ([src/src/index.ts]) is a Model Context Protocol server that
    exposes four GitHub pull-request operations ([create_pr], [list_prs],
    [view_pr], [comment_pr]) as tools.  A tool call is handled in four steps:
    the untyped [arguments] value is checked by a type guard
    ([isValidCreatePrArgs] and its three siblings), a command line is
    assembled from the fields by template literals and [+=], the command is
    run by [executeGhCommand] (a [try]/[catch] around [execSync], which
    hands the line to a shell), and the captured output or the error
    message is wrapped in a reply.  A second handler lists the four tools
    with their input schemas.  The class [GithubCliServer] creates the SDK's
    server, registers the two handlers, installs an error callback and a
    listener of [SIGINT], and connects the server to the standard streams.

    ** Files, in dependency order

    - [Prelude] (this file): strings as lists of characters, the substring
      relation, the double-quote character and the fragment ["${s}"]
      ([quoted]), the hint databases [str] and [str_simp], and the tactics
      shared by every file.
    - [JsNumber]: the JavaScript [number] type as an IEEE-754 binary64 value
      ([SpecFloat.spec_float], precision 53, [emax] 1024) with
      [Number.isInteger], the comparison [> 0], ToBoolean on numbers and
      [Number::toString] (the shortest digit string that rounds back to the
      number, then the ECMAScript layout rules).  These are the primitives
      behind [Number.isInteger(args.number)], [args.number > 0],
      [if (limit)] and the interpolations [${number}], [${limit}].
    - [SafeInteger]: [Number_toString] on the integers below [2^53], and
      the number of an integer literal ([number_of_Z]).
    - [Shortest]: the digit search of [Number_toString] on every valid
      number: the rounding interval, the decimal exponent, and the search
      itself.
    - [Decimal]: the reading of a numeral ([read_number]: sign, digits,
      fraction, exponent) as a pair [(d, x)] that stands for [d * 10^x], and
      the layouts of [format_digits] read back.
    - [Intervals]: the order of the valid numbers ([before]) and their
      rounding intervals, which do not meet.
    - [Minimal]: the definition of the digits in ECMAScript ([es_digits]:
      a decimal of the fewest digits that rounds to the number), which the
      search of [shortest] implements.
    - [JsValue]: the values an [any]-typed [arguments] can hold (what
      [JSON.parse] produces, plus [undefined]); [typeof], property read,
      [=== undefined], [!== null], ToBoolean, ToString and
      [Array.prototype.includes].  Objects are [gmap string value].
    - [Validators]: the four type guards of lines 36-96, as boolean functions
      on [value], conjunct by conjunct, and the interfaces of lines 28-85 as
      records ([CreatePrArgs.t], ...) with the functions [narrow_create],
      ... that read an untyped value at an interface.
    - [Builders]: the command strings of lines 225-231, 267-272, 308-309 and
      345-346 ([create_pr_command], ...), written with the same truthiness
      tests and interpolations, and the templates of the specification
      ([spec_create], ...) over the records.
    - [Numerals]: the numbers in the commands of [view_pr], [comment_pr]
      and [list_prs], with the results of [Shortest], [Decimal] and
      [Intervals] stated for the commands.
    - [Shell]: the shell's reading of a command line ([sh_parse]) on the
      fragment of the grammar that the handler's lines use (words, spaces,
      double quotes, backslashes, [;] between simple commands whose first
      word names a command, [command_name]), the text that a double-quoted
      string stands for ([dq_value]), and the argument vectors of the
      specification ([argv_create], ...).
    - [Escapes]: texts with backslashes in the line of [create_pr]:
      escaping ([sh_escape]) and lines that end inside a quotation
      ([unterminated]).
    - [Executor]: thrown values ([Error], [McpError], anything else), the
      computations [M] with [throw] and [try_catch] over an abstract world,
      the interface [Cli] of the external process ([execSync]), the
      interface [McpSdk] of the SDK's [McpError] constructor, and
      [executeGhCommand] (lines 13-25).
    - [Dispatcher]: the [CallToolRequestSchema] handler (lines 215-380):
      [call_tool] is the [switch] on the tool name, [handle_create_pr],
      ... are its cases, each with the guard, the builder, the executor
      call inside [try]/[catch], and the reply envelope, and
      [handle_default] is its [default] case.  [dispatch] is the
      specification of the handler as a table.
    - [Catalogue]: the constant that the [ListToolsRequestSchema] handler
      returns (lines 125-213, [list_tools]) and the meaning of its schemas
      on a value ([conforms]).
    - [Server]: the class [GithubCliServer] (lines 98-122 and 383-388) and
      the top level (lines 390-391).  [Process] is the state of the program:
      the [server] field, the listener of [SIGINT], the two output streams,
      the exit code and the world.  [constructor], [setupToolHandlers],
      [run], [main], [sigint_listener] (with its two statements
      [sigint_close] and [sigint_resume]) and [onerror_callback] are the
      program's code; the SDK's server ([new_Server] with the handlers of
      [ping] and [initialize], [setRequestHandler], [on_request]) and
      Node's handling of events ([react], [serve]) are modelled from their
      documented behaviour.  [transition] is the specification of the
      process as a transition system on abstract states, [answer] and
      [answers] the specification of what the server writes.
    - [EndToEnd]: the composition of the stages, from a request to the
      argument vector that [gh] receives.
    - [ShellCli]: an instance of [Cli] built from the reader of [Shell] and
      the programs of the machine ([Os]): [sh_c] runs the commands of a line
      in order ([run_commands]), and [exec_sync] returns the captured
      output or throws [Command failed: ...] by the last exit status.
    - [Readme]: the feature list and the four usage examples of the
      documentation that follows the code in the source file (lines
      396-472), as data ([features], [usages]).

    ** What the theorems show

    - [JsNumber], [SafeInteger]: [Number_isInteger] holds exactly of the
      finite numbers whose value is an integer; every character
      [Number_toString] produces for a finite number is a digit or one of
      [. e + -]; a valid number with an integer value [z], [0 < z < 2^53],
      is printed as the decimal numeral of [z]; the number of an integer
      literal in that range is valid and has the value of the literal.
    - [Shortest]: for every valid finite number the search stops at a digit
      count of at most 17, at the first count for which a decimal with that
      many digits rounds to the number; more fuel gives the same digits; the
      digits are positive and denote a decimal inside the rounding interval.
    - [Decimal]: each of the four layouts of [format_digits] reads back as
      the digits laid out, scaled by the decimal exponent; trailing zeros
      removed by [strip_zeros] do not change the decimal; hence the numeral
      of a valid finite number reads as a decimal that rounds to it.
    - [Intervals]: the upper midpoint of a valid number is at or below the
      lower midpoint of every later one, and where the two coincide one of
      the mantissas is odd; hence a real rounds to at most one valid number
      ([rounds_to_unique]).
    - [Minimal]: the rounding interval is convex and holds the number, so a
      digit count has a candidate whenever any decimal of that many digits
      rounds to the number; the decimal exponent [n] satisfies
      [10^(n-1) <= x < 10^n]; hence [shortest] has the fewest digits of all
      decimals that round to the number, its last digit is not zero, no
      decimal with as many digits is nearer, and [Number_toString] is the
      layout of digits of ECMAScript's definition
      ([Number_toString_es_digits]).
    - [Numerals]: the command of [list_prs] ends with a numeral that reads
      back as a decimal which rounds to the limit, for every finite nonzero
      limit, with the digits that ECMAScript defines; the command of
      [view_pr] carries such a numeral for every
      number the guard accepts; the numeral denotes no other valid number,
      so [Number_toString] is one-to-one on the numbers that are printed and
      the commands of [view_pr] and [comment_pr] determine the record they
      were built from; above [2^53] the digits can still be those of
      another integer than the one validated.
    - [Validators]: each guard accepts exactly the values that read as a
      record of its interface, stated field by field for [view_pr] and
      [comment_pr]; properties outside a tool's field list never change the
      verdict; arrays pass the guard of [list_prs] and a missing argument
      object fails it.
    - [Builders]: on validated arguments the command of each tool is the
      template of the specification, provided no optional text is empty and
      [limit] is neither zero nor NaN; a present but falsy field adds no
      flag; for a number below [2^53] the commands of [view_pr] and
      [comment_pr] hold its decimal numeral; two different argument objects
      can build the same command.
    - [Shell]: between double quotes the reader adds to the word the
      value of the text that stands there ([scan_dq_value]); a text with no
      double quote, dollar sign, backquote or backslash is its own value.
      Hence, when every quoted text field has a value and the unquoted
      [base] of [list_prs] is a plain word, the shell reads the line of each
      tool as one command whose argument vector holds the values, each
      field one argument; a printed number of any size is one argument; a
      title, a body, a base or a head of [create_pr] or a body of
      [comment_pr] that holds a double quote, and an unquoted base of
      [list_prs] that holds a semicolon, make the shell run a second
      command, for every plain word that names a command (a word that is
      not reserved and holds no [=]).
    - [Escapes]: the value of an escaped text is the text, so a caller who
      escapes reaches [gh] with any texts; a title of [create_pr] or a
      body of [comment_pr] that ends with a backslash leaves the quotation
      open up to the end of the line, which is then a syntax error; with a
      body of [create_pr] that ends with a backslash too the
      line is one command whose title holds both texts; and with the body
      [w; c \] the shell runs the command [c], although no text holds a
      double quote.
    - [Executor]: [executeGhCommand] returns the captured output unchanged,
      turns every thrown [Error] into an [McpError] with code
      [InternalError] and the prefix [GitHub CLI error: ], rethrows anything
      else, and passes exactly one line to the external process, [gh ]
      followed by the command.
    - [Dispatcher]: [call_tool] implements [dispatch]; an unknown tool and
      rejected arguments throw [MethodNotFound] and [InvalidParams] without
      running a command; a command that fails becomes a reply with
      [isError: true] whose text carries the error message; a command that
      succeeds becomes a reply with its output and no flag; no call runs
      more than one command, no [McpError] with code [InternalError] leaves
      the handler, and properties the tool does not read change nothing.
    - [Server]: the constructor and the top level never throw and leave
      the server the specification names, connected or, when [connect]
      throws, idle with the failure printed; every reachable state is the
      process of an abstract state (the invariant), and each step of the
      process is a transition of the specification; a session of the running
      server writes exactly the answers to the requests that precede a
      [SIGINT], one per request, in order and with the request's id; the
      outcome of [call_tool] becomes a result, a flagged result or a
      JSON-RPC error with the code of the [McpError]; [ping] and
      [initialize] are answered by the SDK, the latter with the name, the
      version and the capability that the constructor gave; a request that
      the schema of its method rejects is answered with an error and runs
      no command; the command lines of a
      session are one [gh] line per accepted tool call; a [SIGINT] ends the
      process with status zero from every reachable state, nothing
      happens after the exit, and a listener of [SIGINT] that yields at its
      [await] lets no request through before it resumes.
    - [EndToEnd]: a call on such arguments passes exactly one line to the
      shell, and the shell reads it as the argument vector intended; the
      same holds of a request to the running server, a request whose
      title closes its quotation makes the server run a second command, and
      a request to view a pull request reaches [gh] as one numeral that
      denotes the number of the request and no other.
    - [ShellCli]: with the shell and the programs behind [execSync], a
      call on the arguments of [EndToEnd] starts one program, [gh] with the
      vector intended, and replies with its output or, on a status other
      than zero, with a flagged reply that holds the line and the standard
      error; a title that closes its quotation starts the caller's program
      after [gh], whatever [gh] answered, when the caller's command is not
      one that the shell runs itself; a title or a comment that ends
      with a backslash starts nothing and is answered with a flagged reply;
      the running server answers a call with one message and the world that
      [gh] left.
    - [Readme]: the documented features are the tools of the catalogue with
      the properties it publishes; every usage example passes its guard,
      conforms to its schema, and makes the running server pass to [gh] the
      argument vector with every field of the example as one argument.
    - [Catalogue]: on the objects of JSON the guards of [create_pr] and
      [list_prs] accept exactly the values that conform to the published
      schemas, the guards of [view_pr] and [comment_pr] are stricter than
      their schemas by the positive-integer test alone; the names listed
      are the names served.

    ** Bounds and fuel

    [shortest] searches digit counts 1 to 17 ([shortest_from] with fuel 17).
    [Shortest.shortest_search] proves that the fuel is enough for every
    valid number: neighbouring decimals with 17 digits are [10^(n-17)]
    apart, which is less than the width of the rounding interval (at least
    three quarters of [2^e], while the number is below [2^53 * 2^e] and at
    least [10^(n-1)]), so one of the two decimals that enclose the number
    rounds to it.  [Shortest.shortest_fuel] proves that any larger fuel
    gives the same digits, so the fallback of [shortest_from] at fuel zero
    is never reached.  [strip_zeros] has fuel 18; whatever the fuel, it
    keeps the decimal ([Decimal.strip_zeros_decimal]), so the round trip
    does not depend on it; on the digits of [shortest] it removes at most
    one zero ([Minimal.shortest_es_digits]).  No other definition uses
    fuel: the reader of the shell and [run_commands] recurse on the line
    and on its commands.

    ** Modelling conventions

    - A JavaScript string is a [string] of the Standard Library;
      concatenation and template literals are [String.append] ([+:+]).
    - An exception is a value of type [thrown]; a computation that may throw
      and may run the external command is a function from the world to a
      result and a world ([Executor.M]).  The handler is an [async]
      function: a value it throws is the rejection of its promise, which
      the SDK answers with a protocol error; here it is the [inr] result.
    - The external process and the SDK are interfaces (type classes
      [Cli] and [McpSdk]); the theorems about the program hold for every
      instance.  [scripted] (answers from a list) and [logged] (records the
      lines run) are instances used to state and to instantiate theorems,
      and [the_sdk] is the SDK's own message format.
    - The guards read properties with [get], which is total: on [null] and
      on primitives it answers [undefined].  In the source a read on [null]
      would throw, but every read stands behind [typeof args === 'object'
      && args !== null], and [&&] stops at the first false conjunct.
    - [sh_parse] answers [None] on every line that uses a feature of the
      shell outside the fragment, and on a line that is a syntax error; the
      theorems about argument vectors have hypotheses that keep the line
      inside the fragment.  The reader follows the shell on backslashes: it
      keeps one in mind for the next character ([escaped]); outside quotes
      that character is taken as it is, between double quotes the backslash
      stays unless the character is one of the four special ones, and a
      backslash before a newline continues the line.  The shell reads the
      whole line before it runs a command of it, so a line that ends inside
      a quotation runs nothing.
    - [ShellCli.shell_cli] leaves the lines outside the fragment, and the
      lines with a command that the shell runs itself, to a [Cli] that is
      not specified ([beyond]), and takes the programs, the names of the
      built-in utilities and the complaint of the shell about an open
      quotation as parameters ([Os]).
    - A request reaches the model as the schema of its method reads it; a
      request that the schema rejects carries what the parse throws
      ([OtherRequest]), as that differs between versions of the SDK.  The
      table of handlers is the set of the methods that have one: TypeScript
      types a handler by its schema ([Handler]), so the function stored
      under a method is the one of that method.
    - The process handles one event at a time, in the order of arrival:
      Node runs callbacks on one thread and [execSync] blocks it, so the
      handling of a request is never interleaved with another event.  The
      one [await] of the program, in the listener of [SIGINT], is modelled
      both ways: as one step ([react]) and as two steps with other events
      in between ([interleaved_sigint]).  An
      event is a request the SDK has parsed, a [SIGINT], or an error of the
      transport; [Server_connect] takes the exception that starting the
      transport throws, if any, as a parameter.

    ** Not modelled

    [gh] itself is an arbitrary instance of [Cli], or an arbitrary program
    of [Os]: its network traffic and authentication are outside the program.
    Of the shell, expansions (the dollar sign and the backquote), single
    quotes, comments, redirections, the operators other than [;], compound
    commands (a reserved word where a command begins), assignments, the
    built-in utilities and a backslash at the very end of a line outside
    quotes are not modelled: such lines are outside the fragment.  Of
    [execSync], the limit on the captured output ([maxBuffer]), timeouts, a
    child ended by a signal, and the lines that the operating system does
    not pass to a shell (a line with a null character, or one longer than
    an argument of a process may be) are not modelled.  Of the SDK, the wire
    encoding of JSON-RPC messages, the parsing of incoming messages against
    the request schemas, the protocol version in the result of [initialize],
    notifications and cancellation are not modelled: a request enters the
    model parsed, and an answer leaves it as a value of [JsonRpcMessage].
    Of the runtime, signals other than [SIGINT], unhandled rejections and
    the buffering of the streams are not modelled.  Of the documentation,
    the prose on prerequisites and on security is not modelled. *)

From Stdlib Require Import Ascii String ZArith Lia.
From stdpp Require Import base tactics strings list option.

(** * Characters of a string *)

(** A string as the list of its characters, so that stdpp's list lemmas
    apply to strings. *)
Definition chars (s : string) : list ascii := list_ascii_of_string s.

Definition of_chars (l : list ascii) : string := string_of_list_ascii l.

(** The one-character string that holds a double quote (code 34). *)
Definition DQ : string := String (ascii_of_nat 34) EmptyString.

(** [quoted s] is the template fragment ["${s}"]. *)
Definition quoted (s : string) : string := DQ +:+ s +:+ DQ.

(** [contains t s]: [s] occurs in [t] as a contiguous substring. *)
Definition contains (t s : string) : Prop :=
  ∃ pre post, t = pre +:+ s +:+ post.

(** [has_char c s]: the character [c] occurs in [s]. *)
Definition has_char (c : ascii) (s : string) : Prop := c ∈ chars s.

(** [all_chars P s]: every character of [s] satisfies the boolean test [P]. *)
Definition all_chars (P : ascii → bool) (s : string) : bool :=
  forallb P (chars s).

(** A string of [n] copies of the digit zero. *)
Fixpoint zeros (n : nat) : string :=
  match n with
  | O => EmptyString
  | S n' => String "0"%char (zeros n')
  end.

(** The first [n] characters of a string (all of it when it is shorter). *)
Fixpoint str_take (n : nat) (s : string) : string :=
  match n, s with
  | S n', String c s' => String c (str_take n' s')
  | _, _ => EmptyString
  end.

(** A string without its first [n] characters. *)
Fixpoint str_drop (n : nat) (s : string) : string :=
  match n, s with
  | S n', String _ s' => str_drop n' s'
  | _, _ => s
  end.

(** [flag_if c s] is what [if (c) command += s] appends. *)
Definition flag_if (c : bool) (s : string) : string :=
  if c then s else EmptyString.

(** * Tactics *)

(** Case analysis on every boolean test the goal still branches on. *)
Ltac case_bools :=
  repeat match goal with
    | |- context [if ?b then _ else _] => destruct b eqn:?
    end.

(** Turn boolean conjunctions and string equality tests in hypotheses and
    in the goal into propositions. *)
Ltac bool_to_prop :=
  repeat match goal with
    | H : _ && _ = true |- _ => apply andb_prop in H; destruct H
    | H : (_ =? _)%string = true |- _ => apply String.eqb_eq in H
    | H : (_ =? _)%string = false |- _ => apply String.eqb_neq in H
    | H : negb _ = true |- _ => apply negb_true_iff in H
    | H : negb _ = false |- _ => apply negb_false_iff in H
    | |- _ && _ = true => apply andb_true_intro; split
    end.

Create HintDb str discriminated.
Create Rewrite HintDb str_simp.

(** * Lemmas on strings *)

Lemma str_app_nil_l (s : string) : "" +:+ s = s.
Proof. reflexivity. Qed.

Lemma str_app_cons (c : ascii) (a b : string) :
  String c a +:+ b = String c (a +:+ b).
Proof. reflexivity. Qed.

Lemma chars_app (a b : string) : chars (a +:+ b) = chars a ++ chars b.
Proof.
  induction a as [|c a IH]; [done|]. rewrite str_app_cons. simpl. by rewrite IH.
Qed.

Lemma chars_of_chars (l : list ascii) : chars (of_chars l) = l.
Proof. apply list_ascii_of_string_of_list_ascii. Qed.

Lemma of_chars_chars (s : string) : of_chars (chars s) = s.
Proof. apply string_of_list_ascii_of_string. Qed.

Lemma chars_inj (a b : string) : chars a = chars b → a = b.
Proof. intros H. by rewrite <-(of_chars_chars a), <-(of_chars_chars b), H. Qed.

Lemma chars_length (s : string) : length (chars s) = String.length s.
Proof. induction s; simpl; [done | by f_equal]. Qed.

Lemma str_app_nil_r (s : string) : s +:+ "" = s.
Proof. induction s as [|c s IH]; [done|]. by rewrite str_app_cons, IH. Qed.

Lemma str_app_assoc (a b c : string) : a +:+ b +:+ c = (a +:+ b) +:+ c.
Proof. induction a as [|x a IH]; [done|]. by rewrite !str_app_cons, IH. Qed.

Lemma str_app_length (a b : string) :
  String.length (a +:+ b) = String.length a + String.length b.
Proof. by rewrite <-!chars_length, chars_app, length_app. Qed.

Lemma str_app_inv_head (a b c : string) : a +:+ b = a +:+ c → b = c.
Proof. intros H. exact (String.app_inj a _ _ H). Qed.

Lemma str_app_inv_tail (a b c : string) : a +:+ c = b +:+ c → a = b.
Proof.
  intros H. apply chars_inj. apply (f_equal chars) in H.
  rewrite !chars_app in H. by simplify_list_eq.
Qed.

#[export] Hint Rewrite str_app_nil_l str_app_cons str_app_nil_r chars_app str_app_length : str_simp.
#[export] Hint Rewrite <- str_app_assoc : str_simp.

Lemma flag_if_true (s : string) : flag_if true s = s.
Proof. done. Qed.

Lemma flag_if_false (s : string) : flag_if false s = "".
Proof. done. Qed.

#[export] Hint Rewrite flag_if_true flag_if_false : str_simp.

(** ** Substrings *)

Lemma contains_refl (s : string) : contains s s.
Proof. exists "", "". by rewrite str_app_nil_r. Qed.

Lemma contains_app_l (a b s : string) : contains a s → contains (a +:+ b) s.
Proof.
  intros (pre & post & ->). exists pre, (post +:+ b).
  by rewrite <-!str_app_assoc.
Qed.

Lemma contains_app_r (a b s : string) : contains b s → contains (a +:+ b) s.
Proof.
  intros (pre & post & ->). exists (a +:+ pre), post.
  by rewrite <-!str_app_assoc.
Qed.

Lemma contains_trans (a b c : string) :
  contains a b → contains b c → contains a c.
Proof.
  intros (p1 & q1 & ->) (p2 & q2 & ->).
  exists (p1 +:+ p2), (q2 +:+ q1). by rewrite <-!str_app_assoc.
Qed.

#[export] Hint Resolve contains_refl contains_app_l contains_app_r : str.

(** ** Characters *)

Lemma has_char_app (c : ascii) (a b : string) :
  has_char c (a +:+ b) ↔ has_char c a ∨ has_char c b.
Proof. unfold has_char. rewrite chars_app. apply elem_of_app. Qed.

Lemma all_chars_app (P : ascii → bool) (a b : string) :
  all_chars P (a +:+ b) = all_chars P a && all_chars P b.
Proof. unfold all_chars. by rewrite chars_app, forallb_app. Qed.

Lemma all_chars_spec (P : ascii → bool) (s : string) :
  all_chars P s = true ↔ ∀ c, has_char c s → P c = true.
Proof.
  unfold all_chars, has_char. rewrite forallb_forall.
  by setoid_rewrite list_elem_of_In.
Qed.

Lemma all_chars_impl (P Q : ascii → bool) (s : string) :
  (∀ c, P c = true → Q c = true) →
  all_chars P s = true → all_chars Q s = true.
Proof. rewrite !all_chars_spec. naive_solver. Qed.

Lemma all_chars_zeros (P : ascii → bool) (n : nat) :
  P "0"%char = true → all_chars P (zeros n) = true.
Proof.
  intros H. induction n as [|n IH]; [done|].
  unfold all_chars in *. simpl. by rewrite H, IH.
Qed.

(** A string splits in one way at its first character outside a class. *)
Lemma str_app_split (P : ascii → bool) (c : ascii) (a b r1 r2 : string) :
  all_chars P a = true → all_chars P b = true → P c = false →
  a +:+ String c r1 = b +:+ String c r2 → a = b ∧ r1 = r2.
Proof.
  unfold all_chars. intros Ha Hb Hc. revert b Hb.
  induction a as [|x a IH]; intros [|y b] Hb; rewrite ?str_app_nil_l,
    ?str_app_cons; simpl in *; intros [= ]; subst;
    try (rewrite Hc in *; done); [done|].
  apply andb_prop in Ha as [_ Ha]. apply andb_prop in Hb as [_ Hb].
  by destruct (IH Ha b Hb) as [-> ->].
Qed.

Lemma str_take_drop (n : nat) (s : string) : str_take n s +:+ str_drop n s = s.
Proof.
  revert s. induction n as [|n IH]; intros [|c s]; simpl; [done..|].
  by rewrite str_app_cons, IH.
Qed.

Lemma all_chars_take_drop (P : ascii → bool) (n : nat) (s : string) :
  all_chars P s = all_chars P (str_take n s) && all_chars P (str_drop n s).
Proof. by rewrite <-all_chars_app, str_take_drop. Qed.

Lemma all_chars_take_drop_true (P : ascii → bool) (n : nat) (s : string) :
  all_chars P s = true →
  all_chars P (str_take n s) = true ∧ all_chars P (str_drop n s) = true.
Proof. rewrite (all_chars_take_drop P n s). apply andb_prop. Qed.

Lemma zeros_length (n : nat) : String.length (zeros n) = n.
Proof. induction n; simpl; [done | by f_equal]. Qed.

#[export] Hint Rewrite all_chars_app zeros_length : str_simp.

Lemma DQ_chars : chars DQ = [ascii_of_nat 34].
Proof. done. Qed.

Lemma quoted_length (s : string) : String.length (quoted s) = S (S (String.length s)).
Proof. unfold quoted. rewrite !str_app_length. simpl. lia. Qed.

Lemma quoted_inj (a b : string) : quoted a = quoted b → a = b.
Proof.
  unfold quoted. intros H. apply str_app_inv_head in H. by apply str_app_inv_tail in H.
Qed.
