(* ===== verification/JsNumber.v ===== *)
(** * JsNumber: the JavaScript number type

    A [number] is an IEEE-754 binary64 value, in the representation of the
    Standard Library's [SpecFloat]: a signed zero, a signed infinity, NaN,
    or a finite [(-1)^s * m * 2^e] with a 53-bit mantissa.  The file
    defines the operations the program applies to numbers:

    - [Number_isInteger] for [Number.isInteger(args.number)],
    - [Number_gt0] for [args.number > 0],
    - [Number_truthy] for [if (limit)],
    - [Number_toString] for the interpolations [${number}] and [${limit}]:
      the shortest decimal digit string that rounds back to the number,
      laid out by the rules of ECMAScript's Number::toString.

    Exact arithmetic is done in [Q]. *)

From Stdlib Require Import Ascii String ZArith QArith Qround Qpower Lia Lqa.
From Stdlib Require Import Floats.SpecFloat.
From stdpp Require Import base tactics strings list option pretty numbers.
From S2P Require Import Prelude.

Local Open Scope Z_scope.

(** ** The binary64 format *)

Definition prec : Z := 53.
Definition emax : Z := 1024.

Abbreviation number := spec_float.

(** Well-formed binary64 values: the mantissa of a finite number has
    exactly 53 bits, or fewer at the smallest exponent -1074. *)
Definition valid (x : number) : bool := valid_binary prec emax x.

(** The number nearest to an integer, and the correctly rounded quotient of
    two numbers: how the examples name a number by its decimal literal. *)
Definition number_of_Z (z : Z) : number := binary_normalize prec emax z 0 false.

Definition number_div (x y : number) : number := SFdiv prec emax x y.

(** [dec a b] is the number a decimal literal with value [a / b] denotes. *)
Definition dec (a b : Z) : number := number_div (number_of_Z a) (number_of_Z b).

(** ** Exact values *)

Definition Qpow (b : Z) (k : Z) : Q := Qpower (inject_Z b) k.

Definition Qltb (a b : Q) : bool := negb (Qle_bool b a).

(** The value of a positive finite number. *)
Definition fvalue (m : positive) (e : Z) : Q :=
  (inject_Z (Z.pos m) * Qpow 2 e)%Q.

(** [represents x v]: the finite number [x] has the rational value [v]. *)
Definition represents (x : number) (v : Q) : Prop :=
  match x with
  | S754_zero _ => (v == 0)%Q
  | S754_finite s m e => (v == if s then - fvalue m e else fvalue m e)%Q
  | _ => False
  end.

(** ** Tests on numbers *)

(** [Number.isInteger(x)]: finite, and no fractional bits. *)
Definition Number_isInteger (x : number) : bool :=
  match x with
  | S754_zero _ => true
  | S754_finite _ m e => if 0 <=? e then true else Z.pos m mod 2 ^ (- e) =? 0
  | _ => false
  end.

(** The integer a number is, when it is one. *)
Definition Number_toZ (x : number) : option Z :=
  match x with
  | S754_zero _ => Some 0
  | S754_finite s m e =>
      let sign := if s then -1 else 1 in
      if 0 <=? e then Some (sign * (Z.pos m * 2 ^ e))
      else if Z.pos m mod 2 ^ (- e) =? 0 then Some (sign * (Z.pos m / 2 ^ (- e)))
      else None
  | _ => None
  end.

(** [x > 0]: false for NaN, for both zeros and for negative numbers. *)
Definition Number_gt0 (x : number) : bool := SFltb (S754_zero false) x.

(** ToBoolean on a number: false for [+0], [-0] and NaN. *)
Definition Number_truthy (x : number) : bool :=
  match x with
  | S754_zero _ | S754_nan => false
  | _ => true
  end.

(** SameValueZero on numbers: NaN equals NaN, and the two zeros are equal. *)
Definition Number_sameValueZero (x y : number) : bool :=
  match x, y with
  | S754_nan, S754_nan => true
  | S754_zero _, S754_zero _ => true
  | S754_infinity s1, S754_infinity s2 => bool_decide (s1 = s2)
  | S754_finite s1 m1 e1, S754_finite s2 m2 e2 =>
      bool_decide (s1 = s2) && bool_decide (m1 = m2) && bool_decide (e1 = e2)
  | _, _ => false
  end.

(** ** Number::toString *)

Section Shortest.
Variables (m : positive) (e : Z).

(** The reals that round to [m * 2^e] lie between [lower] and [upper], the
    midpoints to the neighbouring numbers.  Below a power of two the
    neighbour is half as far. *)
Definition is_boundary : bool :=
  (Z.pos m =? 2 ^ (prec - 1)) && (emin prec emax <? e).

Definition upper : Q := (inject_Z (2 * Z.pos m + 1) * Qpow 2 (e - 1))%Q.

Definition lower : Q :=
  if is_boundary then (inject_Z (4 * Z.pos m - 1) * Qpow 2 (e - 2))%Q
  else (inject_Z (2 * Z.pos m - 1) * Qpow 2 (e - 1))%Q.

(** Round to nearest, ties to even: the midpoints round here exactly when
    the mantissa is even. *)
Definition rounds_here (v : Q) : bool :=
  if Z.even (Z.pos m) then Qle_bool lower v && Qle_bool v upper
  else Qltb lower v && Qltb v upper.

(** The number of decimal digits of a positive integer. *)
Definition int_digits (z : Z) : Z := Z.of_nat (String.length (pretty z)).

(** The decimal exponent [n] with [10^(n-1) <= m * 2^e < 10^n]. *)
Definition dec_exponent : Z :=
  if Qle_bool 1 (fvalue m e) then int_digits (Qfloor (fvalue m e))
  else 1 - int_digits (Qfloor (/ fvalue m e)%Q).

(** The [k]-digit decimal [s * 10^(n-k)] that rounds to the number, if there
    is one: the nearest of the two that enclose it, the even one on a tie. *)
Definition candidate (n k : Z) : option (Z * Z) :=
  let q := n - k in
  let a := Qfloor (fvalue m e / Qpow 10 q)%Q in
  let vlo := (inject_Z a * Qpow 10 q)%Q in
  let vhi := (inject_Z (a + 1) * Qpow 10 q)%Q in
  match rounds_here vlo, rounds_here vhi with
  | true, false => Some (a, q)
  | false, true => Some (a + 1, q)
  | true, true =>
      match Qcompare (fvalue m e - vlo)%Q (vhi - fvalue m e)%Q with
      | Lt => Some (a, q)
      | Gt => Some (a + 1, q)
      | Eq => Some (if Z.even a then a else a + 1, q)
      end
  | false, false => None
  end.

(** The search for the least digit count, from [k] upwards. *)
Fixpoint shortest_from (fuel : nat) (n k : Z) : Z * Z :=
  match fuel with
  | O => (Qfloor (fvalue m e / Qpow 10 (n - k))%Q, n - k)
  | S f =>
      match candidate n k with
      | Some r => r
      | None => shortest_from f n (k + 1)
      end
  end.

Definition shortest : Z * Z := shortest_from 17 dec_exponent 1.

End Shortest.

(** Remove the trailing zeros of [s], keeping [s * 10^q]. *)
Fixpoint strip_zeros (fuel : nat) (s q : Z) : Z * Z :=
  match fuel with
  | O => (s, q)
  | S f =>
      if (0 <? s) && (s mod 10 =? 0) then strip_zeros f (s / 10) (q + 1)
      else (s, q)
  end.

(** The layout of the digits [D] (of length [k]) with decimal exponent [n]:
    plain digits, a decimal point, leading zeros, or exponent notation. *)
Definition format_digits (D : string) (n : Z) : string :=
  let k := Z.of_nat (String.length D) in
  if (k <=? n) && (n <=? 21) then D +:+ zeros (Z.to_nat (n - k))
  else if (0 <? n) && (n <=? 21) then
    str_take (Z.to_nat n) D +:+ "." +:+ str_drop (Z.to_nat n) D
  else if (-6 <? n) && (n <=? 0) then "0." +:+ zeros (Z.to_nat (- n)) +:+ D
  else
    let ex := n - 1 in
    let sign := if 0 <=? ex then "+" else "-" in
    if k =? 1 then D +:+ "e" +:+ sign +:+ pretty (Z.abs ex)
    else
      str_take 1 D +:+ "." +:+ str_drop 1 D +:+ "e" +:+ sign
      +:+ pretty (Z.abs ex).

Definition format_shortest (sq : Z * Z) : string :=
  let '(s, q) := strip_zeros 18 sq.1 sq.2 in
  let D := pretty s in
  format_digits D (Z.of_nat (String.length D) + q).

Definition Number_toString (x : number) : string :=
  match x with
  | S754_nan => "NaN"
  | S754_zero _ => "0"
  | S754_infinity s => if s then "-Infinity" else "Infinity"
  | S754_finite s m e =>
      (if s then "-" else "") +:+ format_shortest (shortest m e)
  end.

(** The characters of a printed finite number. *)
Definition number_char (c : ascii) : bool :=
  bool_decide (c ∈ chars "0123456789.e+-").

Definition digit_char (c : ascii) : bool :=
  bool_decide (c ∈ chars "0123456789").

(** * Exact values: lemmas *)

Lemma Qpow_pos (b k : Z) : 0 < b → (0 < Qpow b k)%Q.
Proof.
  intros Hb. apply Qpower_0_lt. unfold Qlt. simpl. lia.
Qed.

Lemma Qpow_nonneg (b k : Z) : 0 <= k → (Qpow b k == inject_Z (b ^ k))%Q.
Proof. intros. unfold Qpow. by rewrite Zpower_Qpower. Qed.

Lemma Qpow_neg (b k : Z) : k <= 0 → (Qpow b k == / inject_Z (b ^ (- k)))%Q.
Proof.
  intros. unfold Qpow. rewrite Zpower_Qpower by lia.
  rewrite <-Qpower_opp. by rewrite Z.opp_involutive.
Qed.

Lemma Qpow_add (b j k : Z) : b ≠ 0 → (Qpow b (j + k) == Qpow b j * Qpow b k)%Q.
Proof.
  intros Hb. apply Qpower_plus. intros H. apply Hb.
  unfold Qeq in H. simpl in H. lia.
Qed.

(** Order and equality of rationals with literal denominators, by [lia]. *)
Ltac Qz := unfold Qlt, Qle, Qeq in *; simpl in *; lia.

Lemma inject_Z_eq (a b : Z) : (inject_Z a == inject_Z b)%Q ↔ a = b.
Proof. split; [intros; Qz | by intros ->]. Qed.

Lemma fvalue_pos m e : (0 < fvalue m e)%Q.
Proof.
  unfold fvalue. apply Qmult_lt_0_compat; [Qz | by apply Qpow_pos].
Qed.

Lemma fvalue_nonneg_exp m e :
  0 <= e → (fvalue m e == inject_Z (Z.pos m * 2 ^ e))%Q.
Proof. intros. unfold fvalue. by rewrite Qpow_nonneg, inject_Z_mult. Qed.

Lemma fvalue_neg_exp m e :
  e <= 0 → (fvalue m e == inject_Z (Z.pos m) / inject_Z (2 ^ (- e)))%Q.
Proof. intros. unfold fvalue. by rewrite Qpow_neg. Qed.

Lemma Qdiv_eq_Z (a d z : Z) :
  0 < d → (inject_Z a / inject_Z d == inject_Z z)%Q ↔ a = z * d.
Proof.
  intros Hd. assert (~ inject_Z d == 0)%Q by Qz. split.
  - intros Heq. apply inject_Z_eq. rewrite inject_Z_mult, <-Heq. field. done.
  - intros ->. rewrite inject_Z_mult. field. done.
Qed.

Lemma fvalue_eq_Z m e z :
  e <= 0 → (fvalue m e == inject_Z z)%Q ↔ Z.pos m = z * 2 ^ (- e).
Proof.
  intros. rewrite fvalue_neg_exp by done. apply Qdiv_eq_Z. lia.
Qed.

Lemma Qopp_eq_Z (v : Q) (z : Z) : (inject_Z z == - v)%Q ↔ (v == inject_Z (- z))%Q.
Proof. rewrite inject_Z_opp. split; intros H; lra. Qed.

Lemma fvalue_toZ (m : positive) (e z : Z) :
  (if 0 <=? e then Some (Z.pos m * 2 ^ e)
   else if Z.pos m mod 2 ^ (- e) =? 0 then Some (Z.pos m / 2 ^ (- e))
   else None) = Some z ↔ (fvalue m e == inject_Z z)%Q.
Proof.
  destruct (Z.leb_spec 0 e) as [He|He].
  - rewrite fvalue_nonneg_exp, inject_Z_eq by done. naive_solver.
  - rewrite fvalue_eq_Z by lia. assert (0 < 2 ^ (- e)) by lia.
    destruct (Z.eqb_spec (Z.pos m mod 2 ^ (- e)) 0) as [Hm|Hm].
    + apply Z.div_exact in Hm; [|lia]. split; [intros [= <-]|intros Hz; f_equal]; nia.
    + split; [done|]. intros Hz. destruct Hm. rewrite Hz. by apply Z.mod_mul; lia.
Qed.

Lemma Number_toZ_represents (x : number) (z : Z) :
  Number_toZ x = Some z ↔ represents x (inject_Z z).
Proof.
  destruct x as [s|s| |[] m e]; unfold Number_toZ, represents; [|done..| |].
  - rewrite (inject_Z_eq z 0). naive_solver.
  - rewrite Qopp_eq_Z, <-fvalue_toZ.
    repeat case_match; split; intros; simplify_eq; try done; f_equal; lia.
  - etransitivity; [|split; apply Qeq_sym]. rewrite <-fvalue_toZ.
    repeat case_match; split; intros; simplify_eq; try done; f_equal; lia.
Qed.

Lemma Number_isInteger_toZ (x : number) :
  Number_isInteger x = true ↔ is_Some (Number_toZ x).
Proof.
  destruct x as [s|s| |s m e]; simpl; repeat case_match;
    split; intros Hx; try done; try (by eexists); by destruct Hx.
Qed.

Lemma Number_isInteger_spec (x : number) :
  Number_isInteger x = true ↔ ∃ z, represents x (inject_Z z).
Proof.
  rewrite Number_isInteger_toZ. unfold is_Some.
  by setoid_rewrite Number_toZ_represents.
Qed.

Lemma Number_gt0_spec (x : number) :
  Number_gt0 x = true ↔
  x = S754_infinity false ∨ ∃ m e, x = S754_finite false m e.
Proof.
  destruct x as [s|[]| |[] m e]; unfold Number_gt0; simpl;
    split; intros Hx; try done; eauto; by destruct Hx as [|(? & ? & ?)].
Qed.

Lemma Number_positive_integer (x : number) :
  Number_isInteger x && Number_gt0 x = true
  ↔ ∃ p, Number_toZ x = Some (Z.pos p).
Proof.
  rewrite andb_true_iff, Number_isInteger_toZ, Number_gt0_spec. split.
  - intros [[z Hz] [->|(m & e & ->)]]; [done|].
    pose proof (fvalue_pos m e) as Hpos.
    apply Number_toZ_represents in Hz as Hr. simpl in Hr.
    destruct z as [|p|p]; [| by eauto |]; rewrite <-Hr in Hpos; Qz.
  - intros [p Hp]. split; [by eauto|].
    destruct x as [s|s| |[] m e]; simplify_eq/=; [|by eauto].
    repeat case_match; simplify_eq;
      pose proof (Z.div_pos (Z.pos m) (2 ^ (- e)) ltac:(lia) ltac:(lia)); lia.
Qed.

Lemma digit_char_number_char (c : ascii) :
  digit_char c = true → number_char c = true.
Proof.
  unfold digit_char, number_char. rewrite !bool_decide_eq_true. simpl.
  rewrite !elem_of_cons. tauto.
Qed.

Lemma pretty_N_char_digit (d : N) : digit_char (pretty_N_char d) = true.
Proof. unfold pretty_N_char. by repeat case_match. Qed.

Lemma pretty_N_go_digits (x : N) (s : string) :
  all_chars digit_char s = true →
  all_chars digit_char (pretty_N_go x s) = true.
Proof.
  revert s. induction (N.lt_wf_0 x) as [x _ IH]; intros s Hs.
  destruct (decide (x = 0)%N) as [->|]; [done|].
  rewrite pretty_N_go_step by lia. apply IH; [apply N.div_lt; lia|].
  unfold all_chars in *. simpl. by rewrite pretty_N_char_digit.
Qed.

Lemma pretty_N_digits (x : N) : all_chars digit_char (pretty x) = true.
Proof.
  unfold pretty, pretty_N. case_decide; [done|]. by apply pretty_N_go_digits.
Qed.

Lemma pretty_Z_digits (z : Z) :
  0 <= z → all_chars digit_char (pretty z) = true.
Proof. destruct z; [done| |lia]. intros _. apply pretty_N_digits. Qed.

Lemma pretty_Z_number_chars (z : Z) : all_chars number_char (pretty z) = true.
Proof.
  destruct z as [|p|p]; [done|..].
  - eapply all_chars_impl, pretty_N_digits. apply digit_char_number_char.
  - change (pretty (Z.neg p)) with ("-" +:+ pretty (N.pos p)).
    rewrite all_chars_app. apply andb_true_intro. split; [done|].
    eapply all_chars_impl, pretty_N_digits. apply digit_char_number_char.
Qed.

Lemma format_digits_chars (D : string) (n : Z) :
  all_chars number_char D = true →
  all_chars number_char (format_digits D n) = true.
Proof.
  intros HD.
  destruct (all_chars_take_drop_true _ 1 _ HD) as [H1 H1'].
  destruct (all_chars_take_drop_true _ (Z.to_nat n) _ HD) as [Hn Hn'].
  unfold format_digits. repeat case_match;
    by rewrite ?all_chars_app, ?HD, ?H1, ?H1', ?Hn, ?Hn',
      ?pretty_Z_number_chars, ?all_chars_zeros.
Qed.

Lemma format_shortest_chars (sq : Z * Z) :
  all_chars number_char (format_shortest sq) = true.
Proof.
  unfold format_shortest. destruct (strip_zeros _ _ _) as [s q].
  apply format_digits_chars, pretty_Z_number_chars.
Qed.

(** Every character of a printed finite number is a digit, a point, [e] or
    a sign. *)
Lemma Number_toString_chars (s : bool) (m : positive) (e : Z) :
  all_chars number_char (Number_toString (S754_finite s m e)) = true.
Proof.
  simpl. rewrite all_chars_app, format_shortest_chars. by destruct s.
Qed.

Lemma Number_toZ_pos_finite (x : number) (p : positive) :
  Number_toZ x = Some (Z.pos p) → ∃ m e, x = S754_finite false m e.
Proof.
  intros Hp.
  assert (H : Number_isInteger x && Number_gt0 x = true)
    by (apply Number_positive_integer; eauto).
  apply andb_prop in H as [Hi Hg].
  by apply Number_gt0_spec in Hg as [->|?].
Qed.

Lemma Number_toString_id_chars (x : number) (p : positive) :
  Number_toZ x = Some (Z.pos p) →
  all_chars number_char (Number_toString x) = true.
Proof.
  intros (m & e & ->)%Number_toZ_pos_finite. apply Number_toString_chars.
Qed.

(** * Evaluation on literals *)

Example toString_integers :
  map Number_toString [number_of_Z 123; number_of_Z 100; number_of_Z (-42);
                       number_of_Z (2 ^ 53); number_of_Z (2 ^ 53 + 1)]
  = ["123"; "100"; "-42"; "9007199254740992"; "9007199254740992"].
Proof. vm_compute. reflexivity. Qed.

Example toString_fractions :
  map Number_toString [dec 3 2; dec 1 10; dec 435 100; dec 1 3;
                       dec 1 (10 ^ 6); dec 1 (10 ^ 7)]
  = ["1.5"; "0.1"; "4.35"; "0.3333333333333333"; "0.000001"; "1e-7"].
Proof. vm_compute. reflexivity. Qed.

Example toString_large :
  map Number_toString [number_of_Z (10 ^ 21 - 1); number_of_Z (10 ^ 23);
                       number_of_Z 123456789012345678901; number_of_Z (2 ^ 70)]
  = ["1e+21"; "1e+23"; "123456789012345680000"; "1.1805916207174113e+21"].
Proof. vm_compute. reflexivity. Qed.

(** The extremes of the format: the smallest subnormal, the largest finite
    number, and the two sides of the smallest normal number. *)
Example toString_extremes :
  map Number_toString [S754_finite false 1 (-1074);
                       S754_finite false (2 ^ 53 - 1) 971;
                       S754_finite false (2 ^ 52) (-1074);
                       S754_finite false (2 ^ 52 - 1) (-1074)]
  = ["5e-324"; "1.7976931348623157e+308"; "2.2250738585072014e-308";
     "2.225073858507201e-308"].
Proof. vm_compute. reflexivity. Qed.

Example toString_special :
  map Number_toString [S754_nan; S754_zero true; S754_infinity false;
                       S754_infinity true]
  = ["NaN"; "0"; "Infinity"; "-Infinity"].
Proof. reflexivity. Qed.

Example isInteger_examples :
  map Number_isInteger [number_of_Z 123; dec 3 2; number_of_Z (10 ^ 21);
                        S754_nan; S754_infinity false; S754_zero true]
  = [true; false; true; false; false; true].
Proof. vm_compute. reflexivity. Qed.

Example gt0_examples :
  map Number_gt0 [number_of_Z 1; number_of_Z 0; number_of_Z (-1); S754_nan;
                  S754_infinity false; S754_zero true; dec 1 2]
  = [true; false; false; false; true; false; true].
Proof. vm_compute. reflexivity. Qed.
