(* ===== verification/SafeInteger.v ===== *)
(** * SafeInteger: Number::toString on the integers below 2^53

    A pull-request number that passes the guards is a positive integral
    double, and [view_pr] and [comment_pr] interpolate it with
    Number::toString.  This file proves that on the integers below [2^53]
    (the range in which every integer is a double) the shortest round-trip
    digits of JsNumber.v are the decimal numeral of the integer: the
    neighbouring doubles are at most one apart, so the integer is the only
    decimal with an exponent of zero or more that rounds to it, the search
    of [shortest] ends within its fuel, and the layout of [format_digits]
    is the plain one.  The last part shows that the number of an integer
    literal below [2^53] ([number_of_Z], the rounding of SpecFloat) is a
    valid number with the value of the literal, so that the theorems on
    valid numbers apply to every such literal. *)

From Stdlib Require Import Ascii String ZArith QArith Qround Qpower Lia Lqa.
From Stdlib Require Import Floats.SpecFloat.
From stdpp Require Import base tactics strings list option pretty numbers.
From S2P Require Import Prelude JsNumber.

Local Open Scope Z_scope.

(** * Decimal numerals *)

Lemma pretty_N_go_app (x : N) (s : string) :
  pretty_N_go x s = pretty_N_go x "" +:+ s.
Proof.
  revert s. induction (N.lt_wf_0 x) as [x _ IH]; intros s.
  assert (x = 0 ∨ 0 < x)%N as [->|Hx] by lia.
  - by rewrite !pretty_N_go_0, str_app_nil_l.
  - rewrite (pretty_N_go_step x s), (pretty_N_go_step x "") by done.
    set (c := pretty_N_char (x `mod` 10)).
    rewrite (IH (x `div` 10)%N (N.div_lt x 10 Hx eq_refl) (String c s)).
    rewrite (IH (x `div` 10)%N (N.div_lt x 10 Hx eq_refl) (String c "")).
    by rewrite <-str_app_assoc, str_app_cons, str_app_nil_l.
Qed.

Lemma pretty_N_pos (x : N) : (0 < x)%N → pretty x = pretty_N_go x "".
Proof. intros. unfold pretty, pretty_N. case_decide; [lia|done]. Qed.

Lemma pretty_N_mul10 (x : N) :
  (0 < x)%N → pretty (x * 10)%N = pretty x +:+ "0".
Proof.
  intros Hx. rewrite !pretty_N_pos, pretty_N_go_step by lia.
  rewrite N.div_mul, N.Div0.mod_mul by done. apply pretty_N_go_app.
Qed.

Lemma pretty_Z_mul10 (z : Z) : 0 < z → pretty (z * 10) = pretty z +:+ "0".
Proof.
  destruct z as [|p|p]; [lia| |lia]. intros _.
  change (pretty (Z.pos p * 10)) with (pretty (N.pos p * 10)%N).
  by apply pretty_N_mul10.
Qed.

(** Multiplying by a power of ten appends zeros. *)
Lemma pretty_Z_mul_pow10 (z : Z) (j : nat) :
  0 < z → pretty (z * 10 ^ Z.of_nat j) = pretty z +:+ zeros j.
Proof.
  revert z. induction j as [|j IH]; intros z Hz.
  - by rewrite Z.mul_1_r, str_app_nil_r.
  - rewrite Nat2Z.inj_succ, Z.pow_succ_r, Z.mul_assoc by lia.
    rewrite IH, pretty_Z_mul10 by lia. simpl zeros.
    by rewrite <-str_app_assoc, str_app_cons, str_app_nil_l.
Qed.

(** A positive integer below [10^j] has at most [j] digits. *)
Lemma pretty_N_go_length (j : nat) (x : N) :
  (x < 10 ^ N.of_nat j)%N → (String.length (pretty_N_go x "") ≤ j)%nat.
Proof.
  revert x. induction j as [|j IH]; intros x Hx.
  - assert (x = 0%N) as -> by (simpl in Hx; lia). simpl. lia.
  - assert (x = 0 ∨ 0 < x)%N as [->|Hpos] by lia; [simpl; lia|].
    rewrite pretty_N_go_step, pretty_N_go_app, str_app_length by done.
    simpl. cut (String.length (pretty_N_go (x `div` 10) "") ≤ j)%nat; [lia|].
    apply IH. apply N.Div0.div_lt_upper_bound.
    by rewrite Nat2N.inj_succ, N.pow_succ_r' in Hx.
Qed.

Lemma int_digits_bound (z : Z) (j : nat) :
  0 < z < 10 ^ Z.of_nat j → 1 <= int_digits z <= Z.of_nat j.
Proof.
  destruct z as [|p|p]; [lia| |lia]. intros [_ Hz]. unfold int_digits.
  change (pretty (Z.pos p)) with (pretty (N.pos p)).
  rewrite pretty_N_pos by lia. split.
  - rewrite pretty_N_go_step, pretty_N_go_app, str_app_length by lia.
    simpl. lia.
  - apply inj_le, pretty_N_go_length.
    apply N2Z.inj_lt. rewrite N2Z.inj_pow, nat_N_Z. simpl. lia.
Qed.

Lemma pretty_Z_nonempty (z : Z) : 0 < z → pretty z ≠ "".
Proof.
  destruct z as [|p|p]; [lia| |lia]. intros _.
  change (pretty (Z.pos p)) with (pretty (N.pos p)).
  rewrite pretty_N_pos, pretty_N_go_step, pretty_N_go_app by lia.
  intros H%(f_equal String.length). rewrite str_app_length in H.
  simpl in H. lia.
Qed.

(** * Trailing zeros *)

(** [strip_zeros] keeps the value [s * 10^q], and a positive [s]. *)
Lemma strip_zeros_value (fuel : nat) (s q : Z) :
  0 < s → 0 <= q →
  let r := strip_zeros fuel s q in
  r.1 * 10 ^ r.2 = s * 10 ^ q ∧ 0 < r.1 ∧ q <= r.2.
Proof.
  revert s q. induction fuel as [|fuel IH]; intros s q Hs Hq; simpl; [lia|].
  destruct (Z.ltb_spec 0 s) as [_|?]; [|lia].
  destruct (Z.eqb_spec (s mod 10) 0) as [Hmod|_]; simpl; [|lia].
  apply Z.div_exact in Hmod; [|lia].
  destruct (IH (s / 10) (q + 1)) as (Hv & Hp & Hle); [lia..|].
  split_and!; [|done|lia].
  rewrite Hv, Z.pow_add_r, Z.pow_1_r by lia. lia.
Qed.

(** * The mantissa of a valid number *)

Lemma digits2_pos_lower (m : positive) :
  2 ^ (Z.pos (digits2_pos m) - 1) <= Z.pos m.
Proof.
  induction m as [m IH|m IH|]; simpl; [| |done];
    rewrite Pos2Z.inj_succ;
    replace (Z.succ (Z.pos (digits2_pos m)) - 1)
      with (Z.succ (Z.pos (digits2_pos m) - 1)) by lia;
    rewrite Z.pow_succ_r by lia; lia.
Qed.

(** A valid number with a positive exponent is [2^53] or more. *)
Lemma valid_positive_exponent (s : bool) (m : positive) (e : Z) :
  valid (S754_finite s m e) = true →
  0 < e → 2 ^ prec <= Z.pos m * 2 ^ e.
Proof.
  unfold valid, valid_binary, bounded, canonical_mantissa, fexp, prec, emax.
  intros [Hc _]%andb_prop He. apply Z.eqb_eq in Hc.
  unfold Zdigits2, emin in Hc. pose proof (digits2_pos_lower m) as Hm.
  assert (2 ^ 1 <= 2 ^ e) by (apply Z.pow_le_mono_r; lia).
  assert (Z.pos (digits2_pos m) = 53) as Hd by lia. rewrite Hd in Hm.
  simpl in Hm |- *. nia.
Qed.

(** * Rationals and integers *)

Lemma Qle_bool_spec (a b : Q) : reflect (a <= b)%Q (Qle_bool a b).
Proof. apply iff_reflect. symmetry. apply Qle_bool_iff. Qed.

Lemma Qfloor_div_Z (z d : Z) :
  0 < d → Qfloor (inject_Z z / inject_Z d) = z / d.
Proof.
  destruct d as [|p|p]; [lia| |lia]. intros _.
  unfold Qfloor, Qdiv, Qinv, Qmult, inject_Z. simpl. by rewrite Z.mul_1_r.
Qed.

Lemma Qpow_2_half (k : Z) : k < 0 → (0 < Qpow 2 k ∧ Qpow 2 k <= 1 # 2)%Q.
Proof.
  intros Hk. split; [by apply Qpow_pos|]. rewrite Qpow_neg by lia.
  assert (2 ^ 1 <= 2 ^ (- k)) by (apply Z.pow_le_mono_r; lia).
  destruct (2 ^ (- k)) as [|p|p]; [lia| |lia]. Qz.
Qed.

Lemma Qpow_2_succ (k : Z) : (Qpow 2 (k + 1) == 2 * Qpow 2 k)%Q.
Proof. rewrite Qpow_add by done. unfold Qpow at 2. simpl. ring. Qed.

Lemma inject_Z_lt_cases (c z : Z) :
  c = z ∨ (inject_Z c <= inject_Z z - 1)%Q ∨ (inject_Z z + 1 <= inject_Z c)%Q.
Proof.
  destruct (Z.lt_trichotomy c z) as [?|[?|?]];
    [right; left; Qz | by left | right; right; Qz].
Qed.

(** * The rounding interval *)

(** The midpoints lie half the distance to the neighbour above and below
    the number; below a power of two the neighbour is half as far. *)
Lemma upper_value (m : positive) (e : Z) :
  (upper m e == fvalue m e + Qpow 2 (e - 1))%Q.
Proof.
  unfold upper, fvalue.
  replace e with (e - 1 + 1) at 2 by lia. rewrite Qpow_2_succ.
  rewrite inject_Z_plus, inject_Z_mult. change (inject_Z 1) with 1%Q.
  change (inject_Z 2) with 2%Q. ring.
Qed.

Lemma lower_value (m : positive) (e : Z) :
  (lower m e == fvalue m e
                - if is_boundary m e then Qpow 2 (e - 2) else Qpow 2 (e - 1))%Q.
Proof.
  unfold lower, fvalue. destruct (is_boundary m e).
  - replace e with (e - 2 + 1 + 1) at 2 by lia. rewrite !Qpow_2_succ.
    replace (4 * Z.pos m - 1) with (4 * Z.pos m + -1) by lia.
    rewrite inject_Z_plus, inject_Z_mult. change (inject_Z (-1)) with (-1)%Q.
    change (inject_Z 4) with 4%Q. ring.
  - replace e with (e - 1 + 1) at 2 by lia. rewrite Qpow_2_succ.
    replace (2 * Z.pos m - 1) with (2 * Z.pos m + -1) by lia.
    rewrite inject_Z_plus, inject_Z_mult. change (inject_Z (-1)) with (-1)%Q.
    change (inject_Z 2) with 2%Q. ring.
Qed.

(** * The interval of an integer below [2^53] *)

Section Integer.
Variables (m : positive) (e z : Z).
Hypothesis He : e <= 0.
Hypothesis Hz : (fvalue m e == inject_Z z)%Q.

Lemma upper_integer : (upper m e == inject_Z z + Qpow 2 (e - 1))%Q.
Proof. by rewrite upper_value, Hz. Qed.

Lemma lower_integer :
  (lower m e == inject_Z z
                - if is_boundary m e then Qpow 2 (e - 2) else Qpow 2 (e - 1))%Q.
Proof. by rewrite lower_value, Hz. Qed.

(** The midpoints to the neighbouring numbers are at most a half away. *)
Lemma integer_interval :
  ∃ dl du : Q,
    (lower m e == inject_Z z - dl ∧ upper m e == inject_Z z + du ∧
     0 < dl ∧ dl <= 1 # 2 ∧ 0 < du ∧ du <= 1 # 2)%Q.
Proof.
  destruct (Qpow_2_half (e - 1)) as [Hh0 Hh]; [lia|].
  destruct (Qpow_2_half (e - 2)) as [Hg0 Hg]; [lia|].
  eexists _, _. split; [apply lower_integer|]. split; [apply upper_integer|].
  by destruct (is_boundary m e).
Qed.

(** The only integer that rounds to the number is its value. *)
Lemma rounds_here_integer (v : Q) (c : Z) :
  (v == inject_Z c)%Q → rounds_here m e v = (c =? z).
Proof.
  intros Hv. destruct integer_interval as (dl & du & Hl & Hu & ? & ? & ? & ?).
  unfold rounds_here, Qltb.
  destruct (Qle_bool_spec (lower m e) v), (Qle_bool_spec v (upper m e)),
    (Qle_bool_spec (upper m e) v), (Qle_bool_spec v (lower m e)),
    (Z.eqb_spec c z) as [->|Hne], (Z.even (Z.pos m)); simpl;
    try done; try lra;
    destruct (inject_Z_lt_cases c z) as [?|[?|?]]; try done; lra.
Qed.

(** With a decimal exponent of zero or more, the candidate is the value
    without its last [q] digits when these are zeros, and none otherwise. *)
Lemma candidate_integer (n k : Z) :
  0 < z → k <= n →
  candidate m e n k
  = if z / 10 ^ (n - k) * 10 ^ (n - k) =? z
    then Some (z / 10 ^ (n - k), n - k) else None.
Proof.
  intros Hpos Hk. unfold candidate. set (q := n - k).
  assert (0 < 10 ^ q) as Hd by (apply Z.pow_pos_nonneg; lia).
  assert (Qfloor (fvalue m e / Qpow 10 q) = z / 10 ^ q) as ->.
  { rewrite <-Qfloor_div_Z by done. apply Qfloor_comp.
    by rewrite Hz, Qpow_nonneg by lia. }
  rewrite !(rounds_here_integer _ (_ * 10 ^ q))
    by (by rewrite inject_Z_mult, Qpow_nonneg by lia).
  pose proof (Z.mul_div_le z (10 ^ q) Hd).
  pose proof (Z.mul_succ_div_gt z (10 ^ q) Hd).
  destruct (Z.eqb_spec ((z / 10 ^ q + 1) * 10 ^ q) z); [lia|].
  by destruct (_ =? z).
Qed.

(** The search ends within its fuel, at digits that denote the value. *)
Lemma shortest_from_integer (fuel : nat) (n k : Z) :
  0 < z → 1 <= k <= n → n - k < Z.of_nat fuel →
  let r := shortest_from m e fuel n k in
  r.1 * 10 ^ r.2 = z ∧ 0 <= r.2.
Proof.
  intros Hpos. revert k. induction fuel as [|fuel IH]; intros k Hk Hfuel;
    [lia|].
  simpl. rewrite candidate_integer by lia.
  destruct (Z.eqb_spec (z / 10 ^ (n - k) * 10 ^ (n - k)) z) as [Heq|Hne];
    [simpl; lia|].
  destruct (decide (k = n)) as [->|?].
  - destruct Hne. rewrite Z.sub_diag, Z.pow_0_r, Z.div_1_r. lia.
  - apply IH; lia.
Qed.

Lemma dec_exponent_integer : 0 < z → dec_exponent m e = int_digits z.
Proof.
  intros Hpos. unfold dec_exponent.
  destruct (Qle_bool_spec 1 (fvalue m e)) as [_|Hlt].
  - by rewrite (Qfloor_comp _ _ Hz), Qfloor_Z.
  - destruct Hlt. rewrite Hz. Qz.
Qed.

End Integer.

(** * The layout of an integer *)

Lemma format_shortest_integer (sq : Z * Z) (z : Z) :
  0 < z → sq.1 * 10 ^ sq.2 = z → 0 <= sq.2 → int_digits z <= 21 →
  format_shortest sq = pretty z.
Proof.
  destruct sq as [s q]. simpl. intros Hpos Hv Hq Hn.
  assert (0 < 10 ^ q) by (apply Z.pow_pos_nonneg; lia).
  assert (0 < s) as Hs by nia.
  unfold format_shortest. simpl fst. simpl snd.
  destruct (strip_zeros_value 18 s q Hs Hq) as (Hv' & Hs' & Hq').
  destruct (strip_zeros 18 s q) as [s' q']. simpl in Hv', Hs', Hq'.
  assert (pretty z = pretty s' +:+ zeros (Z.to_nat q')) as Hz.
  { rewrite <-pretty_Z_mul_pow10, Z2Nat.id by lia. congruence. }
  unfold int_digits in Hn.
  rewrite Hz, str_app_length, zeros_length, Nat2Z.inj_add, Z2Nat.id in Hn
    by lia.
  unfold format_digits.
  destruct (Z.leb_spec (Z.of_nat (String.length (pretty s')))
              (Z.of_nat (String.length (pretty s')) + q')); [|lia].
  destruct (Z.leb_spec (Z.of_nat (String.length (pretty s')) + q') 21); [|lia].
  simpl. rewrite Hz. do 2 f_equal. lia.
Qed.

(** * Number::toString on the integers below 2^53 *)

Lemma Number_toString_integer (m : positive) (e z : Z) :
  e <= 0 → (fvalue m e == inject_Z z)%Q → 0 < z < 10 ^ 16 →
  Number_toString (S754_finite false m e) = pretty z.
Proof.
  intros He Hz [Hpos Hlt]. simpl. rewrite str_app_nil_l. unfold shortest.
  destruct (int_digits_bound z 16) as [Hn1 Hn16]; [done|].
  rewrite (dec_exponent_integer m e z) by done.
  destruct (shortest_from_integer m e z He Hz 17 (int_digits z) 1)
    as [Hv Hq]; [lia..|].
  apply format_shortest_integer; [done..|lia].
Qed.

Lemma safe_integer_finite (x : number) (z : Z) :
  valid x = true → Number_toZ x = Some z → 0 < z < 2 ^ prec →
  ∃ m e, x = S754_finite false m e ∧ e <= 0 ∧ (fvalue m e == inject_Z z)%Q.
Proof.
  intros Hvalid Hx [Hpos Hlt].
  destruct (Number_toZ_pos_finite x (Z.to_pos z)) as (m & e & ->);
    [by rewrite Z2Pos.id|].
  apply Number_toZ_represents in Hx. simpl in Hx. symmetry in Hx.
  exists m, e. split_and!; [done| |done].
  destruct (Z.le_gt_cases e 0) as [|He]; [done|].
  pose proof (valid_positive_exponent _ _ _ Hvalid He).
  rewrite fvalue_nonneg_exp, inject_Z_eq in Hx by lia. lia.
Qed.

(** A valid number whose value is an integer [z] with [0 < z < 2^53] is
    printed by Number::toString as the decimal numeral of [z]: no exponent,
    no decimal point, no rounding. *)
Theorem Number_toString_safe_integer (x : number) (z : Z) :
  valid x = true → Number_toZ x = Some z → 0 < z < 2 ^ prec →
  Number_toString x = pretty z.
Proof.
  intros Hvalid Hx Hz.
  destruct (safe_integer_finite x z) as (m & e & -> & He & Hv); [done..|].
  apply Number_toString_integer; [done..|]. unfold prec in Hz. lia.
Qed.

Example toString_max_safe_integer :
  Number_toString (number_of_Z 9007199254740991) = "9007199254740991".
Proof.
  apply (Number_toString_safe_integer _ 9007199254740991);
    [vm_compute; reflexivity | vm_compute; reflexivity | unfold prec; lia].
Qed.

(** * The number of an integer literal *)

Lemma iter_xO_digits (m d : positive) :
  digits2_pos (Pos.iter xO m d) = (digits2_pos m + d)%positive.
Proof.
  induction d as [|d IH] using Pos.peano_ind; simpl; [lia|].
  rewrite Pos.iter_succ. simpl. rewrite IH. lia.
Qed.

Lemma iter_xO_value (m d : positive) :
  Z.pos (Pos.iter xO m d) = Z.pos m * 2 ^ Z.pos d.
Proof.
  induction d as [|d IH] using Pos.peano_ind; simpl; [lia|].
  rewrite Pos.iter_succ, Pos2Z.inj_succ, Z.pow_succ_r by lia.
  rewrite Pos2Z.inj_xO, IH. lia.
Qed.

(** Rounding a mantissa of 53 bits at an exponent in range changes
    nothing. *)
Lemma binary_round_aux_exact (s : bool) (m : positive) (e : Z) :
  Z.pos (digits2_pos m) = 53 → -1074 <= e <= 971 →
  binary_round_aux prec emax s (Z.pos m) e loc_Exact = S754_finite s m e.
Proof.
  intros Hd He.
  unfold binary_round_aux, shr_fexp, fexp, emin, prec, emax, Zdigits2.
  cbn [shr_record_of_loc]. rewrite Hd.
  replace (Z.max (53 + e - 53) (3 - 1024 - 53) - e) with 0 by lia.
  cbn [shr shr_m loc_of_shr_record shr_r shr_s round_nearest_even].
  rewrite Hd.
  replace (Z.max (53 + e - 53) (3 - 1024 - 53) - e) with 0 by lia.
  cbn [shr shr_m]. by destruct (Z.leb_spec e (1024 - 53)); [|lia].
Qed.

(** Rounding a positive integer below [2^53]: the integer shifted to 53
    bits, with the exponent that undoes the shift. *)
Lemma binary_round_integer (s : bool) (p : positive) :
  Z.pos p < 2 ^ 53 →
  ∃ m e, binary_round prec emax s p 0 = S754_finite s m e
         ∧ Z.pos (digits2_pos m) = 53 ∧ -52 <= e <= 0
         ∧ Z.pos m = Z.pos p * 2 ^ (- e).
Proof.
  intros Hp. pose proof (digits2_pos_lower p) as Hl.
  assert (Z.pos (digits2_pos p) <= 53) as Hd.
  { destruct (Z.le_gt_cases (Z.pos (digits2_pos p)) 53) as [|Hgt]; [done|].
    assert (2 ^ 53 <= 2 ^ (Z.pos (digits2_pos p) - 1))
      by (apply Z.pow_le_mono_r; lia). lia. }
  unfold binary_round, shl_align, fexp, emin, prec, emax.
  replace (Z.max (Z.pos (digits2_pos p) + 0 - 53) (3 - 1024 - 53) - 0)
    with (Z.pos (digits2_pos p) - 53) by lia.
  replace (Z.max (Z.pos (digits2_pos p) + 0 - 53) (3 - 1024 - 53))
    with (Z.pos (digits2_pos p) - 53) by lia.
  destruct (Z.pos (digits2_pos p) - 53) as [|k|k] eqn:Hk; [|lia|].
  - exists p, 0. rewrite binary_round_aux_exact by lia.
    split_and!; [done|lia|lia|lia|]. simpl. lia.
  - exists (Pos.iter xO p k), (Z.neg k).
    rewrite binary_round_aux_exact by (rewrite ?iter_xO_digits; lia).
    rewrite iter_xO_digits, iter_xO_value. split_and!; [done|lia|lia|lia|done].
Qed.

(** An integer shifted to 53 bits is a valid number with the value of the
    integer. *)
Lemma shifted_integer (s : bool) (m : positive) (e : Z) (p : positive) :
  Z.pos (digits2_pos m) = 53 → -52 <= e <= 0 →
  Z.pos m = Z.pos p * 2 ^ (- e) →
  valid (S754_finite s m e) = true
  ∧ Number_toZ (S754_finite s m e) = Some ((if s then -1 else 1) * Z.pos p).
Proof.
  intros Hd He Hm. split.
  - unfold valid, valid_binary, bounded, canonical_mantissa, fexp, emin, prec,
      emax, Zdigits2. rewrite Hd. apply andb_true_intro.
    split; [apply Z.eqb_eq|apply Z.leb_le]; lia.
  - unfold Number_toZ. destruct (Z.leb_spec 0 e).
    + replace e with 0 in * by lia. do 2 f_equal. simpl in Hm. lia.
    + by rewrite Hm, Z.mod_mul, Z.div_mul by (apply Z.pow_nonzero; lia).
Qed.

(** Every integer literal [z] other than zero with [-2^53 < z < 2^53] is a
    valid number with the value [z]. *)
Theorem number_of_Z_safe (z : Z) :
  z ≠ 0 → - 2 ^ 53 < z < 2 ^ 53 →
  valid (number_of_Z z) = true ∧ Number_toZ (number_of_Z z) = Some z.
Proof.
  destruct z as [|p|p]; [done|..]; intros _ Hz; simpl.
  - destruct (binary_round_integer false p) as (m & e & -> & Hd & He & Hm);
      [lia|].
    exact (shifted_integer false m e p Hd He Hm).
  - destruct (binary_round_integer true p) as (m & e & -> & Hd & He & Hm);
      [lia|].
    exact (shifted_integer true m e p Hd He Hm).
Qed.

(** It is printed as the decimal numeral of [z]. *)
Theorem Number_toString_of_Z (z : Z) :
  z ≠ 0 → - 2 ^ 53 < z < 2 ^ 53 → Number_toString (number_of_Z z) = pretty z.
Proof.
  destruct z as [|p|p]; [done|..]; intros _ Hz.
  - destruct (number_of_Z_safe (Z.pos p)); [done..|].
    by apply Number_toString_safe_integer.
  - simpl.
    destruct (binary_round_integer true p) as (m & e & -> & Hd & He & Hm);
      [lia|].
    destruct (shifted_integer false m e p Hd He Hm) as [Hv Ht].
    pose proof (Number_toString_safe_integer _ (Z.pos p) Hv Ht
                  ltac:(unfold prec; lia)) as Hs.
    cbn [Number_toString] in Hs |- *. rewrite str_app_nil_l in Hs.
    by rewrite Hs.
Qed.

Lemma number_of_Z_truthy (z : Z) :
  z ≠ 0 → - 2 ^ 53 < z < 2 ^ 53 → Number_truthy (number_of_Z z) = true.
Proof.
  destruct z as [|p|p]; [done|..]; intros _ Hz; simpl.
  - by destruct (binary_round_integer false p) as (m & e & -> & _); [lia|].
  - by destruct (binary_round_integer true p) as (m & e & -> & _); [lia|].
Qed.

(** * Printed numbers are not empty *)

Lemma str_app_nonempty_l (a b : string) : a ≠ "" → a +:+ b ≠ "".
Proof. destruct a; [done|]. by rewrite str_app_cons. Qed.

Lemma str_app_nonempty_r (a b : string) : b ≠ "" → a +:+ b ≠ "".
Proof.
  intros Hb H%(f_equal String.length). rewrite str_app_length in H.
  destruct b; [done|]. simpl in H. lia.
Qed.

Lemma pretty_Z_not_empty (z : Z) : pretty z ≠ "".
Proof.
  destruct z as [|p|p]; [done|by apply pretty_Z_nonempty|].
  change (pretty (Z.neg p)) with ("-" +:+ pretty p). by rewrite str_app_cons.
Qed.

Lemma format_digits_not_empty (D : string) (n : Z) :
  D ≠ "" → format_digits D n ≠ "".
Proof.
  intros HD. unfold format_digits. repeat case_match;
    auto using str_app_nonempty_l, str_app_nonempty_r.
Qed.

Lemma Number_toString_not_empty (x : number) : Number_toString x ≠ "".
Proof.
  destruct x as [s|[]| |s m e]; try done. simpl.
  apply str_app_nonempty_r. unfold format_shortest.
  destruct (strip_zeros _ _ _). apply format_digits_not_empty, pretty_Z_not_empty.
Qed.
