(* ===== verification/Shortest.v ===== *)
(** * Shortest: the digit search of Number::toString on every number

    [shortest] tries the digit counts 1 to 17 and stops at the first count
    for which a decimal with that many digits rounds to the number.  This
    file proves that the search always stops at such a decimal: at 17
    digits two neighbouring decimals are closer to each other than the
    rounding interval of a binary64 number is wide, so one of the two
    decimals that enclose the number rounds to it.  The digits found are
    therefore positive, they denote a decimal inside the rounding interval,
    and no smaller digit count has a decimal that does. *)

From Stdlib Require Import Ascii String ZArith QArith Qround Qpower Lia Lqa.
From Stdlib Require Import Floats.SpecFloat.
From stdpp Require Import base tactics strings list option pretty numbers.
From S2P Require Import Prelude JsNumber SafeInteger.

Local Open Scope Z_scope.

(** * Digit counts *)

(** A positive integer with [l] digits lies between [10^(l-1)] and
    [10^l]. *)
Lemma pretty_N_go_bounds (x : N) :
  (0 < x)%N →
  let l := Z.of_nat (String.length (pretty_N_go x "")) in
  10 ^ (l - 1) <= Z.of_N x < 10 ^ l.
Proof.
  induction (N.lt_wf_0 x) as [x _ IH]. intros Hx.
  rewrite pretty_N_go_step, pretty_N_go_app, str_app_length by done.
  simpl String.length. rewrite Nat.add_1_r, Nat2Z.inj_succ. simpl.
  pose proof (Z.mul_div_le (Z.of_N x) 10 eq_refl) as Hd1.
  pose proof (Z.mul_succ_div_gt (Z.of_N x) 10 eq_refl) as Hd2.
  assert (x `div` 10 = 0 ∨ 0 < x `div` 10)%N as [Hq|Hpos] by lia.
  - rewrite Hq. simpl. apply (f_equal Z.of_N) in Hq.
    rewrite N2Z.inj_div in Hq. simpl in Hq. lia.
  - specialize (IH _ (N.div_lt x 10 Hx eq_refl) Hpos). simpl in IH.
    rewrite N2Z.inj_div in IH. simpl Z.of_N in IH.
    set (l := Z.of_nat (String.length (pretty_N_go (x `div` 10) ""))) in *.
    assert (1 <= l).
    { destruct (decide (l <= 0)); [|lia].
      assert (l = 0) as Hl by lia. rewrite Hl in IH. simpl in IH. lia. }
    replace (Z.succ l - 1) with (Z.succ (l - 1)) by lia.
    replace (Z.succ l) with (Z.succ (Z.succ (l - 1))) by lia.
    replace l with (Z.succ (l - 1)) in IH at 2 by lia.
    rewrite !Z.pow_succ_r in * by lia. lia.
Qed.

Lemma int_digits_spec (z : Z) :
  0 < z → 10 ^ (int_digits z - 1) <= z < 10 ^ int_digits z.
Proof.
  destruct z as [|p|p]; [lia| |lia]. intros _. unfold int_digits.
  change (pretty (Z.pos p)) with (pretty (N.pos p)).
  rewrite pretty_N_pos by lia. by apply (pretty_N_go_bounds (N.pos p)).
Qed.

Lemma int_digits_pos (z : Z) : 0 < z → 1 <= int_digits z.
Proof.
  intros Hz. destruct (int_digits_spec z Hz) as [_ Hu].
  assert (0 <= int_digits z) by (unfold int_digits; lia).
  destruct (decide (int_digits z = 0)) as [H0|]; [|lia].
  rewrite H0 in Hu. simpl in Hu. lia.
Qed.

(** * The mantissa of a valid number *)

Lemma digits2_pos_upper (m : positive) :
  Z.pos m < 2 ^ Z.pos (digits2_pos m).
Proof.
  induction m as [m IH|m IH|]; simpl; [| |done];
    rewrite Pos2Z.inj_succ, Z.pow_succ_r by lia; lia.
Qed.

Lemma valid_mantissa (s : bool) (m : positive) (e : Z) :
  valid (S754_finite s m e) = true → Z.pos m < 2 ^ prec.
Proof.
  unfold valid, valid_binary, bounded, canonical_mantissa, fexp, prec, emax.
  intros [Hc _]%andb_prop. apply Z.eqb_eq in Hc.
  unfold Zdigits2 in Hc. pose proof (digits2_pos_upper m) as Hm.
  assert (2 ^ Z.pos (digits2_pos m) <= 2 ^ 53); [|lia].
  apply Z.pow_le_mono_r; lia.
Qed.

(** * Floors and powers *)

Lemma Qfloor_scale (v t : Q) :
  (0 < t)%Q →
  (inject_Z (Qfloor (v / t)) * t <= v
   ∧ v < inject_Z (Qfloor (v / t) + 1) * t)%Q.
Proof.
  intros Ht. pose proof (Qfloor_le (v / t)) as Hl.
  pose proof (Qlt_floor (v / t)) as Hu.
  assert (v / t * t == v)%Q as Hv by (field; lra).
  split.
  - apply (Qmult_le_compat_r _ _ t) in Hl; [|lra]. by rewrite Hv in Hl.
  - apply (Qmult_lt_compat_r _ _ t) in Hu; [|done]. by rewrite Hv in Hu.
Qed.

Lemma Qpow_10_shift (n : Z) :
  (Qpow 10 (n - 1) == Qpow 10 (n - 17) * 10000000000000000)%Q.
Proof.
  replace (n - 1) with (n - 17 + 16) by lia.
  by rewrite Qpow_add, (Qpow_nonneg 10 16) by lia.
Qed.

Lemma Qpow_2_pred (k : Z) : (Qpow 2 k == 2 * Qpow 2 (k - 1))%Q.
Proof. replace k with (k - 1 + 1) at 1 by lia. apply Qpow_2_succ. Qed.

(** * The decimal exponent *)

Lemma Qfloor_ge_1 (v : Q) : (1 <= v)%Q → 1 <= Qfloor v.
Proof. intros Hv. by apply (Qfloor_resp_le 1 v). Qed.

Lemma dec_exponent_lower (m : positive) (e : Z) :
  (Qpow 10 (dec_exponent m e - 1) <= fvalue m e)%Q.
Proof.
  unfold dec_exponent. pose proof (fvalue_pos m e) as Hpos.
  set (v := fvalue m e) in *.
  destruct (Qle_bool_spec 1 v) as [H1|H1].
  - pose proof (Qfloor_ge_1 v H1) as Hz.
    destruct (int_digits_spec (Qfloor v)) as [Hl _]; [lia|].
    pose proof (int_digits_pos (Qfloor v) ltac:(lia)).
    rewrite Qpow_nonneg by lia.
    eapply Qle_trans; [|apply Qfloor_le]. rewrite <-Zle_Qle. lia.
  - assert (1 <= / v)%Q as Hw.
    { apply Qle_shift_inv_l; [done|]. lra. }
    pose proof (Qfloor_ge_1 _ Hw) as Hz.
    destruct (int_digits_spec (Qfloor (/ v))) as [_ Hu]; [lia|].
    pose proof (int_digits_pos (Qfloor (/ v)) ltac:(lia)).
    set (d := int_digits (Qfloor (/ v))) in *.
    rewrite Qpow_neg by lia. replace (- (1 - d - 1)) with d by lia.
    assert (/ v < inject_Z (10 ^ d))%Q as Hlt.
    { eapply Qlt_le_trans; [apply Qlt_floor|]. rewrite <-Zle_Qle. lia. }
    assert (1 < inject_Z (10 ^ d) * v)%Q as Hv.
    { apply (Qmult_lt_compat_r _ _ v) in Hlt; [|done].
      assert (/ v * v == 1)%Q as Heq by (field; lra). by rewrite Heq in Hlt. }
    apply Qlt_le_weak, Qlt_shift_inv_r; lra.
Qed.

(** * Seventeen digits

    Neighbouring decimals with 17 digits are [10^(n-17)] apart, and the
    rounding interval of the number is wider than that. *)

Lemma spacing_17 (s : bool) (m : positive) (e : Z) :
  valid (S754_finite s m e) = true →
  (Qpow 10 (dec_exponent m e - 17) < upper m e - lower m e)%Q.
Proof.
  intros Hm%valid_mantissa.
  pose proof (dec_exponent_lower m e) as Hn.
  rewrite Qpow_10_shift in Hn. unfold fvalue in Hn.
  rewrite upper_value, lower_value. unfold fvalue.
  pose proof (Qpow_pos 2 (e - 2) eq_refl) as HE.
  pose proof (Qpow_2_pred e) as H2. pose proof (Qpow_2_pred (e - 1)) as H1.
  replace (e - 1 - 1) with (e - 2) in H1 by lia.
  set (E := Qpow 2 (e - 2)) in *. set (E1 := Qpow 2 (e - 1)) in *.
  set (E2 := Qpow 2 e) in *. set (T := Qpow 10 _) in *.
  assert (inject_Z (Z.pos m) * E2 == 4 * (inject_Z (Z.pos m) * E))%Q as Hv
    by (rewrite H2, H1; ring).
  rewrite Hv in *. set (X := (inject_Z (Z.pos m) * E)%Q) in *.
  destruct (is_boundary m e) eqn:Hb.
  - apply andb_prop in Hb as [Hb%Z.eqb_eq _].
    assert (X == 4503599627370496 * E)%Q as HX
      by (unfold X; rewrite Hb; reflexivity).
    lra.
  - assert (X < 9007199254740992 * E)%Q as Hx.
    { apply Qmult_lt_compat_r; [done|].
      change 9007199254740992%Q with (inject_Z (2 ^ prec)).
      by rewrite <-Zlt_Qlt. }
    lra.
Qed.

(** A decimal at or below the number that does not round to it is at or
    below the lower midpoint, and one above the number is at or above the
    upper midpoint. *)
Lemma rounds_here_below (m : positive) (e : Z) (x : Q) :
  (x <= fvalue m e)%Q → rounds_here m e x = false → (x <= lower m e)%Q.
Proof.
  pose proof (upper_value m e) as Hu. pose proof (Qpow_pos 2 (e - 1) eq_refl).
  unfold rounds_here, Qltb. intros Hx.
  destruct (Z.even _), (Qle_bool_spec (lower m e) x),
    (Qle_bool_spec x (upper m e)), (Qle_bool_spec (upper m e) x),
    (Qle_bool_spec x (lower m e)); simpl; intros; try done; lra.
Qed.

Lemma rounds_here_above (m : positive) (e : Z) (x : Q) :
  (fvalue m e < x)%Q → rounds_here m e x = false → (upper m e <= x)%Q.
Proof.
  pose proof (lower_value m e) as Hl.
  pose proof (Qpow_pos 2 (e - 1) eq_refl).
  pose proof (Qpow_pos 2 (e - 2) eq_refl).
  unfold rounds_here, Qltb. intros Hx.
  destruct (is_boundary m e), (Z.even _), (Qle_bool_spec (lower m e) x),
    (Qle_bool_spec x (upper m e)), (Qle_bool_spec (upper m e) x),
    (Qle_bool_spec x (lower m e)); simpl; intros; try done; lra.
Qed.

(** What a candidate is: digits that round to the number. *)
Lemma candidate_sound (m : positive) (e n k s q : Z) :
  candidate m e n k = Some (s, q) →
  rounds_here m e (inject_Z s * Qpow 10 q) = true ∧ q = n - k.
Proof.
  unfold candidate.
  destruct (rounds_here m e (inject_Z (Qfloor _) * _)) eqn:Hlo,
    (rounds_here m e (inject_Z (Qfloor _ + 1) * _)) eqn:Hhi;
    repeat case_match; intros; by simplify_eq.
Qed.

(** Where the spacing of the decimals is less than the width of the
    interval there is a candidate. *)
Lemma candidate_exists (m : positive) (e n k : Z) :
  (Qpow 10 (n - k) < upper m e - lower m e)%Q →
  is_Some (candidate m e n k).
Proof.
  intros Hw. unfold candidate.
  destruct (Qfloor_scale (fvalue m e) (Qpow 10 (n - k))) as [Hlo Hhi];
    [by apply Qpow_pos|].
  set (a := Qfloor _) in *.
  destruct (rounds_here m e (inject_Z a * _)) eqn:Ha,
    (rounds_here m e (inject_Z (a + 1) * _)) eqn:Hb;
    repeat case_match; try done.
  apply rounds_here_below in Ha; [|done].
  apply rounds_here_above in Hb; [|done].
  rewrite inject_Z_plus in Hb. change (inject_Z 1) with 1%Q in Hb. lra.
Qed.

Lemma candidate_17 (s : bool) (m : positive) (e : Z) :
  valid (S754_finite s m e) = true →
  is_Some (candidate m e (dec_exponent m e) 17).
Proof. intros Hv. eapply candidate_exists, spacing_17, Hv. Qed.

(** Beyond 17 digits the decimals are closer still. *)
Lemma Qpow_10_antitone (n j k : Z) :
  j <= k → (Qpow 10 (n - k) <= Qpow 10 (n - j))%Q.
Proof.
  intros Hjk. replace (n - j) with (n - k + (k - j)) by lia.
  rewrite Qpow_add, (Qpow_nonneg 10 (k - j)) by lia.
  pose proof (Qpow_pos 10 (n - k) eq_refl) as Hp.
  assert (1 <= inject_Z (10 ^ (k - j)))%Q as H1.
  { change 1%Q with (inject_Z 1). rewrite <-Zle_Qle.
    pose proof (Z.pow_pos_nonneg 10 (k - j)). lia. }
  rewrite <-(Qmult_1_r (Qpow 10 (n - k))) at 1.
  apply Qmult_le_l; done.
Qed.

Lemma candidate_from_17 (s : bool) (m : positive) (e k : Z) :
  valid (S754_finite s m e) = true → 17 <= k →
  is_Some (candidate m e (dec_exponent m e) k).
Proof.
  intros Hv Hk. apply candidate_exists.
  eapply Qle_lt_trans; [by apply (Qpow_10_antitone _ 17)|].
  eapply spacing_17, Hv.
Qed.

(** * The search *)

(** When the last digit count that the fuel allows has a candidate, the
    search returns the candidate of the first digit count that has one. *)
Lemma shortest_from_first (m : positive) (e n : Z) (fuel : nat) (k : Z) :
  is_Some (candidate m e n (k + Z.of_nat fuel)) →
  ∃ j, 0 <= j <= Z.of_nat fuel
       ∧ candidate m e n (k + j) = Some (shortest_from m e (S fuel) n k)
       ∧ ∀ i, 0 <= i < j → candidate m e n (k + i) = None.
Proof.
  revert k. induction fuel as [|fuel IH]; intros k Hc.
  - destruct Hc as [r Hr]. exists 0. simpl in *.
    rewrite Z.add_0_r in *. rewrite Hr. split_and!; [lia..|done|lia].
  - change (shortest_from m e (S (S fuel)) n k)
      with (match candidate m e n k with
            | Some r => r
            | None => shortest_from m e (S fuel) n (k + 1)
            end).
    destruct (candidate m e n k) as [r|] eqn:Hk.
    + exists 0. rewrite Z.add_0_r. split_and!; [lia..|done|lia].
    + destruct (IH (k + 1)) as (j & Hj & Hcj & Hmin).
      { by replace (k + 1 + Z.of_nat fuel) with (k + Z.of_nat (S fuel))
          by lia. }
      exists (j + 1). replace (k + (j + 1)) with (k + 1 + j) by lia.
      split_and!; [lia..|done|]. intros i Hi.
      destruct (decide (i = 0)) as [->|]; [by rewrite Z.add_0_r|].
      replace (k + i) with (k + 1 + (i - 1)) by lia. apply Hmin. lia.
Qed.

(** The search of [shortest] ends within its fuel. *)
Lemma shortest_search (s : bool) (m : positive) (e : Z) :
  valid (S754_finite s m e) = true →
  ∃ k, 1 <= k <= 17
       ∧ candidate m e (dec_exponent m e) k = Some (shortest m e)
       ∧ ∀ i, 1 <= i < k → candidate m e (dec_exponent m e) i = None.
Proof.
  intros Hv.
  destruct (shortest_from_first m e (dec_exponent m e) 16 1)
    as (j & Hj & Hc & Hmin); [by eapply candidate_17|].
  exists (1 + j). split_and!; [lia..|done|]. intros i Hi.
  replace i with (1 + (i - 1)) by lia. apply Hmin. lia.
Qed.

(** More fuel than 17 changes nothing: the bounded search is the search. *)
Lemma shortest_fuel (s : bool) (m : positive) (e : Z) (fuel : nat) :
  valid (S754_finite s m e) = true → (17 ≤ fuel)%nat →
  shortest_from m e fuel (dec_exponent m e) 1 = shortest m e.
Proof.
  intros Hv Hfuel. destruct fuel as [|f]; [lia|].
  destruct (shortest_from_first m e (dec_exponent m e) f 1)
    as (j & Hj & Hc & Hmin); [eapply candidate_from_17; [done|lia]|].
  destruct (shortest_from_first m e (dec_exponent m e) 16 1)
    as (j' & Hj' & Hc' & Hmin'); [by eapply candidate_17|].
  fold (shortest m e) in Hc'.
  destruct (Z.lt_trichotomy j j') as [Hlt|[->|Hlt]].
  - rewrite Hmin' in Hc by lia. done.
  - congruence.
  - rewrite Hmin in Hc' by lia. done.
Qed.

Lemma lower_pos (m : positive) (e : Z) : (0 < lower m e)%Q.
Proof.
  unfold lower.
  destruct (is_boundary m e); (apply Qmult_lt_0_compat; [Qz|by apply Qpow_pos]).
Qed.

Lemma rounds_here_pos (m : positive) (e : Z) (x : Q) :
  rounds_here m e x = true → (0 < x)%Q.
Proof.
  pose proof (lower_pos m e). unfold rounds_here, Qltb.
  destruct (Z.even _), (Qle_bool_spec (lower m e) x),
    (Qle_bool_spec x (lower m e)); simpl; intros; try done; lra.
Qed.

(** The digits of [shortest] are positive and round to the number. *)
Lemma shortest_rounds (s : bool) (m : positive) (e : Z) :
  valid (S754_finite s m e) = true →
  rounds_here m e (inject_Z (shortest m e).1 * Qpow 10 (shortest m e).2)
  = true
  ∧ 0 < (shortest m e).1.
Proof.
  intros (k & _ & Hc & _)%shortest_search.
  destruct (shortest m e) as [d q]. apply candidate_sound in Hc as [Hr _].
  split; [done|]. apply rounds_here_pos in Hr. simpl in *.
  pose proof (Qpow_pos 10 q eq_refl) as Hq.
  destruct (decide (0 < d)) as [|Hd]; [done|].
  assert (inject_Z d <= 0)%Q as Hd'
    by (change 0%Q with (inject_Z 0); rewrite <-Zle_Qle; lia).
  assert (inject_Z d * Qpow 10 q <= 0 * Qpow 10 q)%Q
    by (apply Qmult_le_compat_r; lra).
  lra.
Qed.
