(* ===== verification/Decimal.v ===== *)
(** * Decimal: reading a numeral back

    The command lines carry numbers as the numerals that Number::toString
    prints.  [read_number] is the reading of such a numeral: an optional
    sign, digits with an optional fraction, and an optional exponent (the
    grammar of a decimal literal), to a pair of integers [(d, x)] that
    stands for [d * 10^x].  This file proves that the layouts of
    [format_digits] (plain digits, a decimal point inside, leading zeros,
    exponent notation) are read back as the digits that were laid out, and
    with the result of Shortest.v that the numeral printed for a number
    denotes a decimal that rounds to the number. *)

From Stdlib Require Import Ascii String ZArith QArith Qround Qpower Lia Lqa.
From Stdlib Require Import Floats.SpecFloat.
From stdpp Require Import base tactics strings list option pretty numbers.
From S2P Require Import Prelude JsNumber SafeInteger Shortest.

Local Open Scope Z_scope.

(** * Reading *)

(** The value of a digit. *)
Definition digit_value (c : ascii) : option Z :=
  if digit_char c then Some (Z.of_N (N_of_ascii c) - 48) else None.

(** The digits of [s] appended to the digits of [acc]. *)
Fixpoint read_digits (acc : Z) (s : string) : option Z :=
  match s with
  | EmptyString => Some acc
  | String c s' => d ← digit_value c; read_digits (acc * 10 + d) s'
  end.

Definition nonempty (s : string) : bool :=
  match s with
  | EmptyString => false
  | _ => true
  end.

(** One or more digits. *)
Definition read_integer (s : string) : option Z :=
  if nonempty s then read_digits 0 s else None.

(** The text before the first [c], and the text after it when there is
    one. *)
Fixpoint split_at (c : ascii) (s : string) : string * option string :=
  match s with
  | EmptyString => (EmptyString, None)
  | String a s' =>
      if Ascii.eqb a c then (EmptyString, Some s')
      else let '(l, r) := split_at c s' in (String a l, r)
  end.

(** Digits, then optionally a point and digits: [(d, -f)] for [f] digits
    after the point. *)
Definition read_mantissa (s : string) : option (Z * Z) :=
  let '(ip, fp) := split_at "."%char s in
  _ ← read_integer ip;
  f ← match fp with
      | None => Some EmptyString
      | Some f => if nonempty f then Some f else None
      end;
  d ← read_digits 0 (ip +:+ f);
  Some (d, - Z.of_nat (String.length f)).

(** The exponent: digits with an optional sign. *)
Definition read_exponent (s : string) : option Z :=
  match s with
  | String "+"%char ds => read_integer ds
  | String "-"%char ds => Z.opp <$> read_integer ds
  | _ => read_integer s
  end.

Definition read_decimal (s : string) : option (Z * Z) :=
  let '(mantissa, ex) := split_at "e"%char s in
  '(d, q) ← read_mantissa mantissa;
  x ← match ex with
      | None => Some 0
      | Some t => read_exponent t
      end;
  Some (d, x + q).

Definition read_number (s : string) : option (Z * Z) :=
  match s with
  | String "-"%char t => '(d, x) ← read_decimal t; Some (- d, x)
  | _ => read_decimal s
  end.

(** The decimal that a reading stands for. *)
Definition decimal_value (r : Z * Z) : Q := (inject_Z r.1 * Qpow 10 r.2)%Q.

(** [rounds_to x v]: the real [v] rounds to the finite number [x]. *)
Definition rounds_to (x : number) (v : Q) : bool :=
  match x with
  | S754_zero _ => Qeq_bool v 0
  | S754_finite s m e => rounds_here m e (if s then (- v)%Q else v)
  | _ => false
  end.

(** The characters of a mantissa. *)
Definition mantissa_char (c : ascii) : bool :=
  digit_char c || Ascii.eqb c ".".

(** * Lemmas *)

(** ** Digits *)

Lemma digit_value_pretty (d : N) :
  (d < 10)%N → digit_value (pretty_N_char d) = Some (Z.of_N d).
Proof.
  intros Hd.
  assert (d ∈ [0; 1; 2; 3; 4; 5; 6; 7; 8; 9]%N) as Hin.
  { rewrite !elem_of_cons. lia. }
  rewrite !elem_of_cons, elem_of_nil in Hin.
  by repeat destruct Hin as [->|Hin].
Qed.

Lemma read_digits_app (acc : Z) (a b : string) :
  read_digits acc (a +:+ b) = acc' ← read_digits acc a; read_digits acc' b.
Proof.
  revert acc. induction a as [|c a IH]; intros acc.
  - by rewrite str_app_nil_l.
  - rewrite str_app_cons. simpl. destruct (digit_value c); [apply IH|done].
Qed.

Lemma read_digits_shift (acc : Z) (s : string) :
  read_digits acc s
  = (λ v, acc * 10 ^ Z.of_nat (String.length s) + v) <$> read_digits 0 s.
Proof.
  revert acc. induction s as [|c s IH]; intros acc.
  - simpl. f_equal. lia.
  - cbn [read_digits String.length]. destruct (digit_value c) as [d|]; [|done].
    cbn [mbind option_bind]. rewrite (IH (acc * 10 + d)), (IH (0 * 10 + d)).
    destruct (read_digits 0 s) as [v|]; [|done].
    cbn [fmap option_fmap option_map]. f_equal.
    rewrite Nat2Z.inj_succ, Z.pow_succ_r by lia. lia.
Qed.

Lemma read_digits_pretty_N_go (x : N) :
  read_digits 0 (pretty_N_go x "") = Some (Z.of_N x).
Proof.
  induction (N.lt_wf_0 x) as [x _ IH].
  assert (x = 0 ∨ 0 < x)%N as [->|Hx] by lia; [done|].
  rewrite pretty_N_go_step, pretty_N_go_app, read_digits_app by done.
  rewrite IH by (by apply N.div_lt). simpl.
  rewrite digit_value_pretty by (by apply N.mod_lt). simpl. f_equal.
  rewrite (N.div_mod x 10) at 3 by done. lia.
Qed.

Lemma read_digits_pretty (z : Z) : 0 <= z → read_digits 0 (pretty z) = Some z.
Proof.
  destruct z as [|p|p]; [done| |lia]. intros _.
  change (pretty (Z.pos p)) with (pretty (N.pos p)).
  rewrite pretty_N_pos by lia. apply read_digits_pretty_N_go.
Qed.

Lemma read_digits_zeros (acc : Z) (j : nat) :
  read_digits acc (zeros j) = Some (acc * 10 ^ Z.of_nat j).
Proof.
  revert acc. induction j as [|j IH]; intros acc; [simpl; f_equal; lia|].
  cbn [zeros read_digits]. change (digit_value "0") with (Some 0).
  cbn [mbind option_bind]. rewrite IH. f_equal.
  rewrite Nat2Z.inj_succ, Z.pow_succ_r by lia. lia.
Qed.

Lemma nonempty_length (s : string) :
  nonempty s = true ↔ (0 < String.length s)%nat.
Proof. destruct s; simpl; [split; [done|lia] | split; [lia|done]]. Qed.

Lemma nonempty_pretty (z : Z) : nonempty (pretty z) = true.
Proof.
  pose proof (pretty_Z_not_empty z). by destruct (pretty z).
Qed.

Lemma read_digits_prefix (a b : string) (v : Z) :
  read_digits 0 (a +:+ b) = Some v → is_Some (read_digits 0 a).
Proof.
  rewrite read_digits_app. by destruct (read_digits 0 a); [eexists|].
Qed.

(** ** Prefixes and suffixes *)

Lemma str_take_length (n : nat) (s : string) :
  String.length (str_take n s) = (n `min` String.length s)%nat.
Proof.
  revert s. induction n as [|n IH]; intros [|c s]; simpl; [done..|].
  by rewrite IH.
Qed.

Lemma str_drop_length (n : nat) (s : string) :
  String.length (str_drop n s) = (String.length s - n)%nat.
Proof.
  revert s. induction n as [|n IH]; intros [|c s]; simpl; [done..|].
  by rewrite IH.
Qed.

(** ** Splitting *)

Lemma split_at_absent (P : ascii → bool) (c : ascii) (s : string) :
  P c = false → all_chars P s = true → split_at c s = (s, None).
Proof.
  intros Hc. induction s as [|a s IH]; [done|]. unfold all_chars in *.
  simpl. intros [Ha Hs]%andb_prop.
  destruct (Ascii.eqb_spec a c) as [->|_]; [congruence|]. by rewrite IH.
Qed.

Lemma split_at_app (P : ascii → bool) (c : ascii) (a b : string) :
  P c = false → all_chars P a = true →
  split_at c (a +:+ String c b) = (a, Some b).
Proof.
  intros Hc. induction a as [|x a IH].
  - intros _. rewrite str_app_nil_l. simpl. by rewrite Ascii.eqb_refl.
  - rewrite str_app_cons. unfold all_chars in *. simpl.
    intros [Hx Ha]%andb_prop.
    destruct (Ascii.eqb_spec x c) as [->|_]; [congruence|]. by rewrite IH.
Qed.

Lemma digit_mantissa_char (c : ascii) :
  digit_char c = true → mantissa_char c = true.
Proof. unfold mantissa_char. by intros ->. Qed.

(** ** Mantissa and exponent *)

Lemma read_mantissa_int (D : string) (v : Z) :
  all_chars digit_char D = true → nonempty D = true →
  read_digits 0 D = Some v →
  read_mantissa D = Some (v, 0).
Proof.
  intros HD Hne Hv. unfold read_mantissa, read_integer.
  rewrite (split_at_absent digit_char) by done.
  rewrite Hne, Hv. cbn [mbind option_bind]. by rewrite str_app_nil_r, Hv.
Qed.

Lemma read_mantissa_frac (ip f : string) (v : Z) :
  all_chars digit_char ip = true → nonempty ip = true → nonempty f = true →
  read_digits 0 (ip +:+ f) = Some v →
  read_mantissa (ip +:+ "." +:+ f) = Some (v, - Z.of_nat (String.length f)).
Proof.
  intros Hip Hne Hf Hv. unfold read_mantissa, read_integer.
  change ("." +:+ f) with (String "."%char f).
  rewrite (split_at_app digit_char) by done.
  destruct (read_digits_prefix _ _ _ Hv) as [w Hw].
  rewrite Hne, Hw. cbn [mbind option_bind]. rewrite Hf.
  cbn [mbind option_bind]. by rewrite Hv.
Qed.

Lemma read_exponent_pretty (ex : Z) :
  read_exponent ((if 0 <=? ex then "+" else "-") +:+ pretty (Z.abs ex))
  = Some ex.
Proof.
  destruct (Z.leb_spec 0 ex);
    rewrite str_app_cons, str_app_nil_l; cbn [read_exponent];
    unfold read_integer; rewrite nonempty_pretty, read_digits_pretty by lia;
    simpl; f_equal; lia.
Qed.

Lemma read_decimal_plain (mantissa : string) (r : Z * Z) :
  all_chars mantissa_char mantissa = true →
  read_mantissa mantissa = Some r →
  read_decimal mantissa = Some r.
Proof.
  intros Hm Hr. unfold read_decimal.
  rewrite (split_at_absent mantissa_char), Hr by done. by destruct r.
Qed.

Lemma read_decimal_exp (mantissa t : string) (d q x : Z) :
  all_chars mantissa_char mantissa = true →
  read_mantissa mantissa = Some (d, q) →
  read_exponent t = Some x →
  read_decimal (mantissa +:+ "e" +:+ t) = Some (d, x + q).
Proof.
  intros Hm Hr Hx. unfold read_decimal.
  change ("e" +:+ t) with (String "e"%char t).
  by rewrite (split_at_app mantissa_char), Hr, Hx.
Qed.

(** ** The layouts of [format_digits]

    [D] is a string of digits that reads as [s]. *)

Section Layout.
Variables (D : string) (s : Z).
Hypothesis HD : all_chars digit_char D = true.
Hypothesis Hne : nonempty D = true.
Hypothesis Hread : read_digits 0 D = Some s.

Lemma layout_plain (j : nat) :
  read_decimal (D +:+ zeros j) = Some (s * 10 ^ Z.of_nat j, 0).
Proof.
  assert (all_chars digit_char (D +:+ zeros j) = true) as Hall.
  { by rewrite all_chars_app, HD, all_chars_zeros. }
  apply read_decimal_plain.
  - eapply all_chars_impl, Hall. apply digit_mantissa_char.
  - apply read_mantissa_int; [done| |].
    + apply nonempty_length. rewrite str_app_length.
      apply nonempty_length in Hne. lia.
    + rewrite read_digits_app, Hread. apply read_digits_zeros.
Qed.

Lemma mantissa_point (ip f : string) :
  all_chars digit_char ip = true → all_chars digit_char f = true →
  all_chars mantissa_char (ip +:+ "." +:+ f) = true.
Proof.
  intros Hip Hf. rewrite !all_chars_app.
  rewrite (all_chars_impl _ _ _ digit_mantissa_char Hip).
  by rewrite (all_chars_impl _ _ _ digit_mantissa_char Hf).
Qed.

Lemma read_point (i : nat) :
  (0 < i < String.length D)%nat →
  read_mantissa (str_take i D +:+ "." +:+ str_drop i D)
  = Some (s, - (Z.of_nat (String.length D) - Z.of_nat i)).
Proof.
  intros Hi. destruct (all_chars_take_drop_true _ i D HD) as [Ht Hd].
  rewrite (read_mantissa_frac _ _ s); [|done|..].
  - rewrite str_drop_length. do 2 f_equal. lia.
  - apply nonempty_length. rewrite str_take_length. lia.
  - apply nonempty_length. rewrite str_drop_length. lia.
  - by rewrite str_take_drop.
Qed.

Lemma layout_point (i : nat) :
  (0 < i < String.length D)%nat →
  read_decimal (str_take i D +:+ "." +:+ str_drop i D)
  = Some (s, - (Z.of_nat (String.length D) - Z.of_nat i)).
Proof.
  intros Hi. destruct (all_chars_take_drop_true _ i D HD) as [Ht Hd].
  apply read_decimal_plain; [by apply mantissa_point | by apply read_point].
Qed.

Lemma layout_leading (j : nat) :
  read_decimal ("0." +:+ zeros j +:+ D)
  = Some (s, - (Z.of_nat j + Z.of_nat (String.length D))).
Proof.
  change ("0." +:+ zeros j +:+ D) with ("0" +:+ "." +:+ (zeros j +:+ D)).
  assert (all_chars digit_char (zeros j +:+ D) = true) as Hall.
  { by rewrite all_chars_app, HD, all_chars_zeros. }
  apply read_decimal_plain; [by apply mantissa_point|].
  rewrite (read_mantissa_frac _ _ s); [|done..| |].
  - rewrite str_app_length, zeros_length. do 2 f_equal. lia.
  - apply nonempty_length. rewrite str_app_length.
    apply nonempty_length in Hne. lia.
  - rewrite read_digits_app. change (read_digits 0 "0") with (Some 0).
    cbn [mbind option_bind]. rewrite read_digits_app, read_digits_zeros.
    cbn [mbind option_bind]. by rewrite Z.mul_0_l.
Qed.

Lemma layout_exponent_1 (ex : Z) :
  read_decimal
    (D +:+ "e" +:+ (if 0 <=? ex then "+" else "-") +:+ pretty (Z.abs ex))
  = Some (s, ex + 0).
Proof.
  apply read_decimal_exp; [|by apply read_mantissa_int|].
  - eapply all_chars_impl, HD. apply digit_mantissa_char.
  - apply read_exponent_pretty.
Qed.

Lemma layout_exponent (ex : Z) :
  (1 < String.length D)%nat →
  read_decimal
    (str_take 1 D +:+ "." +:+ str_drop 1 D +:+ "e"
     +:+ (if 0 <=? ex then "+" else "-") +:+ pretty (Z.abs ex))
  = Some (s, ex + - (Z.of_nat (String.length D) - 1)).
Proof.
  intros Hk. destruct (all_chars_take_drop_true _ 1 D HD) as [Ht Hd].
  rewrite (str_app_assoc "." (str_drop 1 D)), (str_app_assoc (str_take 1 D)).
  apply read_decimal_exp; [by apply mantissa_point| |].
  - by rewrite read_point by lia.
  - apply read_exponent_pretty.
Qed.

End Layout.

(** Two readings with the same digits and equal exponents. *)
Ltac same_exponent :=
  unfold decimal_value; cbn [fst snd];
  match goal with
  | |- (_ * Qpow 10 ?a == _ * Qpow 10 ?b)%Q =>
      replace a with b by lia; reflexivity
  end.

(** Every layout of the digits of [s] with decimal exponent [n] reads as
    [s * 10^(n - k)], where [k] is the number of digits. *)
Lemma read_format_digits (s n : Z) :
  0 < s →
  ∃ r, read_decimal (format_digits (pretty s) n) = Some r
       ∧ (decimal_value r
          == inject_Z s * Qpow 10 (n - Z.of_nat (String.length (pretty s))))%Q.
Proof.
  intros Hs. pose proof (pretty_Z_digits s ltac:(lia)) as HD.
  pose proof (nonempty_pretty s) as Hne.
  pose proof (read_digits_pretty s ltac:(lia)) as Hread.
  pose proof (proj1 (nonempty_length _) Hne) as Hlen.
  unfold format_digits. set (D := pretty s) in *.
  set (k := Z.of_nat (String.length D)) in *.
  destruct (Z.leb_spec k n), (Z.leb_spec n 21), (Z.ltb_spec 0 n),
    (Z.ltb_spec (-6) n), (Z.leb_spec n 0), (Z.eqb_spec k 1);
    cbn [andb]; try lia; eexists;
    (split;
     [first [ by apply layout_plain
            | apply layout_point; [done..|lia]
            | by apply layout_leading
            | by apply layout_exponent_1
            | apply layout_exponent; [done..|lia] ]
     | try same_exponent]).
  all: unfold decimal_value; cbn [fst snd]; rewrite Z2Nat.id by lia;
    rewrite inject_Z_mult, <-Qpow_nonneg by lia;
    change (Qpow 10 0) with 1%Q; ring.
Qed.

(** [strip_zeros] keeps the decimal and a positive [s]. *)
Lemma strip_zeros_decimal (fuel : nat) (s q : Z) :
  0 < s →
  (decimal_value (strip_zeros fuel s q) == decimal_value (s, q))%Q
  ∧ 0 < (strip_zeros fuel s q).1.
Proof.
  revert s q. induction fuel as [|fuel IH]; intros s q Hs; [done|].
  simpl. destruct (Z.ltb_spec 0 s) as [_|?]; [|lia].
  destruct (Z.eqb_spec (s mod 10) 0) as [Hmod|_]; [|done]. cbn [andb].
  apply Z.div_exact in Hmod; [|lia].
  destruct (IH (s / 10) (q + 1)) as [Hv Hp]; [lia|]. split; [|done].
  rewrite Hv. unfold decimal_value. cbn [fst snd].
  rewrite Qpow_add by done. change (Qpow 10 1) with 10%Q.
  rewrite Hmod at 2. rewrite inject_Z_mult. change (inject_Z 10) with 10%Q.
  ring.
Qed.

Lemma read_format_shortest (sq : Z * Z) :
  0 < sq.1 →
  ∃ r, read_decimal (format_shortest sq) = Some r
       ∧ (decimal_value r == decimal_value sq)%Q.
Proof.
  intros Hs. unfold format_shortest.
  destruct (strip_zeros_decimal 18 sq.1 sq.2 Hs) as [Hv Hp].
  destruct (strip_zeros 18 sq.1 sq.2) as [s q]. simpl in Hp.
  destruct (read_format_digits s (Z.of_nat (String.length (pretty s)) + q))
    as (r & Hr & Hval); [done|].
  exists r. split; [done|]. rewrite Hval. destruct sq as [s0 q0].
  rewrite <-Hv. same_exponent.
Qed.

(** ** Signs *)

Lemma read_decimal_minus (t : string) : read_decimal (String "-" t) = None.
Proof.
  unfold read_decimal. cbn [split_at]. change (Ascii.eqb "-" "e") with false.
  cbn iota. destruct (split_at "e" t) as [l r].
  unfold read_mantissa. cbn [split_at]. change (Ascii.eqb "-" ".") with false.
  cbn iota. by destruct (split_at "." l) as [ip fp].
Qed.

Lemma read_number_decimal (t : string) (r : Z * Z) :
  read_decimal t = Some r → read_number t = Some r.
Proof.
  destruct t as [|c t]; [done|]. intros Hr. unfold read_number.
  repeat case_match; try done; subst. by rewrite read_decimal_minus in Hr.
Qed.

#[export] Instance rounds_here_proper (m : positive) (e : Z) :
  Proper (Qeq ==> eq) (rounds_here m e).
Proof.
  intros x y Hxy. unfold rounds_here, Qltb.
  destruct (Z.even _); by rewrite Hxy.
Qed.

(** * The numeral of a number reads back to a decimal that rounds to it *)

Lemma read_Number_toString (s : bool) (m : positive) (e : Z) :
  valid (S754_finite s m e) = true →
  ∃ r, read_number (Number_toString (S754_finite s m e)) = Some r
       ∧ rounds_to (S754_finite s m e) (decimal_value r) = true.
Proof.
  intros [Hr Hpos]%shortest_rounds.
  destruct (read_format_shortest (shortest m e) Hpos) as ([d x] & Hread & Hv).
  unfold Number_toString, rounds_to, decimal_value in *. cbn [fst snd] in *.
  destruct s.
  - exists (- d, x). rewrite str_app_cons, str_app_nil_l. cbn [read_number].
    rewrite Hread. split; [done|]. rewrite <-Hr. apply rounds_here_proper.
    rewrite <-Hv. cbn [fst snd]. rewrite inject_Z_opp. ring.
  - exists (d, x). rewrite str_app_nil_l.
    split; [by apply read_number_decimal|]. cbn [fst snd]. by rewrite Hv.
Qed.
