(* ===== verification/Intervals.v ===== *)
(** * Intervals: a decimal rounds to one number only

    Number::toString prints the shortest decimal that rounds to the number
    (Shortest.v), and Decimal.v reads the numeral back as a decimal in the
    rounding interval of the number.  That names the number only if the
    rounding intervals of different numbers do not meet.  This file proves
    it for the intervals of JsNumber.v: the valid binary64 numbers are
    ordered by exponent and then by mantissa, the upper midpoint of a number
    is at or below the lower midpoint of every later number, and where the
    two midpoints coincide one of the two mantissas is odd, so that the tie
    belongs to one number only.  Hence a real rounds to at most one valid
    number ([rounds_to_unique]), and a value has one representation
    ([valid_value_inj]).  The interval of a number is convex and holds the
    number ([rounds_here_convex], [rounds_here_self]). *)

From Stdlib Require Import ZArith QArith Qround Lia Lqa.
From Stdlib Require Import Floats.SpecFloat.
From stdpp Require Import base tactics option.
From S2P Require Import Prelude JsNumber SafeInteger Shortest Decimal.

Local Open Scope Z_scope.

(** * Definitions *)

(** The order of the positive valid numbers: by exponent, then by
    mantissa. *)
Definition before (m1 : positive) (e1 : Z) (m2 : positive) (e2 : Z) : Prop :=
  e1 < e2 ∨ (e1 = e2 ∧ Z.pos m1 < Z.pos m2).

(** * The rounding interval *)

(** Decide every comparison of the goal and close the cases by linear
    arithmetic. *)
Ltac by_comparisons :=
  repeat match goal with
         | |- context [Qle_bool ?a ?b] => destruct (Qle_bool_spec a b)
         end; simpl; intros; try done; lra.

Ltac by_bounds :=
  unfold rounds_here, Qltb; destruct (Z.even _); by_comparisons.

(** The number rounds to itself. *)
Lemma rounds_here_self (m : positive) (e : Z) :
  rounds_here m e (fvalue m e) = true.
Proof.
  pose proof (upper_value m e) as Hu. pose proof (lower_value m e) as Hl.
  pose proof (Qpow_pos 2 (e - 1) eq_refl).
  pose proof (Qpow_pos 2 (e - 2) eq_refl).
  destruct (is_boundary m e); by_bounds.
Qed.

(** The reals that round to a number form an interval. *)
Lemma rounds_here_convex (m : positive) (e : Z) (a b c : Q) :
  rounds_here m e a = true → rounds_here m e b = true →
  (a <= c)%Q → (c <= b)%Q → rounds_here m e c = true.
Proof. by_bounds. Qed.

(** * The shape of a valid number *)

(** The exponent is at least -1074, the mantissa has at most 53 bits, and
    exactly 53 above the least exponent. *)
Lemma valid_shape (s : bool) (m : positive) (e : Z) :
  valid (S754_finite s m e) = true →
  -1074 <= e ∧ Z.pos m < 2 ^ 53 ∧ (-1074 < e → 2 ^ 52 <= Z.pos m).
Proof.
  intros Hv. pose proof (valid_mantissa s m e Hv) as Hm. revert Hv.
  unfold valid, valid_binary, bounded, canonical_mantissa, fexp, prec, emax.
  intros [Hc _]%andb_prop. apply Z.eqb_eq in Hc.
  unfold Zdigits2, emin in Hc. pose proof (digits2_pos_lower m) as Hl.
  split_and!; [lia|done|]. intros He.
  assert (Z.pos (digits2_pos m) = 53) as Hd by lia. by rewrite Hd in Hl.
Qed.

Lemma before_total (m1 : positive) (e1 : Z) (m2 : positive) (e2 : Z) :
  before m1 e1 m2 e2 ∨ (m1 = m2 ∧ e1 = e2) ∨ before m2 e2 m1 e1.
Proof. unfold before. destruct (decide (m1 = m2)); [subst|]; lia. Qed.

(** * Midpoints on a common scale *)

Lemma Qpow_2_scale (j k : Z) :
  k <= j → (Qpow 2 j == inject_Z (2 ^ (j - k)) * Qpow 2 k)%Q.
Proof.
  intros Hk. replace j with ((j - k) + k) at 1 by lia.
  by rewrite Qpow_add, (Qpow_nonneg 2 (j - k)) by lia.
Qed.

Lemma pow2_ge_1 (k : Z) : 0 <= k → 1 <= 2 ^ k.
Proof. intros Hk. pose proof (Z.pow_pos_nonneg 2 k). lia. Qed.

Lemma pow2_ge_2 (k : Z) : 1 <= k → 2 <= 2 ^ k.
Proof. intros Hk. by apply (Z.pow_le_mono_r 2 1 k). Qed.

(** The lower midpoint of a later number, in units of half the spacing of
    the earlier one: it is at or above the upper midpoint [2 m1 + 1], and
    where the two agree one of the mantissas is odd. *)
Lemma midpoints_ordered (s1 s2 : bool) (m1 m2 : positive) (e1 e2 : Z) :
  valid (S754_finite s1 m1 e1) = true →
  valid (S754_finite s2 m2 e2) = true →
  before m1 e1 m2 e2 →
  ∃ L, (lower m2 e2 == inject_Z L * Qpow 2 (e1 - 1))%Q
       ∧ 2 * Z.pos m1 + 1 <= L
       ∧ (2 * Z.pos m1 + 1 = L →
          Z.even (Z.pos m1) && Z.even (Z.pos m2) = false).
Proof.
  intros (He1 & Hm1 & Hn1)%valid_shape (He2 & Hm2 & Hn2)%valid_shape Hb.
  unfold lower, is_boundary, emin, prec, emax.
  change (3 - 1024 - 53) with (-1074). change (53 - 1) with 52.
  destruct Hb as [He|[<- Hm]].
  - specialize (Hn2 ltac:(lia)).
    destruct (Z.eqb_spec (Z.pos m2) (2 ^ 52)) as [Hb|Hb];
      (destruct (Z.ltb_spec (-1074) e2); [|lia]); cbn [andb].
    + pose proof (pow2_ge_1 (e2 - 2 - (e1 - 1)) ltac:(lia)) as Hp.
      exists ((4 * Z.pos m2 - 1) * 2 ^ (e2 - 2 - (e1 - 1))).
      rewrite inject_Z_mult, (Qpow_2_scale (e2 - 2) (e1 - 1)) by lia.
      rewrite Hb. change (2 ^ 52) with 4503599627370496 in *.
      change (2 ^ 53) with 9007199254740992 in *.
      split_and!; [ring|nia|]. intros Heq.
      assert (Z.pos m1 = 9007199254740991) as -> by nia. done.
    + pose proof (pow2_ge_2 (e2 - 1 - (e1 - 1)) ltac:(lia)) as Hp.
      exists ((2 * Z.pos m2 - 1) * 2 ^ (e2 - 1 - (e1 - 1))).
      rewrite inject_Z_mult, (Qpow_2_scale (e2 - 1) (e1 - 1)) by lia.
      change (2 ^ 52) with 4503599627370496 in *.
      change (2 ^ 53) with 9007199254740992 in *.
      split_and!; [ring|nia|nia].
  - destruct (Z.eqb_spec (Z.pos m2) (2 ^ 52)) as [Hb|Hb];
      destruct (Z.ltb_spec (-1074) e1); cbn [andb]; [lia|..];
      (exists (2 * Z.pos m2 - 1); split_and!; [done|lia|]);
      intros Heq; replace (Z.pos m2) with (Z.pos m1 + 1) by lia;
      rewrite Z.even_add; by destruct (Z.even (Z.pos m1)).
Qed.

(** * Disjoint intervals *)

(** No real rounds to a number and to a later one. *)
Lemma intervals_apart (s1 s2 : bool) (m1 m2 : positive) (e1 e2 : Z) (v : Q) :
  valid (S754_finite s1 m1 e1) = true →
  valid (S754_finite s2 m2 e2) = true →
  before m1 e1 m2 e2 →
  rounds_here m1 e1 v = true → rounds_here m2 e2 v = true → False.
Proof.
  intros Hv1 Hv2 Hb.
  destruct (midpoints_ordered s1 s2 m1 m2 e1 e2 Hv1 Hv2 Hb)
    as (L & HL & Hle & Htie).
  pose proof (Qpow_pos 2 (e1 - 1) eq_refl) as Ht.
  unfold rounds_here, Qltb, upper. rewrite HL.
  set (t := Qpow 2 (e1 - 1)) in *. set (U := 2 * Z.pos m1 + 1) in *.
  assert (inject_Z U * t <= inject_Z L * t)%Q as Hab
    by (apply Qmult_le_compat_r; [by rewrite <-Zle_Qle|lra]).
  assert (U < L → (inject_Z U * t < inject_Z L * t)%Q) as Hlt
    by (intros; apply Qmult_lt_compat_r; [done|by rewrite <-Zlt_Qlt]).
  destruct (decide (U = L)) as [Heq|Hne].
  - specialize (Htie Heq). rewrite <-Heq.
    destruct (Z.even (Z.pos m1)), (Z.even (Z.pos m2)); [done|..];
      by_comparisons.
  - specialize (Hlt ltac:(lia)).
    destruct (Z.even (Z.pos m1)), (Z.even (Z.pos m2)); by_comparisons.
Qed.

(** A real rounds to at most one positive valid number. *)
Lemma rounds_here_unique (s1 s2 : bool) (m1 m2 : positive) (e1 e2 : Z)
    (v : Q) :
  valid (S754_finite s1 m1 e1) = true →
  valid (S754_finite s2 m2 e2) = true →
  rounds_here m1 e1 v = true → rounds_here m2 e2 v = true →
  m1 = m2 ∧ e1 = e2.
Proof.
  intros Hv1 Hv2 H1 H2.
  destruct (before_total m1 e1 m2 e2) as [Hb|[?|Hb]]; [|done|];
    exfalso; eauto using intervals_apart.
Qed.

(** A real rounds to at most one valid number, the two zeros counted as
    one. *)
Theorem rounds_to_unique (x y : number) (v : Q) :
  valid x = true → valid y = true →
  rounds_to x v = true → rounds_to y v = true →
  Number_sameValueZero x y = true.
Proof.
  destruct x as [| | |s1 m1 e1], y as [| | |s2 m2 e2]; try done; simpl;
    intros Hv1 Hv2 H1 H2.
  - apply rounds_here_pos in H2. apply Qeq_bool_eq in H1.
    destruct s2; rewrite ?H1 in H2; lra.
  - apply rounds_here_pos in H1. apply Qeq_bool_eq in H2.
    destruct s1; rewrite ?H2 in H1; lra.
  - destruct s1, s2; simpl;
      try (apply rounds_here_pos in H1; apply rounds_here_pos in H2; lra);
      destruct (rounds_here_unique false false _ _ _ _ _ Hv1 Hv2 H1 H2)
        as [-> ->];
      by rewrite !bool_decide_eq_true_2.
Qed.

(** For a finite number the other is the same number. *)
Corollary rounds_to_finite (s : bool) (m : positive) (e : Z) (y : number)
    (v : Q) :
  valid (S754_finite s m e) = true → valid y = true →
  rounds_to (S754_finite s m e) v = true → rounds_to y v = true →
  y = S754_finite s m e.
Proof.
  intros Hx Hy H1 H2.
  pose proof (rounds_to_unique _ _ v Hx Hy H1 H2) as Hs.
  destruct y; try done. simpl in Hs.
  apply andb_prop in Hs as [[?%bool_decide_eq_true ?%bool_decide_eq_true]%andb_prop
                              ?%bool_decide_eq_true].
  by subst.
Qed.

(** Different valid numbers have different values: the representation of a
    value by a mantissa and an exponent is unique. *)
Corollary valid_value_inj (s1 s2 : bool) (m1 m2 : positive) (e1 e2 : Z) :
  valid (S754_finite s1 m1 e1) = true →
  valid (S754_finite s2 m2 e2) = true →
  (fvalue m1 e1 == fvalue m2 e2)%Q → m1 = m2 ∧ e1 = e2.
Proof.
  intros Hv1 Hv2 Heq.
  apply (rounds_here_unique s1 s2 m1 m2 e1 e2 (fvalue m1 e1) Hv1 Hv2);
    [apply rounds_here_self|].
  rewrite (rounds_here_proper m2 e2 _ _ Heq). apply rounds_here_self.
Qed.
