(* ===== verification/Minimal.v ===== *)
(** * Minimal: Number::toString prints the fewest digits

    ECMAScript defines the digits of Number::toString by a property: the
    decimal [s * 10^(n-k)] rounds to the number and [k], the count of its
    digits, is as small as possible.  [shortest] is a search: for each
    digit count from 1 it looks at the two decimals [a * 10^(n-k)] and
    [(a+1) * 10^(n-k)] that enclose the number, with [n] the decimal
    exponent of the number itself.  This file proves that the search
    implements the definition.  The rounding interval is convex and holds
    the number, so if any decimal with [k] digits rounds to the number, one
    of the two that enclose it does ([candidate_complete]); a decimal on a
    finer or coarser grid is on the grid of the search or beyond a power of
    ten that is ([decimal_on_grid]).  Hence no decimal with fewer digits
    than [shortest] rounds to the number ([shortest_fewest]), and among the
    decimals with that many digits none is nearer ([candidate_nearest]). *)

From Stdlib Require Import ZArith QArith Qround Qabs Lia Lqa.
From Stdlib Require Import Floats.SpecFloat.
From stdpp Require Import base tactics strings option pretty.
From S2P Require Import Prelude JsNumber SafeInteger Shortest Decimal Intervals.

Local Open Scope Z_scope.

(** * Definitions *)

(** [d * 10^q] is a decimal of at most [k] digits that rounds to the
    number. *)
Definition rounding_decimal (m : positive) (e : Z) (k d q : Z) : Prop :=
  1 <= k ∧ 0 < d < 10 ^ k ∧ rounds_here m e (inject_Z d * Qpow 10 q) = true.

(** The digits of ECMAScript's Number::toString (step 5): integers [n],
    [k] and [s] with [k >= 1] and [10^(k-1) <= s < 10^k] such that
    [s * 10^(n-k)] rounds to the number and [k] is as small as possible. *)
Definition es_digits (m : positive) (e : Z) (n k s : Z) : Prop :=
  1 <= k ∧ 10 ^ (k - 1) <= s < 10 ^ k
  ∧ rounds_here m e (inject_Z s * Qpow 10 (n - k)) = true
  ∧ ∀ k' d q, rounding_decimal m e k' d q → k <= k'.

(** * Powers of ten *)

Lemma Qpow_10_mono (a b : Z) : a <= b → (Qpow 10 a <= Qpow 10 b)%Q.
Proof.
  intros Hab. pose proof (Qpow_10_antitone b 0 (b - a) ltac:(lia)) as H.
  by replace (b - (b - a)) with a in H by lia; rewrite Z.sub_0_r in H.
Qed.

Lemma Qpow_10_split (j k : Z) :
  0 <= j → (inject_Z (10 ^ j) * Qpow 10 k == Qpow 10 (j + k))%Q.
Proof. intros Hj. by rewrite Qpow_add, (Qpow_nonneg 10 j). Qed.

(** * The decimal exponent

    A binary64 number is no negative power of ten: its denominator is a
    power of two. *)

Lemma pow2_mod5 (k : Z) : 0 <= k → 2 ^ k mod 5 ≠ 0.
Proof.
  intros Hk. assert (0 < 2 ^ k mod 5 < 5); [|lia].
  revert k Hk. apply natlike_ind; [done|]. intros k Hk IH.
  rewrite Z.pow_succ_r, <-Z.mul_mod_idemp_r by lia.
  set (r := 2 ^ k mod 5) in *.
  assert (r = 1 ∨ r = 2 ∨ r = 3 ∨ r = 4) as [-> | [-> | [-> | ->]]] by lia;
    by compute.
Qed.

Lemma fvalue_not_tenth (m : positive) (e j : Z) :
  1 <= j → ¬ (fvalue m e * inject_Z (10 ^ j) == 1)%Q.
Proof.
  intros Hj Heq.
  assert (10 ^ j = 10 * 10 ^ (j - 1)) as Hten
    by (rewrite <-Z.pow_succ_r by lia; f_equal; lia).
  assert (0 < 10 ^ (j - 1)) as Hp by (apply Z.pow_pos_nonneg; lia).
  destruct (Z.le_gt_cases 0 e) as [He|He].
  - rewrite fvalue_nonneg_exp, <-inject_Z_mult in Heq by done.
    assert (Z.pos m * 2 ^ e * 10 ^ j = 1) as Hz
      by (apply inject_Z_eq; exact Heq).
    assert (0 < 2 ^ e) by (apply Z.pow_pos_nonneg; lia).
    assert (1 <= Z.pos m * 2 ^ e) by nia.
    assert (1 <= Z.pos m * 2 ^ e * 10 ^ (j - 1)) by nia.
    rewrite Hten in Hz. lia.
  - assert (0 < 2 ^ (- e)) as Hd by (apply Z.pow_pos_nonneg; lia).
    rewrite fvalue_neg_exp in Heq by lia.
    assert (inject_Z (Z.pos m * 10 ^ j) / inject_Z (2 ^ (- e)) == inject_Z 1)%Q
      as Hq by (rewrite inject_Z_mult, <-Heq; field; Qz).
    pose proof (proj1 (Qdiv_eq_Z _ _ 1 Hd) Hq) as Hz. rewrite Hten in Hz.
    apply (pow2_mod5 (- e)); [lia|].
    replace (2 ^ (- e)) with (Z.pos m * 10 ^ (j - 1) * 2 * 5) by lia.
    apply Z.mod_mul. lia.
Qed.

(** The number is below the power of ten of its decimal exponent. *)
Lemma dec_exponent_upper (m : positive) (e : Z) :
  (fvalue m e < Qpow 10 (dec_exponent m e))%Q.
Proof.
  unfold dec_exponent. pose proof (fvalue_pos m e) as Hpos.
  pose proof (fvalue_not_tenth m e) as Hten.
  set (v := fvalue m e) in *.
  destruct (Qle_bool_spec 1 v) as [H1|H1].
  - pose proof (Qfloor_ge_1 v H1) as Hz.
    destruct (int_digits_spec (Qfloor v)) as [_ Hu]; [lia|].
    pose proof (int_digits_pos (Qfloor v) ltac:(lia)).
    rewrite Qpow_nonneg by lia.
    eapply Qlt_le_trans; [apply Qlt_floor|]. rewrite <-Zle_Qle. lia.
  - assert (1 <= / v)%Q as Hw by (apply Qle_shift_inv_l; [done|lra]).
    pose proof (Qfloor_ge_1 _ Hw) as Hz.
    destruct (int_digits_spec (Qfloor (/ v))) as [Hl _]; [lia|].
    pose proof (int_digits_pos (Qfloor (/ v)) ltac:(lia)).
    set (d := int_digits (Qfloor (/ v))) in *.
    rewrite Qpow_neg by lia. replace (- (1 - d)) with (d - 1) by lia.
    assert (0 < 10 ^ (d - 1)) as Hp by (apply Z.pow_pos_nonneg; lia).
    assert (inject_Z (10 ^ (d - 1)) <= / v)%Q as Hle.
    { eapply Qle_trans; [|apply Qfloor_le]. by rewrite <-Zle_Qle. }
    assert (0 < inject_Z (10 ^ (d - 1)))%Q as Hq by Qz.
    apply (Qmult_le_compat_r _ _ v) in Hle; [|lra].
    assert (/ v * v == 1)%Q as Heq by (field; lra). rewrite Heq in Hle.
    apply Qlt_shift_inv_l; [done|].
    destruct (Qlt_le_dec (v * inject_Z (10 ^ (d - 1))) 1) as [|Hge]; [done|].
    exfalso. assert (v * inject_Z (10 ^ (d - 1)) == 1)%Q as Hone by lra.
    destruct (decide (d = 1)) as [Hd|Hd].
    + rewrite Hd in Hone. change (inject_Z (10 ^ (1 - 1))) with 1%Q in Hone.
      lra.
    + apply (Hten (d - 1)); [lia|done].
Qed.

(** * The candidates are all that can round to the number *)

(** If any decimal on the grid of [k] digits rounds to the number, one of
    the two that enclose the number does. *)
Lemma candidate_complete (m : positive) (e n k g : Z) :
  rounds_here m e (inject_Z g * Qpow 10 (n - k)) = true →
  is_Some (candidate m e n k).
Proof.
  intros Hg. unfold candidate.
  destruct (Qfloor_scale (fvalue m e) (Qpow 10 (n - k))) as [Hlo Hhi];
    [by apply Qpow_pos|].
  pose proof (Qpow_pos 10 (n - k) eq_refl) as Ht.
  pose proof (rounds_here_self m e) as Hv.
  set (a := Qfloor _) in *. set (t := Qpow 10 (n - k)) in *.
  assert (rounds_here m e (inject_Z a * t) = true
          ∨ rounds_here m e (inject_Z (a + 1) * t) = true) as Hor.
  { destruct (Z.le_gt_cases g a) as [Hga|Hga].
    - left. apply (rounds_here_convex m e (inject_Z g * t) (fvalue m e));
        [done|done| |done].
      apply Qmult_le_compat_r; [by rewrite <-Zle_Qle|lra].
    - right. apply (rounds_here_convex m e (fvalue m e) (inject_Z g * t));
        [done|done|lra|].
      apply Qmult_le_compat_r; [rewrite <-Zle_Qle; lia|lra]. }
  destruct (rounds_here m e (inject_Z a * t)),
    (rounds_here m e (inject_Z (a + 1) * t)); repeat case_match; try done.
  by destruct Hor.
Qed.

(** A decimal of at most [k] digits that rounds to the number gives one on
    the grid of the search: itself, when its exponent is on the grid, and
    otherwise the power of ten between it and the number. *)
Lemma decimal_on_grid (m : positive) (e k d q : Z) :
  rounding_decimal m e k d q →
  ∃ g, rounds_here m e (inject_Z g * Qpow 10 (dec_exponent m e - k)) = true.
Proof.
  intros (Hk & Hd & Hr). set (n := dec_exponent m e).
  destruct (Z.le_gt_cases (n - k) q) as [Hq|Hq].
  - exists (d * 10 ^ (q - (n - k))). rewrite <-Hr.
    apply rounds_here_proper.
    rewrite inject_Z_mult, <-Qmult_assoc, Qpow_10_split by lia.
    by replace (q - (n - k) + (n - k)) with q by lia.
  - exists (10 ^ (k - 1)).
    apply (rounds_here_convex m e (inject_Z d * Qpow 10 q) (fvalue m e));
      [done|apply rounds_here_self|..];
      rewrite Qpow_10_split by lia; replace (k - 1 + (n - k)) with (n - 1)
        by lia; [|apply dec_exponent_lower].
    pose proof (Qpow_pos 10 q eq_refl) as Ht.
    apply Qle_trans with (inject_Z (10 ^ k) * Qpow 10 q)%Q.
    + apply Qmult_le_compat_r; [rewrite <-Zle_Qle; lia|lra].
    + rewrite Qpow_10_split by lia. apply Qpow_10_mono. lia.
Qed.

(** * The digits of a candidate *)

(** A candidate on the grid of [k] digits has [k] digits, or is [10^k]. *)
Lemma candidate_digits (m : positive) (e k s q : Z) :
  1 <= k → candidate m e (dec_exponent m e) k = Some (s, q) →
  10 ^ (k - 1) <= s <= 10 ^ k.
Proof.
  intros Hk Hc. set (n := dec_exponent m e) in *.
  pose proof (dec_exponent_lower m e) as Hl.
  pose proof (dec_exponent_upper m e) as Hu. fold n in Hl, Hu.
  destruct (Qfloor_scale (fvalue m e) (Qpow 10 (n - k))) as [Hlo Hhi];
    [by apply Qpow_pos|].
  pose proof (Qpow_pos 10 (n - k) eq_refl) as Ht.
  assert (s = Qfloor (fvalue m e / Qpow 10 (n - k))
          ∨ s = Qfloor (fvalue m e / Qpow 10 (n - k)) + 1) as Hs.
  { unfold candidate in Hc. repeat case_match; simplify_eq; auto. }
  set (a := Qfloor _) in *. set (t := Qpow 10 (n - k)) in *.
  pose proof (Qpow_10_split (k - 1) (n - k) ltac:(lia)) as Hl'.
  pose proof (Qpow_10_split k (n - k) ltac:(lia)) as Hu'.
  replace (k - 1 + (n - k)) with (n - 1) in Hl' by lia.
  replace (k + (n - k)) with n in Hu' by lia.
  rewrite <-Hl' in Hl. rewrite <-Hu' in Hu. fold t in Hl, Hu.
  assert (a < 10 ^ k).
  { apply Z.lt_nge. intros Hge. rewrite Zle_Qle in Hge.
    apply (Qmult_le_compat_r _ _ t) in Hge; lra. }
  assert (10 ^ (k - 1) < a + 1).
  { apply Z.lt_nge. intros Hge. rewrite Zle_Qle in Hge.
    apply (Qmult_le_compat_r _ _ t) in Hge; lra. }
  lia.
Qed.

(** * The digits of [shortest] are the fewest *)

(** The first digit count with a candidate is at most the digit count of
    any decimal that rounds to the number. *)
Lemma search_minimal (m : positive) (e j k d q : Z) :
  (∀ i, 1 <= i < j → candidate m e (dec_exponent m e) i = None) →
  rounding_decimal m e k d q → j <= k.
Proof.
  intros Hmin Hd. destruct (Z.le_gt_cases j k) as [|Hlt]; [done|].
  destruct (decimal_on_grid m e k d q Hd) as [g Hg].
  apply candidate_complete in Hg as [r Hr].
  rewrite Hmin in Hr; [done|]. destruct Hd. lia.
Qed.

(** No decimal with fewer digits than those of [shortest] rounds to the
    number: whenever a decimal of at most [k] digits does, the search has
    stopped at a count [j] of at most [k], and its digits are [j] digits or
    the power [10^j]. *)
Theorem shortest_fewest (s : bool) (m : positive) (e k d q : Z) :
  valid (S754_finite s m e) = true → rounding_decimal m e k d q →
  ∃ j, 1 <= j <= k
       ∧ candidate m e (dec_exponent m e) j = Some (shortest m e)
       ∧ 10 ^ (j - 1) <= (shortest m e).1 <= 10 ^ j.
Proof.
  intros Hv Hd. destruct (shortest_search s m e Hv) as (j & Hj & Hc & Hmin).
  exists j. pose proof (search_minimal m e j k d q Hmin Hd).
  split; [lia|]. split; [done|].
  destruct (shortest m e) as [s' q']. eapply candidate_digits; [|done]. lia.
Qed.

(** ** The digits printed are the digits of the definition *)

(** With the fewest digits the last digit is not zero. *)
Lemma fewest_last_digit (m : positive) (e j s q : Z) :
  1 <= j → 10 ^ (j - 1) <= s < 10 ^ j →
  rounds_here m e (inject_Z s * Qpow 10 q) = true →
  (∀ k' d' q', rounding_decimal m e k' d' q' → j <= k') →
  s mod 10 ≠ 0.
Proof.
  intros Hj Hs Hr Hmin Hmod. apply Z.div_exact in Hmod; [|lia].
  destruct (decide (j = 1)) as [->|Hne]; [simpl in Hs; lia|].
  assert (10 ^ j = 10 * 10 ^ (j - 1)) as Hten
    by (rewrite <-Z.pow_succ_r by lia; f_equal; lia).
  assert (j <= j - 1); [|lia].
  apply (Hmin (j - 1) (s / 10) (q + 1)). split_and!; [lia..|].
  rewrite <-Hr. apply rounds_here_proper.
  rewrite Hmod at 2. rewrite inject_Z_mult, Qpow_add by done.
  change (Qpow 10 1) with 10%Q. change (inject_Z 10) with 10%Q. ring.
Qed.

Lemma strip_zeros_last_digit (fuel : nat) (s q : Z) :
  s mod 10 ≠ 0 → strip_zeros fuel s q = (s, q).
Proof.
  intros Hs. destruct fuel as [|fuel]; [done|]. simpl.
  destruct (Z.eqb_spec (s mod 10) 0); [done|]. by rewrite andb_false_r.
Qed.

(** The digits that [Number_toString] lays out are digits of the
    definition: [shortest], with its trailing zeros removed, is a triple
    [n], [k], [d] of ECMAScript's step 5. *)
Theorem shortest_es_digits (s : bool) (m : positive) (e : Z) :
  valid (S754_finite s m e) = true →
  ∃ n k d, es_digits m e n k d
           ∧ strip_zeros 18 (shortest m e).1 (shortest m e).2 = (d, n - k).
Proof.
  intros Hv. destruct (shortest_search s m e Hv) as (j & Hj & Hc & Hmin).
  assert (∀ k d q, rounding_decimal m e k d q → j <= k) as Hfew
    by (intros k d q; by apply search_minimal).
  destruct (shortest m e) as [a q]. cbn [fst snd].
  pose proof (candidate_digits m e j a q ltac:(lia) Hc) as Ha.
  apply candidate_sound in Hc as [Hr ->].
  set (n := dec_exponent m e) in *.
  destruct (decide (a = 10 ^ j)) as [->|Hne].
  - assert (rounds_here m e (inject_Z 1 * Qpow 10 n) = true) as H1.
    { rewrite <-Hr. apply rounds_here_proper.
      rewrite Qpow_10_split by lia. replace (j + (n - j)) with n by lia.
      change (inject_Z 1) with 1%Q. ring. }
    assert (j = 1) as ->
      by (pose proof (Hfew 1 1 n ltac:(by split_and!)); lia).
    exists (n + 1), 1, 1. split; [|simpl; do 2 f_equal; lia].
    split_and!; [done..| |by intros k' d' q' [? _]].
    by replace (n + 1 - 1) with n by lia.
  - exists n, j, a. split; [by split_and!; [lia|lia|lia|..]|].
    apply strip_zeros_last_digit.
    by apply (fewest_last_digit m e j a (n - j)); [lia|lia|..].
Qed.

(** * The digits of a candidate are the nearest *)

(** Among the decimals on the grid that round to the number, none is
    nearer to it than the candidate. *)
Theorem candidate_nearest (m : positive) (e n k s q g : Z) :
  candidate m e n k = Some (s, q) →
  rounds_here m e (inject_Z g * Qpow 10 (n - k)) = true →
  (Qabs (fvalue m e - inject_Z s * Qpow 10 (n - k))
   <= Qabs (fvalue m e - inject_Z g * Qpow 10 (n - k)))%Q.
Proof.
  intros Hc Hg.
  destruct (Qfloor_scale (fvalue m e) (Qpow 10 (n - k))) as [Hlo Hhi];
    [by apply Qpow_pos|].
  pose proof (Qpow_pos 10 (n - k) eq_refl) as Ht.
  pose proof (rounds_here_self m e) as Hv.
  unfold candidate in Hc. cbv zeta in Hc.
  set (a := Qfloor _) in *. set (t := Qpow 10 (n - k)) in *.
  set (v := fvalue m e) in *.
  assert (inject_Z (a + 1) * t == inject_Z a * t + t)%Q as Hb
    by (rewrite inject_Z_plus; change (inject_Z 1) with 1%Q; ring).
  apply Qabs_Qle_condition.
  destruct (Z.le_gt_cases g a) as [Hga|Hga].
  - assert (inject_Z g * t <= inject_Z a * t)%Q as HG
      by (apply Qmult_le_compat_r; [by rewrite <-Zle_Qle|lra]).
    rewrite (rounds_here_convex m e (inject_Z g * t) v (inject_Z a * t))
      in Hc by done.
    rewrite (Qabs_pos (v - inject_Z g * t)) by lra.
    destruct (rounds_here m e (inject_Z (a + 1) * t));
      [destruct (Qcompare_spec (v - inject_Z a * t)
                   (inject_Z (a + 1) * t - v)); [destruct (Z.even a)|..]|];
      simplify_eq; lra.
  - assert (inject_Z (a + 1) * t <= inject_Z g * t)%Q as HG
      by (apply Qmult_le_compat_r; [rewrite <-Zle_Qle; lia|lra]).
    rewrite (rounds_here_convex m e v (inject_Z g * t) (inject_Z (a + 1) * t))
      in Hc by (done || lra).
    rewrite (Qabs_neg (v - inject_Z g * t)) by lra.
    destruct (rounds_here m e (inject_Z a * t));
      [destruct (Qcompare_spec (v - inject_Z a * t)
                   (inject_Z (a + 1) * t - v)); [destruct (Z.even a)|..]|];
      simplify_eq; lra.
Qed.

(** * Number::toString and the definition *)

Lemma int_digits_unique (d k : Z) :
  1 <= k → 10 ^ (k - 1) <= d < 10 ^ k → int_digits d = k.
Proof.
  intros Hk Hd. assert (0 < 10 ^ (k - 1)) by (apply Z.pow_pos_nonneg; lia).
  destruct (int_digits_spec d ltac:(lia)) as [Hl Hu].
  pose proof (int_digits_pos d ltac:(lia)).
  destruct (Z.lt_trichotomy (int_digits d) k) as [Hlt|[Heq|Hlt]]; [|done|].
  - pose proof (Z.pow_le_mono_r 10 (int_digits d) (k - 1)). lia.
  - pose proof (Z.pow_le_mono_r 10 k (int_digits d - 1)). lia.
Qed.

(** The numeral of a valid finite number is the layout of digits of the
    definition: the sign, then [format_digits] on the decimal numeral of
    [d] and the exponent [n], for a triple [n], [k], [d] of ECMAScript's
    step 5. *)
Theorem Number_toString_es_digits (s : bool) (m : positive) (e : Z) :
  valid (S754_finite s m e) = true →
  ∃ n k d, es_digits m e n k d
           ∧ Number_toString (S754_finite s m e)
             = (if s then "-" else "") +:+ format_digits (pretty d) n.
Proof.
  intros (n & k & d & Hes & Hs)%shortest_es_digits. exists n, k, d.
  split; [done|]. destruct Hes as (Hk & Hd & _).
  cbn [Number_toString]. unfold format_shortest. rewrite Hs.
  fold (int_digits d). rewrite (int_digits_unique d k) by done.
  by replace (k + (n - k)) with n by lia.
Qed.
