(* ===== verification/JsValue.v ===== *)
(** * JsValue: the values of an untyped argument

    [request.params.arguments] has type [any].  What reaches the handler is
    a value that [JSON.parse] produced, or [undefined] when the request
    carries no arguments; [value] has one constructor per kind.  An object is
    a finite map from property names to values (a JSON object keeps the last
    of two equal keys, so a map loses nothing).

    The operations are the ones the type guards and the handler apply:
    [typeof], property read, [=== undefined], [!== null], ToBoolean (the test
    of [if (body)]), ToString (the conversion of [${title}]) and
    [Array.prototype.includes]. *)

From Stdlib Require Import Ascii String ZArith.
From Stdlib Require Import Floats.SpecFloat.
From stdpp Require Import base tactics strings list option gmap.
From S2P Require Import Prelude JsNumber.

(** ** Values *)

#[warnings="-register-all"]
Inductive value : Type :=
| VUndefined
| VNull
| VBool (b : bool)
| VNum (x : number)
| VStr (s : string)
| VArr (elems : list value)
| VObj (props : gmap string value).

(** An object literal, from its properties in source order (a later
    property replaces an earlier one of the same name). *)
Definition obj (props : list (string * value)) : value :=
  VObj (list_to_map (reverse props)).

Definition num (z : Z) : value := VNum (number_of_Z z).

(** ** Operators *)

(** The [typeof] operator.  [null] and arrays are objects. *)
Definition typeof (v : value) : string :=
  match v with
  | VUndefined => "undefined"
  | VNull => "object"
  | VBool _ => "boolean"
  | VNum _ => "number"
  | VStr _ => "string"
  | VArr _ => "object"
  | VObj _ => "object"
  end.

(** [v.k] for a property name [k] that is neither [length] nor an array
    index (the program reads [title], [body], [base], [head], [draft],
    [state], [limit] and [number]): the property of an object, [undefined]
    when the object has none, and [undefined] on arrays and primitives,
    which carry no property of such a name.  The guards read a property only
    behind [typeof args === 'object' && args !== null], so the read never
    meets [null] or [undefined]. *)
Definition get (v : value) (k : string) : value :=
  match v with
  | VObj props => default VUndefined (props !! k)
  | _ => VUndefined
  end.

(** [v === undefined]. *)
Definition is_undefined (v : value) : bool :=
  match v with
  | VUndefined => true
  | _ => false
  end.

(** [v === null]. *)
Definition is_null (v : value) : bool :=
  match v with
  | VNull => true
  | _ => false
  end.

(** ToBoolean, the test an [if] applies to its condition. *)
Definition truthy (v : value) : bool :=
  match v with
  | VUndefined | VNull => false
  | VBool b => b
  | VNum x => Number_truthy x
  | VStr s => negb (String.eqb s "")
  | VArr _ | VObj _ => true
  end.

(** ToString, the conversion a template literal applies to [${v}].  An
    array is its elements joined by commas, [null] and [undefined] elements
    left empty. *)
Fixpoint ToString (v : value) : string :=
  match v with
  | VUndefined => "undefined"
  | VNull => "null"
  | VBool b => if b then "true" else "false"
  | VNum x => Number_toString x
  | VStr s => s
  | VArr elems =>
      String.concat ","
        (List.map (λ x, match x with
                        | VUndefined | VNull => ""
                        | _ => ToString x
                        end) elems)
  | VObj _ => "[object Object]"
  end.

(** SameValueZero of a primitive [x] with [v], the comparison of
    [Array.prototype.includes].  An object or an array is equal only to
    itself, never to a primitive. *)
Definition sameValueZero (x v : value) : bool :=
  match x, v with
  | VUndefined, VUndefined => true
  | VNull, VNull => true
  | VBool a, VBool b => bool_decide (a = b)
  | VNum a, VNum b => Number_sameValueZero a b
  | VStr a, VStr b => String.eqb a b
  | _, _ => false
  end.

(** [l.includes(v)] for an array literal [l] of primitives. *)
Definition includes (l : list value) (v : value) : bool :=
  existsb (λ x, sameValueZero x v) l.

(** Decide a [typeof] test by cases on the value. *)
Ltac typeof_cases v :=
  destruct v;
  (split;
   [ intros H; vm_compute in H; first [discriminate H | eauto]
   | intros H; repeat destruct H as [H|H]; destruct H;
     first [discriminate | reflexivity] ]).

(** Read the properties of an object literal [obj [...]]. *)
Ltac obj_simpl :=
  unfold obj; cbn [reverse rev_append];
  rewrite ?list_to_map_cons, ?list_to_map_nil; cbn [fst snd];
  repeat (rewrite lookup_insert; case_decide; [try done|try done]);
  rewrite ?lookup_empty; cbn [default from_option id];
  repeat match goal with H : @eq string _ _ |- _ => clear H
                       | H : not (@eq string _ _) |- _ => clear H end.

(** * Lemmas *)

Lemma typeof_string (v : value) :
  String.eqb (typeof v) "string" = true ↔ ∃ s, v = VStr s.
Proof. typeof_cases v. Qed.

Lemma typeof_number (v : value) :
  String.eqb (typeof v) "number" = true ↔ ∃ x, v = VNum x.
Proof. typeof_cases v. Qed.

Lemma typeof_boolean (v : value) :
  String.eqb (typeof v) "boolean" = true ↔ ∃ b, v = VBool b.
Proof. typeof_cases v. Qed.

Lemma typeof_object (v : value) :
  String.eqb (typeof v) "object" && negb (is_null v) = true
  ↔ (∃ l, v = VArr l) ∨ (∃ m, v = VObj m).
Proof. typeof_cases v. Qed.

Lemma is_undefined_spec (v : value) : is_undefined v = true ↔ v = VUndefined.
Proof. by destruct v. Qed.

Lemma get_obj_insert (m : gmap string value) (k k' : string) (v : value) :
  get (VObj (<[k := v]> m)) k' = if decide (k = k') then v else get (VObj m) k'.
Proof. simpl. rewrite lookup_insert. by case_decide. Qed.

Lemma get_obj_insert_ne (m : gmap string value) (k k' : string) (v : value) :
  k ≠ k' → get (VObj (<[k := v]> m)) k' = get (VObj m) k'.
Proof. intros. rewrite get_obj_insert. by case_decide. Qed.

Lemma get_obj_delete_ne (m : gmap string value) (k k' : string) :
  k ≠ k' → get (VObj (delete k m)) k' = get (VObj m) k'.
Proof. intros. simpl. by rewrite lookup_delete_ne. Qed.

Lemma get_obj_delete (m : gmap string value) (k k' : string) :
  get (VObj (delete k m)) k'
  = if decide (k = k') then VUndefined else get (VObj m) k'.
Proof. simpl. rewrite lookup_delete. by case_decide. Qed.

Lemma get_obj_empty (k : string) : get (VObj ∅) k = VUndefined.
Proof. done. Qed.

Lemma get_array (l : list value) (k : string) : get (VArr l) k = VUndefined.
Proof. done. Qed.

Lemma truthy_string (s : string) : truthy (VStr s) = true ↔ s ≠ "".
Proof.
  simpl. rewrite negb_true_iff. split.
  - by intros ?%String.eqb_neq.
  - by intros ?%String.eqb_neq.
Qed.

Lemma truthy_undefined (v : value) : is_undefined v = true → truthy v = false.
Proof. by destruct v. Qed.

Lemma ToString_string (s : string) : ToString (VStr s) = s.
Proof. done. Qed.

Lemma includes_strings (l : list string) (v : value) :
  includes (VStr <$> l) v = true ↔ ∃ s, v = VStr s ∧ s ∈ l.
Proof.
  unfold includes. rewrite existsb_exists. split.
  - intros (x & Hin & Heq). apply list_elem_of_In, list_elem_of_fmap in Hin
      as (s & -> & Hs).
    destruct v; simpl in Heq; try done. apply String.eqb_eq in Heq as ->. eauto.
  - intros (s & -> & Hs). exists (VStr s). split.
    + apply list_elem_of_In, list_elem_of_fmap. eauto.
    + simpl. apply String.eqb_refl.
Qed.

#[export] Hint Rewrite get_array get_obj_empty ToString_string : str_simp.

(** Read the properties of an object after inserts and deletes at literal
    keys. *)
Ltac get_simpl :=
  rewrite ?get_obj_insert, ?get_obj_delete;
  repeat (case_decide; [try done|try done]).
