(* ===== verification/Validators.v ===== *)
(** * Validators: the four type guards

    [isValidCreatePrArgs], [isValidListPrArgs], [isValidViewPrArgs] and
    [isValidCommentPrArgs] (src/src/index.ts, lines 36-96) are boolean
    functions of an untyped value, written here conjunct by conjunct.  The
    TypeScript interfaces they narrow to (lines 28-85) are records, one
    module each, and [narrow_create] and its siblings read a value into its
    record: the typed view of a validated argument set.

    The theorems characterise each guard field by field, show that the guard
    accepts exactly the values that narrow, that properties outside a tool's
    field list never matter, and record what the guards accept beyond the
    table of the specification (arrays) and reject within it (a missing
    argument object for [list_prs]). *)

From Stdlib Require Import Ascii String ZArith.
From Stdlib Require Import Floats.SpecFloat.
From stdpp Require Import base tactics strings list option gmap.
From S2P Require Import Prelude JsNumber JsValue.

(** ** The interfaces *)

Module CreatePrArgs.
Record t : Type := mk {
  title : string;
  body : option string;
  base : option string;
  head : option string;
  draft : option bool;
}.
End CreatePrArgs.

Module ListPrArgs.
Inductive State : Type := Open | Closed | Merged | All.

Definition state_name (s : State) : string :=
  match s with
  | Open => "open"
  | Closed => "closed"
  | Merged => "merged"
  | All => "all"
  end.

Record t : Type := mk {
  state : option State;
  base : option string;
  limit : option number;
}.
End ListPrArgs.

Module ViewPrArgs.
Record t : Type := mk { number : number }.
End ViewPrArgs.

Module CommentPrArgs.
Record t : Type := mk {
  number : number;
  body : string;
}.
End CommentPrArgs.

(** ** The guards *)

Definition isValidCreatePrArgs (args : value) : bool :=
  String.eqb (typeof args) "object" &&
  negb (is_null args) &&
  String.eqb (typeof (get args "title")) "string" &&
  (is_undefined (get args "body")
   || String.eqb (typeof (get args "body")) "string") &&
  (is_undefined (get args "base")
   || String.eqb (typeof (get args "base")) "string") &&
  (is_undefined (get args "head")
   || String.eqb (typeof (get args "head")) "string") &&
  (is_undefined (get args "draft")
   || String.eqb (typeof (get args "draft")) "boolean").

(** The array literal [['open', 'closed', 'merged', 'all']]. *)
Definition state_names : list string := ["open"; "closed"; "merged"; "all"].

Definition isValidListPrArgs (args : value) : bool :=
  String.eqb (typeof args) "object" &&
  negb (is_null args) &&
  (is_undefined (get args "state")
   || includes (VStr <$> state_names) (get args "state")) &&
  (is_undefined (get args "base")
   || String.eqb (typeof (get args "base")) "string") &&
  (is_undefined (get args "limit")
   || String.eqb (typeof (get args "limit")) "number").

(** [Number.isInteger] and [>] applied to a value the guard has found to be
    a number; on any other value both are false. *)
Definition isInteger (v : value) : bool :=
  match v with
  | VNum x => Number_isInteger x
  | _ => false
  end.

Definition gt0 (v : value) : bool :=
  match v with
  | VNum x => Number_gt0 x
  | _ => false
  end.

Definition isValidViewPrArgs (args : value) : bool :=
  String.eqb (typeof args) "object" &&
  negb (is_null args) &&
  String.eqb (typeof (get args "number")) "number" &&
  isInteger (get args "number") &&
  gt0 (get args "number").

Definition isValidCommentPrArgs (args : value) : bool :=
  String.eqb (typeof args) "object" &&
  negb (is_null args) &&
  String.eqb (typeof (get args "number")) "number" &&
  isInteger (get args "number") &&
  gt0 (get args "number") &&
  String.eqb (typeof (get args "body")) "string".

(** ** The property names each guard reads *)

Definition create_fields : list string :=
  ["title"; "body"; "base"; "head"; "draft"].
Definition list_fields : list string := ["state"; "base"; "limit"].
Definition view_fields : list string := ["number"].
Definition comment_fields : list string := ["number"; "body"].

(** Two values agree on a field list when they are of the same kind as far
    as [typeof] and [=== null] can tell and hold the same value in every
    listed property. *)
Definition agree_on (fields : list string) (a b : value) : Prop :=
  typeof a = typeof b ∧ is_null a = is_null b ∧
  ∀ k, k ∈ fields → get a k = get b k.

(** ** Narrowing to the interfaces *)

Definition as_string (v : value) : option string :=
  match v with
  | VStr s => Some s
  | _ => None
  end.

Definition as_bool (v : value) : option bool :=
  match v with
  | VBool b => Some b
  | _ => None
  end.

Definition as_number (v : value) : option number :=
  match v with
  | VNum x => Some x
  | _ => None
  end.

Definition as_state (v : value) : option ListPrArgs.State :=
  match v with
  | VStr s =>
      if String.eqb s "open" then Some ListPrArgs.Open
      else if String.eqb s "closed" then Some ListPrArgs.Closed
      else if String.eqb s "merged" then Some ListPrArgs.Merged
      else if String.eqb s "all" then Some ListPrArgs.All
      else None
  | _ => None
  end.

(** A positive integer, as a pull-request number has to be. *)
Definition as_id (v : value) : option number :=
  match v with
  | VNum x => if Number_isInteger x && Number_gt0 x then Some x else None
  | _ => None
  end.

(** An optional property: absent, or of the type [read] recognises. *)
Definition optional {A : Type} (read : value → option A) (v : value)
  : option (option A) :=
  match v with
  | VUndefined => Some None
  | _ => Some <$> read v
  end.

(** [typeof args === 'object' && args !== null]. *)
Definition is_object (args : value) : bool :=
  String.eqb (typeof args) "object" && negb (is_null args).

Definition narrow_create (args : value) : option CreatePrArgs.t :=
  if is_object args then
    title ← as_string (get args "title");
    body ← optional as_string (get args "body");
    base ← optional as_string (get args "base");
    head ← optional as_string (get args "head");
    draft ← optional as_bool (get args "draft");
    Some (CreatePrArgs.mk title body base head draft)
  else None.

Definition narrow_list (args : value) : option ListPrArgs.t :=
  if is_object args then
    state ← optional as_state (get args "state");
    base ← optional as_string (get args "base");
    limit ← optional as_number (get args "limit");
    Some (ListPrArgs.mk state base limit)
  else None.

Definition narrow_view (args : value) : option ViewPrArgs.t :=
  if is_object args then
    number ← as_id (get args "number");
    Some (ViewPrArgs.mk number)
  else None.

Definition narrow_comment (args : value) : option CommentPrArgs.t :=
  if is_object args then
    number ← as_id (get args "number");
    body ← as_string (get args "body");
    Some (CommentPrArgs.mk number body)
  else None.

(** * Lemmas *)

(** ** One conjunct at a time *)

Lemma is_object_spec (args : value) :
  is_object args = true ↔ (∃ l, args = VArr l) ∨ (∃ m, args = VObj m).
Proof. apply typeof_object. Qed.

Lemma string_conjunct (v : value) :
  String.eqb (typeof v) "string" = true ↔ is_Some (as_string v).
Proof. rewrite typeof_string. destruct v; split; intros [? ?]; by eauto. Qed.

Lemma opt_string_conjunct (v : value) :
  is_undefined v || String.eqb (typeof v) "string" = true
  ↔ is_Some (optional as_string v).
Proof.
  rewrite orb_true_iff, typeof_string.
  destruct v; split; intros H; simpl in *; try (by eauto);
    by destruct H as [?|[? ?]] || by destruct H.
Qed.

Lemma opt_bool_conjunct (v : value) :
  is_undefined v || String.eqb (typeof v) "boolean" = true
  ↔ is_Some (optional as_bool v).
Proof.
  rewrite orb_true_iff, typeof_boolean.
  destruct v; split; intros H; simpl in *; try (by eauto);
    by destruct H as [?|[? ?]] || by destruct H.
Qed.

Lemma opt_number_conjunct (v : value) :
  is_undefined v || String.eqb (typeof v) "number" = true
  ↔ is_Some (optional as_number v).
Proof.
  rewrite orb_true_iff, typeof_number.
  destruct v; split; intros H; simpl in *; try (by eauto);
    by destruct H as [?|[? ?]] || by destruct H.
Qed.

Lemma as_state_spec (v : value) (s : ListPrArgs.State) :
  as_state v = Some s ↔ v = VStr (ListPrArgs.state_name s).
Proof.
  destruct v as [| | | |x| |]; simpl; try (split; [done | by destruct s]).
  split.
  - repeat (case_match; bool_to_prop); intros; by simplify_eq.
  - intros [= ->]. by destruct s.
Qed.

Lemma opt_state_conjunct (v : value) :
  is_undefined v || includes (VStr <$> state_names) v = true
  ↔ is_Some (optional as_state v).
Proof.
  rewrite orb_true_iff, includes_strings, is_undefined_spec. split.
  - intros [->|(s & -> & Hs)]; [by eexists|].
    unfold state_names in Hs. rewrite !elem_of_cons, elem_of_nil in Hs.
    destruct Hs as [->|[->|[->|[->|[]]]]]; by eexists.
  - destruct v as [| | | |x| |]; cbv beta iota delta [optional];
      try (by intros []); [by left|].
    intros [o Ho]. right. apply fmap_Some in Ho as (s & Hs%as_state_spec & _).
    exists x. split; [done|]. simplify_eq. destruct s; simpl;
      unfold state_names; rewrite !elem_of_cons; tauto.
Qed.

Lemma id_conjunct (v : value) :
  String.eqb (typeof v) "number" = true ∧ isInteger v = true ∧ gt0 v = true
  ↔ is_Some (as_id v).
Proof.
  destruct v as [| | |x| | |]; simpl;
    try (split; [by intros [? _] | by intros []]).
  destruct (Number_isInteger x), (Number_gt0 x); simpl;
    (split; [by eauto || by intros (_ & ? & ?) | done || by intros []]).
Qed.

Lemma id_conjunct_then (v : value) (R : Prop) :
  String.eqb (typeof v) "number" = true ∧ isInteger v = true ∧
    gt0 v = true ∧ R
  ↔ is_Some (as_id v) ∧ R.
Proof. rewrite <-id_conjunct. tauto. Qed.

(** ** The guards accept exactly what narrows *)

Ltac guard_narrow :=
  intros; unfold is_object;
  rewrite <-?andb_assoc;
  rewrite ?andb_true_iff, ?id_conjunct_then, ?id_conjunct, ?string_conjunct,
    ?opt_string_conjunct, ?opt_bool_conjunct, ?opt_number_conjunct,
    ?opt_state_conjunct;
  repeat match goal with
    | |- context [String.eqb (typeof ?a) "object"] =>
        destruct (String.eqb (typeof a) "object")
    | |- context [negb (is_null ?a)] => destruct (negb (is_null a))
    | |- context [optional ?r (get ?a ?k)] => destruct (optional r (get a k))
    | |- context [as_string (get ?a ?k)] => destruct (as_string (get a k))
    | |- context [as_id (get ?a ?k)] => destruct (as_id (get a k))
    end; simpl;
  split; intros H; destruct_and?; try done;
  try by (eauto || destruct H || (repeat split; eauto)).

Lemma isValidCreatePrArgs_narrow (args : value) :
  isValidCreatePrArgs args = true ↔ is_Some (narrow_create args).
Proof. unfold isValidCreatePrArgs, narrow_create. guard_narrow. Qed.

Lemma isValidListPrArgs_narrow (args : value) :
  isValidListPrArgs args = true ↔ is_Some (narrow_list args).
Proof. unfold isValidListPrArgs, narrow_list. guard_narrow. Qed.

Lemma isValidViewPrArgs_narrow (args : value) :
  isValidViewPrArgs args = true ↔ is_Some (narrow_view args).
Proof. unfold isValidViewPrArgs, narrow_view. guard_narrow. Qed.

Lemma isValidCommentPrArgs_narrow (args : value) :
  isValidCommentPrArgs args = true ↔ is_Some (narrow_comment args).
Proof. unfold isValidCommentPrArgs, narrow_comment. guard_narrow. Qed.

(** ** Narrowed records *)

Lemma as_id_positive (v : value) (x : number) :
  as_id v = Some x → v = VNum x ∧ ∃ p, Number_toZ x = Some (Z.pos p).
Proof.
  destruct v as [| | |y| | |]; simpl; try done.
  destruct (Number_isInteger y && Number_gt0 y) eqn:E; [|done].
  intros [= <-]. split; [done|]. by apply Number_positive_integer.
Qed.

Lemma as_id_intro (x : number) (p : positive) :
  Number_toZ x = Some (Z.pos p) → as_id (VNum x) = Some x.
Proof.
  intros H. simpl.
  by rewrite (proj2 (Number_positive_integer x) (ex_intro _ p H)).
Qed.

(** ** Agreement on a field list *)

#[export] Instance agree_on_equivalence (fields : list string) :
  Equivalence (agree_on fields).
Proof.
  split.
  - by intros a.
  - intros a b (? & ? & Hg). repeat split; [done..|].
    intros k Hk. symmetry. by apply Hg.
  - intros a b c (? & ? & Hab) (? & ? & Hbc).
    repeat split; [congruence..|]. intros k Hk. rewrite Hab by done. by apply Hbc.
Qed.

(** Membership of a literal in a literal list. *)
Ltac field_in := apply list_elem_of_In; simpl; auto 10.

(** A guard or a builder reads its argument through [typeof], [is_null]
    and [get] on listed fields only. *)
Ltac by_agreement :=
  let Ht := fresh in let Hn := fresh in let Hg := fresh in
  intros ? ? (Ht & Hn & Hg);
  repeat match goal with
    | |- context [get ?a ?k] =>
        lazymatch type of Hg with
        | ∀ _, _ → get a _ = _ => rewrite (Hg k) by field_in
        end
    end;
  rewrite ?Ht, ?Hn; reflexivity.

#[export] Instance isValidCreatePrArgs_proper :
  Proper (agree_on create_fields ==> eq) isValidCreatePrArgs.
Proof. unfold isValidCreatePrArgs. by_agreement. Qed.

#[export] Instance isValidListPrArgs_proper :
  Proper (agree_on list_fields ==> eq) isValidListPrArgs.
Proof. unfold isValidListPrArgs. by_agreement. Qed.

#[export] Instance isValidViewPrArgs_proper :
  Proper (agree_on view_fields ==> eq) isValidViewPrArgs.
Proof. unfold isValidViewPrArgs. by_agreement. Qed.

#[export] Instance isValidCommentPrArgs_proper :
  Proper (agree_on comment_fields ==> eq) isValidCommentPrArgs.
Proof. unfold isValidCommentPrArgs. by_agreement. Qed.

Lemma agree_on_insert (fields : list string) (m : gmap string value)
    (k : string) (v : value) :
  k ∉ fields → agree_on fields (VObj (<[k := v]> m)) (VObj m).
Proof.
  intros Hk. repeat split; [done..|]. intros k' Hk'.
  apply get_obj_insert_ne. by intros ->.
Qed.

Lemma agree_on_delete (fields : list string) (m : gmap string value)
    (k : string) :
  k ∉ fields → agree_on fields (VObj (delete k m)) (VObj m).
Proof.
  intros Hk. repeat split; [done..|]. intros k' Hk'.
  apply get_obj_delete_ne. by intros ->.
Qed.

(** * The guards, field by field *)

(** C28: [isValidCreatePrArgs] accepts exactly the values that narrow to a
    [CreatePrArgs] record: a non-null object whose [title] is a string and
    whose [body], [base], [head] and [draft] are each absent or of their
    declared type (string, string, string, boolean). *)
Theorem isValidCreatePrArgs_iff (args : value) :
  isValidCreatePrArgs args = true ↔
  ∃ a, narrow_create args = Some a.
Proof. apply isValidCreatePrArgs_narrow. Qed.

(** C29: [isValidListPrArgs] accepts exactly the values that narrow to a
    [ListPrArgs] record: a non-null object whose [state] is absent or one of
    [open], [closed], [merged], [all], whose [base] is absent or a string,
    and whose [limit] is absent or a number. *)
Theorem isValidListPrArgs_iff (args : value) :
  isValidListPrArgs args = true ↔
  ∃ a, narrow_list args = Some a.
Proof. apply isValidListPrArgs_narrow. Qed.

(** C27: [isValidViewPrArgs] accepts exactly the objects whose [number]
    property is a number with a positive integer value. *)
Theorem isValidViewPrArgs_iff (args : value) :
  isValidViewPrArgs args = true ↔
  ∃ m x p, args = VObj m ∧ m !! "number" = Some (VNum x) ∧
           Number_toZ x = Some (Z.pos p).
Proof.
  rewrite isValidViewPrArgs_narrow. unfold narrow_view. split.
  - intros [a Ha]. destruct (is_object args) eqn:Hobj; [|done].
    apply bind_Some in Ha as (x & [Hx (p & Hp)]%as_id_positive & _).
    apply is_object_spec in Hobj as [[l ->]|[m ->]]; [done|].
    exists m, x, p. unfold get in Hx.
    destruct (m !! "number") as [v|]; simpl in Hx; [by subst|done].
  - intros (m & x & p & -> & Hm & Hp). simpl. rewrite Hm. simpl.
    apply (as_id_intro x p) in Hp. simpl in Hp. rewrite Hp. by eexists.
Qed.

(** C30: [isValidCommentPrArgs] accepts exactly the objects whose [number]
    property is a number with a positive integer value and whose [body]
    property is a string. *)
Theorem isValidCommentPrArgs_iff (args : value) :
  isValidCommentPrArgs args = true ↔
  ∃ m x p s, args = VObj m ∧ m !! "number" = Some (VNum x) ∧
             Number_toZ x = Some (Z.pos p) ∧ m !! "body" = Some (VStr s).
Proof.
  rewrite isValidCommentPrArgs_narrow. unfold narrow_comment. split.
  - intros [a Ha]. destruct (is_object args) eqn:Hobj; [|done].
    apply bind_Some in Ha as (x & [Hx (p & Hp)]%as_id_positive & Ha).
    apply bind_Some in Ha as (s & Hs & _).
    apply is_object_spec in Hobj as [[l ->]|[m ->]]; [done|].
    exists m, x, p, s. unfold get in Hx, Hs.
    destruct (m !! "number") as [v|], (m !! "body") as [[]|];
      simpl in Hx, Hs; by simplify_eq.
  - intros (m & x & p & s & -> & Hm & Hp & Hs). simpl. rewrite Hm, Hs. simpl.
    apply (as_id_intro x p) in Hp. simpl in Hp. rewrite Hp. by eexists.
Qed.

(** A property that is not one of [title], [body], [base], [head],
    [draft] never changes the verdict of [isValidCreatePrArgs]: unknown
    fields are ignored, not rejected. *)
Theorem isValidCreatePrArgs_extra_field (m : gmap string value) (k : string)
    (v : value) :
  k ∉ create_fields →
  isValidCreatePrArgs (VObj (<[k := v]> m)) = isValidCreatePrArgs (VObj m).
Proof. intros Hk. by rewrite (agree_on_insert create_fields m k v Hk). Qed.

(** * What the guards accept and reject at the edges *)

(** Every array passes [isValidListPrArgs]: [typeof] of an array is
    ['object'] and every property the guard reads is [undefined] on it. *)
Theorem isValidListPrArgs_array (l : list value) :
  isValidListPrArgs (VArr l) = true.
Proof. done. Qed.

(** A request without an argument object ([arguments] is [undefined])
    fails [isValidListPrArgs], although [list_prs] has no required field. *)
Theorem isValidListPrArgs_undefined : isValidListPrArgs VUndefined = false.
Proof. done. Qed.

Example create_rejects :
  map isValidCreatePrArgs
    [VNull; VUndefined; VStr "title"; obj [];
     obj [("title", num 1)];
     obj [("title", VStr "T"); ("body", VNull)];
     obj [("title", VStr "T"); ("draft", VStr "true")];
     VArr [VStr "T"]]
  = [false; false; false; false; false; false; false; false].
Proof. vm_compute. reflexivity. Qed.

Example list_state_enum :
  map (λ s, isValidListPrArgs (obj [("state", VStr s)]))
    ["open"; "closed"; "merged"; "all"; "OPEN"; "draft"; ""]
  = [true; true; true; true; false; false; false].
Proof. vm_compute. reflexivity. Qed.

Example view_numbers :
  map (λ v, isValidViewPrArgs (obj [("number", v)]))
    [num 1; num 123; num 0; num (-1); VNum (dec 3 2); VStr "5"; VNum S754_nan;
     VNum (S754_infinity false); VNull; num (2 ^ 53); num (10 ^ 21)]
  = [true; true; false; false; false; false; false; false; false; true; true].
Proof. vm_compute. reflexivity. Qed.

Example comment_rejects :
  map isValidCommentPrArgs
    [obj [("number", num 1)]; obj [("body", VStr "x")];
     obj [("number", num 1); ("body", VStr "")];
     obj [("number", VStr "1"); ("body", VStr "x")]]
  = [false; false; true; false].
Proof. vm_compute. reflexivity. Qed.

(** * The theorems at concrete arguments *)

Lemma isValidCreatePrArgs_extra_field_witness :
  isValidCreatePrArgs (VObj (<["labels" := VStr "bug"]> {["title" := VStr "T"]}))
  = isValidCreatePrArgs (VObj {["title" := VStr "T"]}).
Proof.
  apply isValidCreatePrArgs_extra_field. unfold create_fields.
  rewrite !elem_of_cons, elem_of_nil. intros [?|[?|[?|[?|[?|[]]]]]]; discriminate.
Defined.
