(* ===== verification/Builders.v ===== *)
(** * Builders: the command strings

    Each case of the tool handler destructures the validated argument value
    and assembles the argument string of [gh] with template literals and
    [if (field) command += ...] (src/src/index.ts, lines 225-231, 267-272,
    308-309 and 345-346).  [create_pr_command] and its siblings are those
    statements, with ToBoolean for the tests and ToString for the
    interpolations.

    [spec_create] and its siblings are the templates of the specification
    over the typed records: one flag for every optional field that is
    present.  The theorems relate the two (they coincide when no optional
    text field is empty and [limit] is neither zero nor NaN), exhibit the
    inputs on which they differ, and show that the interpolation between
    double quotes is not injective. *)

From Stdlib Require Import Ascii String ZArith.
From Stdlib Require Import Floats.SpecFloat.
From stdpp Require Import base tactics strings list option gmap.
From Stdlib Require Import Lia.
From stdpp Require Import pretty.
From S2P Require Import Prelude JsNumber SafeInteger JsValue Validators.

(** ** The builders of the handler *)

Definition create_pr_command (args : value) : string :=
  let title := get args "title" in
  let body := get args "body" in
  let base := get args "base" in
  let head := get args "head" in
  let draft := get args "draft" in
  let command := "pr create --title " +:+ quoted (ToString title) in
  let command :=
    if truthy body then command +:+ " --body " +:+ quoted (ToString body)
    else command in
  let command :=
    if truthy base then command +:+ " --base " +:+ quoted (ToString base)
    else command in
  let command :=
    if truthy head then command +:+ " --head " +:+ quoted (ToString head)
    else command in
  let command :=
    if truthy draft then command +:+ " --draft" else command in
  command.

Definition list_prs_command (args : value) : string :=
  let state := get args "state" in
  let base := get args "base" in
  let limit := get args "limit" in
  let command := "pr list" in
  let command :=
    if truthy state then command +:+ " --state " +:+ ToString state
    else command in
  let command :=
    if truthy base then command +:+ " --base " +:+ ToString base
    else command in
  let command :=
    if truthy limit then command +:+ " --limit " +:+ ToString limit
    else command in
  command.

Definition view_pr_command (args : value) : string :=
  let number := get args "number" in
  "pr view " +:+ ToString number.

Definition comment_pr_command (args : value) : string :=
  let number := get args "number" in
  let body := get args "body" in
  "pr comment " +:+ ToString number +:+ " --body " +:+ quoted (ToString body).

(** ** The templates of the specification *)

(** A flag with a value, for an optional field that is present. *)
Definition opt_flag {A : Type} (flag : string) (show : A → string)
    (field : option A) : string :=
  match field with
  | Some x => flag +:+ show x
  | None => ""
  end.

(** A bare flag, for a boolean field that is true. *)
Definition bare_flag (flag : string) (field : option bool) : string :=
  match field with
  | Some true => flag
  | _ => ""
  end.

Definition spec_create (a : CreatePrArgs.t) : string :=
  "pr create --title " +:+ quoted (CreatePrArgs.title a)
  +:+ opt_flag " --body " quoted (CreatePrArgs.body a)
  +:+ opt_flag " --base " quoted (CreatePrArgs.base a)
  +:+ opt_flag " --head " quoted (CreatePrArgs.head a)
  +:+ bare_flag " --draft" (CreatePrArgs.draft a).

Definition spec_list (a : ListPrArgs.t) : string :=
  "pr list"
  +:+ opt_flag " --state " ListPrArgs.state_name (ListPrArgs.state a)
  +:+ opt_flag " --base " id (ListPrArgs.base a)
  +:+ opt_flag " --limit " Number_toString (ListPrArgs.limit a).

Definition spec_view (a : ViewPrArgs.t) : string :=
  "pr view " +:+ Number_toString (ViewPrArgs.number a).

Definition spec_comment (a : CommentPrArgs.t) : string :=
  "pr comment " +:+ Number_toString (CommentPrArgs.number a)
  +:+ " --body " +:+ quoted (CommentPrArgs.body a).

(** The argument sets on which the handler's truthiness tests and the
    specification's presence tests agree. *)
Definition no_empty (field : option string) : Prop := field ≠ Some "".

Definition create_regular (a : CreatePrArgs.t) : Prop :=
  no_empty (CreatePrArgs.body a) ∧ no_empty (CreatePrArgs.base a) ∧
  no_empty (CreatePrArgs.head a).

Definition list_regular (a : ListPrArgs.t) : Prop :=
  no_empty (ListPrArgs.base a) ∧
  ∀ x, ListPrArgs.limit a = Some x → Number_truthy x = true.

(** ** The arguments of the worked examples *)

Definition readme_create : value :=
  obj [("title", VStr "Add new feature");
       ("body", VStr "This PR adds feature X");
       ("base", VStr "main");
       ("head", VStr "feature/x");
       ("draft", VBool true)].

Definition readme_create_args : CreatePrArgs.t :=
  CreatePrArgs.mk "Add new feature" (Some "This PR adds feature X")
    (Some "main") (Some "feature/x") (Some true).

Definition readme_list : value := obj [("state", VStr "open"); ("limit", num 5)].

Definition readme_list_args : ListPrArgs.t :=
  ListPrArgs.mk (Some ListPrArgs.Open) None (Some (number_of_Z 5)).

(** * Lemmas *)

Lemma append_if (c : bool) (command s : string) :
  (if c then command +:+ s else command) = command +:+ flag_if c s.
Proof. destruct c; simpl; [done | by rewrite str_app_nil_r]. Qed.

(** ** One field at a time: the handler's flag against the template's *)

Lemma title_fragment (v : value) (s : string) :
  as_string v = Some s → ToString v = s.
Proof. destruct v; by intros [= ->]. Qed.

Lemma string_flag (v : value) (o : option string) (flag : string)
    (show : string → string) :
  optional as_string v = Some o → no_empty o →
  flag_if (truthy v) (flag +:+ show (ToString v)) = opt_flag flag show o.
Proof.
  destruct v as [| | | |s| |]; intros [= <-]; [done|]. intros Hs. simpl.
  destruct (String.eqb_spec s ""); [by subst|done].
Qed.

Lemma plain_flag (v : value) (o : option string) (flag : string) :
  optional as_string v = Some o → no_empty o →
  flag_if (truthy v) (flag +:+ ToString v) = opt_flag flag id o.
Proof. apply (string_flag v o flag id). Qed.

Lemma state_flag (v : value) (o : option ListPrArgs.State) (flag : string) :
  optional as_state v = Some o →
  flag_if (truthy v) (flag +:+ ToString v)
  = opt_flag flag ListPrArgs.state_name o.
Proof.
  destruct v as [| | | |s| |]; cbv beta iota delta [optional];
    [by intros [= <-]|try done..].
  - intros (st & Hst%as_state_spec & ->)%fmap_Some. simplify_eq.
    by destruct st.
Qed.

Lemma number_flag (v : value) (o : option number) (flag : string) :
  optional as_number v = Some o →
  (∀ x, o = Some x → Number_truthy x = true) →
  flag_if (truthy v) (flag +:+ ToString v) = opt_flag flag Number_toString o.
Proof.
  destruct v as [| | |x| | |]; intros [= <-]; [done|]. intros Hx. simpl.
  by rewrite (Hx x).
Qed.

Lemma bool_flag (v : value) (o : option bool) (flag : string) :
  optional as_bool v = Some o → flag_if (truthy v) flag = bare_flag flag o.
Proof. destruct v as [| |[]| | | |]; by intros [= <-]. Qed.

(** Read the equations of the fields off a successful narrowing. *)
Ltac narrowed H :=
  unfold narrow_create, narrow_list, narrow_view, narrow_comment in H;
  case_match; [|done]; simplify_option_eq.

(** ** The handler's command is the template's *)

(** The command of [create_pr] on regular arguments. *)
Lemma create_pr_template (args : value) (a : CreatePrArgs.t) :
  narrow_create args = Some a → create_regular a →
  create_pr_command args = spec_create a.
Proof.
  intros H (Hbody & Hbase & Hhead). narrowed H.
  unfold create_pr_command, spec_create. simpl in *. rewrite !append_if.
  rewrite <-!str_app_assoc.
  erewrite title_fragment, !(string_flag _ _ _ quoted), bool_flag; done.
Qed.

(** The command of [list_prs] on regular arguments. *)
Lemma list_prs_template (args : value) (a : ListPrArgs.t) :
  narrow_list args = Some a → list_regular a →
  list_prs_command args = spec_list a.
Proof.
  intros H (Hbase & Hlimit). narrowed H.
  unfold list_prs_command, spec_list. simpl in *. rewrite !append_if.
  rewrite <-!str_app_assoc.
  erewrite state_flag, plain_flag, number_flag; done.
Qed.

(** C11: for arguments that narrow to the record [a] with no empty [body],
    [base] or [head], the command the [create_pr] case builds is the
    template of the specification: the quoted title, then [--body],
    [--base], [--head] with their quoted values for the fields present, in
    this order, then [--draft] when [draft] is [true]. *)
Theorem create_pr_command_spec (args : value) (a : CreatePrArgs.t) :
  narrow_create args = Some a → create_regular a →
  create_pr_command args = spec_create a.
Proof. apply create_pr_template. Qed.

(** C12: for arguments that narrow to the record [a] with no empty [base]
    and a [limit] that is neither zero nor NaN, the command the [list_prs]
    case builds is [pr list] followed by [--state], [--base] and [--limit]
    with their unquoted values for the fields present, in this order. *)
Theorem list_prs_command_spec (args : value) (a : ListPrArgs.t) :
  narrow_list args = Some a → list_regular a →
  list_prs_command args = spec_list a.
Proof. apply list_prs_template. Qed.

(** For arguments that narrow to the record [a], the command the
    [view_pr] case builds is [pr view] followed by the number as
    Number::toString prints it. *)
Theorem view_pr_command_spec (args : value) (a : ViewPrArgs.t) :
  narrow_view args = Some a → view_pr_command args = spec_view a.
Proof.
  intros H. narrowed H. unfold view_pr_command, spec_view. simpl.
  by match goal with H : as_id _ = Some _ |- _ =>
    apply as_id_positive in H as [-> _] end.
Qed.

(** For arguments that narrow to the record [a], the command the
    [comment_pr] case builds is [pr comment], the number, [--body] and the
    body between double quotes, also when the body is empty. *)
Theorem comment_pr_command_spec (args : value) (a : CommentPrArgs.t) :
  narrow_comment args = Some a → comment_pr_command args = spec_comment a.
Proof.
  intros H. narrowed H. unfold comment_pr_command, spec_comment. simpl.
  erewrite (title_fragment (get args "body")) by done.
  by match goal with H : as_id _ = Some _ |- _ =>
    apply as_id_positive in H as [-> _] end.
Qed.

(** ** The shape of a command: a prefix, then one fragment per truthy field *)

Lemma create_pr_command_flags (args : value) :
  create_pr_command args =
  "pr create --title " +:+ quoted (ToString (get args "title"))
  +:+ flag_if (truthy (get args "body"))
        (" --body " +:+ quoted (ToString (get args "body")))
  +:+ flag_if (truthy (get args "base"))
        (" --base " +:+ quoted (ToString (get args "base")))
  +:+ flag_if (truthy (get args "head"))
        (" --head " +:+ quoted (ToString (get args "head")))
  +:+ flag_if (truthy (get args "draft")) " --draft".
Proof. unfold create_pr_command. by rewrite !append_if, <-!str_app_assoc. Qed.

Lemma list_prs_command_flags (args : value) :
  list_prs_command args =
  "pr list"
  +:+ flag_if (truthy (get args "state"))
        (" --state " +:+ ToString (get args "state"))
  +:+ flag_if (truthy (get args "base"))
        (" --base " +:+ ToString (get args "base"))
  +:+ flag_if (truthy (get args "limit"))
        (" --limit " +:+ ToString (get args "limit")).
Proof. unfold list_prs_command. by rewrite !append_if, <-!str_app_assoc. Qed.

(** ** Agreement on the field list *)

#[export] Instance create_pr_command_proper :
  Proper (agree_on create_fields ==> eq) create_pr_command.
Proof. unfold create_pr_command. by_agreement. Qed.

#[export] Instance list_prs_command_proper :
  Proper (agree_on list_fields ==> eq) list_prs_command.
Proof. unfold list_prs_command. by_agreement. Qed.

#[export] Instance view_pr_command_proper :
  Proper (agree_on view_fields ==> eq) view_pr_command.
Proof. unfold view_pr_command. by_agreement. Qed.

#[export] Instance comment_pr_command_proper :
  Proper (agree_on comment_fields ==> eq) comment_pr_command.
Proof. unfold comment_pr_command. by_agreement. Qed.

(** ** Present but falsy *)

(** C38: a [body] that is present but falsy (the empty string among the
    values the guard accepts) adds no [--body] flag: [create_pr] builds the
    command of the arguments without the property. *)
Theorem create_pr_falsy_body (m : gmap string value) (v : value) :
  truthy v = false →
  create_pr_command (VObj (<["body" := v]> m))
  = create_pr_command (VObj (delete "body" m)).
Proof.
  intros Hv. rewrite !create_pr_command_flags. get_simpl. by rewrite Hv.
Qed.

(** C39: a [limit] that is present but falsy (zero and NaN among the values
    the guard accepts) adds no [--limit] flag: [list_prs] builds the command
    of the arguments without the property. *)
Theorem list_prs_falsy_limit (m : gmap string value) (v : value) :
  truthy v = false →
  list_prs_command (VObj (<["limit" := v]> m))
  = list_prs_command (VObj (delete "limit" m)).
Proof.
  intros Hv. rewrite !list_prs_command_flags. get_simpl. by rewrite Hv.
Qed.

(** ** A request with a title alone *)

Lemma create_pr_command_title (t : string) :
  create_pr_command (obj [("title", VStr t)])
  = "pr create --title " +:+ quoted t.
Proof.
  rewrite create_pr_command_flags. simpl get. obj_simpl. simpl.
  by rewrite !str_app_nil_r.
Qed.

(** ** The interpolation between quotes is not injective *)

(** The title is interpolated between double quotes without escaping,
    so a double quote in it ends the quotation: a request with the single
    field [title] set to [t" --body "b] builds the very command of the
    request with title [t] and body [b].  The command line does not determine
    the arguments, and a title can introduce flags. *)
Theorem create_pr_command_not_injective (t b : string) :
  b ≠ "" →
  create_pr_command
    (obj [("title", VStr (t +:+ DQ +:+ " --body " +:+ DQ +:+ b))])
  = create_pr_command (obj [("title", VStr t); ("body", VStr b)]).
Proof.
  intros Hb%truthy_string. rewrite !create_pr_command_flags.
  simpl get. obj_simpl. rewrite Hb. simpl. unfold quoted.
  by rewrite !str_app_nil_r, <-!str_app_assoc.
Qed.

(** ** The characters of a validated number *)

Lemma as_id_chars (v : value) (x : number) :
  as_id v = Some x → all_chars number_char (ToString v) = true.
Proof.
  intros [-> [p Hp]]%as_id_positive. simpl. by eapply Number_toString_id_chars.
Qed.

(** On arguments that [isValidViewPrArgs] accepts, the command of
    [view_pr] is [pr view] and a space followed only by characters of a
    numeral (digits, [.], [e], [+], [-]): no quote, space or other character
    that the shell interprets. *)
Theorem view_pr_command_chars (args : value) :
  isValidViewPrArgs args = true →
  ∃ s, view_pr_command args = "pr view " +:+ s ∧
       all_chars number_char s = true.
Proof.
  intros [a H]%isValidViewPrArgs_narrow. narrowed H.
  eexists. split; [done|]. by eapply as_id_chars.
Qed.

(** ** Pull-request numbers below 2^53 *)

Lemma safe_id (m : gmap string value) (x : number) (z : Z) :
  m !! "number" = Some (VNum x) → Number_toZ x = Some z → (0 < z)%Z →
  as_id (get (VObj m) "number") = Some x.
Proof.
  intros Hm Hx Hz. simpl. rewrite Hm. apply (as_id_intro x (Z.to_pos z)).
  by rewrite Z2Pos.id.
Qed.

(** The guard and the command of [view_pr] on a number below [2^53]. *)
Lemma view_pr_decimal (m : gmap string value) (x : number) (z : Z) :
  m !! "number" = Some (VNum x) → valid x = true →
  Number_toZ x = Some z → (0 < z < 2 ^ 53)%Z →
  isValidViewPrArgs (VObj m) = true ∧
  view_pr_command (VObj m) = "pr view " +:+ pretty z.
Proof.
  intros Hm Hvalid Hx Hz. split.
  - apply isValidViewPrArgs_narrow. unfold narrow_view.
    rewrite (safe_id m x z) by (done || lia). by eexists.
  - unfold view_pr_command. simpl. rewrite Hm. simpl.
    by rewrite (Number_toString_safe_integer x z).
Qed.

(** The guard and the command of [comment_pr] on a number below [2^53]. *)
Lemma comment_pr_decimal (m : gmap string value) (x : number)
    (z : Z) (body : string) :
  m !! "number" = Some (VNum x) → m !! "body" = Some (VStr body) →
  valid x = true → Number_toZ x = Some z → (0 < z < 2 ^ 53)%Z →
  isValidCommentPrArgs (VObj m) = true ∧
  comment_pr_command (VObj m)
  = "pr comment " +:+ pretty z +:+ " --body " +:+ quoted body.
Proof.
  intros Hm Hb Hvalid Hx Hz. split.
  - apply isValidCommentPrArgs_narrow. unfold narrow_comment.
    rewrite (safe_id m x z) by (done || lia). simpl. rewrite Hb. by eexists.
  - unfold comment_pr_command. simpl. rewrite Hm, Hb. simpl.
    by rewrite (Number_toString_safe_integer x z).
Qed.

(** For an argument object whose [number] is a valid double with an
    integer value [z], [0 < z < 2^53], the guard of [view_pr] accepts and
    the command is [pr view] followed by the decimal numeral of [z]. *)
Theorem view_pr_command_decimal (m : gmap string value) (x : number) (z : Z) :
  m !! "number" = Some (VNum x) → valid x = true →
  Number_toZ x = Some z → (0 < z < 2 ^ 53)%Z →
  isValidViewPrArgs (VObj m) = true ∧
  view_pr_command (VObj m) = "pr view " +:+ pretty z.
Proof. apply view_pr_decimal. Qed.

(** For an argument object whose [number] is a valid double with an
    integer value [z], [0 < z < 2^53], and whose [body] is a string, the
    guard of [comment_pr] accepts and the command is [pr comment], the
    decimal numeral of [z], [--body] and the body between double quotes. *)
Theorem comment_pr_command_decimal (m : gmap string value) (x : number)
    (z : Z) (body : string) :
  m !! "number" = Some (VNum x) → m !! "body" = Some (VStr body) →
  valid x = true → Number_toZ x = Some z → (0 < z < 2 ^ 53)%Z →
  isValidCommentPrArgs (VObj m) = true ∧
  comment_pr_command (VObj m)
  = "pr comment " +:+ pretty z +:+ " --body " +:+ quoted body.
Proof. apply comment_pr_decimal. Qed.

(** For every integer literal [z] with [0 < z < 2^53] as the number, the
    guard of [view_pr] accepts and the command is [pr view] and the decimal
    numeral of [z]: the hypotheses of the theorem above hold for every such
    literal. *)
Theorem view_pr_command_literal (z : Z) :
  (0 < z < 2 ^ 53)%Z →
  isValidViewPrArgs (obj [("number", num z)]) = true ∧
  view_pr_command (obj [("number", num z)]) = "pr view " +:+ pretty z.
Proof.
  intros Hz. destruct (number_of_Z_safe z) as [Hv Hx]; [lia..|].
  by apply (view_pr_decimal _ (number_of_Z z) z).
Qed.

Theorem comment_pr_command_literal (z : Z) (body : string) :
  (0 < z < 2 ^ 53)%Z →
  let args := obj [("number", num z); ("body", VStr body)] in
  isValidCommentPrArgs args = true ∧
  comment_pr_command args
  = "pr comment " +:+ pretty z +:+ " --body " +:+ quoted body.
Proof.
  intros Hz args. destruct (number_of_Z_safe z) as [Hv Hx]; [lia..|].
  by apply (comment_pr_decimal _ (number_of_Z z) z).
Qed.

(** For every integer literal other than zero with [-2^53 < z < 2^53] as
    the limit, negative ones included, the guard of [list_prs] accepts and
    the command is [pr list --limit] and the decimal numeral of [z]. *)
Theorem list_prs_limit_literal (z : Z) :
  z ≠ 0%Z → (- 2 ^ 53 < z < 2 ^ 53)%Z →
  isValidListPrArgs (obj [("limit", num z)]) = true ∧
  list_prs_command (obj [("limit", num z)]) = "pr list --limit " +:+ pretty z.
Proof.
  intros Hz Hr. split; [done|].
  rewrite list_prs_command_flags. unfold num. simpl get. obj_simpl. simpl.
  by rewrite number_of_Z_truthy, Number_toString_of_Z.
Qed.

(** The command of [list_prs] does not determine its arguments: [base] is
    interpolated without quotes, so a base that holds a flag builds the
    command of a base and a limit. *)
Example list_prs_command_not_injective :
  list_prs_command (obj [("base", VStr "main --limit 5")])
  = list_prs_command (obj [("base", VStr "main"); ("limit", num 5)]).
Proof. vm_compute. reflexivity. Qed.

(** * The worked examples of the specification and of the README *)

Example create_pr_title_only :
  create_pr_command (obj [("title", VStr "Add X")])
  = "pr create --title " +:+ quoted "Add X".
Proof. vm_compute. reflexivity. Qed.

Example create_pr_readme :
  create_pr_command readme_create
  = "pr create --title " +:+ quoted "Add new feature"
    +:+ " --body " +:+ quoted "This PR adds feature X"
    +:+ " --base " +:+ quoted "main" +:+ " --head " +:+ quoted "feature/x"
    +:+ " --draft".
Proof. vm_compute. reflexivity. Qed.

Example create_pr_draft_false :
  create_pr_command (obj [("title", VStr "Add X"); ("draft", VBool false)])
  = "pr create --title " +:+ quoted "Add X".
Proof. vm_compute. reflexivity. Qed.

Example list_prs_readme :
  list_prs_command readme_list = "pr list --state open --limit 5".
Proof. vm_compute. reflexivity. Qed.

Example list_prs_empty : list_prs_command (obj []) = "pr list".
Proof. vm_compute. reflexivity. Qed.

Example view_pr_readme :
  view_pr_command (obj [("number", num 123)]) = "pr view 123".
Proof. vm_compute. reflexivity. Qed.

Example comment_pr_lgtm :
  comment_pr_command (obj [("number", num 123); ("body", VStr "LGTM!")])
  = "pr comment 123 --body " +:+ quoted "LGTM!".
Proof. vm_compute. reflexivity. Qed.

(** A pull-request number at or above [10^21] is an integer for the guard
    and is printed in exponent notation. *)
Example view_pr_large :
  isValidViewPrArgs (obj [("number", num (10 ^ 21))]) = true ∧
  view_pr_command (obj [("number", num (10 ^ 21))]) = "pr view 1e+21".
Proof. vm_compute. done. Qed.

(** A limit that is no integer, or negative, passes the guard and is
    interpolated as it is. *)
Example list_prs_fraction :
  isValidListPrArgs (obj [("limit", VNum (dec (-5) 2))]) = true ∧
  list_prs_command (obj [("limit", VNum (dec (-5) 2))]) = "pr list --limit -2.5".
Proof. vm_compute. done. Qed.

(** An empty body is present for the specification and falsy for the
    handler. *)
Example create_pr_empty_body :
  narrow_create (obj [("title", VStr "T"); ("body", VStr "")])
  = Some (CreatePrArgs.mk "T" (Some "") None None None) ∧
  create_pr_command (obj [("title", VStr "T"); ("body", VStr "")])
  = "pr create --title " +:+ quoted "T" ∧
  spec_create (CreatePrArgs.mk "T" (Some "") None None None)
  = "pr create --title " +:+ quoted "T" +:+ " --body " +:+ quoted "".
Proof. vm_compute. done. Qed.

Example list_prs_limit_zero :
  narrow_list (obj [("limit", num 0)])
  = Some (ListPrArgs.mk None None (Some (number_of_Z 0))) ∧
  list_prs_command (obj [("limit", num 0)]) = "pr list" ∧
  spec_list (ListPrArgs.mk None None (Some (number_of_Z 0)))
  = "pr list --limit 0".
Proof. vm_compute. done. Qed.

(** * The theorems at concrete arguments *)

Lemma create_pr_command_spec_witness :
  create_pr_command readme_create = spec_create readme_create_args.
Proof.
  apply create_pr_command_spec; [vm_compute; reflexivity|].
  repeat split; discriminate.
Defined.

Lemma list_prs_command_spec_witness :
  list_prs_command readme_list = spec_list readme_list_args.
Proof.
  apply list_prs_command_spec; [vm_compute; reflexivity|].
  split; [discriminate|]. intros x [= <-]. vm_compute. reflexivity.
Defined.

Lemma view_pr_command_spec_witness :
  view_pr_command (obj [("number", num 123)])
  = spec_view (ViewPrArgs.mk (number_of_Z 123)).
Proof. apply view_pr_command_spec. vm_compute. reflexivity. Defined.

Lemma comment_pr_command_spec_witness :
  comment_pr_command (obj [("number", num 123); ("body", VStr "LGTM!")])
  = spec_comment (CommentPrArgs.mk (number_of_Z 123) "LGTM!").
Proof. apply comment_pr_command_spec. vm_compute. reflexivity. Defined.

Lemma create_pr_falsy_body_witness :
  create_pr_command (VObj (<["body" := VStr ""]> {["title" := VStr "T"]}))
  = create_pr_command (VObj (delete "body" {["title" := VStr "T"]})).
Proof. apply create_pr_falsy_body. reflexivity. Defined.

Lemma list_prs_falsy_limit_witness :
  list_prs_command (VObj (<["limit" := num 0]> ∅))
  = list_prs_command (VObj (delete "limit" ∅)).
Proof. apply list_prs_falsy_limit. reflexivity. Defined.

Lemma create_pr_command_not_injective_witness :
  create_pr_command
    (obj [("title", VStr ("x" +:+ DQ +:+ " --body " +:+ DQ +:+ "y"))])
  = create_pr_command (obj [("title", VStr "x"); ("body", VStr "y")]).
Proof. apply create_pr_command_not_injective. discriminate. Defined.

Lemma view_pr_command_chars_witness :
  ∃ s, view_pr_command (obj [("number", num 123)]) = "pr view " +:+ s ∧
       all_chars number_char s = true.
Proof. apply view_pr_command_chars. vm_compute. reflexivity. Defined.

Lemma view_pr_command_decimal_witness :
  isValidViewPrArgs (VObj {["number" := num 123]}) = true ∧
  view_pr_command (VObj {["number" := num 123]}) = "pr view " +:+ pretty 123%Z.
Proof.
  apply (view_pr_command_decimal _ (number_of_Z 123));
    [reflexivity | vm_compute; reflexivity | vm_compute; reflexivity | lia].
Defined.

Lemma comment_pr_command_decimal_witness :
  isValidCommentPrArgs
    (VObj (<["body" := VStr "LGTM!"]> {["number" := num 123]})) = true ∧
  comment_pr_command
    (VObj (<["body" := VStr "LGTM!"]> {["number" := num 123]}))
  = "pr comment " +:+ pretty 123%Z +:+ " --body " +:+ quoted "LGTM!".
Proof.
  apply (comment_pr_command_decimal _ (number_of_Z 123));
    [reflexivity | reflexivity | vm_compute; reflexivity
    | vm_compute; reflexivity | lia].
Defined.
