(* ===== verification/Numerals.v ===== *)
(** * Numerals: the numbers in a command line

    [view_pr] and [comment_pr] interpolate the pull-request number and
    [list_prs] interpolates [limit] with [${...}], that is with
    Number::toString.  The guards accept every positive integral double as
    a number and every double as a limit, so the text in the command can be
    any numeral that Number::toString prints.  This file states, for the
    commands, what Shortest.v and Decimal.v prove of the printing: the digit
    search ends within its fuel at the first digit count that has a decimal
    which rounds to the number, and the numeral in the command reads back
    as a decimal that rounds to the number the guard saw.  With Minimal.v
    the digits in the command are those that ECMAScript defines: a decimal
    of the fewest digits that rounds to the number.  With Intervals.v
    the numeral names that number and no other, so that Number::toString is
    one-to-one on the numbers that are printed, and the commands of
    [view_pr] and [comment_pr] determine the arguments they were built
    from. *)

From Stdlib Require Import Ascii String ZArith QArith Qround Lia.
From Stdlib Require Import Floats.SpecFloat.
From stdpp Require Import base tactics strings list option gmap pretty.
From S2P Require Import Prelude JsNumber SafeInteger Shortest Decimal Intervals.
From S2P Require Import Minimal JsValue Validators Builders.

Local Open Scope Z_scope.

(** * Definitions *)

(** [denotes numeral x]: the numeral reads as a decimal that rounds to
    [x]. *)
Definition denotes (numeral : string) (x : number) : bool :=
  match read_number numeral with
  | Some r => rounds_to x (decimal_value r)
  | None => false
  end.

(** The command ends with the flag [--limit] and the text. *)
Definition limit_of (command text : string) : Prop :=
  ∃ prefix, command = prefix +:+ " --limit " +:+ text.

(** The search of [shortest] ends at a digit count of at most 17, the
    first that has a candidate. *)
Definition search_ends (m : positive) (e : Z) : Prop :=
  ∃ k, 1 <= k <= 17
       ∧ candidate m e (dec_exponent m e) k = Some (shortest m e)
       ∧ ∀ i, 1 <= i < k → candidate m e (dec_exponent m e) i = None.

(** The property [number] of the arguments is a well-formed binary64
    value, as every number that JSON.parse returns is. *)
Definition valid_number (args : value) : bool :=
  match get args "number" with
  | VNum x => valid x
  | _ => false
  end.

(** * Lemmas *)

(** The number that the guard of [view_pr] accepts is positive and
    finite. *)
Lemma isValidViewPrArgs_finite (args : value) (x : number) :
  isValidViewPrArgs args = true → get args "number" = VNum x →
  ∃ m e, x = S754_finite false m e.
Proof.
  intros [a Ha]%isValidViewPrArgs_narrow Hx. unfold narrow_view in Ha.
  destruct (is_object args); [|done]. rewrite Hx in Ha.
  destruct (as_id (VNum x)) as [y|] eqn:Hy; [|done].
  apply as_id_positive in Hy as [[= <-] [p Hp]].
  by eapply Number_toZ_pos_finite.
Qed.

(** The numeral of a valid finite number denotes it. *)
Lemma Number_toString_denotes (s : bool) (m : positive) (e : Z) :
  valid (S754_finite s m e) = true →
  denotes (Number_toString (S754_finite s m e)) (S754_finite s m e) = true.
Proof.
  intros (r & Hr & Hx)%read_Number_toString. unfold denotes. by rewrite Hr.
Qed.

(** ** One number per numeral *)

(** A numeral denotes at most one valid number, the two zeros counted as
    one. *)
Lemma denotes_unique (numeral : string) (x y : number) :
  valid x = true → valid y = true →
  denotes numeral x = true → denotes numeral y = true →
  Number_sameValueZero x y = true.
Proof.
  unfold denotes. destruct (read_number numeral); [|done].
  eauto using rounds_to_unique.
Qed.

Lemma denotes_finite (numeral : string) (s : bool) (m : positive) (e : Z)
    (y : number) :
  valid (S754_finite s m e) = true → valid y = true →
  denotes numeral (S754_finite s m e) = true → denotes numeral y = true →
  y = S754_finite s m e.
Proof.
  unfold denotes. destruct (read_number numeral); [|done].
  eauto using rounds_to_finite.
Qed.

(** The numeral of a finite number is the numeral of no other number. *)
Lemma Number_toString_finite_inj (s : bool) (m : positive) (e : Z)
    (y : number) :
  valid (S754_finite s m e) = true → valid y = true →
  Number_toString y = Number_toString (S754_finite s m e) →
  y = S754_finite s m e.
Proof.
  intros Hx Hy Heq.
  pose proof (Number_toString_denotes s m e Hx) as Hd.
  pose proof (Number_toString_chars s m e) as Hc.
  rewrite <-Heq in Hd, Hc. destruct y as [sy|sy| |sy my ey].
  - by apply (denotes_finite "0" s m e (S754_zero sy)).
  - by destruct sy.
  - done.
  - eauto using denotes_finite, Number_toString_denotes.
Qed.

(** Number::toString is one-to-one on the valid numbers other than the
    zeros and NaN: the numbers that a truthiness test lets through. *)
Theorem Number_toString_inj (x y : number) :
  valid x = true → valid y = true → Number_truthy x = true →
  Number_toString x = Number_toString y → x = y.
Proof.
  intros Hx Hy Ht Heq.
  destruct x as [| | |s m e];
    [done| |done|symmetry; by apply Number_toString_finite_inj].
  destruct y as [| | |sy my ey];
    [| | |by apply Number_toString_finite_inj];
    repeat match goal with b : bool |- _ => destruct b end; done.
Qed.

(** The number of arguments that the guard of [view_pr] or [comment_pr]
    accepts, when it is well formed: it is printed, and in digits. *)
Lemma valid_number_id (args : value) (x : number) :
  valid_number args = true → as_id (get args "number") = Some x →
  valid x = true ∧ Number_truthy x = true
  ∧ all_chars number_char (Number_toString x) = true.
Proof.
  unfold valid_number. intros Hv [Hx [p Hp]]%as_id_positive.
  rewrite Hx in Hv. split_and!; [done| |by eapply Number_toString_id_chars].
  by apply Number_toZ_pos_finite in Hp as (m & e & ->).
Qed.

Lemma narrow_view_number (args : value) (a : ViewPrArgs.t) :
  narrow_view args = Some a →
  as_id (get args "number") = Some (ViewPrArgs.number a).
Proof. intros H. by narrowed H. Qed.

Lemma narrow_comment_number (args : value) (a : CommentPrArgs.t) :
  narrow_comment args = Some a →
  as_id (get args "number") = Some (CommentPrArgs.number a).
Proof. intros H. by narrowed H. Qed.

(** The command of [list_prs] ends with the limit, when there is one. *)
Lemma list_prs_limit (m : gmap string value) (x : number) :
  m !! "limit" = Some (VNum x) → Number_truthy x = true →
  limit_of (list_prs_command (VObj m)) (Number_toString x).
Proof.
  intros Hm Hx. unfold limit_of, list_prs_command. simpl. rewrite Hm. simpl.
  rewrite Hx. by eexists.
Qed.

(** * The numerals of the commands *)

(** C33: the digit search behind the limit of [list_prs] terminates.  For
    every finite nonzero limit the search stops at a digit count of at
    most 17, at the first count that has a decimal which rounds to the
    limit; any fuel of 17 or more gives the same digits, so the bound on
    the search never cuts it short; and the command ends with [--limit] and
    the layout of these digits. *)
Theorem list_prs_limit_search (m : gmap string value) (s : bool)
    (mx : positive) (e : Z) (fuel : nat) :
  m !! "limit" = Some (VNum (S754_finite s mx e)) →
  valid (S754_finite s mx e) = true →
  (17 ≤ fuel)%nat →
  shortest_from mx e fuel (dec_exponent mx e) 1 = shortest mx e
  ∧ search_ends mx e
  ∧ limit_of (list_prs_command (VObj m))
      ((if s then "-" else "") +:+ format_shortest (shortest mx e)).
Proof.
  intros Hm Hv Hfuel. split_and!.
  - by eapply shortest_fuel.
  - by eapply shortest_search.
  - exact (list_prs_limit m (S754_finite s mx e) Hm eq_refl).
Qed.

(** C35: the limit in the command of [list_prs] is printed as ECMAScript
    defines Number::toString.  For every finite nonzero limit there are
    integers [n], [k] and [d] such that [d] has [k] digits, the decimal
    [d * 10^(n-k)] rounds to the limit, no decimal of fewer than [k] digits
    rounds to the limit, and the command ends with [--limit], the sign and
    the layout of the numeral of [d] with the exponent [n]: the search of
    [shortest] implements the definition. *)
Theorem list_prs_limit_es_digits (m : gmap string value) (s : bool)
    (mx : positive) (e : Z) :
  m !! "limit" = Some (VNum (S754_finite s mx e)) →
  valid (S754_finite s mx e) = true →
  ∃ n k d,
    es_digits mx e n k d
    ∧ limit_of (list_prs_command (VObj m))
        ((if s then "-" else "") +:+ format_digits (pretty d) n).
Proof.
  intros Hm (n & k & d & Hes & Hs)%Number_toString_es_digits.
  exists n, k, d. split; [done|]. rewrite <-Hs. by apply list_prs_limit.
Qed.

(** C32: the limit in the command of [list_prs] reads back.  For every
    finite nonzero limit, negative, fractional or large, the command ends
    with [--limit] and a numeral that reads as a decimal which rounds to
    the limit and to no other number: the text passed to [gh] denotes the
    number that the guard accepted, and only that one. *)
Theorem list_prs_limit_round_trip (m : gmap string value) (s : bool)
    (mx : positive) (e : Z) :
  m !! "limit" = Some (VNum (S754_finite s mx e)) →
  valid (S754_finite s mx e) = true →
  ∃ numeral,
    limit_of (list_prs_command (VObj m)) numeral
    ∧ denotes numeral (S754_finite s mx e) = true
    ∧ ∀ y, valid y = true → denotes numeral y = true →
           y = S754_finite s mx e.
Proof.
  intros Hm Hv. exists (Number_toString (S754_finite s mx e)).
  split_and!; [by apply list_prs_limit | by apply Number_toString_denotes|].
  eauto using denotes_finite, Number_toString_denotes.
Qed.

(** C34: the number in the command of [view_pr] reads back.  For every
    argument object that the guard accepts, whatever the size of the
    number, the command is [pr view] and a numeral that reads as a decimal
    which rounds to the number and to no other number. *)
Theorem view_pr_number_round_trip (args : value) (x : number) :
  isValidViewPrArgs args = true →
  get args "number" = VNum x → valid x = true →
  ∃ numeral,
    view_pr_command args = "pr view " +:+ numeral
    ∧ denotes numeral x = true
    ∧ ∀ y, valid y = true → denotes numeral y = true → y = x.
Proof.
  intros Hg Hx Hv.
  destruct (isValidViewPrArgs_finite args x Hg Hx) as (m & e & ->).
  exists (Number_toString (S754_finite false m e)).
  split_and!; [|by apply Number_toString_denotes|].
  - unfold view_pr_command. by rewrite Hx.
  - eauto using denotes_finite, Number_toString_denotes.
Qed.

(** C36: the command of [view_pr] determines the pull request.  Two
    argument objects that the guard accepts, with well-formed numbers, give
    the same command only when they narrow to the same record: no two
    pull-request numbers, however large, are printed as the same numeral
    (the rounding intervals of different numbers do not meet). *)
Theorem view_pr_command_injective (a b : value) (ra rb : ViewPrArgs.t) :
  narrow_view a = Some ra → narrow_view b = Some rb →
  valid_number a = true → valid_number b = true →
  view_pr_command a = view_pr_command b → ra = rb.
Proof.
  intros Ha Hb Hva Hvb.
  rewrite (view_pr_command_spec a ra Ha), (view_pr_command_spec b rb Hb).
  unfold spec_view. intros Heq%str_app_inv_head.
  apply narrow_view_number in Ha, Hb.
  destruct (valid_number_id _ _ Hva Ha) as (? & ? & _),
    (valid_number_id _ _ Hvb Hb) as (? & _).
  destruct ra, rb; simpl in *. f_equal. by apply Number_toString_inj.
Qed.

(** The command of [comment_pr] determines the pull request and the body:
    the numeral has no space, so the command splits in one way into the
    number and the quoted body.  ([create_pr] has no such property: see
    [create_pr_command_not_injective].) *)
Theorem comment_pr_command_injective (a b : value) (ra rb : CommentPrArgs.t) :
  narrow_comment a = Some ra → narrow_comment b = Some rb →
  valid_number a = true → valid_number b = true →
  comment_pr_command a = comment_pr_command b → ra = rb.
Proof.
  intros Ha Hb Hva Hvb.
  rewrite (comment_pr_command_spec a ra Ha), (comment_pr_command_spec b rb Hb).
  unfold spec_comment. intros Heq%str_app_inv_head.
  apply narrow_comment_number in Ha, Hb.
  destruct (valid_number_id _ _ Hva Ha) as (? & ? & ?),
    (valid_number_id _ _ Hvb Hb) as (? & _ & ?).
  destruct ra as [x s], rb as [y t]; simpl in *.
  apply (str_app_split number_char " " _ _ ("--body " +:+ quoted s)
           ("--body " +:+ quoted t)) in Heq as [Hn Hq]; [|done..].
  apply str_app_inv_head, quoted_inj in Hq.
  f_equal; [by apply Number_toString_inj|done].
Qed.

(** * The theorems at concrete numbers *)

Example limit_numerals :
  list_prs_command (obj [("limit", VNum (dec (-5) 2))]) = "pr list --limit -2.5"
  ∧ read_number "-2.5" = Some (-25, -1)
  ∧ list_prs_command (obj [("limit", VNum (dec 1 10000000))])
    = "pr list --limit 1e-7"
  ∧ read_number "1e-7" = Some (1, -7)
  ∧ read_number "1.7976931348623157e+308" = Some (17976931348623157, 292)
  ∧ read_number "0.000123" = Some (123, -6)
  ∧ read_number "NaN" = None ∧ read_number "Infinity" = None
  ∧ denotes "0.1" (dec 1 10) = true
  ∧ denotes "0.1" (dec 1 5) = false.
Proof. vm_compute. by split_and!. Qed.

(** Above [2^53] the numeral need not be the integer that was validated:
    [2^60] is the integer 1152921504606846976, and its shortest digits
    denote another integer that rounds to the same number. *)
Example view_pr_large_number :
  isValidViewPrArgs (obj [("number", num (2 ^ 60))]) = true
  ∧ Number_toZ (number_of_Z (2 ^ 60)) = Some 1152921504606846976
  ∧ view_pr_command (obj [("number", num (2 ^ 60))])
    = "pr view 1152921504606847000".
Proof. vm_compute. by split_and!. Qed.

Lemma list_prs_limit_search_witness :
  shortest_from 5629499534213120 (-51) 20
    (dec_exponent 5629499534213120 (-51)) 1
  = shortest 5629499534213120 (-51)
  ∧ search_ends 5629499534213120 (-51)
  ∧ limit_of
      (list_prs_command
         (VObj {["limit" := VNum (S754_finite true 5629499534213120 (-51))]}))
      ("-" +:+ format_shortest (shortest 5629499534213120 (-51))).
Proof.
  apply (list_prs_limit_search
           {["limit" := VNum (S754_finite true 5629499534213120 (-51))]}
           true 5629499534213120 (-51) 20);
    [reflexivity | reflexivity | lia].
Defined.

Lemma list_prs_limit_round_trip_witness :
  ∃ numeral,
    limit_of
      (list_prs_command
         (VObj {["limit" := VNum (S754_finite true 5629499534213120 (-51))]}))
      numeral
    ∧ denotes numeral (S754_finite true 5629499534213120 (-51)) = true
    ∧ ∀ y, valid y = true → denotes numeral y = true →
           y = S754_finite true 5629499534213120 (-51).
Proof.
  apply (list_prs_limit_round_trip
           {["limit" := VNum (S754_finite true 5629499534213120 (-51))]}
           true 5629499534213120 (-51));
    reflexivity.
Defined.

Lemma view_pr_number_round_trip_witness :
  ∃ numeral,
    view_pr_command (obj [("number", num (2 ^ 70))]) = "pr view " +:+ numeral
    ∧ denotes numeral (number_of_Z (2 ^ 70)) = true
    ∧ ∀ y, valid y = true → denotes numeral y = true →
           y = number_of_Z (2 ^ 70).
Proof.
  apply (view_pr_number_round_trip (obj [("number", num (2 ^ 70))])
           (number_of_Z (2 ^ 70)));
    vm_compute; reflexivity.
Defined.

Lemma view_pr_command_injective_witness :
  ViewPrArgs.mk (number_of_Z (2 ^ 60)) = ViewPrArgs.mk (number_of_Z (2 ^ 60)).
Proof.
  apply (view_pr_command_injective
           (obj [("number", num (2 ^ 60))])
           (obj [("number", num (2 ^ 60)); ("comment", VStr "seen")]));
    reflexivity.
Defined.

Lemma list_prs_limit_es_digits_witness :
  ∃ n k d,
    es_digits 5629499534213120 (-51) n k d
    ∧ limit_of
        (list_prs_command
           (VObj {["limit" := VNum (S754_finite true 5629499534213120 (-51))]}))
        ("-" +:+ format_digits (pretty d) n).
Proof.
  apply (list_prs_limit_es_digits
           {["limit" := VNum (S754_finite true 5629499534213120 (-51))]}
           true 5629499534213120 (-51));
    reflexivity.
Defined.
