(* ===== verification/Shell.v ===== *)
(** * Shell: what the command line means to the shell

    [execSync] passes its line to [/bin/sh -c], so the argument vector that
    [gh] receives is the shell's reading of the string that the handler
    assembled.  This file models the part of the shell grammar that the
    lines of the handler use when their fields are harmless: words of plain
    characters separated by spaces, double-quoted text, backslashes inside
    and outside double quotes, and [;] between simple commands.  Every
    other character that the shell gives a meaning to (expansions, single
    quotes, redirections, other operators) makes [sh_parse] answer [None],
    and so does a command whose first word is reserved ([if], [do], ...)
    or holds [=] (an assignment): the line is then outside the fragment,
    and nothing is claimed about it.

    The specification is the argument vector a careful caller would pass to
    [gh] without a shell ([argv_create] and its siblings), and the text
    that a double-quoted string stands for ([dq_value]).  The theorems show
    that the reader adds that text to the word ([scan_dq_value]); that the
    line of each tool is read as exactly one command with the vector of
    the values when every quoted text field has a value (as it has, and is
    the text itself, when the text holds no character that is special
    between double quotes), the unquoted [base] of [list_prs] is a plain
    word and the number is below [2^53] (a printed number of any size is
    one argument, [view_pr_argv_numeral]); and that a quoted field which
    holds a double quote, or an unquoted base which holds a semicolon, is
    read as two commands. *)

From Stdlib Require Import Ascii String ZArith Lia.
From stdpp Require Import base tactics strings list option gmap pretty.
From S2P Require Import Prelude JsNumber SafeInteger JsValue.
From S2P Require Import Validators Builders.

(** ** Characters *)

Definition dq : ascii := ascii_of_nat 34.
Definition backslash : ascii := ascii_of_nat 92.
Definition tab : ascii := ascii_of_nat 9.
Definition newline : ascii := ascii_of_nat 10.

(** The characters with a meaning of their own outside quotes. *)
Definition special_unquoted : list ascii :=
  chars "|&;<>()$`' *?[#~!{}" ++ [dq; backslash; tab; newline].

(** The characters with a meaning of their own between double quotes. *)
Definition special_quoted : list ascii := chars "$`" ++ [dq; backslash].

Definition unquoted_plain (c : ascii) : bool :=
  bool_decide (c ∉ special_unquoted).

Definition quoted_plain (c : ascii) : bool :=
  bool_decide (c ∉ special_quoted).

(** ** The reader *)

(** The commands read so far, the words of the command being read, the word
    being read if one has begun, whether a double quote is open, and whether
    the last character was a backslash that has not yet been used. *)
Record sh_state : Type := MkSh {
  cmds : list (list string);
  args : list string;
  cur : option string;
  in_quotes : bool;
  escaped : bool;
}.

(** A state with no backslash pending. *)
Abbreviation ShState cs ws u q := (MkSh cs ws u q false).

Definition sh_init : sh_state := ShState [] [] None false.

Definition add_char (s : sh_state) (c : ascii) : sh_state :=
  ShState (cmds s) (args s) (Some (default "" (cur s) +:+ String c ""))
    (in_quotes s).

Definition open_quote (s : sh_state) : sh_state :=
  ShState (cmds s) (args s) (Some (default "" (cur s))) true.

Definition close_quote (s : sh_state) : sh_state :=
  ShState (cmds s) (args s) (cur s) false.

Definition end_word (s : sh_state) : sh_state :=
  ShState (cmds s) (args s ++ option_list (cur s)) None false.

(** The words that the shell reserves where the name of a command stands
    (XCU 2.4), with those that only some shells reserve. *)
Definition reserved_words : list string :=
  ["case"; "do"; "done"; "elif"; "else"; "esac"; "fi"; "for"; "if"; "in";
   "then"; "until"; "while"; "function"; "select"; "time"; "namespace";
   "coproc"].

(** A first word that names a command: it is not reserved, and it holds no
    [=], so it is not an assignment.  The reader does not keep in mind
    whether a word was quoted, and takes no quoted word for a name
    either. *)
Definition command_name (w : string) : bool :=
  bool_decide (w ∉ reserved_words)
  && all_chars (λ c, negb (Ascii.eqb c "=")) w.

(** The words of a simple command: a name and its arguments. *)
Definition simple_command (argv : list string) : bool :=
  match argv with
  | [] => false
  | w :: _ => command_name w
  end.

(** [;] ends a command, which must be a simple command. *)
Definition end_command (s : sh_state) : option sh_state :=
  let argv := args (end_word s) in
  if simple_command argv then Some (ShState (cmds s ++ [argv]) [] None false)
  else None.

(** A backslash is kept in mind for the next character. *)
Definition escape (s : sh_state) : sh_state :=
  MkSh (cmds s) (args s) (cur s) (in_quotes s) true.

(** The character after a backslash.  Outside quotes it is added to the
    word as it is, whatever it is.  Between double quotes that holds of the
    four special characters only: before any other character the backslash
    stays.  A backslash before a newline continues the line. *)
Definition step_escaped (s : sh_state) (c : ascii) : sh_state :=
  if Ascii.eqb c newline then ShState (cmds s) (args s) (cur s) (in_quotes s)
  else if in_quotes s && quoted_plain c then add_char (add_char s backslash) c
  else add_char s c.

Definition step (s : sh_state) (c : ascii) : option sh_state :=
  if escaped s then Some (step_escaped s c)
  else if Ascii.eqb c backslash then Some (escape s)
  else if in_quotes s then
    if Ascii.eqb c dq then Some (close_quote s)
    else if quoted_plain c then Some (add_char s c)
    else None
  else
    if Ascii.eqb c " " then Some (end_word s)
    else if Ascii.eqb c ";" then end_command s
    else if Ascii.eqb c dq then Some (open_quote s)
    else if unquoted_plain c then Some (add_char s c)
    else None.

Fixpoint scan (s : sh_state) (l : list ascii) : option sh_state :=
  match l with
  | [] => Some s
  | c :: l' => s' ← step s c; scan s' l'
  end.

(** The commands at the end of the line; a quote left open is an error,
    and what a backslash at the very end means is not specified.  The last
    command, if the line does not end with [;], must be a simple command. *)
Definition finish (s : sh_state) : option (list (list string)) :=
  if in_quotes s || escaped s then None
  else
    match args (end_word s) with
    | [] => Some (cmds s)
    | argv => if simple_command argv then Some (cmds s ++ [argv]) else None
    end.

(** The argument vectors of the commands of a line. *)
Definition sh_parse (line : string) : option (list (list string)) :=
  s ← scan sh_init (chars line); finish s.

(** ** The argument vectors of the specification *)

Definition opt_args (flag : string) (field : option string) : list string :=
  match field with
  | Some v => [flag; v]
  | None => []
  end.

Definition bare_arg (flag : string) (field : option bool) : list string :=
  match field with
  | Some true => [flag]
  | _ => []
  end.

Definition argv_create (a : CreatePrArgs.t) : list string :=
  ["gh"; "pr"; "create"; "--title"; CreatePrArgs.title a]
  ++ opt_args "--body" (CreatePrArgs.body a)
  ++ opt_args "--base" (CreatePrArgs.base a)
  ++ opt_args "--head" (CreatePrArgs.head a)
  ++ bare_arg "--draft" (CreatePrArgs.draft a).

Definition argv_list (a : ListPrArgs.t) : list string :=
  ["gh"; "pr"; "list"]
  ++ opt_args "--state" (ListPrArgs.state_name <$> ListPrArgs.state a)
  ++ opt_args "--base" (ListPrArgs.base a)
  ++ opt_args "--limit" (Number_toString <$> ListPrArgs.limit a).

Definition argv_view (z : Z) : list string := ["gh"; "pr"; "view"; pretty z].

Definition argv_comment (z : Z) (body : string) : list string :=
  ["gh"; "pr"; "comment"; pretty z; "--body"; body].

(** ** The value of a text between double quotes *)

(** One character after a backslash between double quotes: the character,
    with the backslash before it unless the character is special. *)
Definition dq_escaped (c : ascii) : string :=
  if quoted_plain c then String backslash (String c "") else String c "".

(** The text that the shell reads between double quotes, as a function of
    the text that stands there.  There is none when the text holds a double
    quote, a dollar sign or a backquote with no backslash before it, or ends
    with a backslash: then the quotation ends elsewhere or holds an
    expansion. *)
Fixpoint dq_value (t : string) : option string :=
  match t with
  | "" => Some ""
  | String c t' =>
      if Ascii.eqb c backslash then
        match t' with
        | "" => None
        | String c' t'' =>
            if Ascii.eqb c' newline then dq_value t''
            else v ← dq_value t''; Some (dq_escaped c' +:+ v)
        end
      else if quoted_plain c then v ← dq_value t'; Some (String c v)
      else None
  end.

Definition dq_field (field : option string) : option (option string) :=
  match field with
  | Some t => v ← dq_value t; Some (Some v)
  | None => Some None
  end.

(** The record of the texts that [gh] receives for the texts of a
    record. *)
Definition dq_args (a : CreatePrArgs.t) : option CreatePrArgs.t :=
  title ← dq_value (CreatePrArgs.title a);
  body ← dq_field (CreatePrArgs.body a);
  base ← dq_field (CreatePrArgs.base a);
  head ← dq_field (CreatePrArgs.head a);
  Some (CreatePrArgs.mk title body base head (CreatePrArgs.draft a)).

(** Text that is itself between double quotes. *)
Definition safe_text (s : string) : bool := all_chars quoted_plain s.

Definition safe_field (field : option string) : Prop :=
  ∀ s, field = Some s → safe_text s = true.

Definition create_safe (a : CreatePrArgs.t) : Prop :=
  safe_text (CreatePrArgs.title a) = true ∧
  safe_field (CreatePrArgs.body a) ∧ safe_field (CreatePrArgs.base a) ∧
  safe_field (CreatePrArgs.head a).

(** Text that is a word without quotes. *)
Definition plain_text (s : string) : bool := all_chars unquoted_plain s.

Definition list_safe (a : ListPrArgs.t) : Prop :=
  ∀ b, ListPrArgs.base a = Some b → plain_text b = true.

(** The reader is at the end of a word, outside quotes, and the words of
    the command so far, the last one included, are [l]; the first of them
    names a command. *)
Definition at_word (l : list string) (s : sh_state) : Prop :=
  ∃ ws w, s = ShState [] ws (Some w) false ∧ ws ++ [w] = l
          ∧ simple_command l = true.

(** Reading [a] takes the reader from the end of a word with the words [l]
    to the end of a word with the words [l']. *)
Definition reads (l : list string) (a : string) (l' : list string) : Prop :=
  ∀ s, at_word l s → ∃ s', scan s (chars a) = Some s' ∧ at_word l' s'.

(** A word of plain characters. *)
Definition plain_word (w : string) : Prop :=
  all_chars unquoted_plain w = true ∧ w ≠ "".

(** A plain word that names a command. *)
Definition command_word (w : string) : Prop :=
  plain_word w ∧ command_name w = true.

(** What a caller appends to a text to leave its quotation and run the
    command [c]: a double quote, [; c], and a double quote that opens the
    empty text which the handler's closing quote ends. *)
Definition breakout (c : string) : string :=
  DQ +:+ ("; " +:+ c +:+ " ") +:+ DQ.

(** * Lemmas *)

(** ** The reader on concatenations *)

Lemma scan_app (s : sh_state) (l1 l2 : list ascii) :
  scan s (l1 ++ l2) = s' ← scan s l1; scan s' l2.
Proof.
  revert s. induction l1 as [|c l1 IH]; intros s; simpl; [done|].
  destruct (step s c); simpl; [apply IH|done].
Qed.

Lemma scan_str (s : sh_state) (a b : string) :
  scan s (chars (a +:+ b)) = s' ← scan s (chars a); scan s' (chars b).
Proof. by rewrite chars_app, scan_app. Qed.

(** ** Plain characters *)

Lemma quoted_plain_not_dq (c : ascii) :
  quoted_plain c = true → Ascii.eqb c dq = false.
Proof. destruct (Ascii.eqb_spec c dq) as [->|]; [by vm_compute|done]. Qed.

Lemma quoted_plain_not_backslash (c : ascii) :
  quoted_plain c = true → Ascii.eqb c backslash = false.
Proof.
  destruct (Ascii.eqb_spec c backslash) as [->|]; [by vm_compute|done].
Qed.

Lemma unquoted_plain_not_backslash (c : ascii) :
  unquoted_plain c = true → Ascii.eqb c backslash = false.
Proof.
  destruct (Ascii.eqb_spec c backslash) as [->|]; [by vm_compute|done].
Qed.

Lemma unquoted_plain_ordinary (c : ascii) :
  unquoted_plain c = true →
  Ascii.eqb c " " = false ∧ Ascii.eqb c ";" = false ∧ Ascii.eqb c dq = false.
Proof.
  intros Hc. split_and!;
    match goal with |- Ascii.eqb _ ?x = _ =>
      destruct (Ascii.eqb_spec c x) as [->|]; [by vm_compute in Hc|done] end.
Qed.

Lemma step_quoted (cs : list (list string)) (ws : list string) (u : string)
    (c : ascii) :
  quoted_plain c = true →
  step (ShState cs ws (Some u) true) c
  = Some (ShState cs ws (Some (u +:+ String c "")) true).
Proof.
  intros Hc. unfold step. simpl.
  by rewrite quoted_plain_not_backslash, quoted_plain_not_dq, Hc.
Qed.

Lemma step_unquoted (cs : list (list string)) (ws : list string)
    (u : option string) (c : ascii) :
  unquoted_plain c = true →
  step (ShState cs ws u false) c
  = Some (ShState cs ws (Some (default "" u +:+ String c "")) false).
Proof.
  intros Hc. destruct (unquoted_plain_ordinary c Hc) as (H1 & H2 & H3).
  unfold step. simpl.
  by rewrite unquoted_plain_not_backslash, H1, H2, H3, Hc.
Qed.

Lemma str_app_snoc (u : string) (c : ascii) (v : string) :
  (u +:+ String c "") +:+ v = u +:+ String c v.
Proof. by rewrite <-str_app_assoc, str_app_cons, str_app_nil_l. Qed.

(** ** Backslashes *)

Lemma step_backslash (cs : list (list string)) (ws : list string)
    (u : option string) (q : bool) :
  step (ShState cs ws u q) backslash = Some (MkSh cs ws u q true).
Proof. by destruct q. Qed.

Lemma step_escaped_newline (cs : list (list string)) (ws : list string)
    (u : option string) (q : bool) :
  step (MkSh cs ws u q true) newline = Some (ShState cs ws u q).
Proof. done. Qed.

(** After a backslash between double quotes a character other than the
    newline is added to the word, with the backslash unless it is
    special. *)
Lemma step_escaped_quoted (cs : list (list string)) (ws : list string)
    (u : string) (c : ascii) :
  Ascii.eqb c newline = false →
  step (MkSh cs ws (Some u) true true) c
  = Some (ShState cs ws (Some (u +:+ dq_escaped c)) true).
Proof.
  intros Hc. unfold step, step_escaped, dq_escaped, add_char. simpl.
  rewrite Hc. destruct (quoted_plain c); simpl; [|done].
  by rewrite str_app_snoc.
Qed.

(** After a backslash outside quotes a character other than the newline is
    added to the word as it is. *)
Lemma step_escaped_unquoted (cs : list (list string)) (ws : list string)
    (u : option string) (c : ascii) :
  Ascii.eqb c newline = false →
  step (MkSh cs ws u false true) c
  = Some (ShState cs ws (Some (default "" u +:+ String c "")) false).
Proof. intros Hc. unfold step, step_escaped, add_char. simpl. by rewrite Hc. Qed.

(** The equations of [dq_value], one per case of the first character. *)
Lemma dq_value_plain (c : ascii) (t : string) :
  quoted_plain c = true →
  dq_value (String c t) = v ← dq_value t; Some (String c v).
Proof.
  intros Hc. cbn [dq_value].
  by rewrite (quoted_plain_not_backslash c Hc), Hc.
Qed.

Lemma dq_value_backslash (c : ascii) (t : string) :
  dq_value (String backslash (String c t))
  = if Ascii.eqb c newline then dq_value t
    else v ← dq_value t; Some (dq_escaped c +:+ v).
Proof. done. Qed.

Lemma dq_value_special (c : ascii) (t : string) :
  Ascii.eqb c backslash = false → quoted_plain c = false →
  dq_value (String c t) = None.
Proof. intros Hb Hc. cbn [dq_value]. by rewrite Hb, Hc. Qed.

(** A text without special characters is its own value. *)
Lemma dq_value_safe (v : string) : safe_text v = true → dq_value v = Some v.
Proof.
  induction v as [|c v IH]; [done|]. intros [Hc Hv]%andb_prop.
  by rewrite dq_value_plain, IH.
Qed.

Lemma dq_field_safe (o : option string) : safe_field o → dq_field o = Some o.
Proof.
  destruct o as [v|]; [|done]. intros Ho. simpl.
  by rewrite dq_value_safe by (by apply Ho).
Qed.

Lemma dq_args_safe (a : CreatePrArgs.t) : create_safe a → dq_args a = Some a.
Proof.
  intros (Ht & Hb & Hba & Hh). unfold dq_args.
  rewrite dq_value_safe, !dq_field_safe by done. by destruct a.
Qed.

(** Between double quotes the reader adds the value of the text to the
    word.  The induction is on the text, for the text and for the text
    after one more character, as [dq_value] takes a backslash together with
    the character after it. *)
Lemma scan_dq_pair (t : string) :
  (∀ cs ws u v, dq_value t = Some v →
     scan (ShState cs ws (Some u) true) (chars t)
     = Some (ShState cs ws (Some (u +:+ v)) true))
  ∧ ∀ c cs ws u v, dq_value (String c t) = Some v →
      scan (ShState cs ws (Some u) true) (chars (String c t))
      = Some (ShState cs ws (Some (u +:+ v)) true).
Proof.
  induction t as [|c' t [IH0 IH1]].
  - split; [intros cs ws u v [= <-]; by rewrite str_app_nil_r|].
    intros c cs ws u v. simpl.
    destruct (Ascii.eqb c backslash) eqn:Hb; [done|].
    destruct (quoted_plain c) eqn:Hc; [|done]. intros [= <-].
    by rewrite step_quoted by done.
  - split; [apply IH1|]. intros c cs ws u v.
    destruct (Ascii.eqb_spec c backslash) as [->|Hb%Ascii.eqb_neq].
    + rewrite dq_value_backslash.
      change (chars (String backslash (String c' t)))
        with (backslash :: c' :: chars t).
      cbn [scan]. rewrite step_backslash. cbn [mbind option_bind].
      destruct (Ascii.eqb c' newline) eqn:Hn.
      * apply Ascii.eqb_eq in Hn as ->. rewrite step_escaped_newline.
        apply IH0.
      * rewrite step_escaped_quoted by done.
        destruct (dq_value t) as [v'|] eqn:Hv; [|done]. intros [= <-].
        cbn [mbind option_bind]. rewrite (IH0 _ _ _ v') by done.
        by rewrite <-str_app_assoc.
    + destruct (quoted_plain c) eqn:Hc; [|by rewrite dq_value_special].
      rewrite dq_value_plain by done.
      destruct (dq_value (String c' t)) as [v'|] eqn:Hv; [|done].
      intros [= <-]. change (chars (String c (String c' t)))
        with (c :: chars (String c' t)).
      cbn [scan]. rewrite step_quoted by done. cbn [mbind option_bind].
      rewrite (IH1 _ _ _ _ v') by done. by rewrite str_app_snoc.
Qed.

Lemma scan_dq_value (cs : list (list string)) (ws : list string)
    (u t v : string) :
  dq_value t = Some v →
  scan (ShState cs ws (Some u) true) (chars t)
  = Some (ShState cs ws (Some (u +:+ v)) true).
Proof. apply scan_dq_pair. Qed.

(** Text between quotes without special characters is added to the word as
    it is. *)
Lemma scan_quoted_text (cs : list (list string)) (ws : list string)
    (u v : string) :
  safe_text v = true →
  scan (ShState cs ws (Some u) true) (chars v)
  = Some (ShState cs ws (Some (u +:+ v)) true).
Proof. intros Hv. by apply scan_dq_value, dq_value_safe. Qed.

(** Plain characters are added to the word as they are. *)
Lemma scan_plain_text (cs : list (list string)) (ws : list string)
    (u v : string) :
  all_chars unquoted_plain v = true →
  scan (ShState cs ws (Some u) false) (chars v)
  = Some (ShState cs ws (Some (u +:+ v)) false).
Proof.
  revert u. induction v as [|c v IH]; intros u Hv; simpl.
  - by rewrite str_app_nil_r.
  - apply andb_prop in Hv as [Hc Hv]. rewrite step_unquoted by done. simpl.
    rewrite IH by done. by rewrite str_app_snoc.
Qed.

(** ** Words *)

Lemma scan_open_quote (cs : list (list string)) (ws : list string)
    (u : option string) :
  scan (ShState cs ws u false) (chars DQ)
  = Some (ShState cs ws (Some (default "" u)) true).
Proof. reflexivity. Qed.

Lemma scan_close_quote (cs : list (list string)) (ws : list string)
    (u : option string) :
  scan (ShState cs ws u true) (chars DQ) = Some (ShState cs ws u false).
Proof. reflexivity. Qed.

Lemma scan_dq (cs : list (list string)) (ws : list string)
    (u : option string) (t v : string) :
  dq_value t = Some v →
  scan (ShState cs ws u false) (chars (quoted t))
  = Some (ShState cs ws (Some (default "" u +:+ v)) false).
Proof.
  intros Hv. unfold quoted. rewrite scan_str, scan_open_quote. simpl.
  rewrite scan_str, (scan_dq_value _ _ _ _ v) by done. simpl.
  apply scan_close_quote.
Qed.

Lemma scan_quoted (cs : list (list string)) (ws : list string)
    (u : option string) (v : string) :
  safe_text v = true →
  scan (ShState cs ws u false) (chars (quoted v))
  = Some (ShState cs ws (Some (default "" u +:+ v)) false).
Proof. intros Hv. by apply scan_dq, dq_value_safe. Qed.

Lemma scan_plain_word (cs : list (list string)) (ws : list string)
    (w : string) :
  plain_word w →
  scan (ShState cs ws None false) (chars w)
  = Some (ShState cs ws (Some w) false).
Proof.
  intros [Hw Hne]. destruct w as [|c w]; [done|].
  apply andb_prop in Hw as [Hc Hw]. simpl. rewrite step_unquoted by done.
  simpl. rewrite scan_plain_text by done. by rewrite str_app_snoc.
Qed.

Lemma scan_space (cs : list (list string)) (ws : list string)
    (u : option string) :
  scan (ShState cs ws u false) (chars " ")
  = Some (ShState cs (ws ++ option_list u) None false).
Proof. done. Qed.

Lemma scan_str_Some (s s' : sh_state) (a b : string) :
  scan s (chars a) = Some s' → scan s (chars (a +:+ b)) = scan s' (chars b).
Proof. intros Ha. by rewrite scan_str, Ha. Qed.

(** ** Simple commands *)

Lemma simple_command_app (l l' : list string) :
  simple_command l = true → simple_command (l ++ l') = true.
Proof. by destruct l. Qed.

Lemma simple_command_word (c : string) (l : list string) :
  command_word c → simple_command (c :: l) = true.
Proof. by intros [_ Hc]. Qed.

#[export] Hint Resolve simple_command_app simple_command_word : core.

(** The reader has reached the end of a word of a simple command. *)
Ltac word_reached :=
  eexists _, _; split_and!; [try done..]; rewrite ?str_app_nil_l; auto.

(** ** Fragments of a command line *)

Lemma reads_nil (l : list string) : reads l "" l.
Proof. intros s Hs. by exists s. Qed.

Lemma reads_app (l l' l'' : list string) (a b : string) :
  reads l a l' → reads l' b l'' → reads l (a +:+ b) l''.
Proof.
  intros Ha Hb s Hs. destruct (Ha s Hs) as (s' & Hrun & Hs').
  rewrite (scan_str_Some s s') by done. by apply Hb.
Qed.

(** A space and a plain word. *)
Lemma reads_word (l : list string) (w : string) :
  plain_word w → reads l (" " +:+ w) (l ++ [w]).
Proof.
  intros Hw s (ws & u & -> & <- & Hl). eexists. split.
  - rewrite (scan_str_Some _ _ _ _ (scan_space [] ws (Some u))).
    by apply scan_plain_word.
  - word_reached.
Qed.

(** A space and a quoted text. *)
Lemma reads_dq (l : list string) (t v : string) :
  dq_value t = Some v → reads l (" " +:+ quoted t) (l ++ [v]).
Proof.
  intros Hv s (ws & u & -> & <- & Hl). eexists. split.
  - rewrite (scan_str_Some _ _ _ _ (scan_space [] ws (Some u))).
    by apply scan_dq.
  - word_reached.
Qed.

Lemma reads_quoted (l : list string) (v : string) :
  safe_text v = true → reads l (" " +:+ quoted v) (l ++ [v]).
Proof. intros Hv. by apply reads_dq, dq_value_safe. Qed.

(** A flag with a quoted value. *)
Lemma reads_dq_flag (l : list string) (flag t v : string) :
  plain_word flag → dq_value t = Some v →
  reads l ((" " +:+ flag +:+ " ") +:+ quoted t) (l ++ [flag; v]).
Proof.
  intros Hf Hv. rewrite (str_app_assoc " " flag " "), <-str_app_assoc.
  replace (l ++ [flag; v]) with ((l ++ [flag]) ++ [v])
    by (by rewrite <-app_assoc).
  eauto using reads_app, reads_word, reads_dq.
Qed.

Lemma reads_flag (l : list string) (flag v : string) :
  plain_word flag → safe_text v = true →
  reads l ((" " +:+ flag +:+ " ") +:+ quoted v) (l ++ [flag; v]).
Proof. intros Hf Hv. by apply reads_dq_flag, dq_value_safe. Qed.

Lemma reads_dq_opt_flag (l : list string) (flag : string)
    (o o' : option string) :
  plain_word flag → dq_field o = Some o' →
  reads l (opt_flag (" " +:+ flag +:+ " ") quoted o) (l ++ opt_args flag o').
Proof.
  intros Hf Ho. destruct o as [t|]; simpl in *.
  - destruct (dq_value t) as [v|] eqn:Hv; simplify_eq/=.
    by apply reads_dq_flag.
  - simplify_eq/=. rewrite app_nil_r. apply reads_nil.
Qed.

Lemma reads_opt_flag (l : list string) (flag : string) (o : option string) :
  plain_word flag → safe_field o →
  reads l (opt_flag (" " +:+ flag +:+ " ") quoted o) (l ++ opt_args flag o).
Proof. intros Hf Ho. by apply reads_dq_opt_flag, dq_field_safe. Qed.

Lemma reads_bare_flag (l : list string) (flag : string) (d : option bool) :
  plain_word flag →
  reads l (bare_flag (" " +:+ flag) d) (l ++ bare_arg flag d).
Proof.
  intros Hf. destruct d as [[]|]; simpl; rewrite ?app_nil_r;
    auto using reads_word, reads_nil.
Qed.

(** ** Whole lines *)

Lemma finish_word (cs : list (list string)) (ws : list string)
    (u : option string) :
  simple_command (ws ++ option_list u) = true →
  finish (ShState cs ws u false) = Some (cs ++ [ws ++ option_list u]).
Proof.
  intros Hl. unfold finish. simpl.
  destruct (ws ++ option_list u) as [|a l]; [done|]. simpl in *.
  by rewrite Hl.
Qed.

Lemma finish_at_word (l : list string) (s : sh_state) :
  at_word l s → finish s = Some [l].
Proof. intros (ws & w & -> & <- & Hl). by apply (finish_word [] ws (Some w)). Qed.

Lemma sh_parse_reads (p tail : string) (s : sh_state) (l l' : list string) :
  scan sh_init (chars p) = Some s → at_word l s → reads l tail l' →
  sh_parse (p +:+ tail) = Some [l'].
Proof.
  intros Hp Hs Htail. unfold sh_parse. rewrite (scan_str_Some _ s) by done.
  destruct (Htail s Hs) as (s' & -> & Hs'). simpl. by apply finish_at_word.
Qed.

(** A line that is a literal prefix, a quoted text and a tail. *)
Lemma sh_parse_dq (p : string) (ws : list string) (t v tail : string)
    (l' : list string) :
  scan sh_init (chars p) = Some (ShState [] ws None false) →
  simple_command ws = true →
  dq_value t = Some v → reads (ws ++ [v]) tail l' →
  sh_parse (p +:+ quoted t +:+ tail) = Some [l'].
Proof.
  intros Hp Hws Hv Htail. rewrite str_app_assoc.
  eapply (sh_parse_reads _ _ (ShState [] ws (Some v) false));
    [|word_reached|done].
  rewrite (scan_str_Some _ _ _ _ Hp), (scan_dq _ _ _ _ v) by done.
  by rewrite str_app_nil_l.
Qed.

Lemma sh_parse_quoted (p : string) (ws : list string) (v tail : string)
    (l' : list string) :
  scan sh_init (chars p) = Some (ShState [] ws None false) →
  simple_command ws = true →
  safe_text v = true → reads (ws ++ [v]) tail l' →
  sh_parse (p +:+ quoted v +:+ tail) = Some [l'].
Proof. intros Hp Hws Hv. by apply sh_parse_dq, dq_value_safe. Qed.

(** A line that is a literal prefix, a plain word and a tail. *)
Lemma sh_parse_word (p : string) (ws : list string) (w tail : string)
    (l' : list string) :
  scan sh_init (chars p) = Some (ShState [] ws None false) →
  simple_command ws = true →
  plain_word w → reads (ws ++ [w]) tail l' →
  sh_parse (p +:+ w +:+ tail) = Some [l'].
Proof.
  intros Hp Hws Hw Htail. rewrite str_app_assoc.
  eapply (sh_parse_reads _ _ (ShState [] ws (Some w) false));
    [|word_reached|done].
  by rewrite (scan_str_Some _ _ _ _ Hp), scan_plain_word.
Qed.

(** ** The words of the handler's lines *)

(** A literal is a plain word. *)
Ltac literal_word := split; [vm_compute; reflexivity | discriminate].

(** A literal names a command. *)
Ltac literal_command := split; [literal_word | vm_compute; reflexivity].

Lemma digit_plain (c : ascii) : digit_char c = true → unquoted_plain c = true.
Proof.
  unfold digit_char. intros Hc%bool_decide_eq_true.
  repeat (apply elem_of_cons in Hc as [->|Hc]; [by vm_compute|]).
  by apply elem_of_nil in Hc.
Qed.

Lemma pretty_plain_word (z : Z) : (0 < z)%Z → plain_word (pretty z).
Proof.
  intros Hz. split; [|by apply pretty_Z_nonempty].
  eapply all_chars_impl; [apply digit_plain|]. apply pretty_Z_digits. lia.
Qed.

Lemma number_char_plain (c : ascii) :
  number_char c = true → unquoted_plain c = true.
Proof.
  unfold number_char. intros Hc%bool_decide_eq_true.
  repeat (apply elem_of_cons in Hc as [->|Hc]; [by vm_compute|]).
  by apply elem_of_nil in Hc.
Qed.

(** Every printed number is a plain word. *)
Lemma Number_toString_plain_word (x : number) : plain_word (Number_toString x).
Proof.
  split; [|apply Number_toString_not_empty].
  destruct x as [s|[]| |s m e]; [by vm_compute..|].
  eapply all_chars_impl; [apply number_char_plain|].
  apply Number_toString_chars.
Qed.

Lemma state_name_plain_word (st : ListPrArgs.State) :
  plain_word (ListPrArgs.state_name st).
Proof. destruct st; literal_word. Qed.

(** A flag with an unquoted value. *)
Lemma reads_plain_flag (l : list string) (flag v : string) :
  plain_word flag → plain_word v →
  reads l ((" " +:+ flag +:+ " ") +:+ v) (l ++ [flag; v]).
Proof.
  intros Hf Hv. rewrite (str_app_assoc " " flag " "), <-str_app_assoc.
  replace (l ++ [flag; v]) with ((l ++ [flag]) ++ [v])
    by (by rewrite <-app_assoc).
  eauto using reads_app, reads_word.
Qed.

Lemma reads_opt_plain_flag {A : Type} (l : list string) (flag : string)
    (show : A → string) (o : option A) :
  plain_word flag → (∀ x, o = Some x → plain_word (show x)) →
  reads l (opt_flag (" " +:+ flag +:+ " ") show o)
    (l ++ opt_args flag (show <$> o)).
Proof.
  intros Hf Ho. destruct o as [v|]; simpl.
  - apply reads_plain_flag; auto.
  - rewrite app_nil_r. apply reads_nil.
Qed.

(** * The argument vectors of the handler's lines *)

Lemma list_prs_line (a : ListPrArgs.t) :
  no_empty (ListPrArgs.base a) → list_safe a →
  sh_parse ("gh " +:+ spec_list a) = Some [argv_list a].
Proof.
  intros Hne Hb. unfold spec_list, argv_list. rewrite (str_app_assoc "gh ").
  eapply (sh_parse_reads "gh pr list" _ _ ["gh"; "pr"; "list"]);
    [done | by eexists ["gh"; "pr"], "list" |].
  rewrite !app_assoc.
  eapply reads_app;
    [apply (reads_opt_plain_flag _ "--state");
       [literal_word | intros; apply state_name_plain_word]|].
  eapply reads_app;
    [|apply (reads_opt_plain_flag _ "--limit");
       [literal_word | intros; apply Number_toString_plain_word]].
  rewrite <-(option_fmap_id (ListPrArgs.base a)) at 2.
  apply (reads_opt_plain_flag _ "--base" id); [literal_word|].
  intros b Hbase. unfold id. split; [by apply Hb|]. intros ->. by apply Hne.
Qed.

(** The line of [create_pr]: each text reaches [gh] as its value between
    double quotes. *)
Lemma create_pr_line_read (a a' : CreatePrArgs.t) :
  dq_args a = Some a' →
  sh_parse ("gh " +:+ spec_create a) = Some [argv_create a'].
Proof.
  unfold dq_args. intros Ha.
  destruct (dq_value (CreatePrArgs.title a)) as [t|] eqn:Ht; [|done].
  destruct (dq_field (CreatePrArgs.body a)) as [b|] eqn:Hb; [|done].
  destruct (dq_field (CreatePrArgs.base a)) as [ba|] eqn:Hba; [|done].
  destruct (dq_field (CreatePrArgs.head a)) as [h|] eqn:Hh; [|done].
  injection Ha as <-. unfold spec_create, argv_create.
  cbn [CreatePrArgs.title CreatePrArgs.body CreatePrArgs.base
       CreatePrArgs.head CreatePrArgs.draft].
  rewrite (str_app_assoc "gh ").
  apply (sh_parse_dq "gh pr create --title "
           ["gh"; "pr"; "create"; "--title"] _ t); [done..|].
  rewrite !app_assoc.
  eapply reads_app;
    [by apply (reads_dq_opt_flag _ "--body"); [literal_word|]|].
  eapply reads_app;
    [by apply (reads_dq_opt_flag _ "--base"); [literal_word|]|].
  eapply reads_app;
    [by apply (reads_dq_opt_flag _ "--head"); [literal_word|]|].
  apply (reads_bare_flag _ "--draft"). literal_word.
Qed.

Lemma create_pr_line (a : CreatePrArgs.t) :
  create_safe a → sh_parse ("gh " +:+ spec_create a) = Some [argv_create a].
Proof. intros Ha. by apply create_pr_line_read, dq_args_safe. Qed.

Lemma view_pr_word_line (n : string) :
  plain_word n →
  sh_parse ("gh " +:+ "pr view " +:+ n) = Some [["gh"; "pr"; "view"; n]].
Proof.
  intros Hn.
  replace ("gh " +:+ "pr view " +:+ n) with ("gh pr view " +:+ n +:+ "")
    by (by rewrite str_app_nil_r).
  apply (sh_parse_word "gh pr view " ["gh"; "pr"; "view"]);
    [done | done | done | apply reads_nil].
Qed.

Lemma view_pr_line (z : Z) :
  (0 < z)%Z → sh_parse ("gh " +:+ "pr view " +:+ pretty z) = Some [argv_view z].
Proof. intros Hz. by apply view_pr_word_line, pretty_plain_word. Qed.

Lemma comment_pr_line_read (z : Z) (body v : string) :
  (0 < z)%Z → dq_value body = Some v →
  sh_parse ("gh " +:+ "pr comment " +:+ pretty z +:+ " --body " +:+ quoted body)
  = Some [argv_comment z v].
Proof.
  intros Hz Hb. rewrite (str_app_assoc "gh ").
  change (argv_comment z v)
    with ((["gh"; "pr"; "comment"] ++ [pretty z]) ++ ["--body"; v]).
  apply (sh_parse_word "gh pr comment " ["gh"; "pr"; "comment"]);
    [done | done | by apply pretty_plain_word |].
  apply (reads_dq_flag _ "--body"); [literal_word|done].
Qed.

Lemma comment_pr_line (z : Z) (body : string) :
  (0 < z)%Z → safe_text body = true →
  sh_parse ("gh " +:+ "pr comment " +:+ pretty z +:+ " --body " +:+ quoted body)
  = Some [argv_comment z body].
Proof. intros Hz Hb. by apply comment_pr_line_read, dq_value_safe. Qed.

(** C18: for validated [create_pr] arguments with no empty optional text
    whose text fields have a value between double quotes ([dq_args]), the
    shell reads the line that [executeGhCommand] runs as one command, and
    its argument vector is [gh pr create --title] and the value of the
    title, followed by the flags and the values of the fields present.  The
    value of a text with no double quote, dollar sign, backquote or
    backslash is the text itself: such fields reach [gh] as one argument
    each, unchanged. *)
Theorem create_pr_argv (args : value) (a a' : CreatePrArgs.t) :
  narrow_create args = Some a → create_regular a → dq_args a = Some a' →
  sh_parse ("gh " +:+ create_pr_command args) = Some [argv_create a']
  ∧ (create_safe a → a' = a).
Proof.
  intros Hn Hr Ha. split.
  - rewrite (create_pr_template args a) by done. by apply create_pr_line_read.
  - intros Hs%dq_args_safe. congruence.
Qed.

(** For validated [list_prs] arguments with no empty [base], a
    [limit] that is neither zero nor NaN and a [base] of plain characters
    (no space and no character the shell gives a meaning to), the shell
    reads the line as one command whose argument vector is [gh pr list]
    followed by [--state], [--base] and [--limit] with their values for the
    fields present. *)
Theorem list_prs_argv (args : value) (a : ListPrArgs.t) :
  narrow_list args = Some a → list_regular a → list_safe a →
  sh_parse ("gh " +:+ list_prs_command args) = Some [argv_list a].
Proof.
  intros Hn Hr Hs. rewrite (list_prs_template args a) by done.
  apply list_prs_line; [apply Hr|done].
Qed.

(** For a pull-request number below [2^53] the shell reads the line of
    [view_pr] as the single command [gh pr view <decimal numeral>]. *)
Theorem view_pr_argv (m : gmap string value) (x : number) (z : Z) :
  m !! "number" = Some (VNum x) → valid x = true →
  Number_toZ x = Some z → (0 < z < 2 ^ 53)%Z →
  sh_parse ("gh " +:+ view_pr_command (VObj m)) = Some [argv_view z].
Proof.
  intros Hm Hv Hx Hz. destruct (view_pr_decimal m x z) as [_ ->]; [done..|].
  apply view_pr_line. lia.
Qed.

(** For every number, of whatever size, the shell reads the line of
    [view_pr] as the single command [gh pr view] with the printed number as
    its one argument: a printed number holds no character that the shell
    gives a meaning to. *)
Theorem view_pr_argv_numeral (args : value) (x : number) :
  get args "number" = VNum x →
  sh_parse ("gh " +:+ view_pr_command args)
  = Some [["gh"; "pr"; "view"; Number_toString x]].
Proof.
  intros Hx. unfold view_pr_command. rewrite Hx.
  apply view_pr_word_line, Number_toString_plain_word.
Qed.

(** For a pull-request number below [2^53] and a body with no
    character that is special between double quotes, the shell reads the
    line of [comment_pr] as the single command
    [gh pr comment <decimal numeral> --body <body>]. *)
Theorem comment_pr_argv (m : gmap string value) (x : number) (z : Z)
    (body : string) :
  m !! "number" = Some (VNum x) → m !! "body" = Some (VStr body) →
  valid x = true → Number_toZ x = Some z → (0 < z < 2 ^ 53)%Z →
  safe_text body = true →
  sh_parse ("gh " +:+ comment_pr_command (VObj m))
  = Some [argv_comment z body].
Proof.
  intros Hm Hb Hv Hx Hz Hs.
  destruct (comment_pr_decimal m x z body) as [_ ->]; [done..|].
  apply comment_pr_line; [lia|done].
Qed.

(** * A title that ends the quotation *)

Lemma quoted_break (t rest : string) :
  quoted (t +:+ DQ +:+ rest +:+ DQ) = quoted t +:+ rest +:+ quoted "".
Proof. unfold quoted. by rewrite str_app_nil_l, <-!str_app_assoc. Qed.

(** ** A text that closes its quotation *)

Lemma step_semicolon (ws : list string) (u : option string) :
  simple_command (ws ++ option_list u) = true →
  step (ShState [] ws u false) ";"
  = Some (ShState [ws ++ option_list u] [] None false).
Proof. intros Hc. unfold step, end_command, end_word. simpl. by rewrite Hc. Qed.

Lemma scan_semicolon (ws : list string) (v : string) :
  simple_command (ws ++ [v]) = true →
  scan (ShState [] ws (Some v) false) (chars "; ")
  = Some (ShState [ws ++ [v]] [] None false).
Proof.
  intros Hc. change (chars "; ") with [";"%char; " "%char]. cbn [scan].
  by rewrite step_semicolon.
Qed.

(** After a word, [; c] is read as the end of the command and the command
    [c]. *)
Lemma scan_second_command (l : list string) (s : sh_state) (c : string) :
  at_word l s → command_word c →
  scan s (chars ("; " +:+ c)) ≫= finish = Some [l; [c]].
Proof.
  intros (ws & u & -> & <- & Hl) [Hc Hn].
  rewrite (scan_str_Some _ _ _ _ (scan_semicolon ws u Hl)).
  rewrite scan_plain_word by done. by apply (finish_word [_] [] (Some c)).
Qed.

(** After a word, a space and a quoted text that breaks out are read as the
    end of the command, with the text before the double quote as its last
    argument, and the command [c] with an empty argument. *)
Lemma scan_breakout (l : list string) (s : sh_state) (v c : string) :
  at_word l s → safe_text v = true → command_word c →
  scan s (chars (" " +:+ quoted (v +:+ breakout c))) ≫= finish
  = Some [l ++ [v]; [c; ""]].
Proof.
  intros (ws & u & -> & <- & Hl) Hv [Hc Hn]. unfold breakout.
  rewrite quoted_break, <-!str_app_assoc.
  rewrite (scan_str_Some _ _ _ _ (scan_space [] ws (Some u))).
  rewrite (scan_str_Some _ (ShState [] (ws ++ [u]) (Some v) false))
    by (by rewrite scan_quoted, str_app_nil_l).
  rewrite (scan_str_Some _ _ _ _
             (scan_semicolon (ws ++ [u]) v (simple_command_app _ [v] Hl))).
  rewrite (scan_str_Some _ (ShState [(ws ++ [u]) ++ [v]] [] (Some c) false))
    by (by apply scan_plain_word).
  rewrite (scan_str_Some _ (ShState [(ws ++ [u]) ++ [v]] [c] None false))
    by done.
  rewrite scan_quoted by done. by apply (finish_word [_] [c] (Some _)).
Qed.

Lemma sh_parse_breakout (p : string) (s : sh_state) (l : list string)
    (v c : string) :
  scan sh_init (chars p) = Some s → at_word l s →
  safe_text v = true → command_word c →
  sh_parse (p +:+ " " +:+ quoted (v +:+ breakout c))
  = Some [l ++ [v]; [c; ""]].
Proof.
  intros Hp Hs Hv Hc. unfold sh_parse.
  rewrite (scan_str_Some _ _ _ _ Hp). by apply scan_breakout.
Qed.

(** The reader after a prefix and a fragment. *)
Lemma scan_reads (p a : string) (s : sh_state) (l l' : list string) :
  scan sh_init (chars p) = Some s → at_word l s → reads l a l' →
  ∃ s', scan sh_init (chars (p +:+ a)) = Some s' ∧ at_word l' s'.
Proof.
  intros Hp Hs Ha. destruct (Ha s Hs) as (s' & Hs' & Hl').
  exists s'. by rewrite (scan_str_Some _ _ _ _ Hp).
Qed.

(** A flag whose quoted value breaks out. *)
Lemma sh_parse_flag_breakout (p : string) (s : sh_state) (l : list string)
    (flag v c : string) :
  scan sh_init (chars p) = Some s → at_word l s → plain_word flag →
  safe_text v = true → command_word c →
  sh_parse (p +:+ " " +:+ flag +:+ " " +:+ quoted (v +:+ breakout c))
  = Some [l ++ [flag; v]; [c; ""]].
Proof.
  intros Hp Hs Hf Hv Hc.
  destruct (scan_reads p (" " +:+ flag) s l (l ++ [flag]) Hp Hs
              (reads_word _ flag Hf)) as (s' & Hs' & Hl').
  pose proof (sh_parse_breakout _ s' _ v c Hs' Hl' Hv Hc) as Hq.
  rewrite <-app_assoc in Hq. cbn [app] in Hq. rewrite <-Hq. f_equal.
  by rewrite <-!str_app_assoc.
Qed.

(** An unquoted value that holds [; c]. *)
Lemma sh_parse_second_command (p : string) (s : sh_state) (l : list string)
    (w c : string) :
  scan sh_init (chars p) = Some s → at_word l s →
  plain_word w → command_word c →
  sh_parse (p +:+ " " +:+ w +:+ "; " +:+ c) = Some [l ++ [w]; [c]].
Proof.
  intros Hp Hs Hw Hc.
  destruct (scan_reads p (" " +:+ w) s l (l ++ [w]) Hp Hs
              (reads_word _ w Hw)) as (s' & Hs' & Hl').
  unfold sh_parse. rewrite (str_app_assoc " " w), (str_app_assoc p).
  rewrite (scan_str_Some _ _ _ _ Hs'). by apply scan_second_command.
Qed.

(** The line of [create_pr] up to a harmless title. *)
Lemma create_pr_title_prefix (t : string) :
  safe_text t = true →
  ∃ s, scan sh_init (chars ("gh pr create --title " +:+ quoted t)) = Some s
       ∧ at_word ["gh"; "pr"; "create"; "--title"; t] s.
Proof.
  intros Ht.
  refine (scan_reads "gh pr create" (" --title " +:+ quoted t)
            (ShState [] ["gh"; "pr"] (Some "create") false)
            ["gh"; "pr"; "create"] (["gh"; "pr"; "create"] ++ ["--title"; t])
            eq_refl _ _); [by eexists _, _|].
  apply (reads_flag _ "--title"); [literal_word|done].
Qed.

(** The line of [create_pr] for a harmless title and one more text field
    whose value breaks out. *)
Lemma create_pr_flag_break (t flag b c : string) :
  safe_text t = true → plain_word flag → safe_text b = true → command_word c →
  sh_parse ("gh pr create --title " +:+ quoted t +:+ " " +:+ flag +:+ " "
            +:+ quoted (b +:+ breakout c))
  = Some [["gh"; "pr"; "create"; "--title"; t; flag; b]; [c; ""]].
Proof.
  intros (s & Hs & Hl)%create_pr_title_prefix Hf Hb Hc.
  exact (sh_parse_flag_breakout _ s _ flag b c Hs Hl Hf Hb Hc).
Qed.

Lemma breakout_truthy (v c : string) :
  String.eqb (v +:+ breakout c) "" = false.
Proof. by destruct v. Qed.

(** The line of [create_pr] for a title that closes its quotation. *)
Lemma create_pr_title_break (t c : string) :
  safe_text t = true → command_word c →
  let title := t +:+ DQ +:+ ("; " +:+ c +:+ " ") +:+ DQ in
  isValidCreatePrArgs (obj [("title", VStr title)]) = true ∧
  sh_parse ("gh " +:+ create_pr_command (obj [("title", VStr title)]))
  = Some [["gh"; "pr"; "create"; "--title"; t]; [c; ""]].
Proof.
  intros Ht Hc title. split; [done|]. rewrite create_pr_command_title.
  apply (sh_parse_breakout "gh pr create --title"
           (ShState [] ["gh"; "pr"; "create"] (Some "--title") false)
           ["gh"; "pr"; "create"; "--title"]); [done|by eexists _, _|done..].
Qed.

(** The same for the other text fields of [create_pr], after a harmless
    title: the body, the base and the head are interpolated like the
    title. *)
Theorem create_pr_body_injection (t b c : string) :
  safe_text t = true → safe_text b = true → command_word c →
  let args := obj [("title", VStr t); ("body", VStr (b +:+ breakout c))] in
  isValidCreatePrArgs args = true ∧
  sh_parse ("gh " +:+ create_pr_command args)
  = Some [["gh"; "pr"; "create"; "--title"; t; "--body"; b]; [c; ""]].
Proof.
  intros Ht Hb Hc args. split; [done|].
  rewrite create_pr_command_flags. unfold args. simpl get. obj_simpl. simpl.
  rewrite breakout_truthy. simpl. rewrite !str_app_nil_r.
  by apply (create_pr_flag_break t "--body"); [|literal_word|..].
Qed.

Theorem create_pr_base_injection (t b c : string) :
  safe_text t = true → safe_text b = true → command_word c →
  let args := obj [("title", VStr t); ("base", VStr (b +:+ breakout c))] in
  isValidCreatePrArgs args = true ∧
  sh_parse ("gh " +:+ create_pr_command args)
  = Some [["gh"; "pr"; "create"; "--title"; t; "--base"; b]; [c; ""]].
Proof.
  intros Ht Hb Hc args. split; [done|].
  rewrite create_pr_command_flags. unfold args. simpl get. obj_simpl. simpl.
  rewrite breakout_truthy. simpl. rewrite !str_app_nil_r.
  by apply (create_pr_flag_break t "--base"); [|literal_word|..].
Qed.

Theorem create_pr_head_injection (t b c : string) :
  safe_text t = true → safe_text b = true → command_word c →
  let args := obj [("title", VStr t); ("head", VStr (b +:+ breakout c))] in
  isValidCreatePrArgs args = true ∧
  sh_parse ("gh " +:+ create_pr_command args)
  = Some [["gh"; "pr"; "create"; "--title"; t; "--head"; b]; [c; ""]].
Proof.
  intros Ht Hb Hc args. split; [done|].
  rewrite create_pr_command_flags. unfold args. simpl get. obj_simpl. simpl.
  rewrite breakout_truthy. simpl. rewrite !str_app_nil_r.
  by apply (create_pr_flag_break t "--head"); [|literal_word|..].
Qed.

(** C15: the base of [list_prs] is interpolated without quotes: a base
    [w; c] (which the guard accepts, as it is a string) is read by the shell
    as the base [w] and then the command [c], whatever the plain word [w]
    is and whatever plain word that names a command [c] is (a word that is
    not reserved and holds no [=]). *)
Theorem list_prs_base_injection (w c : string) :
  plain_word w → command_word c →
  let args := obj [("base", VStr (w +:+ "; " +:+ c))] in
  isValidListPrArgs args = true ∧
  sh_parse ("gh " +:+ list_prs_command args)
  = Some [["gh"; "pr"; "list"; "--base"; w]; [c]].
Proof.
  intros Hw Hc args. split; [done|].
  rewrite list_prs_command_flags. unfold args. simpl get. obj_simpl. simpl.
  replace (String.eqb (w +:+ "; " +:+ c) "") with false
    by (by destruct Hw as [_ ?], w).
  simpl. rewrite !str_app_nil_r.
  apply (sh_parse_second_command "gh pr list --base"
           (ShState [] ["gh"; "pr"; "list"] (Some "--base") false)
           ["gh"; "pr"; "list"; "--base"]); [done|by eexists _, _|done..].
Qed.

(** The same for the body of [comment_pr]. *)
Theorem comment_pr_body_injection (m : gmap string value) (x : number)
    (z : Z) (b c : string) :
  m !! "number" = Some (VNum x) →
  m !! "body" = Some (VStr (b +:+ breakout c)) →
  valid x = true → Number_toZ x = Some z → (0 < z < 2 ^ 53)%Z →
  safe_text b = true → command_word c →
  isValidCommentPrArgs (VObj m) = true ∧
  sh_parse ("gh " +:+ comment_pr_command (VObj m))
  = Some [["gh"; "pr"; "comment"; pretty z; "--body"; b]; [c; ""]].
Proof.
  intros Hm Hbody Hv Hx Hz Hb Hc.
  destruct (comment_pr_decimal m x z _ Hm Hbody Hv Hx Hz) as [Hg ->].
  split; [done|].
  destruct (scan_reads "gh pr comment" (" " +:+ pretty z)
              (ShState [] ["gh"; "pr"] (Some "comment") false)
              ["gh"; "pr"; "comment"] (["gh"; "pr"; "comment"] ++ [pretty z]))
    as (s & Hs & Hl); [done|by eexists _, _| |].
  { apply reads_word, pretty_plain_word. lia. }
  exact (sh_parse_flag_breakout _ s _ "--body" b c Hs Hl
           ltac:(literal_word) Hb Hc).
Qed.

(** C13: a title that holds a double quote ends the quotation and what
    follows it is read by the shell: with the title [t"; c "] the line of
    [create_pr] is read as two commands, [gh pr create --title t] and then
    the command [c], whatever plain word that names a command [c] is (a
    word that is not reserved and holds no [=]).  The guard accepts the
    title, which is a string. *)
Theorem create_pr_injection (t c : string) :
  safe_text t = true → command_word c →
  let title := t +:+ DQ +:+ ("; " +:+ c +:+ " ") +:+ DQ in
  isValidCreatePrArgs (obj [("title", VStr title)]) = true ∧
  sh_parse ("gh " +:+ create_pr_command (obj [("title", VStr title)]))
  = Some [["gh"; "pr"; "create"; "--title"; t]; [c; ""]].
Proof. apply create_pr_title_break. Qed.

(** * Lines of concrete requests *)

Example create_pr_readme_argv :
  sh_parse ("gh " +:+ create_pr_command readme_create)
  = Some [["gh"; "pr"; "create"; "--title"; "Add new feature";
           "--body"; "This PR adds feature X"; "--base"; "main";
           "--head"; "feature/x"; "--draft"]].
Proof. vm_compute. reflexivity. Qed.

Example list_prs_readme_argv :
  sh_parse ("gh " +:+ list_prs_command readme_list)
  = Some [["gh"; "pr"; "list"; "--state"; "open"; "--limit"; "5"]].
Proof. vm_compute. reflexivity. Qed.

(** [base] is interpolated without quotes: its spaces separate arguments. *)
Example list_prs_base_splits :
  sh_parse ("gh " +:+ list_prs_command
                        (obj [("base", VStr "main --repo other/repo")]))
  = Some [["gh"; "pr"; "list"; "--base"; "main"; "--repo"; "other/repo"]].
Proof. vm_compute. reflexivity. Qed.

Example list_prs_base_command :
  sh_parse ("gh " +:+ list_prs_command (obj [("base", VStr "main; id")]))
  = Some [["gh"; "pr"; "list"; "--base"; "main"]; ["id"]].
Proof. vm_compute. reflexivity. Qed.

Example create_pr_title_command :
  sh_parse ("gh " +:+ create_pr_command
                        (obj [("title", VStr ("x" +:+ DQ +:+ "; id " +:+ DQ))]))
  = Some [["gh"; "pr"; "create"; "--title"; "x"]; ["id"; ""]].
Proof. vm_compute. reflexivity. Qed.

(** A substitution is outside the fragment. *)
Example create_pr_title_substitution :
  sh_parse ("gh " +:+ create_pr_command (obj [("title", VStr "$(id)")]))
  = None.
Proof. vm_compute. reflexivity. Qed.

(** A reserved word where the name of a command stands is a syntax error
    or the beginning of a compound command, and a word with [=] there is
    an assignment: the reader covers neither. *)
Example create_pr_title_reserved :
  sh_parse ("gh " +:+ create_pr_command
                        (obj [("title", VStr ("x" +:+ DQ +:+ "; if " +:+ DQ))]))
  = None.
Proof. vm_compute. reflexivity. Qed.

Example list_prs_base_assignment :
  sh_parse ("gh " +:+ list_prs_command (obj [("base", VStr "main; A=b id")]))
  = None.
Proof. vm_compute. reflexivity. Qed.

(** * The theorems at concrete arguments *)

Lemma create_pr_argv_witness :
  sh_parse ("gh " +:+ create_pr_command readme_create)
  = Some [argv_create readme_create_args]
  ∧ (create_safe readme_create_args → readme_create_args = readme_create_args).
Proof.
  apply create_pr_argv;
    [vm_compute; reflexivity | by repeat split | vm_compute; reflexivity].
Defined.

Lemma view_pr_argv_witness :
  sh_parse ("gh " +:+ view_pr_command (VObj {["number" := num 123]}))
  = Some [argv_view 123].
Proof.
  apply (view_pr_argv _ (number_of_Z 123));
    [reflexivity | vm_compute; reflexivity | vm_compute; reflexivity | lia].
Defined.

Lemma comment_pr_argv_witness :
  sh_parse
    ("gh " +:+ comment_pr_command
                 (VObj (<["body" := VStr "LGTM!"]> {["number" := num 123]})))
  = Some [argv_comment 123 "LGTM!"].
Proof.
  apply (comment_pr_argv _ (number_of_Z 123));
    [reflexivity | reflexivity | vm_compute; reflexivity
    | vm_compute; reflexivity | lia | vm_compute; reflexivity].
Defined.

Lemma create_pr_injection_witness :
  let title := "x" +:+ DQ +:+ ("; " +:+ "id" +:+ " ") +:+ DQ in
  isValidCreatePrArgs (obj [("title", VStr title)]) = true ∧
  sh_parse ("gh " +:+ create_pr_command (obj [("title", VStr title)]))
  = Some [["gh"; "pr"; "create"; "--title"; "x"]; ["id"; ""]].
Proof.
  apply (create_pr_injection "x" "id");
    [vm_compute; reflexivity | literal_command].
Defined.

Lemma list_prs_argv_witness :
  sh_parse ("gh " +:+ list_prs_command readme_list)
  = Some [argv_list readme_list_args].
Proof.
  apply list_prs_argv; [vm_compute; reflexivity | | intros b [=]].
  split; [done|]. by intros x [= <-].
Defined.

Lemma list_prs_base_injection_witness :
  isValidListPrArgs (obj [("base", VStr ("main" +:+ "; " +:+ "id"))]) = true ∧
  sh_parse ("gh " +:+ list_prs_command
                        (obj [("base", VStr ("main" +:+ "; " +:+ "id"))]))
  = Some [["gh"; "pr"; "list"; "--base"; "main"]; ["id"]].
Proof.
  apply (list_prs_base_injection "main" "id");
    [literal_word | literal_command].
Defined.
