(* ===== verification/Escapes.v ===== *)
(** * Escapes: backslashes in the texts of a command line

    The handler puts the caller's texts between double quotes and nothing
    else: it escapes no character (src/src/index.ts, lines 226-230 and
    346).  Between double quotes the shell gives a meaning to four
    characters: the double quote, the dollar sign, the backquote and the
    backslash.  Shell.v shows what a double quote in a text does.  This file
    follows the backslash, which the reader of Shell.v handles with its
    [escaped] flag.

    [dq_value] of Shell.v is the text that the shell reads between double
    quotes, as a function of the text that stands there; [sh_escape] is the
    text to put there for a given value.  The theorems show that
    [sh_escape] is a right inverse of [dq_value] on every text, so that a
    caller who escapes reaches [gh] with any text; that a title which ends
    with a backslash takes the closing quote of the handler into the
    title, so that the line ends inside a quotation ([unterminated]) and
    [gh] never runs; that a body which ends with a backslash too is read
    as part of the title; and that two such texts make the shell run a
    command of the caller although no text holds a double quote. *)

From Stdlib Require Import Ascii String ZArith Lia.
From stdpp Require Import base tactics strings list option gmap pretty.
From S2P Require Import Prelude JsNumber SafeInteger JsValue.
From S2P Require Import Validators Builders Shell.

(** * Definitions *)

(** A text with a backslash before each character that is special between
    double quotes. *)
Fixpoint sh_escape (v : string) : string :=
  match v with
  | "" => ""
  | String c v' =>
      if quoted_plain c then String c (sh_escape v')
      else String backslash (String c (sh_escape v'))
  end.

Definition escape_args (a : CreatePrArgs.t) : CreatePrArgs.t :=
  CreatePrArgs.mk (sh_escape (CreatePrArgs.title a))
    (sh_escape <$> CreatePrArgs.body a) (sh_escape <$> CreatePrArgs.base a)
    (sh_escape <$> CreatePrArgs.head a) (CreatePrArgs.draft a).

(** The line ends inside a quotation: the shell reports an unterminated
    quoted string and runs no command of the line. *)
Definition unterminated (line : string) : bool :=
  match scan sh_init (chars line) with
  | Some s => in_quotes s
  | None => false
  end.

(** A text that ends with a backslash. *)
Definition ends_with_backslash (t : string) : string :=
  t +:+ String backslash "".

(** The optional texts that are read outside their quotation are plain. *)
Definition plain_field (field : option string) : Prop :=
  ∀ s, field = Some s → plain_text s = true.

Definition create_plain (a : CreatePrArgs.t) : Prop :=
  plain_field (CreatePrArgs.body a) ∧ plain_field (CreatePrArgs.base a) ∧
  plain_field (CreatePrArgs.head a).

(** What the flags and values after the title add to the title when its
    quotation is still open before them. *)
Definition merged_tail (a : CreatePrArgs.t) : string :=
  opt_flag " --body " id (CreatePrArgs.body a)
  +:+ opt_flag " --base " id (CreatePrArgs.base a)
  +:+ opt_flag " --head " id (CreatePrArgs.head a)
  +:+ bare_flag " --draft" (CreatePrArgs.draft a).

(** What a caller appends to a text that is read outside its quotation to
    run the command [c]: [; c] and a backslash, which takes the meaning of
    the handler's closing quote away. *)
Definition backslash_breakout (c : string) : string :=
  "; " +:+ c +:+ " " +:+ String backslash "".

(** * Lemmas *)

(** ** Escaping *)

Lemma quoted_special_not_newline (c : ascii) :
  quoted_plain c = false → Ascii.eqb c newline = false.
Proof. destruct (Ascii.eqb_spec c newline) as [->|]; [by vm_compute|done]. Qed.

(** The value of an escaped text is the text: [sh_escape] is a right
    inverse of [dq_value] on every text. *)
Lemma dq_value_escape (v : string) : dq_value (sh_escape v) = Some v.
Proof.
  induction v as [|c v IH]; [done|]. cbn [sh_escape].
  destruct (quoted_plain c) eqn:Hc.
  - by rewrite dq_value_plain, IH.
  - rewrite dq_value_backslash, quoted_special_not_newline, IH by done.
    unfold dq_escaped. rewrite Hc. simpl.
    by rewrite str_app_cons, str_app_nil_l.
Qed.

Lemma dq_field_escape (o : option string) :
  dq_field (sh_escape <$> o) = Some o.
Proof. destruct o as [v|]; [|done]. simpl. by rewrite dq_value_escape. Qed.

Lemma dq_args_escape (a : CreatePrArgs.t) : dq_args (escape_args a) = Some a.
Proof.
  unfold dq_args, escape_args. simpl.
  rewrite dq_value_escape, !dq_field_escape. by destruct a.
Qed.

(** A text without special characters needs no escaping. *)
Lemma sh_escape_safe (v : string) : safe_text v = true → sh_escape v = v.
Proof.
  induction v as [|c v IH]; [done|]. intros [Hc Hv]%andb_prop.
  cbn [sh_escape]. by rewrite Hc, IH.
Qed.

Lemma sh_escape_empty (v : string) : sh_escape v = "" → v = "".
Proof. destruct v as [|c v]; [done|]. simpl. by destruct (quoted_plain c). Qed.

Lemma escape_args_regular (a : CreatePrArgs.t) :
  create_regular a → create_regular (escape_args a).
Proof.
  unfold create_regular, no_empty. destruct a as [t [b|] [ba|] [h|] d]; simpl;
    intros (Hb & Hba & Hh); split_and!; try done;
    intros [= ->%sh_escape_empty]; auto.
Qed.

(** ** A quotation that stays open *)

Lemma unterminated_no_parse (line : string) :
  unterminated line = true → sh_parse line = None.
Proof.
  unfold unterminated, sh_parse, finish.
  destruct (scan sh_init (chars line)) as [s|]; [|done]. simpl.
  by intros ->.
Qed.

(** A backslash and a double quote between double quotes add a double
    quote to the word and leave the quotation open. *)
Lemma scan_escaped_quote (cs : list (list string)) (ws : list string)
    (u : string) :
  scan (ShState cs ws (Some u) true) (chars (String backslash DQ))
  = Some (ShState cs ws (Some (u +:+ DQ)) true).
Proof. reflexivity. Qed.

(** Outside quotes they add a double quote to the word and open no
    quotation. *)
Lemma scan_escaped_quote_outside (cs : list (list string)) (ws : list string)
    (u : option string) :
  scan (ShState cs ws u false) (chars (String backslash DQ))
  = Some (ShState cs ws (Some (default "" u +:+ DQ)) false).
Proof. reflexivity. Qed.

Lemma quoted_backslash (t : string) :
  quoted (ends_with_backslash t) = DQ +:+ t +:+ String backslash DQ.
Proof.
  unfold quoted, ends_with_backslash.
  by rewrite <-str_app_assoc, str_app_cons, str_app_nil_l.
Qed.

(** A quoted text that ends with a backslash leaves the quotation open. *)
Lemma scan_quoted_backslash (cs : list (list string)) (ws : list string)
    (u : option string) (t : string) :
  safe_text t = true →
  scan (ShState cs ws u false) (chars (quoted (ends_with_backslash t)))
  = Some (ShState cs ws (Some (default "" u +:+ t +:+ DQ)) true).
Proof.
  intros Ht. rewrite quoted_backslash, scan_str, scan_open_quote. simpl.
  rewrite scan_str, scan_quoted_text by done. cbn [mbind option_bind].
  by rewrite scan_escaped_quote, <-str_app_assoc.
Qed.

(** A line that ends, after a word, with a space and a quoted text whose
    last character is a backslash. *)
Lemma unterminated_after (p : string) (s : sh_state) (l : list string)
    (b : string) :
  scan sh_init (chars p) = Some s → at_word l s → safe_text b = true →
  unterminated (p +:+ " " +:+ quoted (ends_with_backslash b)) = true.
Proof.
  intros Hp (ws & u & -> & <- & Hl) Hb. unfold unterminated.
  rewrite (scan_str_Some _ _ _ _ Hp).
  rewrite (scan_str_Some _ _ _ _ (scan_space [] ws (Some u))).
  by rewrite scan_quoted_backslash.
Qed.

(** With the quotation open, a flag is text and the quotes around its value
    close and open the quotation: the value is read outside. *)
Lemma scan_inverted (cs : list (list string)) (ws : list string)
    (u flag b : string) :
  safe_text flag = true → plain_text b = true →
  scan (ShState cs ws (Some u) true) (chars (flag +:+ quoted b))
  = Some (ShState cs ws (Some (u +:+ flag +:+ b)) true).
Proof.
  intros Hf Hb. rewrite scan_str, scan_quoted_text by done.
  cbn [mbind option_bind]. unfold quoted.
  rewrite scan_str, scan_close_quote. cbn [mbind option_bind].
  rewrite scan_str, scan_plain_text by done. cbn [mbind option_bind].
  by rewrite scan_open_quote, <-str_app_assoc.
Qed.

Lemma scan_inverted_opt (cs : list (list string)) (ws : list string)
    (u flag : string) (o : option string) :
  safe_text flag = true → plain_field o →
  scan (ShState cs ws (Some u) true) (chars (opt_flag flag quoted o))
  = Some (ShState cs ws (Some (u +:+ opt_flag flag id o)) true).
Proof.
  intros Hf Ho. destruct o as [b|]; simpl.
  - by apply scan_inverted; [|apply Ho].
  - by rewrite str_app_nil_r.
Qed.

Lemma scan_inverted_bare (cs : list (list string)) (ws : list string)
    (u flag : string) (d : option bool) :
  safe_text flag = true →
  scan (ShState cs ws (Some u) true) (chars (bare_flag flag d))
  = Some (ShState cs ws (Some (u +:+ bare_flag flag d)) true).
Proof. intros Hf. apply scan_quoted_text. by destruct d as [[]|]. Qed.

(** ** The line of [create_pr] after a title that ends with a backslash *)

(** The reader at the end of the line: the quotation of the title is open,
    and the flags and values after it are part of the title. *)
Lemma create_pr_line_open (a : CreatePrArgs.t) (t : string) :
  CreatePrArgs.title a = ends_with_backslash t → safe_text t = true →
  create_plain a →
  scan sh_init (chars ("gh " +:+ spec_create a))
  = Some (ShState [] ["gh"; "pr"; "create"; "--title"]
            (Some (t +:+ DQ +:+ merged_tail a)) true).
Proof.
  intros Ha Ht (Hb & Hba & Hh). unfold spec_create, merged_tail.
  rewrite Ha, (str_app_assoc "gh ").
  rewrite (scan_str_Some sh_init
             (ShState [] ["gh"; "pr"; "create"; "--title"] None false))
    by done.
  rewrite scan_str, scan_quoted_backslash by done. cbn [mbind option_bind].
  rewrite scan_str, scan_inverted_opt by done. cbn [mbind option_bind].
  rewrite scan_str, scan_inverted_opt by done. cbn [mbind option_bind].
  rewrite scan_str, scan_inverted_opt by done. cbn [mbind option_bind].
  rewrite scan_inverted_bare by done. cbn [default from_option].
  by rewrite str_app_nil_l, <-!str_app_assoc.
Qed.

Lemma create_pr_title_body_line (t b : string) :
  String.eqb b "" = false →
  "gh " +:+ create_pr_command (obj [("title", VStr t); ("body", VStr b)])
  = "gh pr create --title " +:+ quoted t +:+ " --body " +:+ quoted b.
Proof.
  intros Hb. rewrite create_pr_command_flags. simpl get. obj_simpl. simpl.
  rewrite Hb. simpl. by rewrite !str_app_nil_r.
Qed.

(** The reader after the title and the plain beginning of the body: the
    body is read outside quotes, as part of the title. *)
Lemma scan_title_body (t w rest : string) :
  safe_text t = true → plain_text w = true →
  scan sh_init
    (chars ("gh pr create --title " +:+ quoted (ends_with_backslash t)
            +:+ " --body " +:+ quoted (w +:+ rest)))
  = scan (ShState [] ["gh"; "pr"; "create"; "--title"]
            (Some (t +:+ DQ +:+ " --body " +:+ w)) false)
      (chars (rest +:+ DQ)).
Proof.
  intros Ht Hw.
  rewrite (scan_str_Some sh_init
             (ShState [] ["gh"; "pr"; "create"; "--title"] None false))
    by done.
  rewrite scan_str, scan_quoted_backslash by done. cbn [mbind option_bind].
  rewrite scan_str, scan_quoted_text by done. cbn [mbind option_bind].
  unfold quoted. rewrite scan_str, scan_close_quote. cbn [mbind option_bind].
  rewrite <-(str_app_assoc w rest DQ), scan_str, scan_plain_text by done.
  cbn [mbind option_bind default from_option].
  by rewrite str_app_nil_l, <-!str_app_assoc.
Qed.

Lemma plain_body_truthy (w rest : string) :
  rest ≠ "" → String.eqb (w +:+ rest) "" = false.
Proof. intros Hr. destruct w; [by destruct rest|done]. Qed.

(** * The arguments of [gh] for texts with backslashes *)

(** C19: a caller who escapes reaches [gh] with any texts: when the fields
    of a [create_pr] request are the escaped forms of the texts of a record
    with no empty optional text, the shell reads the line as one command
    whose argument vector holds the texts themselves, whatever characters
    they hold. *)
Theorem create_pr_argv_escaped (args : value) (a : CreatePrArgs.t) :
  narrow_create args = Some (escape_args a) → create_regular a →
  sh_parse ("gh " +:+ create_pr_command args) = Some [argv_create a].
Proof.
  intros Hn Hr.
  rewrite (create_pr_template args (escape_args a))
    by auto using escape_args_regular.
  apply create_pr_line_read, dq_args_escape.
Qed.

(** The line of a record whose title ends with a backslash ends inside a
    quotation. *)
Lemma create_pr_open_line (args : value) (a : CreatePrArgs.t) (t : string) :
  narrow_create args = Some a → create_regular a → create_plain a →
  CreatePrArgs.title a = ends_with_backslash t → safe_text t = true →
  isValidCreatePrArgs args = true ∧
  unterminated ("gh " +:+ create_pr_command args) = true.
Proof.
  intros Hn Hr Hp Ha Ht. split.
  - apply isValidCreatePrArgs_narrow. by eexists.
  - rewrite (create_pr_template args a) by done. unfold unterminated.
    by rewrite (create_pr_line_open a t).
Qed.

(** A title that ends with a backslash takes the meaning of the
    handler's closing quote away.  For validated [create_pr] arguments
    whose title is a harmless text followed by a backslash and whose other
    texts are plain words, the line ends inside a quotation: the shell
    reports a syntax error and [gh] is not run, although the guard accepted
    the arguments. *)
Theorem create_pr_title_backslash (args : value) (a : CreatePrArgs.t)
    (t : string) :
  narrow_create args = Some a → create_regular a → create_plain a →
  CreatePrArgs.title a = ends_with_backslash t → safe_text t = true →
  isValidCreatePrArgs args = true ∧
  unterminated ("gh " +:+ create_pr_command args) = true ∧
  sh_parse ("gh " +:+ create_pr_command args) = None.
Proof.
  intros Hn Hr Hp Ha Ht.
  destruct (create_pr_open_line args a t) as [Hg Hu]; [done..|].
  split_and!; [done..|by apply unterminated_no_parse].
Qed.

(** The body of [comment_pr] is the last text of its line: a body that
    ends with a backslash leaves the quotation open, whatever the number
    is.  The guard accepts the arguments, and [gh] is not run. *)
Theorem comment_pr_body_backslash (m : gmap string value) (x : number)
    (z : Z) (b : string) :
  m !! "number" = Some (VNum x) →
  m !! "body" = Some (VStr (ends_with_backslash b)) →
  valid x = true → Number_toZ x = Some z → (0 < z < 2 ^ 53)%Z →
  safe_text b = true →
  isValidCommentPrArgs (VObj m) = true ∧
  unterminated ("gh " +:+ comment_pr_command (VObj m)) = true.
Proof.
  intros Hm Hbody Hv Hx Hz Hb.
  destruct (comment_pr_decimal m x z _ Hm Hbody Hv Hx Hz) as [Hg ->].
  split; [done|].
  destruct (scan_reads "gh pr comment" (" " +:+ pretty z)
              (ShState [] ["gh"; "pr"] (Some "comment") false)
              ["gh"; "pr"; "comment"] (["gh"; "pr"; "comment"] ++ [pretty z]))
    as (s & Hs & Hl); [done|by eexists _, _| |].
  { apply reads_word, pretty_plain_word. lia. }
  destruct (scan_reads _ (" " +:+ "--body") s _ _ Hs Hl
              (reads_word _ "--body" ltac:(literal_word)))
    as (s' & Hs' & Hl').
  pose proof (unterminated_after _ s' _ b Hs' Hl' Hb) as Hu.
  rewrite <-!str_app_assoc in Hu. exact Hu.
Qed.

(** When the body ends with a backslash too, its closing quote is a
    character like the title's: the line is one command, and its title is
    the title, a double quote, the flag [--body], the body and a double
    quote.  No body reaches [gh]. *)
Theorem create_pr_backslash_merge (t w : string) :
  safe_text t = true → plain_text w = true →
  let args := obj [("title", VStr (ends_with_backslash t));
                   ("body", VStr (ends_with_backslash w))] in
  isValidCreatePrArgs args = true ∧
  sh_parse ("gh " +:+ create_pr_command args)
  = Some [["gh"; "pr"; "create"; "--title";
           t +:+ DQ +:+ " --body " +:+ w +:+ DQ]].
Proof.
  intros Ht Hw args. split; [done|]. unfold args, sh_parse.
  rewrite create_pr_title_body_line by (by apply plain_body_truthy).
  unfold ends_with_backslash at 2. rewrite scan_title_body by done.
  change (String backslash "" +:+ DQ) with (String backslash DQ).
  rewrite scan_escaped_quote_outside.
  cbn [default from_option id]. by rewrite <-!str_app_assoc.
Qed.

(** The line of a title that ends with a backslash and a body that is read
    outside quotes and holds [; c \]. *)
Lemma create_pr_backslash_break (t w c : string) :
  safe_text t = true → plain_text w = true → command_word c →
  let args := obj [("title", VStr (ends_with_backslash t));
                   ("body", VStr (w +:+ backslash_breakout c))] in
  isValidCreatePrArgs args = true ∧
  sh_parse ("gh " +:+ create_pr_command args)
  = Some [["gh"; "pr"; "create"; "--title"; t +:+ DQ +:+ " --body " +:+ w];
          [c; DQ]].
Proof.
  intros Ht Hw [Hc Hn] args. split; [done|]. unfold args, sh_parse.
  rewrite create_pr_title_body_line by (by apply plain_body_truthy).
  rewrite scan_title_body by done. unfold backslash_breakout.
  rewrite <-!str_app_assoc.
  change (String backslash "" +:+ DQ) with (String backslash DQ).
  rewrite (scan_str_Some _ _ _ _
             (scan_semicolon ["gh"; "pr"; "create"; "--title"] _ eq_refl)).
  rewrite scan_str, scan_plain_word by done. cbn [mbind option_bind].
  rewrite scan_str, scan_space. cbn [mbind option_bind].
  rewrite scan_escaped_quote_outside.
  by apply (finish_word [_] [c] (Some _)).
Qed.

(** C16: two texts with backslashes make the shell run a command of the
    caller although neither holds a double quote.  With a title that ends
    with a backslash and the body [w; c \], the body is read outside
    quotes: the line is the command [gh pr create] with a title made of
    the title, the flag and [w], and then the command [c] with a double
    quote as its argument, for every plain word [c] that names a
    command. *)
Theorem create_pr_backslash_injection (t w c : string) :
  safe_text t = true → plain_text w = true → command_word c →
  let args := obj [("title", VStr (ends_with_backslash t));
                   ("body", VStr (w +:+ backslash_breakout c))] in
  isValidCreatePrArgs args = true ∧
  sh_parse ("gh " +:+ create_pr_command args)
  = Some [["gh"; "pr"; "create"; "--title"; t +:+ DQ +:+ " --body " +:+ w];
          [c; DQ]].
Proof. apply create_pr_backslash_break. Qed.

(** * Lines of concrete requests *)

(** A Windows path in a title keeps its backslashes. *)
Example create_pr_title_path :
  sh_parse ("gh " +:+ create_pr_command (obj [("title", VStr "fix C:\dir\x")]))
  = Some [["gh"; "pr"; "create"; "--title"; "fix C:\dir\x"]].
Proof. vm_compute. reflexivity. Qed.

(** A title that ends with a backslash: nothing is run. *)
Example create_pr_title_trailing :
  sh_parse ("gh " +:+ create_pr_command
                        (obj [("title", VStr (ends_with_backslash "fix C:"))]))
  = None.
Proof. vm_compute. reflexivity. Qed.

Example create_pr_body_command :
  sh_parse ("gh " +:+ create_pr_command
                        (obj [("title", VStr (ends_with_backslash "a"));
                              ("body", VStr (ends_with_backslash "x; id "))]))
  = Some [["gh"; "pr"; "create"; "--title"; "a" +:+ DQ +:+ " --body x"];
          ["id"; DQ]].
Proof. vm_compute. reflexivity. Qed.

(** * The theorems at concrete arguments *)

Lemma create_pr_argv_escaped_witness :
  sh_parse
    ("gh " +:+ create_pr_command
                 (obj [("title", VStr (sh_escape ("say " +:+ quoted "hi")));
                       ("body", VStr (sh_escape "costs $5"))]))
  = Some [["gh"; "pr"; "create"; "--title"; "say " +:+ quoted "hi";
           "--body"; "costs $5"]].
Proof.
  apply (create_pr_argv_escaped _
           (CreatePrArgs.mk ("say " +:+ quoted "hi") (Some "costs $5")
              None None None));
    [vm_compute; reflexivity | by repeat split].
Defined.

Lemma create_pr_title_backslash_witness :
  let args := obj [("title", VStr (ends_with_backslash "fix C:"));
                   ("base", VStr "main")] in
  isValidCreatePrArgs args = true ∧
  unterminated ("gh " +:+ create_pr_command args) = true ∧
  sh_parse ("gh " +:+ create_pr_command args) = None.
Proof.
  apply (create_pr_title_backslash _
           (CreatePrArgs.mk (ends_with_backslash "fix C:") None (Some "main")
              None None) "fix C:");
    [vm_compute; reflexivity | by repeat split | | reflexivity
    | vm_compute; reflexivity].
  repeat split; intros s [= <-]; vm_compute; reflexivity.
Defined.

Lemma create_pr_backslash_injection_witness :
  let args := obj [("title", VStr (ends_with_backslash "a"));
                   ("body", VStr ("x" +:+ backslash_breakout "id"))] in
  isValidCreatePrArgs args = true ∧
  sh_parse ("gh " +:+ create_pr_command args)
  = Some [["gh"; "pr"; "create"; "--title"; "a" +:+ DQ +:+ " --body " +:+ "x"];
          ["id"; DQ]].
Proof.
  apply (create_pr_backslash_injection "a" "x" "id");
    [vm_compute; reflexivity | vm_compute; reflexivity | literal_command].
Defined.

Lemma comment_pr_body_backslash_witness :
  let args := VObj (<["body" := VStr (ends_with_backslash "see C:")]>
                      {["number" := num 123]}) in
  isValidCommentPrArgs args = true ∧
  unterminated ("gh " +:+ comment_pr_command args) = true.
Proof.
  apply (comment_pr_body_backslash _ (number_of_Z 123) 123 "see C:");
    [reflexivity | reflexivity | vm_compute; reflexivity
    | vm_compute; reflexivity | lia | vm_compute; reflexivity].
Defined.
