(* ===== verification/Executor.v ===== *)
(** * Executor: exceptions, the external command, [executeGhCommand]

    [executeGhCommand] (src/src/index.ts, lines 13-25) runs [gh] through
    [execSync] inside [try]/[catch] and rethrows an [Error] as an
    [McpError].  To say this the file models

    - the values a [throw] can raise ([thrown]), with [instanceof] and the
      [message] property;
    - computations that may throw and may change the world outside the
      process: a function from a world to a result and a world ([M]), with
      [ret], [bind], [throw] and [try_catch];
    - the two collaborators as interfaces: [Cli], the external process
      behind [execSync], and [McpSdk], the constructor of [McpError] in the
      SDK, which computes the [message] of the error from the code and the
      text it is given.

    [logged] wraps any [Cli] so that the world also records the commands
    run; [scripted] is a [Cli] that answers from a list.  Both are used to
    state and to instantiate the theorems; the program is verified against
    every [Cli] and every [McpSdk]. *)

From Stdlib Require Import Ascii String ZArith.
From stdpp Require Import base tactics strings list option pretty.
From S2P Require Import Prelude JsNumber JsValue.

(** ** Thrown values *)

(** The members of the SDK's [ErrorCode] that the program names. *)
Inductive ErrorCode : Type := InternalError | InvalidParams | MethodNotFound.

(** What a [catch] clause can receive: an [Error] that is not an
    [McpError], an [McpError], or a value that is no [Error] at all. *)
Inductive thrown : Type :=
| PlainError (message : string)
| McpError (code : ErrorCode) (message : string)
| NotAnError (v : value).

(** [error instanceof Error]; [McpError] extends [Error]. *)
Definition instanceof_Error (error : thrown) : bool :=
  match error with
  | PlainError _ | McpError _ _ => true
  | NotAnError _ => false
  end.

(** [error instanceof McpError]. *)
Definition instanceof_McpError (error : thrown) : bool :=
  match error with
  | McpError _ _ => true
  | _ => false
  end.

(** [error.message].  The program reads it only behind an [instanceof]
    test, from an [Error]; on another value it would be the conversion of
    whatever the [message] property holds. *)
Definition message_of (error : thrown) : string :=
  match error with
  | PlainError message | McpError _ message => message
  | NotAnError v => ToString (get v "message")
  end.

#[export] Instance ErrorCode_eq_dec : EqDecision ErrorCode.
Proof. solve_decision. Defined.

(** ** The SDK's [McpError] constructor *)

(** [new McpError(code, text)] sets [message] to a string computed from the
    code and the text; the text is its tail. *)
Class McpSdk : Type := {
  mcp_message : ErrorCode → string → string;
  mcp_message_tail : ∀ code text, ∃ head, mcp_message code text = head +:+ text;
}.

Definition new_McpError `{McpSdk} (code : ErrorCode) (text : string) : thrown :=
  McpError code (mcp_message code text).

(** The JSON-RPC numbers of the codes, and the constructor as the SDK
    writes it: [MCP error <number>: <text>]. *)
Definition code_number (code : ErrorCode) : Z :=
  match code with
  | InternalError => -32603
  | InvalidParams => -32602
  | MethodNotFound => -32601
  end.

Definition sdk_message (code : ErrorCode) (text : string) : string :=
  "MCP error " +:+ pretty (code_number code) +:+ ": " +:+ text.

Lemma sdk_message_tail (code : ErrorCode) (text : string) :
  ∃ head, sdk_message code text = head +:+ text.
Proof.
  exists ("MCP error " +:+ pretty (code_number code) +:+ ": ").
  unfold sdk_message. by rewrite <-!str_app_assoc.
Qed.

Definition the_sdk : McpSdk := {|
  mcp_message := sdk_message;
  mcp_message_tail := sdk_message_tail;
|}.

(** ** Computations *)

Section Computations.
Context {W : Type}.

(** A computation from a world: a value or a thrown value, and the world
    it leaves. *)
Definition M (A : Type) : Type := W → (A + thrown) * W.

Definition ret {A : Type} (a : A) : M A := λ w, (inl a, w).

Definition throw {A : Type} (error : thrown) : M A := λ w, (inr error, w).

Definition bind {A B : Type} (c : M A) (k : A → M B) : M B :=
  λ w, match c w with
       | (inl a, w') => k a w'
       | (inr error, w') => (inr error, w')
       end.

(** [try { c } catch (error) { handler }]. *)
Definition try_catch {A : Type} (c : M A) (handler : thrown → M A) : M A :=
  λ w, match c w with
       | (inl a, w') => (inl a, w')
       | (inr error, w') => handler error w'
       end.

End Computations.

Arguments M : clear implicits.

Declare Scope js_scope.
Delimit Scope js_scope with js.
Notation "'let*' x := c 'in' k" := (bind c (λ x, k))
  (at level 10, x name, c at level 100, k at level 200) : js_scope.

(** ** The external process *)

(** [execSync(line, {encoding: 'utf8'})]: the captured standard output, or
    an exception (the process failed to start or exited with a non-zero
    status), and the world after the command. *)
Class Cli (W : Type) : Type := {
  execSync : string → M W string;
}.

(** A [Cli] whose world lists the answers still to give: each call takes
    the first, and fails when none is left. *)
Definition scripted : Cli (list (string + thrown)) := {|
  execSync line := λ answers,
    match answers with
    | answer :: rest => (answer, rest)
    | [] => (inr (PlainError "spawnSync /bin/sh ENOENT"), [])
    end;
|}.

(** Any [Cli], with a record of the command lines passed to it. *)
Definition logged {W : Type} (cli : Cli W) : Cli (list string * W) := {|
  execSync line := λ '(log, w),
    let '(r, w') := execSync line w in (r, (log ++ [line], w'));
|}.

(** Forget the record. *)
Definition unlog {W A : Type} (r : (A + thrown) * (list string * W))
  : (A + thrown) * W := (r.1, r.2.2).

Definition log_of {W A : Type} (r : (A + thrown) * (list string * W))
  : list string := r.2.1.

(** ** [executeGhCommand] *)

Section Execute.
Context {W : Type} {cli : Cli W} {sdk : McpSdk}.
Local Open Scope js_scope.

Definition executeGhCommand (command : string) : M W string :=
  try_catch (execSync ("gh " +:+ command))
    (λ error,
       if instanceof_Error error then
         throw (new_McpError InternalError
                  ("GitHub CLI error: " +:+ message_of error))
       else throw error).

End Execute.

(** What [executeGhCommand] makes of each answer of the process: the
    specification of its [try]/[catch]. *)
Definition translate `{McpSdk} (answer : string + thrown) : string + thrown :=
  match answer with
  | inl stdout => inl stdout
  | inr error =>
      inr (if instanceof_Error error then
             new_McpError InternalError
               ("GitHub CLI error: " +:+ message_of error)
           else error)
  end.

(** A failing process, as [execSync] reports it. *)
Definition exit_1 : thrown := PlainError "Command failed: gh pr view 7".

(** * Lemmas *)

(** ** The laws of computations *)

Section Laws.
Context {W : Type}.
Implicit Types w : W.

Lemma bind_ret_l {A B : Type} (a : A) (k : A → M W B) w :
  bind (ret a) k w = k a w.
Proof. done. Qed.

Lemma bind_ret_r {A : Type} (c : M W A) w : bind c ret w = c w.
Proof. unfold bind, ret. by destruct (c w) as [[?|?] ?]. Qed.

Lemma bind_assoc {A B C : Type} (c : M W A) (k : A → M W B)
    (k' : B → M W C) w :
  bind (bind c k) k' w = bind c (λ a, bind (k a) k') w.
Proof. unfold bind. by destruct (c w) as [[?|?] ?]. Qed.

Lemma bind_throw {A B : Type} (error : thrown) (k : A → M W B) w :
  bind (throw error) k w = throw error w.
Proof. done. Qed.

Lemma try_catch_ret {A : Type} (a : A) (h : thrown → M W A) w :
  try_catch (ret a) h w = ret a w.
Proof. done. Qed.

Lemma try_catch_throw {A : Type} (error : thrown) (h : thrown → M W A) w :
  try_catch (throw error) h w = h error w.
Proof. done. Qed.

Lemma try_catch_rethrow {A : Type} (c : M W A) w :
  try_catch c throw w = c w.
Proof. unfold try_catch, throw. by destruct (c w) as [[?|?] ?]. Qed.

End Laws.

Lemma new_McpError_contains `{McpSdk} (code : ErrorCode) (text : string) :
  contains (message_of (new_McpError code text)) text.
Proof.
  destruct (mcp_message_tail code text) as [head Hhead]. simpl.
  rewrite Hhead. auto with str.
Qed.

(** ** Logging changes nothing but the log *)

Lemma logged_execSync {W : Type} (cli : Cli W) (line : string)
    (log : list string) (w : W) :
  execSync (Cli := logged cli) line (log, w)
  = ((execSync line w).1, (log ++ [line], (execSync line w).2)).
Proof. simpl. by destruct (execSync line w). Qed.

Section ExecuteLemmas.
Context {W : Type} {cli : Cli W} {sdk : McpSdk}.
Implicit Types w : W.

Lemma executeGhCommand_run (command : string) w :
  executeGhCommand command w
  = (translate (execSync ("gh " +:+ command) w).1,
     (execSync ("gh " +:+ command) w).2).
Proof.
  unfold executeGhCommand, try_catch.
  destruct (execSync _ w) as [[out|error] w']; [done|].
  simpl. by destruct (instanceof_Error error).
Qed.

Lemma translate_thrown (answer : string + thrown) (error : thrown) :
  translate answer = inr error →
  (∃ text, error = new_McpError InternalError ("GitHub CLI error: " +:+ text))
  ∨ (∃ v, error = NotAnError v).
Proof.
  destruct answer as [out|[m|c m|v]]; simpl; intros [= <-]; eauto.
Qed.

End ExecuteLemmas.

Lemma executeGhCommand_logged {W : Type} {cli : Cli W} {sdk : McpSdk}
    (command : string) (log : list string) (w : W) :
  executeGhCommand (cli := logged cli) command (log, w)
  = ((executeGhCommand command w).1,
     (log ++ ["gh " +:+ command], (executeGhCommand command w).2)).
Proof. by rewrite !executeGhCommand_run, logged_execSync. Qed.

(** * [executeGhCommand], case by case *)

Section ExecuteTheorems.
Context {W : Type} {cli : Cli W} {sdk : McpSdk}.
Implicit Types w : W.

(** When the process succeeds, [executeGhCommand] returns its output
    unchanged; the line run is [gh] followed by the command. *)
Theorem executeGhCommand_success (command stdout : string) w w' :
  execSync ("gh " +:+ command) w = (inl stdout, w') →
  executeGhCommand command w = (inl stdout, w').
Proof. intros Hx. by rewrite executeGhCommand_run, Hx. Qed.

(** When [execSync] throws an [Error], [executeGhCommand] throws an
    [McpError] with code [InternalError] whose message ends with
    [GitHub CLI error: ] followed by the message of the error. *)
Theorem executeGhCommand_failure (command : string) (error : thrown) w w' :
  execSync ("gh " +:+ command) w = (inr error, w') →
  instanceof_Error error = true →
  ∃ head,
    executeGhCommand command w
    = (inr (McpError InternalError
              (head +:+ "GitHub CLI error: " +:+ message_of error)), w').
Proof.
  intros Hx He. rewrite executeGhCommand_run, Hx. simpl. rewrite He.
  destruct (mcp_message_tail InternalError
              ("GitHub CLI error: " +:+ message_of error)) as [head Hhead].
  exists head. unfold new_McpError. by rewrite Hhead.
Qed.

(** A thrown value that is not an [Error] passes through
    [executeGhCommand] unchanged. *)
Theorem executeGhCommand_rethrow (command : string) (error : thrown) w w' :
  execSync ("gh " +:+ command) w = (inr error, w') →
  instanceof_Error error = false →
  executeGhCommand command w = (inr error, w').
Proof. intros Hx He. rewrite executeGhCommand_run, Hx. simpl. by rewrite He. Qed.

End ExecuteTheorems.

(** [executeGhCommand] passes exactly one line to the external process,
    [gh] followed by the command, whatever the process answers; recording
    the line changes neither the result nor the world. *)
Theorem executeGhCommand_one_line {W : Type} {cli : Cli W} {sdk : McpSdk}
    (command : string) (log : list string) (w : W) :
  executeGhCommand (cli := logged cli) command (log, w)
  = ((executeGhCommand command w).1,
     (log ++ ["gh " +:+ command], (executeGhCommand command w).2)).
Proof. apply executeGhCommand_logged. Qed.

(** The message the SDK computes for an [McpError] is
    [MCP error <code>: <text>] with the JSON-RPC number of the code. *)
Example sdk_message_examples :
  map (λ c, mcp_message (McpSdk := the_sdk) c "x")
    [InternalError; InvalidParams; MethodNotFound]
  = ["MCP error -32603: x"; "MCP error -32602: x"; "MCP error -32601: x"].
Proof. vm_compute. reflexivity. Qed.

Example executeGhCommand_scripted :
  executeGhCommand (cli := logged scripted) (sdk := the_sdk) "pr view 7"
    ([], [inr exit_1; inl "ok"])
  = (inr (McpError InternalError
            "MCP error -32603: GitHub CLI error: Command failed: gh pr view 7"),
     (["gh pr view 7"], [inl "ok"])).
Proof. vm_compute. reflexivity. Qed.

(** * The theorems at concrete answers *)

Lemma executeGhCommand_success_witness :
  executeGhCommand (cli := scripted) (sdk := the_sdk) "pr list" [inl "#1 Fix"]
  = (inl "#1 Fix", []).
Proof.
  by apply (executeGhCommand_success (cli := scripted) (sdk := the_sdk)).
Defined.

Lemma executeGhCommand_failure_witness :
  ∃ head,
    executeGhCommand (cli := scripted) (sdk := the_sdk) "pr view 7" [inr exit_1]
    = (inr (McpError InternalError
              (head +:+ "GitHub CLI error: " +:+ message_of exit_1)), []).
Proof.
  by apply (executeGhCommand_failure (cli := scripted) (sdk := the_sdk)).
Defined.

Lemma executeGhCommand_rethrow_witness :
  executeGhCommand (cli := scripted) (sdk := the_sdk) "pr view 7"
    [inr (NotAnError (VStr "boom"))]
  = (inr (NotAnError (VStr "boom")), []).
Proof.
  by apply (executeGhCommand_rethrow (cli := scripted) (sdk := the_sdk)).
Defined.
