(* ===== verification/Dispatcher.v ===== *)
(** * Dispatcher: the tool-call handler

    The handler registered for [CallToolRequestSchema] (src/src/index.ts,
    lines 215-380) is a [switch] on the tool name.  Each of the four cases
    runs its guard and throws [InvalidParams] when it rejects, builds the
    command, and calls [executeGhCommand] inside a [try] whose [catch] turns
    an [McpError] into a reply with [isError: true]; the [default] case
    throws [MethodNotFound].  [handle_create_pr] and its siblings are the
    cases, [handle_default] is the [default] case and [call_tool] is the
    [switch].

    [dispatch] is the specification of the handler as one table from the
    tool, the verdict of its guard and the answer of the external process
    to the outcome.  The theorems show that [call_tool] implements it, and
    draw the consequences: which failures are thrown and which are replied,
    that a rejected call runs nothing, that a call runs at most one command,
    and that the command run is [gh] followed by the tool's command. *)

From Stdlib Require Import Ascii String ZArith.
From stdpp Require Import base tactics strings list option gmap.
From S2P Require Import Prelude JsNumber JsValue Validators Builders Executor.

(** ** Requests and replies *)

(** [request.params] of a tool call. *)
Record CallToolRequest : Type := {
  name : string;
  arguments : value;
}.

(** A content block [{type: 'text', text}]. *)
Inductive Content : Type := TextContent (text : string).

(** The reply envelope; [isError] is absent ([None]) on success. *)
Record CallToolResult : Type := {
  content : list Content;
  isError : option bool;
}.

Definition reply (result : string) : CallToolResult :=
  {| content := [TextContent result]; isError := None |}.

Definition error_reply (message : string) : CallToolResult :=
  {| content := [TextContent message]; isError := Some true |}.

(** ** The handler *)

Section Handler.
Context {W : Type} {cli : Cli W} {sdk : McpSdk}.
Local Open Scope js_scope.

Definition handle_create_pr (args : value) : M W CallToolResult :=
  if negb (isValidCreatePrArgs args) then
    throw (new_McpError InvalidParams "Invalid create_pr arguments")
  else
    let command := create_pr_command args in
    try_catch
      (let* result := executeGhCommand command in
       ret (reply result))
      (λ error,
         if instanceof_McpError error then ret (error_reply (message_of error))
         else throw error).

Definition handle_list_prs (args : value) : M W CallToolResult :=
  if negb (isValidListPrArgs args) then
    throw (new_McpError InvalidParams "Invalid list_prs arguments")
  else
    let command := list_prs_command args in
    try_catch
      (let* result := executeGhCommand command in
       ret (reply result))
      (λ error,
         if instanceof_McpError error then ret (error_reply (message_of error))
         else throw error).

Definition handle_view_pr (args : value) : M W CallToolResult :=
  if negb (isValidViewPrArgs args) then
    throw (new_McpError InvalidParams "Invalid view_pr arguments")
  else
    let command := view_pr_command args in
    try_catch
      (let* result := executeGhCommand command in
       ret (reply result))
      (λ error,
         if instanceof_McpError error then ret (error_reply (message_of error))
         else throw error).

Definition handle_comment_pr (args : value) : M W CallToolResult :=
  if negb (isValidCommentPrArgs args) then
    throw (new_McpError InvalidParams "Invalid comment_pr arguments")
  else
    let command := comment_pr_command args in
    try_catch
      (let* result := executeGhCommand command in
       ret (reply result))
      (λ error,
         if instanceof_McpError error then ret (error_reply (message_of error))
         else throw error).

(** The [default] case of the [switch]. *)
Definition handle_default (request : CallToolRequest) : M W CallToolResult :=
  throw (new_McpError MethodNotFound ("Unknown tool: " +:+ name request)).

Definition call_tool (request : CallToolRequest) : M W CallToolResult :=
  if String.eqb (name request) "create_pr" then
    handle_create_pr (arguments request)
  else if String.eqb (name request) "list_prs" then
    handle_list_prs (arguments request)
  else if String.eqb (name request) "view_pr" then
    handle_view_pr (arguments request)
  else if String.eqb (name request) "comment_pr" then
    handle_comment_pr (arguments request)
  else handle_default request.

End Handler.

(** ** The specification of the handler *)

Inductive Tool : Type := create_pr | list_prs | view_pr | comment_pr.

Definition tool_name (t : Tool) : string :=
  match t with
  | create_pr => "create_pr"
  | list_prs => "list_prs"
  | view_pr => "view_pr"
  | comment_pr => "comment_pr"
  end.

Definition tools : list Tool := [create_pr; list_prs; view_pr; comment_pr].

(** The tool a name selects. *)
Definition tool_of_name (n : string) : option Tool :=
  List.find (λ t, String.eqb n (tool_name t)) tools.

Definition guard (t : Tool) : value → bool :=
  match t with
  | create_pr => isValidCreatePrArgs
  | list_prs => isValidListPrArgs
  | view_pr => isValidViewPrArgs
  | comment_pr => isValidCommentPrArgs
  end.

Definition command_of (t : Tool) : value → string :=
  match t with
  | create_pr => create_pr_command
  | list_prs => list_prs_command
  | view_pr => view_pr_command
  | comment_pr => comment_pr_command
  end.

(** The outcome of a call whose command the process answered with
    [answer]: the output in a reply, the message of an [Error] in a flagged
    reply, and any other thrown value thrown on. *)
Definition outcome `{McpSdk} (answer : string + thrown)
  : CallToolResult + thrown :=
  match answer with
  | inl stdout => inl (reply stdout)
  | inr error =>
      if instanceof_Error error then
        inl (error_reply
               (mcp_message InternalError
                  ("GitHub CLI error: " +:+ message_of error)))
      else inr error
  end.

Section Dispatch.
Context {W : Type} {cli : Cli W} {sdk : McpSdk}.

Definition dispatch (request : CallToolRequest) : M W CallToolResult :=
  λ w,
    match tool_of_name (name request) with
    | None =>
        (inr (new_McpError MethodNotFound
                ("Unknown tool: " +:+ name request)), w)
    | Some t =>
        if guard t (arguments request) then
          let '(answer, w') :=
            execSync ("gh " +:+ command_of t (arguments request)) w in
          (outcome answer, w')
        else
          (inr (new_McpError InvalidParams
                  ("Invalid " +:+ tool_name t +:+ " arguments")), w)
    end.

End Dispatch.

(** The codes of the errors a call can throw. *)
Definition protocol_error (error : thrown) : Prop :=
  ∃ message, error = McpError InvalidParams message
             ∨ error = McpError MethodNotFound message.

(** The properties of the argument object that the case of a tool reads. *)
Definition fields_of (t : Tool) : list string :=
  match t with
  | create_pr => create_fields
  | list_prs => list_fields
  | view_pr => view_fields
  | comment_pr => comment_fields
  end.

(** The command lines a call passes to the external process. *)
Definition commands_run (request : CallToolRequest) : list string :=
  match tool_of_name (name request) with
  | Some t =>
      if guard t (arguments request) then
        ["gh " +:+ command_of t (arguments request)]
      else []
  | None => []
  end.

(** ** Sample requests *)

Definition unknown_request : CallToolRequest :=
  {| name := "merge_pr"; arguments := obj [("number", num 7)] |}.

Definition rejected_request : CallToolRequest :=
  {| name := "view_pr"; arguments := obj [("number", num 0)] |}.

Definition view_request : CallToolRequest :=
  {| name := "view_pr"; arguments := obj [("number", num 7)] |}.

Definition failure : thrown := PlainError "Command failed: gh pr view 7".

(** * Lemmas *)

Lemma tool_of_name_tool_name (t : Tool) : tool_of_name (tool_name t) = Some t.
Proof. by destruct t. Qed.

Lemma tool_of_name_Some (n : string) (t : Tool) :
  tool_of_name n = Some t ↔ n = tool_name t.
Proof.
  split; [|intros ->; apply tool_of_name_tool_name].
  unfold tool_of_name. simpl.
  repeat (case_match; bool_to_prop; [by intros [= <-]|]). done.
Qed.

Lemma tool_of_name_None (n : string) :
  tool_of_name n = None ↔ ∀ t, n ≠ tool_name t.
Proof.
  split.
  - intros Hn t Ht%tool_of_name_Some. congruence.
  - intros Hn. destruct (tool_of_name n) as [t|] eqn:Ht; [|done].
    apply tool_of_name_Some in Ht. by destruct (Hn t).
Qed.

Section HandlerLemmas.
Context {W : Type} {cli : Cli W} {sdk : McpSdk}.
Implicit Types w : W.
Local Open Scope js_scope.

(** The [try]/[catch] block that every case ends with. *)
Lemma run_outcome (command : string) w :
  try_catch
    (let* result := executeGhCommand command in ret (reply result))
    (λ error,
       if instanceof_McpError error then ret (error_reply (message_of error))
       else throw error) w
  = (outcome (execSync ("gh " +:+ command) w).1,
     (execSync ("gh " +:+ command) w).2).
Proof.
  unfold try_catch, bind. rewrite executeGhCommand_run.
  destruct (execSync _ w) as [[out|error] w']; [done|].
  simpl. by destruct error.
Qed.

Lemma handle_tool (t : Tool) (args : value) w :
  match t with
  | create_pr => handle_create_pr args w
  | list_prs => handle_list_prs args w
  | view_pr => handle_view_pr args w
  | comment_pr => handle_comment_pr args w
  end
  = if guard t args then
      (outcome (execSync ("gh " +:+ command_of t args) w).1,
       (execSync ("gh " +:+ command_of t args) w).2)
    else
      (inr (new_McpError InvalidParams
              ("Invalid " +:+ tool_name t +:+ " arguments")), w).
Proof.
  destruct t; simpl;
    unfold handle_create_pr, handle_list_prs, handle_view_pr,
      handle_comment_pr;
    (match goal with |- context [negb ?b] => destruct b end; simpl;
     [apply run_outcome|done]).
Qed.

Lemma call_tool_tool (request : CallToolRequest) (t : Tool) w :
  name request = tool_name t →
  call_tool request w
  = match t with
    | create_pr => handle_create_pr (arguments request) w
    | list_prs => handle_list_prs (arguments request) w
    | view_pr => handle_view_pr (arguments request) w
    | comment_pr => handle_comment_pr (arguments request) w
    end.
Proof. unfold call_tool. intros ->. by destruct t. Qed.

Lemma call_tool_default (request : CallToolRequest) w :
  tool_of_name (name request) = None →
  call_tool request w
  = (inr (new_McpError MethodNotFound ("Unknown tool: " +:+ name request)), w).
Proof.
  intros Hn. unfold call_tool, handle_default.
  repeat (case_match; bool_to_prop;
          [ match goal with
            | H : name request = _ |- _ =>
                rewrite H in Hn; by vm_compute in Hn
            end |]).
  done.
Qed.

(** The [switch] and its cases, as one case analysis. *)
Lemma call_tool_cases (request : CallToolRequest) w :
  call_tool request w
  = match tool_of_name (name request) with
    | None =>
        (inr (new_McpError MethodNotFound
                ("Unknown tool: " +:+ name request)), w)
    | Some t =>
        if guard t (arguments request) then
          let '(answer, w') :=
            execSync ("gh " +:+ command_of t (arguments request)) w in
          (outcome answer, w')
        else
          (inr (new_McpError InvalidParams
                  ("Invalid " +:+ tool_name t +:+ " arguments")), w)
    end.
Proof.
  destruct (tool_of_name (name request)) as [t|] eqn:Ht.
  - apply tool_of_name_Some in Ht.
    rewrite (call_tool_tool request t), handle_tool by done.
    destruct (guard t _); [|done]. by destruct (execSync _ w).
  - by apply call_tool_default.
Qed.

End HandlerLemmas.

(** * The handler implements its specification *)

Section Refinement.
Context {W : Type} {cli : Cli W} {sdk : McpSdk}.
Implicit Types w : W.

(** C1: on every request and in every world, the handler [call_tool]
    returns the outcome and leaves the world that the specification
    [dispatch] prescribes: the [switch], the four guards, the four builders
    and the two nested [try]/[catch] blocks together implement the table
    "unknown tool, rejected arguments, command succeeded, command failed". *)
Theorem call_tool_dispatch (request : CallToolRequest) w :
  call_tool request w = dispatch request w.
Proof. apply call_tool_cases. Qed.

(** C5: a tool name outside the catalogue makes the handler throw an
    [McpError] with code [MethodNotFound] whose text names the tool, and
    leaves the world as it was: nothing is run and no reply is produced. *)
Theorem call_tool_unknown (request : CallToolRequest) w :
  (∀ t, name request ≠ tool_name t) →
  call_tool request w
  = (inr (McpError MethodNotFound
            (mcp_message MethodNotFound ("Unknown tool: " +:+ name request))),
     w).
Proof.
  intros Hn%tool_of_name_None. by rewrite call_tool_cases, Hn.
Qed.

(** C2: when the guard of the named tool rejects the arguments, the handler
    throws an [McpError] with code [InvalidParams] and the text
    [Invalid <tool> arguments], and leaves the world as it was: a rejected
    call is a protocol error, never a flagged reply, and runs no command. *)
Theorem call_tool_invalid (request : CallToolRequest) (t : Tool) w :
  name request = tool_name t →
  guard t (arguments request) = false →
  call_tool request w
  = (inr (McpError InvalidParams
            (mcp_message InvalidParams
               ("Invalid " +:+ tool_name t +:+ " arguments"))),
     w).
Proof.
  intros Hn Hg. rewrite call_tool_cases.
  by rewrite Hn, tool_of_name_tool_name, Hg.
Qed.

(** C4: when the guard accepts and the external command succeeds, the
    handler returns a reply whose single text block is the captured output,
    unchanged, with no [isError] flag, and the world is the one the command
    left. *)
Theorem call_tool_success (request : CallToolRequest) (t : Tool)
    (stdout : string) w w' :
  name request = tool_name t →
  guard t (arguments request) = true →
  execSync ("gh " +:+ command_of t (arguments request)) w = (inl stdout, w') →
  call_tool request w
  = (inl {| content := [TextContent stdout]; isError := None |}, w').
Proof.
  intros Hn Hg Hx. rewrite call_tool_cases.
  by rewrite Hn, tool_of_name_tool_name, Hg, Hx.
Qed.

(** C3: when the guard accepts and the external command fails with an
    [Error], the handler does not throw: it returns a reply flagged
    [isError: true] with a single text block, and the text contains the
    message of the error. *)
Theorem call_tool_failure (request : CallToolRequest) (t : Tool)
    (error : thrown) w w' :
  name request = tool_name t →
  guard t (arguments request) = true →
  execSync ("gh " +:+ command_of t (arguments request)) w = (inr error, w') →
  instanceof_Error error = true →
  ∃ text,
    call_tool request w
    = (inl {| content := [TextContent text]; isError := Some true |}, w')
    ∧ contains text ("GitHub CLI error: " +:+ message_of error).
Proof.
  intros Hn Hg Hx He. rewrite call_tool_cases.
  rewrite Hn, tool_of_name_tool_name, Hg, Hx. simpl. rewrite He.
  eexists. split; [done|]. apply (new_McpError_contains InternalError).
Qed.

(** C20: whatever the request and the external process do, a value thrown by
    the handler is an [McpError] with code [InvalidParams] or
    [MethodNotFound], thrown before anything ran (the world is unchanged),
    or a value that is not an [Error] and was thrown by [execSync] itself.
    An [McpError] with code [InternalError] never leaves the handler. *)
Theorem call_tool_throws (request : CallToolRequest) (error : thrown) w w' :
  call_tool request w = (inr error, w') →
  (protocol_error error ∧ w' = w) ∨ (∃ v, error = NotAnError v).
Proof.
  rewrite call_tool_cases. unfold protocol_error, new_McpError.
  destruct (tool_of_name _) as [t|]; [|intros [= <- <-]; eauto].
  destruct (guard t _); [|intros [= <- <-]; eauto].
  destruct (execSync _ w) as [[out|[m|c m|v]] w'']; simpl; intros [= <- <-] || intros [=];
    eauto.
Qed.

(** A reply flagged [isError: true] is produced only after the guard of
    a catalogued tool accepted and the command it built failed with an
    [Error]: neither an unknown tool nor a rejected argument value is ever
    reported as a flagged reply. *)
Theorem call_tool_flagged (request : CallToolRequest)
    (result : CallToolResult) w w' :
  call_tool request w = (inl result, w') →
  isError result = Some true →
  ∃ t error,
    name request = tool_name t ∧ guard t (arguments request) = true ∧
    execSync ("gh " +:+ command_of t (arguments request)) w = (inr error, w') ∧
    instanceof_Error error = true.
Proof.
  rewrite call_tool_cases.
  destruct (tool_of_name _) as [t|] eqn:Ht; [|done].
  apply tool_of_name_Some in Ht. destruct (guard t _) eqn:Hg; [|done].
  destruct (execSync _ w) as [[out|error] w''] eqn:Hx; simpl.
  - by intros [= <- <-].
  - destruct (instanceof_Error error) eqn:He; [|done]. intros [= <- <-] _.
    by exists t, error.
Qed.

(** C40: every reply of the handler carries exactly one text block, and its
    [isError] field is either absent or [true]. *)
Theorem call_tool_reply_shape (request : CallToolRequest)
    (result : CallToolResult) w w' :
  call_tool request w = (inl result, w') →
  (∃ text, content result = [TextContent text]) ∧
  (isError result = None ∨ isError result = Some true).
Proof.
  rewrite call_tool_cases.
  destruct (tool_of_name _) as [t|]; [|done]. destruct (guard t _); [|done].
  destruct (execSync _ w) as [[out|error] w'']; simpl.
  - intros [= <- <-]. eauto.
  - destruct (instanceof_Error error); [|done]. intros [= <- <-]. eauto.
Qed.

End Refinement.

(** Recording the command lines: a call appends [commands_run] and changes
    nothing else. *)
Lemma call_tool_log {W : Type} {cli : Cli W} {sdk : McpSdk}
    (request : CallToolRequest) (log : list string) (w : W) :
  call_tool (cli := logged cli) request (log, w)
  = ((call_tool request w).1,
     (log ++ commands_run request, (call_tool request w).2)).
Proof.
  rewrite !call_tool_cases. unfold commands_run.
  destruct (tool_of_name _) as [t|]; [|by rewrite app_nil_r].
  destruct (guard t _); [|by rewrite app_nil_r].
  rewrite logged_execSync. by destruct (execSync _ w).
Qed.

(** With the command lines recorded, a call appends to the record
    exactly [commands_run]: nothing for an unknown tool or rejected
    arguments, and otherwise the single line [gh <command of the tool>];
    and recording changes neither the outcome nor the world. *)
Theorem call_tool_logged {W : Type} {cli : Cli W} {sdk : McpSdk}
    (request : CallToolRequest) (log : list string) (w : W) :
  call_tool (cli := logged cli) request (log, w)
  = ((call_tool request w).1,
     (log ++ commands_run request, (call_tool request w).2)).
Proof. apply call_tool_log. Qed.

(** ** Only the declared fields matter *)

#[export] Instance guard_proper (t : Tool) :
  Proper (agree_on (fields_of t) ==> eq) (guard t).
Proof. destruct t; apply _. Qed.

#[export] Instance command_of_proper (t : Tool) :
  Proper (agree_on (fields_of t) ==> eq) (command_of t).
Proof. destruct t; apply _. Qed.

Lemma call_tool_agree {W : Type} {cli : Cli W} {sdk : McpSdk}
    (t : Tool) (a b : value) (w : W) :
  agree_on (fields_of t) a b →
  call_tool {| name := tool_name t; arguments := a |} w
  = call_tool {| name := tool_name t; arguments := b |} w.
Proof.
  intros Hab. rewrite !call_tool_cases. simpl.
  rewrite tool_of_name_tool_name.
  by rewrite (guard_proper t _ _ Hab), (command_of_proper t _ _ Hab).
Qed.

(** A property that the case of the tool does not read changes nothing:
    the call with the property added to the argument object has the outcome
    and leaves the world of the call without it.  Unknown properties are
    neither rejected nor passed on to the command. *)
Theorem call_tool_extra_field {W : Type} {cli : Cli W} {sdk : McpSdk}
    (t : Tool) (m : gmap string value) (k : string) (v : value) (w : W) :
  k ∉ fields_of t →
  call_tool {| name := tool_name t; arguments := VObj (<[k := v]> m) |} w
  = call_tool {| name := tool_name t; arguments := VObj m |} w.
Proof. intros Hk. by apply call_tool_agree, agree_on_insert. Qed.

(** A call runs at most one command. *)
Theorem call_tool_at_most_one_command (request : CallToolRequest) :
  length (commands_run request) ≤ 1.
Proof. unfold commands_run. repeat case_match; simpl; lia. Qed.

(** * The theorems at concrete requests

    The external process is [scripted] and the SDK is [the_sdk]. *)

Lemma call_tool_unknown_witness :
  call_tool (cli := scripted) (sdk := the_sdk) unknown_request []
  = (inr (McpError MethodNotFound
            (sdk_message MethodNotFound "Unknown tool: merge_pr")), []).
Proof.
  apply (call_tool_unknown (cli := scripted) (sdk := the_sdk)).
  intros []; discriminate.
Defined.

Lemma call_tool_invalid_witness :
  call_tool (cli := scripted) (sdk := the_sdk) rejected_request [inl "unused"]
  = (inr (McpError InvalidParams
            (sdk_message InvalidParams "Invalid view_pr arguments")),
     [inl "unused"]).
Proof.
  apply (call_tool_invalid (cli := scripted) (sdk := the_sdk) _ view_pr);
    [reflexivity | vm_compute; reflexivity].
Defined.

Lemma call_tool_success_witness :
  call_tool (cli := scripted) (sdk := the_sdk) view_request [inl "title: Fix"]
  = (inl {| content := [TextContent "title: Fix"]; isError := None |}, []).
Proof.
  apply (call_tool_success (cli := scripted) (sdk := the_sdk) _ view_pr);
    [reflexivity | vm_compute; reflexivity | reflexivity].
Defined.

Lemma call_tool_failure_witness :
  ∃ text,
    call_tool (cli := scripted) (sdk := the_sdk) view_request [inr failure]
    = (inl {| content := [TextContent text]; isError := Some true |}, [])
    ∧ contains text ("GitHub CLI error: " +:+ message_of failure).
Proof.
  apply (call_tool_failure (cli := scripted) (sdk := the_sdk) _ view_pr);
    [reflexivity | vm_compute; reflexivity | reflexivity | reflexivity].
Defined.

Lemma call_tool_throws_witness :
  (protocol_error
     (McpError MethodNotFound
        (sdk_message MethodNotFound "Unknown tool: merge_pr"))
   ∧ @nil (string + thrown) = [])
  ∨ (∃ v, McpError MethodNotFound
            (sdk_message MethodNotFound "Unknown tool: merge_pr")
          = NotAnError v).
Proof.
  apply (call_tool_throws (cli := scripted) (sdk := the_sdk) unknown_request
           _ [] []).
  vm_compute. reflexivity.
Defined.

Lemma call_tool_flagged_witness :
  ∃ t error,
    name view_request = tool_name t ∧
    guard t (arguments view_request) = true ∧
    execSync (Cli := scripted)
      ("gh " +:+ command_of t (arguments view_request)) [inr failure]
    = (inr error, []) ∧
    instanceof_Error error = true.
Proof.
  apply (call_tool_flagged (cli := scripted) (sdk := the_sdk) view_request
           (error_reply
              (sdk_message InternalError
                 "GitHub CLI error: Command failed: gh pr view 7")));
    [vm_compute; reflexivity | reflexivity].
Defined.

Lemma call_tool_reply_shape_witness :
  (∃ text, content (reply "title: Fix") = [TextContent text]) ∧
  (isError (reply "title: Fix") = None
   ∨ isError (reply "title: Fix") = Some true).
Proof.
  apply (call_tool_reply_shape (cli := scripted) (sdk := the_sdk) view_request
           _ [inl "title: Fix"] []).
  vm_compute. reflexivity.
Defined.

Lemma call_tool_extra_field_witness :
  call_tool (cli := scripted) (sdk := the_sdk)
    {| name := "view_pr";
       arguments := VObj (<["repo" := VStr "o/r"]> {["number" := num 7]}) |}
    [inl "title: Fix"]
  = call_tool (cli := scripted) (sdk := the_sdk)
      {| name := "view_pr"; arguments := VObj {["number" := num 7]} |}
      [inl "title: Fix"].
Proof.
  apply (call_tool_extra_field (cli := scripted) (sdk := the_sdk) view_pr).
  simpl. unfold view_fields. rewrite elem_of_cons, elem_of_nil.
  intros [?|[]]; discriminate.
Defined.
