(* ===== verification/Catalogue.v ===== *)
(** * Catalogue: the tools the server lists, and their input schemas

    The handler registered for [ListToolsRequestSchema] (src/src/index.ts,
    lines 125-213) returns a constant: four tools, each with a name, a
    description and an input schema in the vocabulary of JSON Schema
    ([type], [properties], [enum], [required]).  [list_tools] is that
    constant.

    The catalogue is what a client is told; the type guards of
    Validators.v are what the server enforces.  [conforms] is the meaning of
    a schema of this vocabulary on a value, and the theorems compare the two
    on the values a client can send (the values of JSON, which hold no
    [undefined]): on objects the guards of [create_pr] and [list_prs] accept
    exactly the values that conform, the guards of [view_pr] and
    [comment_pr] accept the conforming values whose [number] is a positive
    integer, and the names listed are exactly the names the dispatcher
    serves. *)

From Stdlib Require Import Ascii String ZArith.
From stdpp Require Import base tactics strings list option gmap.
From S2P Require Import Prelude JsNumber JsValue Validators Builders.
From S2P Require Import Executor Dispatcher.

(** ** Schemas *)

(** The values of [type] that the catalogue uses. *)
Inductive JsonType : Type := TObject | TString | TNumber | TBoolean.

Module PropertySchema.
(** [{type, enum?, description}]. *)
Record t : Type := mk {
  type : JsonType;
  enum : option (list string);
  description : string;
}.
End PropertySchema.

Module InputSchema.
(** [{type: 'object', properties, required?}]. *)
Record t : Type := mk {
  type : JsonType;
  properties : list (string * PropertySchema.t);
  required : option (list string);
}.
End InputSchema.

Module ToolInfo.
(** [{name, description, inputSchema}]. *)
Record t : Type := mk {
  name : string;
  description : string;
  inputSchema : InputSchema.t;
}.
End ToolInfo.

(** ** The catalogue *)

Definition create_pr_tool : ToolInfo.t :=
  ToolInfo.mk "create_pr" "Create a new pull request"
    (InputSchema.mk TObject
       [("title", PropertySchema.mk TString None "Title of the pull request");
        ("body", PropertySchema.mk TString None
                   "Body/description of the pull request");
        ("base", PropertySchema.mk TString None
                   "The branch into which you want your code merged");
        ("head", PropertySchema.mk TString None
                   "The branch that contains commits for your pull request");
        ("draft", PropertySchema.mk TBoolean None
                    "Create the pull request as a draft")]
       (Some ["title"])).

Definition list_prs_tool : ToolInfo.t :=
  ToolInfo.mk "list_prs" "List pull requests in the current repository"
    (InputSchema.mk TObject
       [("state", PropertySchema.mk TString
                    (Some ["open"; "closed"; "merged"; "all"])
                    "Filter by state");
        ("base", PropertySchema.mk TString None "Filter by base branch");
        ("limit", PropertySchema.mk TNumber None
                    "Maximum number of pull requests to fetch")]
       None).

Definition view_pr_tool : ToolInfo.t :=
  ToolInfo.mk "view_pr" "View a specific pull request"
    (InputSchema.mk TObject
       [("number", PropertySchema.mk TNumber None "Pull request number")]
       (Some ["number"])).

Definition comment_pr_tool : ToolInfo.t :=
  ToolInfo.mk "comment_pr" "Add a comment to a pull request"
    (InputSchema.mk TObject
       [("number", PropertySchema.mk TNumber None "Pull request number");
        ("body", PropertySchema.mk TString None "Comment text")]
       (Some ["number"; "body"])).

(** The reply of the handler: [{tools: [...]}]. *)
Definition list_tools : list ToolInfo.t :=
  [create_pr_tool; list_prs_tool; view_pr_tool; comment_pr_tool].

(** ** What a schema means *)

(** [type] on a value.  An array and [null] are not of type [object]. *)
Definition has_type (ty : JsonType) (v : value) : bool :=
  match ty, v with
  | TObject, VObj _ | TString, VStr _ | TNumber, VNum _
  | TBoolean, VBool _ => true
  | _, _ => false
  end.

(** [enum]: the value is one of the strings listed. *)
Definition in_enum (enum : option (list string)) (v : value) : bool :=
  match enum with
  | None => true
  | Some l => includes (VStr <$> l) v
  end.

(** A property that is present is of the type and in the [enum] given. *)
Definition field_ok (m : gmap string value) (k : string) (ty : JsonType)
    (enum : option (list string)) : bool :=
  match m !! k with
  | None => true
  | Some v => has_type ty v && in_enum enum v
  end.

(** A property that is present satisfies its schema. *)
Definition property_ok (m : gmap string value)
    (p : string * PropertySchema.t) : bool :=
  field_ok m p.1 (PropertySchema.type p.2) (PropertySchema.enum p.2).

Definition present (m : gmap string value) (k : string) : bool :=
  bool_decide (is_Some (m !! k)).

(** The value is of the schema's type, its listed properties are as their
    schemas say, and the required ones are present.  Properties that the
    schema does not list are allowed. *)
Definition conforms (s : InputSchema.t) (v : value) : bool :=
  has_type (InputSchema.type s) v &&
  match v with
  | VObj m =>
      forallb (property_ok m) (InputSchema.properties s) &&
      forallb (present m) (default [] (InputSchema.required s))
  | _ => true
  end.

(** The entry of a tool. *)
Definition tool_info (t : Tool) : ToolInfo.t :=
  match t with
  | create_pr => create_pr_tool
  | list_prs => list_prs_tool
  | view_pr => view_pr_tool
  | comment_pr => comment_pr_tool
  end.

Definition schema_of (t : Tool) : InputSchema.t :=
  ToolInfo.inputSchema (tool_info t).

(** The objects of JSON: no property holds [undefined]. *)
Definition json_object (m : gmap string value) : Prop :=
  ∀ k, m !! k ≠ Some VUndefined.

(** What the guards of [view_pr] and [comment_pr] ask beyond the schema. *)
Definition positive_integer (m : gmap string value) : bool :=
  isInteger (get (VObj m) "number") && gt0 (get (VObj m) "number").

Definition beyond_schema (t : Tool) (m : gmap string value) : bool :=
  match t with
  | create_pr | list_prs => true
  | view_pr | comment_pr => positive_integer m
  end.

(** The name [typeof] gives the values of a type. *)
Definition type_name (ty : JsonType) : string :=
  match ty with
  | TObject => "object"
  | TString => "string"
  | TNumber => "number"
  | TBoolean => "boolean"
  end.

(** The booleans of a goal that compare a guard with a schema. *)
Ltac by_booleans :=
  unfold property_ok; cbn [fst snd PropertySchema.type PropertySchema.enum];
  repeat match goal with
    | |- context [field_ok ?m ?k ?ty ?e] => destruct (field_ok m k ty e)
    | |- context [present ?m ?k] => destruct (present m k)
    | |- context [positive_integer ?m] => destruct (positive_integer m)
    end;
  done.

(** * Lemmas *)

Section Fields.
Context (m : gmap string value) (Hm : json_object m).

(** A conjunct [args.k === undefined || typeof args.k === '...'] of a guard
    is the schema of an optional property. *)
Lemma optional_conjunct (k : string) (ty : JsonType) (n : string) :
  ty ≠ TObject → n = type_name ty →
  is_undefined (get (VObj m) k) || String.eqb (typeof (get (VObj m) k)) n
  = field_ok m k ty None.
Proof.
  intros Hty ->. unfold field_ok, get. simpl. specialize (Hm k).
  destruct (m !! k) as [[]|], ty; simpl; try done.
Qed.

(** A conjunct [typeof args.k === '...'] of a guard is the schema of a
    property together with its presence. *)
Lemma required_conjunct (k : string) (ty : JsonType) (n : string) :
  ty ≠ TObject → n = type_name ty →
  String.eqb (typeof (get (VObj m) k)) n
  = field_ok m k ty None && present m k.
Proof.
  intros Hty ->. unfold field_ok, present, get. simpl.
  destruct (m !! k) as [[]|], ty; simpl; try done.
Qed.

(** The conjunct on [state] is the schema of a string property with an
    [enum]. *)
Lemma enum_conjunct (k : string) (l : list string) :
  is_undefined (get (VObj m) k) || includes (VStr <$> l) (get (VObj m) k)
  = field_ok m k TString (Some l).
Proof.
  unfold field_ok, get. simpl. specialize (Hm k).
  destruct (m !! k) as [v|]; simpl; [|done].
  destruct (includes (VStr <$> l) v) eqn:Hin.
  - apply includes_strings in Hin as (s & -> & _). done.
  - rewrite andb_false_r. by destruct v.
Qed.

End Fields.

(** ** The guards against the schemas, tool by tool *)

Section Guards.
Context (m : gmap string value) (Hm : json_object m).

Lemma create_pr_schema :
  isValidCreatePrArgs (VObj m) = conforms (schema_of create_pr) (VObj m).
Proof.
  unfold isValidCreatePrArgs, conforms. cbn -[get field_ok present].
  rewrite (required_conjunct m "title" TString "string") by done.
  rewrite !(optional_conjunct m Hm _ TString "string") by done.
  rewrite (optional_conjunct m Hm _ TBoolean "boolean") by done.
  by_booleans.
Qed.

Lemma list_prs_schema :
  isValidListPrArgs (VObj m) = conforms (schema_of list_prs) (VObj m).
Proof.
  unfold isValidListPrArgs, conforms.
  cbn -[get field_ok present includes fmap state_names].
  rewrite (enum_conjunct m Hm), (optional_conjunct m Hm _ TString "string")
    by done.
  rewrite (optional_conjunct m Hm _ TNumber "number") by done.
  unfold state_names. by_booleans.
Qed.

Lemma view_pr_schema :
  isValidViewPrArgs (VObj m)
  = conforms (schema_of view_pr) (VObj m) && positive_integer m.
Proof.
  unfold isValidViewPrArgs, conforms, positive_integer.
  cbn -[get field_ok present isInteger gt0].
  rewrite (required_conjunct m "number" TNumber "number") by done.
  rewrite <-!andb_assoc. by_booleans.
Qed.

Lemma comment_pr_schema :
  isValidCommentPrArgs (VObj m)
  = conforms (schema_of comment_pr) (VObj m) && positive_integer m.
Proof.
  unfold isValidCommentPrArgs, conforms, positive_integer.
  cbn -[get field_ok present isInteger gt0].
  rewrite (required_conjunct m "number" TNumber "number") by done.
  rewrite (required_conjunct m "body" TString "string") by done.
  generalize (isInteger (get (VObj m) "number"))
             (gt0 (get (VObj m) "number")).
  intros [] []; by_booleans.
Qed.

End Guards.

(** * The catalogue against the server *)

(** C31: on the objects a client can send, the guard of every tool accepts
    exactly the values that conform to the tool's input schema and, for
    [view_pr] and [comment_pr], whose [number] is a positive integer: the
    guards of [create_pr] and [list_prs] are their schemas, and the guards
    of the other two are stricter than theirs by the integer test alone. *)
Theorem guard_schema (t : Tool) (m : gmap string value) :
  json_object m →
  guard t (VObj m) = conforms (schema_of t) (VObj m) && beyond_schema t m.
Proof.
  intros Hm. destruct t; simpl guard; simpl beyond_schema;
    rewrite ?andb_true_r;
    auto using create_pr_schema, list_prs_schema, view_pr_schema,
      comment_pr_schema.
Qed.

(** Whatever a guard accepts among the objects a client can send
    conforms to the schema the catalogue publishes for the tool. *)
Theorem guard_conforms (t : Tool) (m : gmap string value) :
  json_object m → guard t (VObj m) = true →
  conforms (schema_of t) (VObj m) = true.
Proof.
  intros Hm Hg. destruct t; simpl guard in Hg;
    [ rewrite create_pr_schema in Hg | rewrite list_prs_schema in Hg
    | rewrite view_pr_schema in Hg | rewrite comment_pr_schema in Hg ];
    try done; by apply andb_prop in Hg as [? _].
Qed.

(** The names the catalogue lists are the names of the cases of the
    dispatcher's [switch], in the same order. *)
Theorem list_tools_names : ToolInfo.name <$> list_tools = tool_name <$> tools.
Proof. reflexivity. Qed.

(** The properties each schema lists are the properties the case of
    the tool reads from the arguments, in the same order. *)
Theorem schema_properties (t : Tool) :
  (InputSchema.properties (schema_of t)).*1 = fields_of t.
Proof. by destruct t. Qed.

Lemma listed_tool_of_name (n : string) :
  n ∈ ToolInfo.name <$> list_tools ↔ is_Some (tool_of_name n).
Proof.
  change (ToolInfo.name <$> list_tools) with (tool_name <$> tools).
  rewrite list_elem_of_fmap. split.
  - intros (t & -> & _). rewrite tool_of_name_tool_name. by eexists.
  - intros [t Ht%tool_of_name_Some]. exists t. split; [done|].
    destruct t; repeat constructor.
Qed.

(** A call is answered with [MethodNotFound] exactly when the name of
    the tool is not in the catalogue. *)
Theorem call_tool_listed {W : Type} {cli : Cli W} {sdk : McpSdk}
    (request : CallToolRequest) (w : W) :
  name request ∈ ToolInfo.name <$> list_tools ↔
  ∀ text, call_tool request w ≠ (inr (McpError MethodNotFound text), w).
Proof.
  rewrite listed_tool_of_name, call_tool_cases.
  destruct (tool_of_name (name request)) as [t|]; split; try done.
  - intros _ text. destruct (guard t _); [|done].
    destruct (execSync _ w) as [[out|[| |]] w']; by simpl.
  - intros H. by edestruct H.
Qed.

(** * Where a schema and a guard differ *)

Example view_pr_schema_wider :
  map (λ v, (conforms (schema_of view_pr) (obj [("number", v)]),
             guard view_pr (obj [("number", v)])))
    [num 7; num 0; num (-1); VNum (dec 3 2); VStr "7"]
  = [(true, true); (true, false); (true, false); (true, false);
     (false, false)].
Proof. vm_compute. reflexivity. Qed.

Example list_prs_array :
  (conforms (schema_of list_prs) (VArr []), guard list_prs (VArr []))
  = (false, true).
Proof. vm_compute. reflexivity. Qed.

Example create_pr_conforms :
  conforms (schema_of create_pr) readme_create = true.
Proof. vm_compute. reflexivity. Qed.

(** * The theorems at concrete arguments *)

Lemma json_object_singleton (k : string) (v : value) :
  v ≠ VUndefined → json_object {[k := v]}.
Proof.
  intros Hv k' Hk. apply lookup_singleton_Some in Hk as [_ ?]. done.
Qed.

Lemma guard_schema_witness :
  guard view_pr (VObj {["number" := num 7]})
  = conforms (schema_of view_pr) (VObj {["number" := num 7]})
    && beyond_schema view_pr {["number" := num 7]}.
Proof. apply guard_schema, json_object_singleton. discriminate. Defined.

Lemma guard_conforms_witness :
  conforms (schema_of view_pr) (VObj {["number" := num 7]}) = true.
Proof.
  apply guard_conforms; [apply json_object_singleton; discriminate|].
  vm_compute. reflexivity.
Defined.
