(* ===== verification/Server.v ===== *)
(** * Server: construction, start-up, requests and shutdown

    [GithubCliServer] (src/src/index.ts, lines 98-122 and 383-391) creates
    the SDK's [Server] with its name, version and the [tools] capability,
    registers the two request handlers, installs the error callback and the
    [SIGINT] listener, and [run] connects the server to the standard
    streams.  The last two lines of the program construct the object and
    run it, printing a failure of [run] to the standard error stream.

    [Process] is the state of the running program: the [server] field of
    the object, the listener of [SIGINT], what was written to the two output
    streams, the exit code once the process has exited, and the world in
    which [gh] runs.  [constructor], [setupToolHandlers], [run], [main] and
    [sigint_listener] are the program's own code, as computations on that
    state.  The SDK's part is modelled from its documented behaviour:
    the constructors of the SDK register the handlers of [ping] and
    [initialize]; [setRequestHandler] checks that the capability of the
    method was declared and stores the handler under the method of its
    schema; [on_request] looks up the method of the request, lets the
    schema of the method read the request, runs the handler, and answers
    with its result or with a JSON-RPC error made from what the parse or
    the handler threw.  What a schema throws on a request that it rejects
    differs between versions of the SDK, so a request that was rejected
    carries it ([OtherRequest]).

    [react] is one step of the process on an event (a request, [SIGINT], a
    transport error) and [serve] a sequence of steps; Node runs the handlers
    one after the other, and [execSync] blocks, so steps do not interleave.
    The handler of [tools/call] holds no [await], and the [await] of the
    [SIGINT] listener is on a close that has already removed the input
    listener, so the listener resumes before another event is handled: each
    is one step.  [interleaved_sigint] is the listener in two steps
    ([sigint_close], then [sigint_resume]) with other events handled in
    between, and [sigint_interleaving] shows that such a schedule changes
    neither the messages sent nor the world.
    The theorems show what [main] leaves, an invariant of every reachable
    state, that each request to the running server is answered exactly once
    and in order, how the outcome of [call_tool] becomes a message, that
    requests share nothing but the world, and that [SIGINT] ends the process
    with status zero from every reachable state. *)

From Stdlib Require Import Ascii String ZArith Lia.
From stdpp Require Import base tactics strings list option gmap.
From S2P Require Import Prelude JsNumber JsValue Validators Builders.
From S2P Require Import Executor Dispatcher Catalogue.

(** ** The SDK's server object *)

(** [{name, version}]. *)
Record Implementation : Type := {
  impl_name : string;
  impl_version : string;
}.

Inductive Capability : Type := Tools | Resources | Prompts | Logging.

#[export] Instance Capability_eq_dec : EqDecision Capability.
Proof. solve_decision. Defined.

(** [{capabilities: {...}}]: the capabilities that are declared. *)
Record ServerOptions : Type := {
  opt_capabilities : list Capability;
}.

(** The request schemas the program registers handlers for, and the
    JSON-RPC method of each. *)
Inductive RequestSchema : Type :=
  ListToolsRequestSchema | CallToolRequestSchema.

Definition method_of (schema : RequestSchema) : string :=
  match schema with
  | ListToolsRequestSchema => "tools/list"
  | CallToolRequestSchema => "tools/call"
  end.

(** The two handler functions of [setupToolHandlers].  TypeScript types a
    handler by the schema it is registered with: the function given with
    [ListToolsRequestSchema] takes a request of [tools/list] (and reads
    nothing of it), the one given with [CallToolRequestSchema] a request of
    [tools/call]. *)
Inductive ListToolsFn : Type := ListToolsHandler.

Inductive CallToolFn : Type := CallToolHandler.

Definition Handler (schema : RequestSchema) : Type :=
  match schema with
  | ListToolsRequestSchema => ListToolsFn
  | CallToolRequestSchema => CallToolFn
  end.

(** The callback [(error) => console.error('[MCP Error]', error)]. *)
Inductive ErrorCallback : Type := LogMcpError.

Inductive Transport : Type := StdioServerTransport.

(** The server object.  [requestHandlers] holds the methods that have a
    handler; which function that is follows from the method, as a handler
    is stored under the method of the schema that types it. *)
Record Server : Type := mkServer {
  serverInfo : Implementation;
  capabilities : list Capability;
  requestHandlers : gset string;
  onerror : option ErrorCallback;
  transport : option Transport;
}.

(** The handlers that the constructors of the SDK register themselves. *)
Definition sdk_methods : gset string := {["ping"; "initialize"]}.

(** [new Server(info, options)]. *)
Definition new_Server (info : Implementation) (options : ServerOptions)
  : Server :=
  mkServer info (opt_capabilities options) sdk_methods None None.

(** [server.setRequestHandler(schema, handler)]: the SDK refuses a handler
    for a method of a capability that was not declared. *)
Definition setRequestHandler (schema : RequestSchema)
    (handler : Handler schema) (s : Server) : Server + thrown :=
  if bool_decide (Tools ∈ capabilities s) then
    inl (mkServer (serverInfo s) (capabilities s)
           ({[method_of schema]} ∪ requestHandlers s)
           (onerror s) (transport s))
  else
    inr (PlainError ("Server does not support tools (required for "
                     +:+ method_of schema +:+ ")")).

Definition set_onerror (callback : ErrorCallback) (s : Server) : Server :=
  mkServer (serverInfo s) (capabilities s) (requestHandlers s)
    (Some callback) (transport s).

(** [server.connect(transport)]; [failure] is what starting the transport
    throws, if it does. *)
Definition Server_connect (failure : option thrown) (t : Transport)
    (s : Server) : Server + thrown :=
  match failure with
  | Some error => inr error
  | None =>
      inl (mkServer (serverInfo s) (capabilities s) (requestHandlers s)
             (onerror s) (Some t))
  end.

(** [server.close()]. *)
Definition Server_close (s : Server) : Server :=
  mkServer (serverInfo s) (capabilities s) (requestHandlers s) (onerror s)
    None.

(** ** Messages *)

(** A request, as the schema of its method reads it.  [OtherRequest] is a
    request that is none of the four before it: a request of another
    method, or a request of one of the four methods that the schema of the
    method rejects; [failure] is what the parse by the schema throws
    then. *)
Inductive Request : Type :=
| ListToolsRequest
| CallToolRequestMsg (request : CallToolRequest)
| PingRequest
| InitializeRequest
| OtherRequest (method : string) (failure : thrown).

Definition request_method (r : Request) : string :=
  match r with
  | ListToolsRequest => "tools/list"
  | CallToolRequestMsg _ => "tools/call"
  | PingRequest => "ping"
  | InitializeRequest => "initialize"
  | OtherRequest method _ => method
  end.

(** The results.  That of [initialize] holds the name and version and the
    capabilities of the server; the protocol version in it, which depends
    on the version of the SDK and on the request, is left out. *)
Inductive JsonRpcResult : Type :=
| ToolsListResult (tools : list ToolInfo.t)
| ToolCallResult (result : CallToolResult)
| EmptyResult
| InitializeResult (info : Implementation) (caps : list Capability).

(** What the server writes to its output: the answer to the request [id]. *)
Inductive JsonRpcMessage : Type :=
| Response (id : Z) (result : JsonRpcResult)
| ErrorResponse (id : Z) (code : Z) (message : string).

Definition message_id (m : JsonRpcMessage) : Z :=
  match m with
  | Response id _ | ErrorResponse id _ _ => id
  end.

(** An argument of [console.error]. *)
Inductive LogArg : Type := LogText (s : string) | LogThrown (e : thrown).

Inductive SigintListener : Type := CloseAndExit.

Inductive Event : Type :=
| EvRequest (id : Z) (r : Request)
| EvSigint
| EvTransportError (e : thrown).

(** The JSON-RPC error the SDK makes of a thrown value: its [code] when
    that is a safe integer and [InternalError] otherwise, and its [message]
    or [Internal error]. *)
Definition safe_integer (x : number) : option Z :=
  z ← Number_toZ x;
  if bool_decide (- (2 ^ 53 - 1) ≤ z ≤ 2 ^ 53 - 1)%Z then Some z else None.

Definition error_code (e : thrown) : Z :=
  match e with
  | McpError code _ => code_number code
  | PlainError _ => code_number InternalError
  | NotAnError v =>
      match get v "code" with
      | VNum x => default (code_number InternalError) (safe_integer x)
      | _ => code_number InternalError
      end
  end.

Definition error_message (e : thrown) : string :=
  match e with
  | McpError _ message | PlainError message => message
  | NotAnError v =>
      match get v "message" with
      | VUndefined | VNull => "Internal error"
      | m => ToString m
      end
  end.

Definition respond (id : Z) (outcome : JsonRpcResult + thrown)
  : JsonRpcMessage :=
  match outcome with
  | inl result => Response id result
  | inr e => ErrorResponse id (error_code e) (error_message e)
  end.

(** ** The process *)

Section Process.
Context {W : Type}.

Record Process : Type := mkProcess {
  this_server : option Server;
  sigint : option SigintListener;
  stderr : list (list LogArg);
  stdout : list JsonRpcMessage;
  exit_code : option Z;
  world : W;
}.

(** The process before the first statement of the program. *)
Definition initial (w : W) : Process := mkProcess None None [] [] None w.

Definition set_server (s : Server) (p : Process) : Process :=
  mkProcess (Some s) (sigint p) (stderr p) (stdout p) (exit_code p) (world p).

Definition set_sigint (l : SigintListener) (p : Process) : Process :=
  mkProcess (this_server p) (Some l) (stderr p) (stdout p) (exit_code p)
    (world p).

Definition set_world (w : W) (p : Process) : Process :=
  mkProcess (this_server p) (sigint p) (stderr p) (stdout p) (exit_code p) w.

(** ** Computations on the process *)

Definition modify (f : Process → Process) : M Process unit :=
  λ p, (inl tt, f p).

(** [this.server.f(...)]. *)
Definition on_server (f : Server → Server + thrown) : M Process unit :=
  λ p, match this_server p with
       | Some s =>
           match f s with
           | inl s' => (inl tt, set_server s' p)
           | inr error => (inr error, p)
           end
       | None =>
           (inr (PlainError "Cannot read properties of undefined"), p)
       end.

(** [console.error(...args)]. *)
Definition console_error (line : list LogArg) : M Process unit :=
  modify (λ p, mkProcess (this_server p) (sigint p) (stderr p ++ [line])
                 (stdout p) (exit_code p) (world p)).

(** [process.exit(code)]. *)
Definition process_exit (code : Z) : M Process unit :=
  modify (λ p, mkProcess (this_server p) (sigint p) (stderr p) (stdout p)
                 (Some code) (world p)).

(** The transport writes a message. *)
Definition send (m : JsonRpcMessage) : M Process unit :=
  modify (λ p, mkProcess (this_server p) (sigint p) (stderr p)
                 (stdout p ++ [m]) (exit_code p) (world p)).

(** A computation on the world, inside the process. *)
Definition in_world {A : Type} (c : M W A) : M Process A :=
  λ p, let '(r, w') := c (world p) in (r, set_world w' p).

Local Open Scope js_scope.

(** ** The program *)

Definition setupToolHandlers : M Process unit :=
  let* _ := on_server
              (setRequestHandler ListToolsRequestSchema ListToolsHandler) in
  on_server (setRequestHandler CallToolRequestSchema CallToolHandler).

Definition constructor : M Process unit :=
  let* _ := modify (set_server
                      (new_Server
                         {| impl_name := "limited-github-cli";
                            impl_version := "0.1.0" |}
                         {| opt_capabilities := [Tools] |})) in
  let* _ := setupToolHandlers in
  let* _ := on_server (λ s, inl (set_onerror LogMcpError s)) in
  modify (set_sigint CloseAndExit).

Definition run (failure : option thrown) : M Process unit :=
  let transport := StdioServerTransport in
  let* _ := on_server (Server_connect failure transport) in
  console_error [LogText "GitHub CLI MCP server running on stdio"].

(** [const server = new GithubCliServer(); server.run().catch(console.error)]. *)
Definition main (failure : option thrown) : M Process unit :=
  let* _ := constructor in
  try_catch (run failure) (λ error, console_error [LogThrown error]).

(** The two statements of the listener of [SIGINT]: the close that it
    awaits, and the exit after the [await]. *)
Definition sigint_close : M Process unit :=
  on_server (λ s, inl (Server_close s)).

Definition sigint_resume : M Process unit := process_exit 0.

(** The listener of [SIGINT]. *)
Definition sigint_listener : M Process unit :=
  let* _ := sigint_close in
  sigint_resume.

(** The callback assigned to [onerror]. *)
Definition onerror_callback (error : thrown) : M Process unit :=
  console_error [LogText "[MCP Error]"; LogThrown error].

Context {cli : Cli W} {sdk : McpSdk}.

(** ** The SDK's handling of a request *)

(** The handler of the method of a request, on the request: the parse by
    the schema of the method, which throws on a request that it rejects,
    and then the function stored for the method: one of the two of the
    program, or one of the two of the SDK, which answers [ping] with the
    empty result and [initialize] with what the server was built with. *)
Definition run_handler (s : Server) (r : Request) : M Process JsonRpcResult :=
  match r with
  | ListToolsRequest => ret (ToolsListResult list_tools)
  | CallToolRequestMsg request =>
      let* result := in_world (call_tool request) in
      ret (ToolCallResult result)
  | PingRequest => ret EmptyResult
  | InitializeRequest =>
      ret (InitializeResult (serverInfo s) (capabilities s))
  | OtherRequest _ failure => throw failure
  end.

Definition on_request (id : Z) (r : Request) : M Process unit :=
  λ p, match s ← this_server p; _ ← transport s; Some s with
       | None => (inl tt, p)
       | Some s =>
           if bool_decide (request_method r ∈ requestHandlers s) then
             try_catch
               (let* result := run_handler s r in
                send (Response id result))
               (λ error, send (respond id (inr error))) p
           else
             send (ErrorResponse id (code_number MethodNotFound)
                     "Method not found") p
       end.

(** ** Steps *)

(** One event.  A process that has exited does nothing; [SIGINT] without a
    listener ends the process with the status of the signal. *)
Definition react (ev : Event) (p : Process) : Process :=
  match exit_code p with
  | Some _ => p
  | None =>
      match ev with
      | EvRequest id r => (on_request id r p).2
      | EvSigint =>
          match sigint p with
          | Some CloseAndExit => (sigint_listener p).2
          | None => (process_exit 130 p).2
          end
      | EvTransportError e =>
          match s ← this_server p; onerror s with
          | Some LogMcpError => (onerror_callback e p).2
          | None => p
          end
      end
  end.

Definition serve (evs : list Event) (p : Process) : Process :=
  foldl (λ p ev, react ev p) p evs.

(** A [SIGINT] whose listener yields at its [await]: the events [between]
    are handled after the close and before the exit. *)
Definition interleaved_sigint (between : list Event) (p : Process)
  : Process :=
  (sigint_resume (serve between (sigint_close p).2)).2.

(** The process after the program's top level has run. *)
Definition boot (failure : option thrown) (w : W) : Process :=
  (main failure (initial w)).2.

(** The states a run of the program passes through. *)
Inductive reachable : Process → Prop :=
| reachable_boot (failure : option thrown) (w : W) :
    reachable (boot failure w)
| reachable_react (ev : Event) (p : Process) :
    reachable p → reachable (react ev p).

(** ** The specification *)

(** The methods with a handler: the two of the program and the two of the
    SDK. *)
Definition the_handlers : gset string :=
  {["tools/call"]} ∪ ({["tools/list"]} ∪ sdk_methods).

(** What the server of the program was built with. *)
Definition the_info : Implementation :=
  {| impl_name := "limited-github-cli"; impl_version := "0.1.0" |}.

(** The server of the program, connected or not. *)
Definition the_server (t : option Transport) : Server :=
  mkServer the_info [Tools] the_handlers (Some LogMcpError) t.

(** The phases of the process once the top level has run: [run] failed
    and the server is not connected, the server accepts requests, the
    process has exited. *)
Inductive Phase : Type := Idle | Live | Exited.

#[export] Instance Phase_eq_dec : EqDecision Phase.
Proof. solve_decision. Defined.

(** The process in a phase: nothing but the phase, the two streams and
    the world varies. *)
Definition in_phase (ph : Phase) (err : list (list LogArg))
    (out : list JsonRpcMessage) (w : W) : Process :=
  mkProcess
    (Some (the_server match ph with
                      | Live => Some StdioServerTransport
                      | _ => None
                      end))
    (Some CloseAndExit) err out
    match ph with Exited => Some 0%Z | _ => None end
    w.

(** The answer to a request in a world, and the world it leaves: the
    specification of [on_request] for the server of the program. *)
Definition answer (id : Z) (r : Request) (w : W) : JsonRpcMessage * W :=
  match r with
  | ListToolsRequest => (Response id (ToolsListResult list_tools), w)
  | CallToolRequestMsg request =>
      let '(outcome, w') := call_tool request w in
      (respond id (sum_map ToolCallResult (λ e, e) outcome), w')
  | PingRequest => (Response id EmptyResult, w)
  | InitializeRequest => (Response id (InitializeResult the_info [Tools]), w)
  | OtherRequest method failure =>
      if bool_decide (method ∈ the_handlers) then
        (respond id (inr failure), w)
      else
        (ErrorResponse id (code_number MethodNotFound) "Method not found", w)
  end.

(** The answers to a sequence of events, from the first to the last
    request before a [SIGINT], and the world they leave. *)
Fixpoint answers (evs : list Event) (w : W) : list JsonRpcMessage * W :=
  match evs with
  | [] => ([], w)
  | EvRequest id r :: evs =>
      let '(m, w') := answer id r w in
      let '(ms, w'') := answers evs w' in
      (m :: ms, w'')
  | EvSigint :: _ => ([], w)
  | EvTransportError _ :: evs => answers evs w
  end.

(** The abstract state of the process: its phase, the lines on the
    standard error stream, the messages sent, and the world. *)
Record Abstract : Type := Abs {
  phase : Phase;
  errors : list (list LogArg);
  sent : list JsonRpcMessage;
  abs_world : W;
}.

Definition concrete (a : Abstract) : Process :=
  in_phase (phase a) (errors a) (sent a) (abs_world a).

(** The transitions of the process: a request to the running server is
    answered, a request to a server that is not connected never arrives,
    [SIGINT] ends the process, an error of the transport is reported, and a
    process that has exited stays as it is. *)
Inductive transition : Abstract → Event → Abstract → Prop :=
| answer_request id r err out w :
    transition (Abs Live err out w) (EvRequest id r)
      (Abs Live err (out ++ [(answer id r w).1]) (answer id r w).2)
| drop_request id r err out w :
    transition (Abs Idle err out w) (EvRequest id r) (Abs Idle err out w)
| interrupt ph err out w :
    ph ≠ Exited →
    transition (Abs ph err out w) EvSigint (Abs Exited err out w)
| report_error ph e err out w :
    ph ≠ Exited →
    transition (Abs ph err out w) (EvTransportError e)
      (Abs ph (err ++ [[LogText "[MCP Error]"; LogThrown e]]) out w)
| stay_exited ev err out w :
    transition (Abs Exited err out w) ev (Abs Exited err out w).

End Process.

Arguments Process : clear implicits.
Arguments Abstract : clear implicits.

(** The requests that are answered: those before the first [SIGINT]. *)
Fixpoint served (evs : list Event) : list (Z * Request) :=
  match evs with
  | [] => []
  | EvRequest id r :: evs => (id, r) :: served evs
  | EvSigint :: _ => []
  | EvTransportError _ :: evs => served evs
  end.

(** The command lines a request runs, and those of a sequence of events. *)
Definition request_commands (r : Request) : list string :=
  match r with
  | CallToolRequestMsg request => commands_run request
  | _ => []
  end.

Definition commands_of (evs : list Event) : list string :=
  '(_, r) ← served evs; request_commands r.

(** The lines the error callback writes before the first [SIGINT]. *)
Fixpoint reported (evs : list Event) : list (list LogArg) :=
  match evs with
  | [] => []
  | EvRequest _ _ :: evs => reported evs
  | EvSigint :: _ => []
  | EvTransportError e :: evs =>
      [LogText "[MCP Error]"; LogThrown e] :: reported evs
  end.

(** There is a [SIGINT] among the events. *)
Definition interrupted (evs : list Event) : bool :=
  existsb (λ ev, match ev with EvSigint => true | _ => false end) evs.

(** The phase after the events, from a phase. *)
Definition phase_after (evs : list Event) (ph : Phase) : Phase :=
  if interrupted evs then Exited else ph.

(** A command line of the server: [gh], then the command the builder of a
    tool makes from arguments that its guard accepts. *)
Definition gh_command (line : string) : Prop :=
  ∃ t args, guard t args = true ∧ line = "gh " +:+ command_of t args.

(** ** Sample events *)

Definition session : list Event :=
  [EvRequest 1 ListToolsRequest;
   EvRequest 2 (CallToolRequestMsg view_request);
   EvTransportError (PlainError "parse error");
   EvRequest 3 (CallToolRequestMsg unknown_request);
   EvRequest 4 (OtherRequest "resources/list" (PlainError "Required"));
   EvSigint;
   EvRequest 5 ListToolsRequest].

(** * Lemmas *)

(** The methods with a handler are the four. *)
Lemma the_handlers_spec (method : string) :
  method ∈ the_handlers
  ↔ method ∈ ["tools/call"; "tools/list"; "ping"; "initialize"].
Proof.
  unfold the_handlers, sdk_methods.
  rewrite !elem_of_union, !elem_of_singleton, !elem_of_cons, elem_of_nil.
  tauto.
Qed.

(** Every request that a schema has read is of a method with a handler. *)
Lemma the_handlers_read (r : Request) :
  (∀ method failure, r ≠ OtherRequest method failure) →
  bool_decide (request_method r ∈ the_handlers) = true.
Proof.
  intros Hr. apply bool_decide_eq_true, the_handlers_spec.
  destruct r; simpl; [by repeat constructor..|].
  by destruct (Hr method failure).
Qed.

Section ProcessLemmas.
Context {W : Type} {cli : Cli W} {sdk : McpSdk}.
Implicit Types (p : Process W) (w : W) (a : Abstract W).

Local Open Scope js_scope.

(** ** Construction and start *)

Lemma setupToolHandlers_run (s : Server) p :
  this_server p = Some s →
  setupToolHandlers p
  = if bool_decide (Tools ∈ capabilities s) then
      (inl tt,
       set_server
         (mkServer (serverInfo s) (capabilities s)
            ({["tools/call"]} ∪ ({["tools/list"]} ∪ requestHandlers s))
            (onerror s) (transport s)) p)
    else
      (inr (PlainError
              "Server does not support tools (required for tools/list)"), p).
Proof.
  intros Hs. unfold setupToolHandlers, bind, on_server, setRequestHandler.
  rewrite Hs. case_bool_decide; simpl; [|done].
  by rewrite bool_decide_true.
Qed.

Lemma constructor_run p :
  constructor p
  = (inl tt,
     mkProcess (Some (the_server None)) (Some CloseAndExit) (stderr p)
       (stdout p) (exit_code p) (world p)).
Proof.
  unfold constructor, bind at 1. simpl. unfold bind at 1.
  erewrite setupToolHandlers_run by done. by rewrite bool_decide_true by set_solver.
Qed.

Lemma main_run (failure : option thrown) w :
  main failure (initial w)
  = (inl tt,
     match failure with
     | None =>
         in_phase Live [[LogText "GitHub CLI MCP server running on stdio"]]
           [] w
     | Some error => in_phase Idle [[LogThrown error]] [] w
     end).
Proof.
  unfold main, bind. rewrite constructor_run. by destruct failure.
Qed.

(** ** Requests *)

Lemma on_request_live id (r : Request) err out w :
  on_request id r (in_phase Live err out w)
  = (inl tt,
     in_phase Live err (out ++ [(answer id r w).1]) (answer id r w).2).
Proof.
  unfold on_request. cbn [in_phase this_server transport the_server mbind
    option_bind requestHandlers].
  destruct r as [|request| | |method failure];
    rewrite ?the_handlers_read by done; try done.
  - unfold try_catch, bind, in_world, run_handler, bind, in_world. simpl.
    by destruct (call_tool request w) as [[result|error] w'].
  - simpl. by case_bool_decide.
Qed.

Lemma on_request_idle id (r : Request) err out w :
  on_request id r (in_phase Idle err out w) = (inl tt, in_phase Idle err out w).
Proof. done. Qed.

(** ** Steps *)

Lemma react_simulation a (ev : Event) a' :
  transition a ev a' → react ev (concrete a) = concrete a'.
Proof.
  destruct 1 as [| |[]|[]|]; try done; unfold react, concrete; simpl.
  - by rewrite on_request_live.
Qed.

Lemma transition_total a (ev : Event) : ∃ a', transition a ev a'.
Proof.
  destruct a as [[] err out w], ev; eexists; by constructor.
Qed.

Lemma react_concrete a (ev : Event) :
  ∃ a', transition a ev a' ∧ react ev (concrete a) = concrete a'.
Proof.
  destruct (transition_total a ev) as [a' Ht].
  exists a'. split; [done|]. by apply react_simulation.
Qed.

Lemma reachable_concrete p : reachable p → ∃ a, p = concrete a.
Proof.
  induction 1 as [failure w|ev p _ [a ->]].
  - unfold boot. rewrite main_run.
    destruct failure; by eexists (Abs _ _ _ _).
  - destruct (react_concrete a ev) as (a' & _ & ->). by exists a'.
Qed.

(** ** Sessions *)

Lemma serve_exited (evs : list Event) err out w :
  serve evs (in_phase Exited err out w) = in_phase Exited err out w.
Proof. by induction evs. Qed.

Lemma serve_live (evs : list Event) err out w :
  serve evs (in_phase Live err out w)
  = in_phase (phase_after evs Live) (err ++ reported evs)
      (out ++ (answers evs w).1) (answers evs w).2.
Proof.
  induction evs as [|[id r| |e] evs IH] in err, out, w |- *.
  - by rewrite !app_nil_r.
  - change (serve _ _) with (serve evs (on_request id r (in_phase Live err out w)).2).
    rewrite on_request_live. cbn [snd]. rewrite IH. cbn [answers].
    destruct (answer id r w) as [m w']. cbn [fst snd].
    destruct (answers evs w') as [ms w'']. by rewrite <-app_assoc.
  - change (serve _ _) with (serve evs (in_phase Exited err out w)).
    by rewrite serve_exited, !app_nil_r.
  - change (serve _ _)
      with (serve evs (in_phase Live
                         (err ++ [[LogText "[MCP Error]"; LogThrown e]])
                         out w)).
    by rewrite IH, <-app_assoc.
Qed.

Lemma serve_idle (evs : list Event) err out w :
  serve evs (in_phase Idle err out w)
  = in_phase (phase_after evs Idle) (err ++ reported evs) out w.
Proof.
  induction evs as [|[id r| |e] evs IH] in err |- *.
  - by rewrite app_nil_r.
  - apply IH.
  - change (serve _ _) with (serve evs (in_phase Exited err out w)).
    by rewrite serve_exited, app_nil_r.
  - change (serve _ _)
      with (serve evs (in_phase Idle
                         (err ++ [[LogText "[MCP Error]"; LogThrown e]])
                         out w)).
    by rewrite IH, <-app_assoc.
Qed.

(** The close of the listener leaves the server without a transport. *)
Lemma sigint_close_idle (ph : Phase) err out w :
  ph ≠ Exited →
  (sigint_close (in_phase ph err out w)).2 = in_phase Idle err out w.
Proof. by destruct ph. Qed.

Lemma sigint_resume_exited (ph : Phase) err out w :
  ph ≠ Live →
  (sigint_resume (in_phase ph err out w)).2 = in_phase Exited err out w.
Proof. by destruct ph. Qed.

(** After a [SIGINT] the process has exited, whatever its phase was. *)
Lemma serve_interrupted a (evs : list Event) :
  interrupted evs = true →
  ∃ err out w, serve evs (concrete a) = in_phase Exited err out w.
Proof.
  intros Hi. destruct a as [[] err out w]; unfold concrete; simpl.
  - rewrite serve_idle. unfold phase_after. rewrite Hi. eauto.
  - rewrite serve_live. unfold phase_after. rewrite Hi. eauto.
  - rewrite serve_exited. eauto.
Qed.

(** ** Answers *)

Lemma answer_id id (r : Request) w : message_id (answer id r w).1 = id.
Proof.
  destruct r as [|request| | |method failure]; simpl; try done.
  - by destruct (call_tool request w) as [[] ?].
  - by case_bool_decide.
Qed.

Lemma answers_ids (evs : list Event) w :
  message_id <$> (answers evs w).1 = (served evs).*1.
Proof.
  induction evs as [|[id r| |e] evs IH] in w |- *; cbn [answers served];
    [done| |done|done].
  pose proof (answer_id id r w) as Hid.
  destruct (answer id r w) as [m w']. specialize (IH w').
  destruct (answers evs w') as [ms w'']. cbn [fst] in *. csimpl.
  by rewrite Hid, IH.
Qed.

Lemma answer_call_tool id (request : CallToolRequest) w :
  answer id (CallToolRequestMsg request) w
  = match tool_of_name (name request) with
    | None =>
        (ErrorResponse id (code_number MethodNotFound)
           (mcp_message MethodNotFound ("Unknown tool: " +:+ name request)),
         w)
    | Some t =>
        if guard t (arguments request) then
          let '(result, w') :=
            execSync ("gh " +:+ command_of t (arguments request)) w in
          (match result with
           | inl output => Response id (ToolCallResult (reply output))
           | inr error =>
               if instanceof_Error error then
                 Response id
                   (ToolCallResult
                      (error_reply
                         (mcp_message InternalError
                            ("GitHub CLI error: " +:+ message_of error))))
               else ErrorResponse id (error_code error) (error_message error)
           end, w')
        else
          (ErrorResponse id (code_number InvalidParams)
             (mcp_message InvalidParams
                ("Invalid " +:+ tool_name t +:+ " arguments")), w)
    end.
Proof.
  unfold answer. rewrite call_tool_cases.
  destruct (tool_of_name _) as [t|]; [|done].
  destruct (guard t _); [|done].
  destruct (execSync _ w) as [[output|error] w']; [done|]. simpl.
  by destruct (instanceof_Error error).
Qed.

End ProcessLemmas.

(** ** Commands *)

Lemma served_length (evs : list Event) : length (served evs) ≤ length evs.
Proof. induction evs as [|[] evs IH]; simpl; lia. Qed.

Lemma commands_run_gh (request : CallToolRequest) :
  Forall gh_command (commands_run request).
Proof.
  unfold commands_run. destruct (tool_of_name _) as [t|]; [|done].
  destruct (guard t _) eqn:Hg; [|done].
  repeat constructor. by exists t, (arguments request).
Qed.

Lemma commands_of_gh (evs : list Event) : Forall gh_command (commands_of evs).
Proof.
  unfold commands_of. apply Forall_bind, Forall_forall.
  intros [id []] _; simpl; auto using commands_run_gh.
Qed.

Lemma commands_of_length (evs : list Event) :
  length (commands_of evs) ≤ length (served evs).
Proof.
  unfold commands_of.
  induction (served evs) as [|[id r] l IH]; csimpl; [done|].
  rewrite length_app.
  assert (length (request_commands r) ≤ 1); [|lia].
  destruct r; simpl; auto using call_tool_at_most_one_command.
Qed.

Section Logged.
Context {W : Type} {cli : Cli W} {sdk : McpSdk}.

Lemma answer_logged id (r : Request) (log : list string) (w : W) :
  answer (cli := logged cli) id r (log, w)
  = ((answer id r w).1, (log ++ request_commands r, (answer id r w).2)).
Proof.
  destruct r as [|request| | |method failure]; simpl;
    rewrite ?app_nil_r; try done.
  - rewrite call_tool_log. by destruct (call_tool request w).
  - by case_bool_decide.
Qed.

Lemma answers_logged (evs : list Event) (log : list string) (w : W) :
  answers (cli := logged cli) evs (log, w)
  = ((answers evs w).1, (log ++ commands_of evs, (answers evs w).2)).
Proof.
  unfold commands_of.
  induction evs as [|[id r| |e] evs IH] in log, w |- *; simpl;
    [by rewrite app_nil_r| |by rewrite app_nil_r|done].
  rewrite answer_logged. destruct (answer id r w) as [m w']. simpl.
  rewrite IH. destruct (answers evs w') as [ms w'']. simpl.
  by rewrite app_assoc.
Qed.

End Logged.

(** * The server implements its specification *)

Section ServerTheorems.
Context {W : Type} {cli : Cli W} {sdk : McpSdk}.
Implicit Types (p : Process W) (w : W) (a : Abstract W).

(** The constructor never throws, whatever the process was: it leaves
    the SDK server named [limited-github-cli], version [0.1.0], with the
    [tools] capability declared, the handlers of [tools/list] and
    [tools/call] registered, the error callback assigned and no transport,
    and the listener of [SIGINT] installed; the streams, the exit code and
    the world are untouched.  Registering the handlers succeeds because the
    capability is declared. *)
Theorem constructor_builds p :
  constructor p
  = (inl tt,
     mkProcess (Some (the_server None)) (Some CloseAndExit) (stderr p)
       (stdout p) (exit_code p) (world p)).
Proof. apply constructor_run. Qed.

(** C22: the top level of the program does not throw.  When the transport
    starts, the process is [Live]: the server is connected and the line
    [GitHub CLI MCP server running on stdio] is the only one on the standard
    error stream.  When starting the transport throws, the thrown value is
    printed to the standard error stream instead, the server is constructed
    but not connected, and the process has not exited. *)
Theorem main_starts (failure : option thrown) w :
  main failure (initial w)
  = (inl tt,
     match failure with
     | None =>
         in_phase Live [[LogText "GitHub CLI MCP server running on stdio"]]
           [] w
     | Some error => in_phase Idle [[LogThrown error]] [] w
     end).
Proof. apply main_run. Qed.

(** Without the [tools] capability the SDK refuses the first handler:
    [setupToolHandlers] throws an [Error] that names [tools/list], and
    registers nothing. *)
Theorem setupToolHandlers_capability (s : Server) p :
  this_server p = Some s →
  Tools ∉ capabilities s →
  setupToolHandlers p
  = (inr (PlainError
            "Server does not support tools (required for tools/list)"), p).
Proof.
  intros Hs Ht. rewrite (setupToolHandlers_run s) by done.
  by rewrite bool_decide_false.
Qed.

(** C9: the process implements the transition system [transition]: where
    the abstract state steps on an event, [react] takes the process of the
    state to the process of the next state.  A request to the running
    server appends exactly its [answer] and leaves the world of the answer;
    [SIGINT] closes the server and exits with status zero; a transport error
    appends one line to the standard error stream; after the exit nothing
    changes. *)
Theorem react_refines a (ev : Event) a' :
  transition a ev a' → react ev (concrete a) = concrete a'.
Proof. apply react_simulation. Qed.

(** C21: every state the program reaches is the process of an abstract
    state: the server is the one the constructor built, with both handlers,
    the capability and the error callback; the listener of [SIGINT] is
    installed; the transport is connected only in phase [Live]; and the exit
    code is absent, or zero in phase [Exited]. *)
Theorem reachable_phase p : reachable p → ∃ a, p = concrete a.
Proof. apply reachable_concrete. Qed.

(** C8: a sequence of events takes the running server to the state whose
    output is the old output followed by [answers], the answers to the
    requests in their order, whose world is the one the answers leave, whose
    standard error stream has gained the reported transport errors, and
    which has exited exactly when a [SIGINT] was among the events. *)
Theorem serve_session (evs : list Event) err out w :
  serve evs (in_phase Live err out w)
  = in_phase (phase_after evs Live) (err ++ reported evs)
      (out ++ (answers evs w).1) (answers evs w).2.
Proof. apply serve_live. Qed.

(** C25: the running server answers each request that arrives before a
    [SIGINT] exactly once, with the id of the request and in the order of
    arrival; the number of messages is at most the number of events. *)
Theorem answers_in_order (evs : list Event) err w :
  message_id <$> stdout (serve evs (in_phase Live err [] w))
  = (served evs).*1
  ∧ length (stdout (serve evs (in_phase Live err [] w))) ≤ length evs.
Proof.
  rewrite serve_live. simpl. split; [apply answers_ids|].
  rewrite <-(length_fmap message_id), answers_ids, length_fmap.
  apply served_length.
Qed.

(** C10: from every reachable state, a sequence of events with a [SIGINT]
    in it ends with the process exited with status zero and the server
    closed. *)
Theorem sigint_exits p (evs : list Event) :
  reachable p →
  interrupted evs = true →
  exit_code (serve evs p) = Some 0%Z
  ∧ this_server (serve evs p) = Some (the_server None).
Proof.
  intros [a ->]%reachable_concrete Hi.
  by destruct (serve_interrupted a evs Hi) as (err & out & w & ->).
Qed.

(** A process that has exited stays as it is: no event writes to a
    stream, runs a command or changes the exit code. *)
Theorem exited_silent p (evs : list Event) :
  reachable p → is_Some (exit_code p) → serve evs p = p.
Proof.
  intros [[[] err out w] ->]%reachable_concrete [c Hc]; try done.
  apply serve_exited.
Qed.

(** C26: the [await] of the [SIGINT] listener lets nothing through.  If
    the listener yields at its [await] and other events are handled before
    it resumes, the process still ends exited with status zero, with the
    output and the world it had at the signal: a request that arrives after
    the close is not answered and runs no command.  Only transport errors
    reported in between add their lines to the standard error stream.
    Without events in between this is the step of [react]. *)
Theorem sigint_interleaving (between : list Event) (ph : Phase) err out w :
  ph ≠ Exited →
  interleaved_sigint between (in_phase ph err out w)
  = in_phase Exited (err ++ reported between) out w
  ∧ interleaved_sigint [] (in_phase ph err out w)
    = react EvSigint (in_phase ph err out w).
Proof.
  intros Hph. unfold interleaved_sigint.
  rewrite sigint_close_idle, serve_idle by done. split.
  - apply sigint_resume_exited. unfold phase_after. by case_match.
  - by destruct ph.
Qed.

(** C23: the answer of the running server to [tools/call].  An unknown
    tool is the JSON-RPC error [MethodNotFound] and rejected arguments are
    the error [InvalidParams], both before any command runs.  Otherwise the
    one command [gh ...] runs: its output is a result; an [Error] it throws
    is a result flagged [isError] whose text holds the message; any other
    thrown value is a JSON-RPC error with the code and message the SDK reads
    from the value. *)
Theorem tool_call_answer id (request : CallToolRequest) err out w :
  react (EvRequest id (CallToolRequestMsg request)) (in_phase Live err out w)
  = let '(m, w') :=
      match tool_of_name (name request) with
      | None =>
          (ErrorResponse id (-32601)
             (mcp_message MethodNotFound
                ("Unknown tool: " +:+ name request)), w)
      | Some t =>
          if guard t (arguments request) then
            let '(result, w') :=
              execSync ("gh " +:+ command_of t (arguments request)) w in
            (match result with
             | inl output => Response id (ToolCallResult (reply output))
             | inr error =>
                 if instanceof_Error error then
                   Response id
                     (ToolCallResult
                        (error_reply
                           (mcp_message InternalError
                              ("GitHub CLI error: " +:+ message_of error))))
                 else
                   ErrorResponse id (error_code error) (error_message error)
             end, w')
          else
            (ErrorResponse id (-32602)
               (mcp_message InvalidParams
                  ("Invalid " +:+ tool_name t +:+ " arguments")), w)
      end in
    in_phase Live err (out ++ [m]) w'.
Proof.
  change (react _ _)
    with (on_request id (CallToolRequestMsg request)
            (in_phase Live err out w)).2.
  rewrite on_request_live, answer_call_tool.
  by repeat case_match.
Qed.

(** A request for a method without a handler, that is, for none of
    [tools/list], [tools/call], [ping] and [initialize], is answered with
    the JSON-RPC error [MethodNotFound] by the SDK: no handler runs and the
    world is unchanged. *)
Theorem other_method_answer id (method : string) (failure : thrown)
    err out w :
  method ∉ the_handlers →
  react (EvRequest id (OtherRequest method failure))
    (in_phase Live err out w)
  = in_phase Live err (out ++ [ErrorResponse id (-32601) "Method not found"])
      w.
Proof.
  intros Hm.
  change (react _ _)
    with (on_request id (OtherRequest method failure)
            (in_phase Live err out w)).2.
  rewrite on_request_live. simpl. by rewrite bool_decide_false.
Qed.

(** A request of a method with a handler that the schema of the method
    rejects never reaches the handler: the SDK answers with the JSON-RPC
    error that it makes of what the parse threw, and the world is
    unchanged.  So a [tools/call] without a tool name runs no command. *)
Theorem rejected_request_answer id (method : string) (failure : thrown)
    err out w :
  method ∈ the_handlers →
  react (EvRequest id (OtherRequest method failure))
    (in_phase Live err out w)
  = in_phase Live err
      (out ++ [ErrorResponse id (error_code failure) (error_message failure)])
      w.
Proof.
  intros Hm.
  change (react _ _)
    with (on_request id (OtherRequest method failure)
            (in_phase Live err out w)).2.
  rewrite on_request_live. simpl. by rewrite bool_decide_true.
Qed.

(** The handlers of the SDK: [ping] is answered with the empty result, and
    [initialize] with the name and the version that the constructor gave
    the server ([limited-github-cli], [0.1.0]) and with the one capability
    that it declared, [tools]. *)
Theorem sdk_requests_answer id err out w :
  react (EvRequest id PingRequest) (in_phase Live err out w)
  = in_phase Live err (out ++ [Response id EmptyResult]) w
  ∧ react (EvRequest id InitializeRequest) (in_phase Live err out w)
    = in_phase Live err
        (out ++ [Response id
                   (InitializeResult
                      {| impl_name := "limited-github-cli";
                         impl_version := "0.1.0" |} [Tools])]) w.
Proof.
  split.
  - change (react _ _)
      with (on_request id PingRequest (in_phase Live err out w)).2.
    by rewrite on_request_live.
  - change (react _ _)
      with (on_request id InitializeRequest (in_phase Live err out w)).2.
    by rewrite on_request_live.
Qed.

(** C24: with the command lines recorded, the lines a session of the running
    server passes to the shell are exactly [commands_of]: for each
    [tools/call] before a [SIGINT] whose tool is known and whose arguments
    pass the guard, the one line [gh <command of the tool>], in the order of
    the requests.  Every line is therefore [gh] followed by the command of a
    builder on accepted arguments, and there are at most as many lines as
    requests. *)
Theorem serve_commands (evs : list Event) err out (log : list string) w :
  (world (serve (cli := logged cli) evs (in_phase Live err out (log, w)))).1
  = log ++ commands_of evs
  ∧ Forall gh_command (commands_of evs)
  ∧ length (commands_of evs) ≤ length evs.
Proof.
  rewrite serve_live, answers_logged. split_and!; [done|apply commands_of_gh|].
  etrans; [apply commands_of_length|apply served_length].
Qed.

(** Recording the command lines changes no answer. *)
Theorem serve_logged (evs : list Event) err out (log : list string) w :
  stdout (serve (cli := logged cli) evs (in_phase Live err out (log, w)))
  = stdout (serve evs (in_phase Live err out w)).
Proof. by rewrite !serve_live, answers_logged. Qed.

(** The states of a session are reachable. *)
Lemma reachable_serve p (evs : list Event) :
  reachable p → reachable (serve evs p).
Proof.
  induction evs as [|ev evs IH] in p |- *; [done|].
  intros Hp. apply IH. by constructor.
Qed.

End ServerTheorems.

(** * The theorems at a concrete session

    The external process is [scripted] and the SDK is [the_sdk];
    [session] is a listing, a call of [view_pr], a transport error, a call
    of an unknown tool, a request for a method the server has no handler
    for, [SIGINT], and a request that arrives too late. *)

Example session_run :
  serve (cli := logged scripted) (sdk := the_sdk) session
    (boot None ([], [inl "title: Fix"]))
  = in_phase Exited
      [[LogText "GitHub CLI MCP server running on stdio"];
       [LogText "[MCP Error]"; LogThrown (PlainError "parse error")]]
      [Response 1 (ToolsListResult list_tools);
       Response 2
         (ToolCallResult
            {| content := [TextContent "title: Fix"]; isError := None |});
       ErrorResponse 3 (-32601) "MCP error -32601: Unknown tool: merge_pr";
       ErrorResponse 4 (-32601) "Method not found"]
      (["gh pr view 7"], []).
Proof. vm_compute. reflexivity. Qed.

Example session_not_connected :
  serve (cli := scripted) (sdk := the_sdk)
    [EvRequest 1 ListToolsRequest; EvRequest 2 (CallToolRequestMsg view_request)]
    (boot (Some (PlainError "already started")) [inl "title: Fix"])
  = in_phase Idle [[LogThrown (PlainError "already started")]] []
      [inl "title: Fix"].
Proof. vm_compute. reflexivity. Qed.

Example error_code_examples :
  error_code (McpError InvalidParams "m") = (-32602)%Z
  ∧ error_code (NotAnError (obj [("code", num 7)])) = 7%Z
  ∧ error_code (NotAnError (obj [("code", VStr "ENOENT")])) = (-32603)%Z
  ∧ error_message (NotAnError (VStr "boom")) = "Internal error"
  ∧ error_message (NotAnError (obj [("message", VStr "boom")])) = "boom".
Proof. vm_compute. by split_and!. Qed.

Lemma setupToolHandlers_capability_witness :
  setupToolHandlers
    (set_server
       (new_Server {| impl_name := "limited-github-cli";
                      impl_version := "0.1.0" |}
          {| opt_capabilities := [] |}) (initial tt))
  = (inr (PlainError
            "Server does not support tools (required for tools/list)"),
     set_server
       (new_Server {| impl_name := "limited-github-cli";
                      impl_version := "0.1.0" |}
          {| opt_capabilities := [] |}) (initial tt)).
Proof.
  apply (setupToolHandlers_capability
           (new_Server {| impl_name := "limited-github-cli";
                          impl_version := "0.1.0" |}
              {| opt_capabilities := [] |}));
    [reflexivity | vm_compute; inversion 1].
Defined.

Lemma react_refines_witness :
  react (cli := scripted) (sdk := the_sdk)
    (EvRequest 2 (CallToolRequestMsg view_request))
    (concrete (Abs Live [] [] [inl "title: Fix"]))
  = concrete
      (Abs Live [] [Response 2 (ToolCallResult (reply "title: Fix"))] []).
Proof.
  apply (react_refines (cli := scripted) (sdk := the_sdk)
           (Abs Live [] [] [inl "title: Fix"])
           (EvRequest 2 (CallToolRequestMsg view_request))).
  apply (answer_request (cli := scripted) (sdk := the_sdk)).
Defined.

Lemma reachable_phase_witness :
  ∃ a, serve (cli := scripted) (sdk := the_sdk) session
         (boot None [inl "title: Fix"])
       = concrete a.
Proof.
  apply (reachable_phase (cli := scripted) (sdk := the_sdk)).
  apply reachable_serve, reachable_boot.
Defined.

Lemma sigint_exits_witness :
  exit_code (serve (cli := scripted) (sdk := the_sdk) session
               (boot None [inl "title: Fix"])) = Some 0%Z
  ∧ this_server (serve (cli := scripted) (sdk := the_sdk) session
                   (boot None [inl "title: Fix"]))
    = Some (the_server None).
Proof.
  apply (sigint_exits (cli := scripted) (sdk := the_sdk));
    [apply reachable_boot | reflexivity].
Defined.

Lemma exited_silent_witness :
  serve (cli := scripted) (sdk := the_sdk)
    [EvRequest 5 (CallToolRequestMsg view_request)]
    (react (cli := scripted) (sdk := the_sdk) EvSigint
       (boot None [inl "title: Fix"]))
  = react (cli := scripted) (sdk := the_sdk) EvSigint
      (boot None [inl "title: Fix"]).
Proof.
  apply (exited_silent (cli := scripted) (sdk := the_sdk));
    [apply reachable_react, reachable_boot | vm_compute; eauto].
Defined.

Lemma other_method_answer_witness :
  react (cli := scripted) (sdk := the_sdk)
    (EvRequest 4 (OtherRequest "resources/list" (PlainError "Required")))
    (in_phase Live [] [] [])
  = in_phase Live [] [ErrorResponse 4 (-32601) "Method not found"] [].
Proof.
  apply (other_method_answer (cli := scripted) (sdk := the_sdk)).
  rewrite the_handlers_spec, !elem_of_cons, elem_of_nil.
  by intros [[=]|[[=]|[[=]|[[=]|[]]]]].
Defined.

Lemma rejected_request_answer_witness :
  react (cli := scripted) (sdk := the_sdk)
    (EvRequest 4 (OtherRequest "tools/call" (PlainError "Required")))
    (in_phase Live [] [] [inl "never run"])
  = in_phase Live [] [ErrorResponse 4 (-32603) "Required"] [inl "never run"].
Proof.
  apply (rejected_request_answer (cli := scripted) (sdk := the_sdk)).
  apply the_handlers_spec. repeat constructor.
Defined.

Lemma sigint_interleaving_witness :
  interleaved_sigint (cli := scripted) (sdk := the_sdk) session
    (in_phase Live [] [] [])
  = in_phase Exited ([] ++ reported session) [] []
  ∧ interleaved_sigint (cli := scripted) (sdk := the_sdk) []
      (in_phase Live [] [] [])
    = react (cli := scripted) (sdk := the_sdk) EvSigint (in_phase Live [] [] []).
Proof. by apply (sigint_interleaving session Live). Defined.
