(* ===== verification/EndToEnd.v ===== *)
(** * EndToEnd: from a request to the arguments of [gh]

    The files before this one follow a call in stages: the guard
    (Validators), the command string (Builders), the line passed to the
    shell (Executor), the handler around them (Dispatcher), and the shell's
    reading of the line (Shell).  This file composes them.  [intended_argv]
    says, tool by tool, on which arguments the development knows the
    argument vector that [gh] receives, and what it is (a quoted text
    reaches [gh] as its value between double quotes, [dq_value]); the theorem
    shows that a call on such arguments passes exactly one line to the
    shell and that the shell reads it as one command with that vector.
    [served_argv] and [served_injection] state the same, and the injection
    of Shell.v, for a request to the running server of Server.v, and
    [served_view_number] follows a pull-request number of any size from the
    request to the argument of [gh]. *)

From Stdlib Require Import Ascii String ZArith Lia.
From stdpp Require Import base tactics strings list option gmap pretty.
From S2P Require Import Prelude JsNumber SafeInteger JsValue Validators.
From S2P Require Import Builders Numerals Shell Executor Dispatcher Catalogue.
From S2P Require Import Server.

(** The arguments of each tool on which the argument vector is known. *)
Inductive intended_argv : Tool → value → list string → Prop :=
| intended_create (args : value) (a a' : CreatePrArgs.t) :
    narrow_create args = Some a → create_regular a → dq_args a = Some a' →
    intended_argv create_pr args (argv_create a')
| intended_list (args : value) (a : ListPrArgs.t) :
    narrow_list args = Some a → list_regular a → list_safe a →
    intended_argv list_prs args (argv_list a)
| intended_view (m : gmap string value) (x : number) (z : Z) :
    m !! "number" = Some (VNum x) → valid x = true →
    Number_toZ x = Some z → (0 < z < 2 ^ 53)%Z →
    intended_argv view_pr (VObj m) (argv_view z)
| intended_comment (m : gmap string value) (x : number) (z : Z)
    (body v : string) :
    m !! "number" = Some (VNum x) → m !! "body" = Some (VStr body) →
    valid x = true → Number_toZ x = Some z → (0 < z < 2 ^ 53)%Z →
    dq_value body = Some v →
    intended_argv comment_pr (VObj m) (argv_comment z v).

(** * Lemmas *)

(** The guard accepts the arguments of [intended_argv]. *)
Lemma intended_guard (t : Tool) (args : value) (argv : list string) :
  intended_argv t args argv → guard t args = true.
Proof.
  destruct 1; simpl.
  - apply isValidCreatePrArgs_narrow. by eexists.
  - apply isValidListPrArgs_narrow. by eexists.
  - by eapply view_pr_decimal.
  - by eapply comment_pr_decimal.
Qed.

(** The shell reads the line of the tool as the vector intended. *)
Lemma intended_line (t : Tool) (args : value) (argv : list string) :
  intended_argv t args argv →
  sh_parse ("gh " +:+ command_of t args) = Some [argv].
Proof.
  destruct 1 as [args a a' Hn Hr Hs|args a Hn Hr Hs|m x z Hm Hv Hx Hz
                |m x z body v Hm Hb Hv Hx Hz Hs]; simpl.
  - rewrite (create_pr_template args a) by done.
    by apply create_pr_line_read.
  - rewrite (list_prs_template args a) by done.
    apply list_prs_line; [apply Hr|done].
  - destruct (view_pr_decimal m x z) as [_ ->]; [done..|].
    apply view_pr_line. lia.
  - destruct (comment_pr_decimal m x z body) as [_ ->]; [done..|].
    apply comment_pr_line_read; [lia|done].
Qed.

(** An accepted call passes one line to the external process. *)
Lemma call_tool_line {W : Type} {cli : Cli W} {sdk : McpSdk}
    (t : Tool) (args : value) (log : list string) (w : W) :
  guard t args = true →
  log_of (call_tool (cli := logged cli)
            {| name := tool_name t; arguments := args |} (log, w))
  = log ++ ["gh " +:+ command_of t args].
Proof.
  intros Hg. rewrite call_tool_cases. simpl.
  rewrite tool_of_name_tool_name, Hg.
  by destruct (execSync _ w) as [r w'].
Qed.

(** The running server passes the line of an accepted call to the shell. *)
Lemma react_line {W : Type} {cli : Cli W} {sdk : McpSdk}
    (t : Tool) (args : value) id err out (log : list string) (w : W) :
  guard t args = true →
  (world (react (cli := logged cli)
            (EvRequest id
               (CallToolRequestMsg
                  {| name := tool_name t; arguments := args |}))
            (in_phase Live err out (log, w)))).1
  = log ++ ["gh " +:+ command_of t args].
Proof.
  intros Hg.
  change (react _ _) with (on_request (cli := logged cli) id
    (CallToolRequestMsg {| name := tool_name t; arguments := args |})
    (in_phase Live err out (log, w))).2.
  rewrite on_request_live, answer_logged. simpl.
  unfold commands_run. simpl. by rewrite tool_of_name_tool_name, Hg.
Qed.

(** * From the request to the arguments of [gh] *)

(** C6: for every tool, a call on arguments of [intended_argv] (validated,
    optional text not empty, quoted text fields with a value between double
    quotes, an unquoted base that is a plain word, numbers below [2^53])
    passes exactly one line to the shell, whatever the external process
    answers, and the shell reads the line as one command whose argument
    vector is the one intended: every field reaches [gh] as one argument,
    a text without special characters unchanged. *)
Theorem call_tool_argv {W : Type} {cli : Cli W} {sdk : McpSdk}
    (t : Tool) (args : value) (argv : list string) (log : list string)
    (w : W) :
  intended_argv t args argv →
  ∃ line,
    log_of (call_tool (cli := logged cli)
              {| name := tool_name t; arguments := args |} (log, w))
    = log ++ [line] ∧
    sh_parse line = Some [argv].
Proof.
  intros Hi. exists ("gh " +:+ command_of t args). split.
  - by eapply call_tool_line, intended_guard.
  - by apply intended_line.
Qed.

(** The same at the server: on a [tools/call] request with such arguments
    the running server passes exactly one line to the shell, and the shell
    reads it as the argument vector intended. *)
Theorem served_argv {W : Type} {cli : Cli W} {sdk : McpSdk}
    (t : Tool) (args : value) (argv : list string) id err out
    (log : list string) (w : W) :
  intended_argv t args argv →
  ∃ line,
    (world (react (cli := logged cli)
              (EvRequest id
                 (CallToolRequestMsg
                    {| name := tool_name t; arguments := args |}))
              (in_phase Live err out (log, w)))).1
    = log ++ [line]
    ∧ sh_parse line = Some [argv].
Proof.
  intros Hi. exists ("gh " +:+ command_of t args). split.
  - by eapply react_line, intended_guard.
  - by apply intended_line.
Qed.

(** A request whose title closes its quotation makes the running server
    pass to the shell a line that it reads as two commands: [gh] with the
    title cut short, and then the command [c] of the caller. *)
Theorem served_injection {W : Type} {cli : Cli W} {sdk : McpSdk}
    (t c : string) id err out (log : list string) (w : W) :
  safe_text t = true → command_word c →
  let title := t +:+ DQ +:+ ("; " +:+ c +:+ " ") +:+ DQ in
  ∃ line,
    (world (react (cli := logged cli)
              (EvRequest id
                 (CallToolRequestMsg
                    {| name := "create_pr";
                       arguments := obj [("title", VStr title)] |}))
              (in_phase Live err out (log, w)))).1
    = log ++ [line]
    ∧ sh_parse line
      = Some [["gh"; "pr"; "create"; "--title"; t]; [c; ""]].
Proof.
  intros Ht Hc title.
  destruct (create_pr_title_break t c Ht Hc) as [Hg Hp].
  eexists. split; [|exact Hp].
  by apply (react_line create_pr).
Qed.

(** A request to view a pull request, with any number that the guard
    accepts: the running server passes one line to the shell, which reads it
    as [gh pr view] and one numeral, and the numeral denotes the number of
    the request and no other number. *)
Theorem served_view_number {W : Type} {cli : Cli W} {sdk : McpSdk}
    (args : value) (x : number) id err out (log : list string) (w : W) :
  isValidViewPrArgs args = true → get args "number" = VNum x →
  valid x = true →
  ∃ line numeral,
    (world (react (cli := logged cli)
              (EvRequest id
                 (CallToolRequestMsg
                    {| name := "view_pr"; arguments := args |}))
              (in_phase Live err out (log, w)))).1
    = log ++ [line]
    ∧ sh_parse line = Some [["gh"; "pr"; "view"; numeral]]
    ∧ denotes numeral x = true
    ∧ ∀ y, valid y = true → denotes numeral y = true → y = x.
Proof.
  intros Hg Hx Hv.
  exists ("gh " +:+ view_pr_command args), (Number_toString x).
  destruct (isValidViewPrArgs_finite args x Hg Hx) as (m & e & ->).
  split_and!.
  - by apply (react_line view_pr).
  - by apply view_pr_argv_numeral.
  - by apply Number_toString_denotes.
  - eauto using denotes_finite, Number_toString_denotes.
Qed.

Lemma call_tool_argv_witness :
  ∃ line,
    log_of (call_tool (cli := logged scripted) (sdk := the_sdk)
              {| name := "view_pr";
                 arguments := VObj {["number" := num 123]} |}
              ([], [inl "title: Fix"]))
    = [] ++ [line] ∧
    sh_parse line = Some [["gh"; "pr"; "view"; "123"]].
Proof.
  apply (call_tool_argv (cli := scripted) (sdk := the_sdk) view_pr).
  apply (intended_view _ (number_of_Z 123) 123);
    [reflexivity | vm_compute; reflexivity | vm_compute; reflexivity | lia].
Defined.
