(* ===== verification/ShellCli.v ===== *)
(** * ShellCli: the external process as a shell that starts programs

    Executor.v takes the external process as an interface, [Cli], and the
    theorems of the handler hold for every instance.  This file builds the
    instance the program runs with, as far as the reader of Shell.v
    reaches.  [execSync line] starts [/bin/sh -c line]; the shell reads the
    whole line and then runs its commands in order, each a program started
    with its argument vector ([spawn], the operating system); the output
    captured is what the programs wrote to standard output, and [execSync]
    throws an [Error] whose message is [Command failed: ], the line and what
    was written to standard error when the status of the shell, which is
    the status of the last command, is not zero.  A line whose quotation
    stays open is a syntax error: the shell writes a complaint and starts no
    program.  A command whose name the shell runs itself ([builtin]: [exit],
    [cd], [exec] and the like) starts no program and can end the shell, so
    a line with such a command, like any other line that the reader does
    not cover, is left to a [Cli] that is not specified ([beyond]).  The
    shell is taken to start: the limits of the operating system on a
    command line (its length, the null character) are not modelled.

    With this instance the theorems follow a call to the programs that are
    started: on the arguments of [intended_argv] the handler starts [gh]
    once, with the vector intended, and the reply is its output; a title
    that closes its quotation starts the program of the caller after [gh],
    whatever [gh] answered; a title of [create_pr] or a body of
    [comment_pr] that ends with a backslash starts nothing and the reply is
    flagged as an error.  [served_spawns] states the first for a request
    to the running server of Server.v. *)

From Stdlib Require Import Ascii String ZArith Lia.
From stdpp Require Import base tactics strings list option gmap pretty.
From S2P Require Import Prelude JsNumber SafeInteger JsValue Validators.
From S2P Require Import Builders Shell Escapes Executor Dispatcher Server.
From S2P Require Import EndToEnd.

(** * Definitions *)

(** What a process leaves: what it wrote to standard output and to standard
    error, and its exit status. *)
Record Exit : Type := MkExit {
  out : string;
  err : string;
  status : Z;
}.

(** The machine under the shell: the programs, started with an argument
    vector; the names that the shell does not look up among the programs
    because it runs them itself (its built-in utilities, [exit], [cd],
    [exec] and the like, which can end the shell or change it); what the
    shell writes when a quotation is left open; and the lines that the
    reader does not cover.  [gh] is a program. *)
Class Os (W : Type) : Type := {
  spawn : list string → W → Exit * W;
  builtin : string → bool;
  gh_program : builtin "gh" = false;
  complaint : string;
  beyond : Cli W;
}.

Definition no_output : Exit := MkExit "" "" 0.

(** The output of a process after another, and the status of the last. *)
Definition after (a e : Exit) : Exit :=
  MkExit (out a +:+ out e) (err a +:+ err e) (status e).

Definition NL : string := String newline "".

(** The [Error] of [execSync] for a status that is not zero. *)
Definition command_failed (line : string) (e : Exit) : thrown :=
  PlainError ("Command failed: " +:+ line
              +:+ (if String.eqb (err e) "" then "" else NL +:+ err e)).

(** The result of [execSync] for what the shell left. *)
Definition answer_of (line : string) (e : Exit) : string + thrown :=
  if (status e =? 0)%Z then inl (out e) else inr (command_failed line e).

Section Run.
Context {W : Type} {os : Os W}.

(** The commands of a line, in order: [;] runs the next command whatever
    the status of the one before. *)
Fixpoint run_commands (cmds : list (list string)) (a : Exit) (w : W)
  : Exit * W :=
  match cmds with
  | [] => (a, w)
  | argv :: rest =>
      let '(e, w') := spawn argv w in run_commands rest (after a e) w'
  end.

(** What the shell leaves when the line ends inside a quotation: the
    complaint on standard error, and the status 2. *)
Definition syntax_error : Exit := MkExit "" complaint 2.

(** The command starts a program: its name is not one that the shell runs
    itself. *)
Definition program (argv : list string) : bool :=
  match argv with
  | [] => false
  | name :: _ => negb (builtin name)
  end.

(** [/bin/sh -c line], where the reader covers the line and every command
    of it starts a program. *)
Definition sh_c (line : string) (w : W) : option (Exit * W) :=
  match sh_parse line with
  | Some cmds =>
      if forallb program cmds then Some (run_commands cmds no_output w)
      else None
  | None => if unterminated line then Some (syntax_error, w) else None
  end.

Definition exec_sync (line : string) : M W string :=
  λ w,
    match sh_c line w with
    | Some (e, w') => (answer_of line e, w')
    | None => execSync (Cli := beyond) line w
    end.

Definition shell_cli : Cli W := {| execSync := exec_sync |}.

End Run.

(** A machine for the examples: the world is the list of the argument
    vectors of the programs started; [gh] prints [ok], [id] prints the
    user, and no other program exists; [exit] and [cd] are run by the
    shell. *)
Definition toy_spawn (argv : list string) (w : list (list string))
  : Exit * list (list string) :=
  (match argv with
   | "gh" :: _ => MkExit "ok" "" 0
   | "id" :: _ => MkExit "uid=0(root)" "" 0
   | _ => MkExit "" "not found" 127
   end, w ++ [argv]).

Definition toy_os : Os (list (list string)) := {|
  spawn := toy_spawn;
  builtin name := bool_decide (name ∈ ["exit"; "cd"]);
  gh_program := eq_refl;
  complaint := "Syntax error: Unterminated quoted string";
  beyond := {| execSync line := λ w, (inr (PlainError "beyond"), w) |};
|}.

(** * Lemmas *)

Section RunLemmas.
Context {W : Type} {os : Os W}.
Implicit Types w : W.

Lemma after_no_output (e : Exit) : after no_output e = e.
Proof. by destruct e. Qed.

Lemma run_commands_one (argv : list string) w :
  run_commands [argv] no_output w = spawn argv w.
Proof. simpl. destruct (spawn argv w) as [e w']. by rewrite after_no_output. Qed.

Lemma run_commands_two (argv argv' : list string) w :
  run_commands [argv; argv'] no_output w
  = (after (spawn argv w).1 (spawn argv' (spawn argv w).2).1,
     (spawn argv' (spawn argv w).2).2).
Proof.
  simpl. destruct (spawn argv w) as [e w']. simpl.
  destruct (spawn argv' w') as [e' w'']. by rewrite after_no_output.
Qed.

(** [execSync] on a line that the reader covers. *)
Lemma exec_sync_parsed (line : string) (cmds : list (list string)) w :
  sh_parse line = Some cmds → forallb program cmds = true →
  exec_sync line w
  = (answer_of line (run_commands cmds no_output w).1,
     (run_commands cmds no_output w).2).
Proof.
  intros Hp Hc. unfold exec_sync, sh_c. rewrite Hp, Hc.
  by destruct (run_commands cmds no_output w).
Qed.

(** The command of [gh] starts a program. *)
Lemma program_gh (rest : list string) : program ("gh" :: rest) = true.
Proof. simpl. by rewrite gh_program. Qed.

(** The vector intended begins with [gh]. *)
Lemma intended_program (t : Tool) (args : value) (argv : list string) :
  intended_argv t args argv → program argv = true.
Proof. destruct 1; apply program_gh. Qed.

(** [execSync] on a line whose quotation stays open. *)
Lemma exec_sync_unterminated (line : string) w :
  unterminated line = true →
  exec_sync line w = (inr (command_failed line syntax_error), w).
Proof.
  intros Hu. unfold exec_sync, sh_c.
  by rewrite (unterminated_no_parse line Hu), Hu.
Qed.

(** An accepted call, in terms of [execSync]. *)
Lemma call_tool_exec {sdk : McpSdk} (t : Tool) (args : value) w :
  guard t args = true →
  call_tool (cli := shell_cli) {| name := tool_name t; arguments := args |} w
  = (outcome (exec_sync ("gh " +:+ command_of t args) w).1,
     (exec_sync ("gh " +:+ command_of t args) w).2).
Proof.
  intros Hg. rewrite call_tool_cases. simpl.
  rewrite tool_of_name_tool_name, Hg.
  by destruct (exec_sync _ w).
Qed.

(** A call on the arguments of [intended_argv]. *)
Lemma call_tool_intended {sdk : McpSdk} (t : Tool) (args : value)
    (argv : list string) w :
  intended_argv t args argv →
  call_tool (cli := shell_cli) {| name := tool_name t; arguments := args |} w
  = (outcome (answer_of ("gh " +:+ command_of t args) (spawn argv w).1),
     (spawn argv w).2).
Proof.
  intros Hi. rewrite call_tool_exec by (by eapply intended_guard).
  rewrite (exec_sync_parsed _ [argv]), run_commands_one;
    [done | by apply intended_line |].
  simpl. by rewrite (intended_program t args argv).
Qed.

(** An accepted call whose line ends inside a quotation starts no program
    and is answered with a flagged reply. *)
Lemma call_tool_unterminated {sdk : McpSdk} (t : Tool) (args : value) w :
  guard t args = true →
  unterminated ("gh " +:+ command_of t args) = true →
  call_tool (cli := shell_cli) {| name := tool_name t; arguments := args |} w
  = (inl (error_reply
            (mcp_message InternalError
               ("GitHub CLI error: "
                +:+ message_of
                      (command_failed ("gh " +:+ command_of t args)
                         syntax_error)))), w).
Proof.
  intros Hg Hu. by rewrite call_tool_exec, exec_sync_unterminated.
Qed.

End RunLemmas.

(** * From a call to the programs started *)

Section Calls.
Context {W : Type} {os : Os W} {sdk : McpSdk}.
Implicit Types w : W.

(** C7: on the arguments of [intended_argv] the handler starts one
    program, [gh] with the argument vector intended, and nothing else
    changes the world.  The reply is the standard output of [gh] when its
    status is zero, and otherwise a reply flagged as an error that holds
    [Command failed: ], the line and what [gh] wrote to standard error. *)
Theorem call_tool_spawns (t : Tool) (args : value) (argv : list string) w :
  intended_argv t args argv →
  call_tool (cli := shell_cli) {| name := tool_name t; arguments := args |} w
  = (outcome (answer_of ("gh " +:+ command_of t args) (spawn argv w).1),
     (spawn argv w).2).
Proof. apply call_tool_intended. Qed.

(** C14: a title that closes its quotation starts the program of the
    caller.  With the title [t"; c "], where [c] is a plain word that names
    a command and that the shell does not run itself, the handler starts
    [gh] with the title [t] and then the program [c], in the world that
    [gh] left and whatever the status of [gh]; the reply holds the output
    of both, and its status is that of [c]. *)
Theorem call_tool_injection_spawns (t c : string) w :
  safe_text t = true → command_word c → builtin c = false →
  let title := t +:+ DQ +:+ ("; " +:+ c +:+ " ") +:+ DQ in
  let args := obj [("title", VStr title)] in
  let gh := spawn ["gh"; "pr"; "create"; "--title"; t] w in
  let caller := spawn [c; ""] gh.2 in
  call_tool (cli := shell_cli) {| name := "create_pr"; arguments := args |} w
  = (outcome (answer_of ("gh " +:+ create_pr_command args)
                (after gh.1 caller.1)),
     caller.2).
Proof.
  intros Ht Hc Hb title args gh caller.
  destruct (create_pr_title_break t c Ht Hc) as [Hg Hp].
  rewrite (call_tool_exec create_pr) by done.
  rewrite (exec_sync_parsed _ _ _ Hp), run_commands_two; [done|].
  simpl. by rewrite gh_program, Hb.
Qed.

(** C17: a title that ends with a backslash makes every such call fail.
    For validated [create_pr] arguments whose title is a harmless text
    followed by a backslash and whose other texts are plain words, the
    handler starts no program: the world is as before, and the reply is
    flagged as an error and holds the complaint of the shell. *)
Theorem call_tool_backslash_fails (args : value) (a : CreatePrArgs.t)
    (t : string) w :
  narrow_create args = Some a → create_regular a → create_plain a →
  CreatePrArgs.title a = ends_with_backslash t → safe_text t = true →
  call_tool (cli := shell_cli) {| name := "create_pr"; arguments := args |} w
  = (inl (error_reply
            (mcp_message InternalError
               ("GitHub CLI error: "
                +:+ message_of
                      (command_failed ("gh " +:+ create_pr_command args)
                         syntax_error)))), w).
Proof.
  intros Hn Hr Hp Ha Ht.
  destruct (create_pr_open_line args a t) as [Hg Hu]; [done..|].
  by apply (call_tool_unterminated create_pr).
Qed.

(** The same for a comment whose body ends with a backslash, whatever the
    pull request is. *)
Theorem call_tool_comment_backslash_fails (m : gmap string value)
    (x : number) (z : Z) (b : string) w :
  m !! "number" = Some (VNum x) →
  m !! "body" = Some (VStr (ends_with_backslash b)) →
  valid x = true → Number_toZ x = Some z → (0 < z < 2 ^ 53)%Z →
  safe_text b = true →
  call_tool (cli := shell_cli)
    {| name := "comment_pr"; arguments := VObj m |} w
  = (inl (error_reply
            (mcp_message InternalError
               ("GitHub CLI error: "
                +:+ message_of
                      (command_failed ("gh " +:+ comment_pr_command (VObj m))
                         syntax_error)))), w).
Proof.
  intros Hm Hbody Hv Hx Hz Hb.
  destruct (comment_pr_body_backslash m x z b) as [Hg Hu]; [done..|].
  by apply (call_tool_unterminated comment_pr).
Qed.

(** The same calls at the running server.  On a [tools/call] request with
    the arguments of [intended_argv] the server starts [gh] once, with the
    vector intended, and writes one message: the result of the call, with
    the output of [gh] or flagged as an error by its status. *)
Theorem served_spawns (t : Tool) (args : value) (argv : list string)
    id err out w :
  intended_argv t args argv →
  react (cli := shell_cli)
    (EvRequest id
       (CallToolRequestMsg {| name := tool_name t; arguments := args |}))
    (in_phase Live err out w)
  = in_phase Live err
      (out ++ [respond id
                 (sum_map ToolCallResult (λ e, e)
                    (outcome (answer_of ("gh " +:+ command_of t args)
                                (spawn argv w).1)))])
      (spawn argv w).2.
Proof.
  intros Hi.
  change (react _ _) with (on_request (cli := shell_cli) id
    (CallToolRequestMsg {| name := tool_name t; arguments := args |})
    (in_phase Live err out w)).2.
  rewrite on_request_live. simpl.
  by rewrite (call_tool_intended t args argv w Hi).
Qed.

End Calls.

(** * Calls on the machine of the examples *)

Example call_tool_toy_view :
  call_tool (cli := shell_cli (os := toy_os)) (sdk := the_sdk)
    {| name := "view_pr"; arguments := obj [("number", num 7)] |} []
  = (inl (reply "ok"), [["gh"; "pr"; "view"; "7"]]).
Proof. vm_compute. reflexivity. Qed.

Example call_tool_toy_injection :
  call_tool (cli := shell_cli (os := toy_os)) (sdk := the_sdk)
    {| name := "create_pr";
       arguments := obj [("title", VStr ("x" +:+ DQ +:+ "; id " +:+ DQ))] |} []
  = (inl (reply "okuid=0(root)"),
     [["gh"; "pr"; "create"; "--title"; "x"]; ["id"; ""]]).
Proof. vm_compute. reflexivity. Qed.

(** A command that the shell runs itself starts no program: the line is
    left to [beyond]. *)
Example call_tool_toy_builtin :
  call_tool (cli := shell_cli (os := toy_os)) (sdk := the_sdk)
    {| name := "create_pr";
       arguments :=
         obj [("title", VStr ("x" +:+ DQ +:+ "; exit " +:+ DQ))] |} []
  = (inl (error_reply "MCP error -32603: GitHub CLI error: beyond"), []).
Proof. vm_compute. reflexivity. Qed.

Example call_tool_toy_backslash :
  call_tool (cli := shell_cli (os := toy_os)) (sdk := the_sdk)
    {| name := "create_pr";
       arguments := obj [("title", VStr (ends_with_backslash "fix C:"))] |} []
  = (inl (error_reply
            ("MCP error -32603: GitHub CLI error: Command failed: "
             +:+ "gh pr create --title " +:+ quoted (ends_with_backslash "fix C:")
             +:+ NL +:+ "Syntax error: Unterminated quoted string")), []).
Proof. vm_compute. reflexivity. Qed.

(** * The theorems at concrete arguments *)

Lemma call_tool_spawns_witness :
  call_tool (cli := shell_cli (os := toy_os)) (sdk := the_sdk)
    {| name := "view_pr"; arguments := VObj {["number" := num 123]} |} []
  = (@outcome the_sdk
       (answer_of ("gh " +:+ view_pr_command (VObj {["number" := num 123]}))
          (toy_spawn (argv_view 123) []).1),
     (toy_spawn (argv_view 123) []).2).
Proof.
  apply (call_tool_spawns (os := toy_os) (sdk := the_sdk) view_pr).
  apply (intended_view _ (number_of_Z 123) 123);
    [reflexivity | vm_compute; reflexivity | vm_compute; reflexivity | lia].
Defined.

Lemma call_tool_injection_spawns_witness :
  let title := "x" +:+ DQ +:+ ("; " +:+ "id" +:+ " ") +:+ DQ in
  let args := obj [("title", VStr title)] in
  let gh := toy_spawn ["gh"; "pr"; "create"; "--title"; "x"] [] in
  let caller := toy_spawn ["id"; ""] gh.2 in
  call_tool (cli := shell_cli (os := toy_os)) (sdk := the_sdk)
    {| name := "create_pr"; arguments := args |} []
  = (@outcome the_sdk
       (answer_of ("gh " +:+ create_pr_command args) (after gh.1 caller.1)),
     caller.2).
Proof.
  apply (call_tool_injection_spawns (os := toy_os) (sdk := the_sdk) "x" "id");
    [vm_compute; reflexivity | literal_command | reflexivity].
Defined.

Lemma call_tool_backslash_fails_witness :
  let args := obj [("title", VStr (ends_with_backslash "fix C:"));
                   ("base", VStr "main")] in
  call_tool (cli := shell_cli (os := toy_os)) (sdk := the_sdk)
    {| name := "create_pr"; arguments := args |} []
  = (inl (error_reply
            (mcp_message (McpSdk := the_sdk) InternalError
               ("GitHub CLI error: "
                +:+ message_of
                      (command_failed ("gh " +:+ create_pr_command args)
                         (syntax_error (os := toy_os)))))), []).
Proof.
  apply (call_tool_backslash_fails (os := toy_os) (sdk := the_sdk) _
           (CreatePrArgs.mk (ends_with_backslash "fix C:") None (Some "main")
              None None) "fix C:");
    [vm_compute; reflexivity | by repeat split | | reflexivity
    | vm_compute; reflexivity].
  repeat split; intros s [= <-]; vm_compute; reflexivity.
Defined.
