(* ===== verification/Readme.v ===== *)
(** * Readme: the documented usage against the program

    The documentation that follows the code in src/src/index.ts lists the
    four features with the options of each and gives one usage example per
    tool, a call [use_mcp_tool({server_name, tool_name, arguments})].  This
    file holds the feature list and the four examples as data and checks
    them against the program: the server name is the one the constructor
    passes to the SDK, the options of a feature are the properties the
    case of the tool reads and the catalogue publishes, and each example is
    accepted by its guard, conforms to its schema, and makes the running
    server pass to [gh] one command whose argument vector holds every field
    of the example as one argument. *)

From Stdlib Require Import Ascii String ZArith Lia.
From stdpp Require Import base tactics strings list option gmap pretty.
From S2P Require Import Prelude JsNumber SafeInteger JsValue Validators.
From S2P Require Import Builders Shell Executor Dispatcher Catalogue Server.
From S2P Require Import EndToEnd.

(** * The documentation *)

Module Feature.
(** A feature: its title, its tool, and the options it names. *)
Record t : Type := mk {
  title : string;
  tool : string;
  options : list string;
}.
End Feature.

(** The section Features.  An option is named by the property it stands
    for: "base branch" is [base], "PR number" is [number], "comment body"
    is [body]. *)
Definition features : list Feature.t :=
  [Feature.mk "Create PR" "create_pr"
     ["title"; "body"; "base"; "head"; "draft"];
   Feature.mk "List PRs" "list_prs" ["state"; "base"; "limit"];
   Feature.mk "View PR" "view_pr" ["number"];
   Feature.mk "Comment on PR" "comment_pr" ["number"; "body"]].

(** The states by which the feature List PRs filters. *)
Definition documented_states : list string :=
  ["open"; "closed"; "merged"; "all"].

Module Usage.
(** [use_mcp_tool({server_name, tool_name, arguments})]. *)
Record t : Type := mk {
  server_name : string;
  tool_name : string;
  arguments : value;
}.
End Usage.

Definition usage_create_pr : Usage.t :=
  Usage.mk "limited-github-cli" "create_pr"
    (obj [("title", VStr "Add new feature");
          ("body", VStr "This PR adds feature X");
          ("base", VStr "main");
          ("head", VStr "feature/x");
          ("draft", VBool true)]).

Definition usage_list_prs : Usage.t :=
  Usage.mk "limited-github-cli" "list_prs"
    (obj [("state", VStr "open"); ("limit", num 5)]).

Definition usage_view_pr : Usage.t :=
  Usage.mk "limited-github-cli" "view_pr" (obj [("number", num 123)]).

Definition usage_comment_pr : Usage.t :=
  Usage.mk "limited-github-cli" "comment_pr"
    (obj [("number", num 123); ("body", VStr "I've reviewed this. LGTM!")]).

(** The section Usage Examples. *)
Definition usages : list Usage.t :=
  [usage_create_pr; usage_list_prs; usage_view_pr; usage_comment_pr].

(** The request that a usage makes the client send. *)
Definition request_of (u : Usage.t) : CallToolRequest :=
  {| name := Usage.tool_name u; arguments := Usage.arguments u |}.

(** * Lemmas *)

(** Each example names a tool and holds arguments on which the argument
    vector is known. *)
Lemma usages_intended (u : Usage.t) :
  u ∈ usages →
  ∃ t argv,
    Usage.tool_name u = tool_name t
    ∧ intended_argv t (Usage.arguments u) argv.
Proof.
  unfold usages. rewrite !elem_of_cons, elem_of_nil.
  intros [->|[->|[->|[->|[]]]]].
  - exists create_pr, (argv_create readme_create_args). split; [done|].
    apply (intended_create _ readme_create_args);
      [vm_compute; reflexivity|by repeat split|vm_compute; reflexivity].
  - exists list_prs, (argv_list readme_list_args). split; [done|].
    apply intended_list; [vm_compute; reflexivity| |intros b [=]].
    split; [done|]. by intros x [= <-].
  - exists view_pr, (argv_view 123). split; [done|].
    apply (intended_view _ (number_of_Z 123) 123);
      [reflexivity|vm_compute; reflexivity|vm_compute; reflexivity|lia].
  - exists comment_pr, (argv_comment 123 "I've reviewed this. LGTM!").
    split; [done|].
    eapply (intended_comment _ (number_of_Z 123) 123);
      [reflexivity|reflexivity|vm_compute; reflexivity
      |vm_compute; reflexivity|lia|vm_compute; reflexivity].
Qed.

(** * The documentation and the program *)

(** The features are the tools of the catalogue, in its order, each with
    the properties that the catalogue publishes and that the case of the
    tool reads; the states documented are the states the guard accepts; and
    every example names the server as the constructor does. *)
Theorem features_catalogue :
  Feature.tool <$> features = ToolInfo.name <$> list_tools
  ∧ Feature.options <$> features
    = (λ i, (InputSchema.properties (ToolInfo.inputSchema i)).*1)
      <$> list_tools
  ∧ Feature.options <$> features = fields_of <$> tools
  ∧ documented_states = state_names
  ∧ Forall (λ u, Usage.server_name u
                 = impl_name (serverInfo (the_server None))) usages.
Proof. split_and!; [done..|by repeat constructor]. Qed.

(** C37: every usage example of the documentation works as documented.  The
    tool it names is one of the catalogue; its arguments conform to the
    published schema and pass the guard; and on the request of the example
    the running server passes exactly one line to the shell, whatever [gh]
    answers, which the shell reads as one command whose argument vector is
    the one intended: every field of the example one argument, unchanged. *)
Theorem usage_served {W : Type} {cli : Cli W} {sdk : McpSdk}
    (u : Usage.t) id err out (log : list string) (w : W) :
  u ∈ usages →
  ∃ t argv line,
    tool_of_name (Usage.tool_name u) = Some t
    ∧ conforms (schema_of t) (Usage.arguments u) = true
    ∧ guard t (Usage.arguments u) = true
    ∧ (world (react (cli := logged cli)
                (EvRequest id (CallToolRequestMsg (request_of u)))
                (in_phase Live err out (log, w)))).1
      = log ++ [line]
    ∧ sh_parse line = Some [argv]
    ∧ intended_argv t (Usage.arguments u) argv.
Proof.
  intros Hu. destruct (usages_intended u Hu) as (t & argv & Hn & Hi).
  pose proof (intended_guard _ _ _ Hi) as Hg.
  exists t, argv, ("gh " +:+ command_of t (Usage.arguments u)).
  split_and!; [|
    |done| |by apply intended_line|done].
  - rewrite Hn. apply tool_of_name_tool_name.
  - revert Hu Hn. unfold usages. rewrite !elem_of_cons, elem_of_nil.
    intros [->|[->|[->|[->|[]]]]]; destruct t; try done; intros _;
      vm_compute; reflexivity.
  - unfold request_of. rewrite Hn. by apply react_line.
Qed.

(** * The examples, evaluated *)

Example usage_argvs :
  (λ u, sh_parse ("gh " +:+ match tool_of_name (Usage.tool_name u) with
                            | Some t => command_of t (Usage.arguments u)
                            | None => ""
                            end)) <$> usages
  = [Some [["gh"; "pr"; "create"; "--title"; "Add new feature"; "--body";
            "This PR adds feature X"; "--base"; "main"; "--head";
            "feature/x"; "--draft"]];
     Some [["gh"; "pr"; "list"; "--state"; "open"; "--limit"; "5"]];
     Some [["gh"; "pr"; "view"; "123"]];
     Some [["gh"; "pr"; "comment"; "123"; "--body";
            "I've reviewed this. LGTM!"]]].
Proof. vm_compute. reflexivity. Qed.

Lemma usage_served_witness :
  ∃ t argv line,
    tool_of_name (Usage.tool_name usage_comment_pr) = Some t
    ∧ conforms (schema_of t) (Usage.arguments usage_comment_pr) = true
    ∧ guard t (Usage.arguments usage_comment_pr) = true
    ∧ (world (react (cli := logged scripted) (sdk := the_sdk)
                (EvRequest 1 (CallToolRequestMsg (request_of usage_comment_pr)))
                (in_phase Live [] [] ([], [inl "ok"])))).1
      = [] ++ [line]
    ∧ sh_parse line = Some [argv]
    ∧ intended_argv t (Usage.arguments usage_comment_pr) argv.
Proof.
  apply (usage_served (cli := scripted) (sdk := the_sdk) usage_comment_pr).
  unfold usages. repeat constructor.
Defined.
